(** * CMIS transceiver driver: a shallow embedding of
      [sonic_platform_base/sonic_xcvr/api/public/cmis.py]

    The driver is dynamically typed Python that talks to three collaborators
    (register access, VDM page reader, CDB command channel).  The embedding
    keeps that shape:

    - decoded register values, VDM structures and memoised results are
      values of a small Python universe [pyval] (dictionaries are [gmap]s);
    - a method of [CmisApi] is a function in the state-and-exception monad
      [M] over the instance record [CmisApi]; a raised Python exception is
      a [Raise] outcome, an [except] clause is [try_except];
    - what lives outside this file of the repository (the [consts] table,
      [Sff8024.MODULE_MEDIA_TYPE], [XcvrApi.mw_to_dbm]) and the Python
      builtins on floats that have no exact rational counterpart are the
      fields of one environment record [Env].

    A float is the rational its double stands for ([Q]); infinities and
    NaN are not modelled.  The one place where the driver itself rounds,
    the round trip [float("{:.3f}".format(x))] through a decimal text, is
    modelled to the bit: [round3] is the decimal the text shows and
    [binary64] the double that [float] parses it to.  [time.sleep],
    [time.time] and [logger] calls have no effect on results and are left
    out. *)

From Stdlib Require Import ZArith QArith String Ascii.
From stdpp Require Import gmap strings list fin_maps pretty.

#[local] Set Warnings "-register-all".
#[local] Open Scope Z_scope.

(** ** Python values *)

Module Py.

(** Dictionary keys that occur in this driver: strings and integers. *)
Inductive pykey := KStr (s : string) | KInt (z : Z).

#[global] Instance pykey_eq_dec : EqDecision pykey.
Proof. solve_decision. Defined.

#[global] Instance pykey_countable : Countable pykey.
Proof.
  refine (inj_countable'
            (fun k => match k with KStr s => inl s | KInt z => inr z end)
            (fun x => match x with inl s => KStr s | inr z => KInt z end) _).
  by intros [].
Defined.

Inductive pyval :=
| VNone
| VBool (b : bool)
| VInt (z : Z)
| VFloat (q : Q)
| VStr (s : string)
| VList (l : list pyval)
| VDict (d : gmap pykey pyval).

(** The exceptions the driver can meet on such values. *)
Inductive exn :=
| KeyError | TypeError | IndexError | AttributeError | ValueError | ZeroDivisionError
| OverflowError.

#[global] Instance exn_eq_dec : EqDecision exn.
Proof. solve_decision. Defined.

Inductive res (A : Type) := Ok (a : A) | Raise (e : exn).
Arguments Ok {A} a.
Arguments Raise {A} e.

Definition res_bind {A B} (r : res A) (k : A -> res B) : res B :=
  match r with Ok a => k a | Raise e => Raise e end.

Definition is_none (v : pyval) : bool :=
  match v with VNone => true | _ => false end.

(** [bool(v)] *)
Definition truthy (v : pyval) : bool :=
  match v with
  | VNone => false
  | VBool b => b
  | VInt z => negb (z =? 0)
  | VFloat q => negb (Qeq_bool q 0)
  | VStr s => negb (String.eqb s "")
  | VList l => match l with [] => false | _ => true end
  | VDict d => negb (bool_decide (d = ∅))
  end.

(** Integer view of a value for [>>], [&], [|], [~]: [bool] is a subclass
    of [int]; every other type raises [TypeError]. *)
Definition as_int (v : pyval) : res Z :=
  match v with
  | VInt z => Ok z
  | VBool b => Ok (if b then 1 else 0)
  | _ => Raise TypeError
  end.

(** Numeric view for comparisons and arithmetic with a number. *)
Definition as_num (v : pyval) : res Q :=
  match v with
  | VInt z => Ok (inject_Z z)
  | VBool b => Ok (if b then 1%Q else 0%Q)
  | VFloat q => Ok q
  | _ => Raise TypeError
  end.

(** [seq[i]] for a Python sequence, negative indices counting from the end. *)
Definition seq_index {A} (l : list A) (i : Z) : res A :=
  let n := Z.of_nat (length l) in
  let j := if i <? 0 then i + n else i in
  if (0 <=? j) && (j <? n)
  then match l !! Z.to_nat j with Some x => Ok x | None => Raise IndexError end
  else Raise IndexError.

Definition chars (s : string) : list pyval :=
  (fun c => VStr (String c EmptyString)) <$> list_ascii_of_string s.

(** [v[k]] *)
Definition getitem (v : pyval) (k : pykey) : res pyval :=
  match v with
  | VDict d => match d !! k with Some x => Ok x | None => Raise KeyError end
  | VList l => match k with KInt i => seq_index l i | KStr _ => Raise TypeError end
  | VStr s => match k with KInt i => seq_index (chars s) i | KStr _ => Raise TypeError end
  | _ => Raise TypeError
  end.

(** [v.get(k, dflt)]: only dictionaries have the method. *)
Definition dict_get (v : pyval) (k : pykey) (dflt : pyval) : res pyval :=
  match v with
  | VDict d => Ok (default dflt (d !! k))
  | _ => Raise AttributeError
  end.

(** [len(v)] *)
Definition len (v : pyval) : res Z :=
  match v with
  | VStr s => Ok (Z.of_nat (String.length s))
  | VList l => Ok (Z.of_nat (length l))
  | VDict d => Ok (Z.of_nat (size d))
  | _ => Raise TypeError
  end.

(** [n == v] for an integer [n] *)
Definition int_eq (n : Z) (v : pyval) : bool :=
  match v with
  | VInt z => n =? z
  | VBool b => n =? (if b then 1 else 0)
  | VFloat q => Qeq_bool (inject_Z n) q
  | _ => false
  end.

(** [n in v] for an integer [n] *)
Definition int_in (n : Z) (v : pyval) : res bool :=
  match v with
  | VDict d => Ok (bool_decide (is_Some (d !! KInt n)))
  | VList l => Ok (existsb (int_eq n) l)
  | _ => Raise TypeError
  end.

(** [v == s] for a string literal [s] *)
Definition str_eq (v : pyval) (s : string) : bool :=
  match v with VStr t => String.eqb t s | _ => false end.

(** Whitespace as [str.rstrip()] sees it, on code points below 256. *)
Definition is_space (c : ascii) : bool :=
  let n := Z.of_nat (nat_of_ascii c) in
  ((9 <=? n) && (n <=? 13)) || ((28 <=? n) && (n <=? 32))
  || (n =? 133) || (n =? 160).

Fixpoint rstrip (s : string) : string :=
  match s with
  | EmptyString => EmptyString
  | String c s' =>
      match rstrip s' with
      | EmptyString => if is_space c then EmptyString else String c EmptyString
      | r => String c r
      end
  end.

(** The integer nearest to [q], ties to even. *)
Definition nearest_even (q : Q) : Z :=
  let num := Qnum q in
  let den := Z.pos (Qden q) in
  let fl := num / den in
  let r2 := 2 * (num mod den) in
  if r2 <? den then fl
  else if den <? r2 then fl + 1
  else if Z.even fl then fl else fl + 1.

(** [floor(log2(q))] for a positive [q]. *)
Definition Qlog2 (q : Q) : Z :=
  let k := Z.log2 (Qnum q) - Z.log2 (Z.pos (Qden q)) in
  if Qle_bool (2 ^ k) q then k else k - 1.

(** The double nearest to [q], ties to even: 53 significant bits, the
    exponent bounded below as for subnormal numbers.  This is what
    [float(text)] returns for a decimal text of value [q], and what
    [float(n)] returns for an integer, short of overflow. *)
Definition binary64 (q : Q) : Q :=
  if Qeq_bool q 0 then 0%Q else
  let e := Z.max (Qlog2 (Z.abs (Qnum q) # Qden q) - 52) (-1074) in
  Qred (inject_Z (nearest_even (q / 2 ^ e)) * 2 ^ e).

(** ["{:.3f}".format(q)] read as a number: [q] rounded to the nearest
    multiple of 1/1000, ties to even. *)
Definition round3 (q : Q) : Q :=
  let num := Qnum q * 1000 in
  let den := Z.pos (Qden q) in
  let fl := num / den in
  let r2 := 2 * (num mod den) in
  let n := if r2 <? den then fl
           else if den <? r2 then fl + 1
           else if Z.even fl then fl else fl + 1 in
  Qred (n # 1000).

(** [float("{:.3f}".format(v))].  The format accepts numbers only:
    [None] and containers raise [TypeError], a string raises
    [ValueError].  An integer is converted to a double before it is
    formatted ([OverflowError] from [2**1024] on) and the text of that
    double is exact; a float is rounded to three decimals and the text
    parsed back to the nearest double. *)
Definition format_3f (v : pyval) : res pyval :=
  match v with
  | VInt z =>
      let d := binary64 (inject_Z z) in
      if Qle_bool (2 ^ 1024) (Z.abs (Qnum d) # Qden d) then Raise OverflowError
      else Ok (VFloat d)
  | VBool b => Ok (VFloat (if b then 1 else 0))
  | VFloat q => Ok (VFloat (binary64 (round3 q)))
  | VStr _ => Raise ValueError
  | _ => Raise TypeError
  end.

(** ["{:#x}".format(v)] accepts integers only; the text goes to the log, so
    only the outcome is kept. *)
Definition format_x (v : pyval) : res unit :=
  match v with
  | VInt _ | VBool _ => Ok tt
  | VFloat _ | VStr _ => Raise ValueError
  | _ => Raise TypeError
  end.

Fixpoint repeat_str (n : nat) (s : string) : string :=
  match n with O => EmptyString | S n' => (s ++ repeat_str n' s)%string end.

(** [v * k] where [k] is an [int] or a [float] *)
Definition mul (v k : pyval) : res pyval :=
  match v, k with
  | VInt a, VInt b => Ok (VInt (a * b))
  | VInt a, VBool b => Ok (VInt (a * (if b then 1 else 0)))
  | VBool a, VInt b => Ok (VInt ((if a then 1 else 0) * b))
  | VBool a, VBool b => Ok (VInt ((if a then 1 else 0) * (if b then 1 else 0)))
  | VFloat a, (VInt _ | VBool _ | VFloat _) =>
      res_bind (as_num k) (fun b => Ok (VFloat (a * b)%Q))
  | (VInt _ | VBool _), VFloat b =>
      res_bind (as_num v) (fun a => Ok (VFloat (a * b)%Q))
  | VStr s, (VInt _ | VBool _) =>
      res_bind (as_int k) (fun n => Ok (VStr (repeat_str (Z.to_nat n) s)))
  | VList l, (VInt _ | VBool _) =>
      res_bind (as_int k) (fun n => Ok (VList (concat (replicate (Z.to_nat n) l))))
  | _, _ => Raise TypeError
  end.

End Py.
Export Py.

(** ** The environment the driver is written against *)

(** Identifiers of [fields/consts.py] used by the modelled methods.  In the
    source each is a string: it names a register field for
    [xcvr_eeprom.read]/[write] and keys the dictionaries a group read
    returns. *)
Inductive cname :=
| FLAT_MEM_FIELD | VENDOR_REV_FIELD | HW_MAJOR_REV | HW_MINOR_REV
| CMIS_MAJOR_REVISION | CMIS_MINOR_REVISION
| INACTIVE_FW_MAJOR_REV | INACTIVE_FW_MINOR_REV
| ADMIN_INFO_FIELD | EXT_ID_FIELD | POWER_CLASS_FIELD | MAX_POWER_FIELD
| ID_FIELD | ID_ABBRV_FIELD | VENDOR_SERIAL_NO_FIELD | VENDOR_NAME_FIELD
| VENDOR_PART_NO_FIELD | CONNECTOR_FIELD | LENGTH_ASSEMBLY_FIELD
| VENDOR_DATE_FIELD | VENDOR_OUI_FIELD
| THRESHOLDS_FIELD | TX_BIAS_SCALE
| TEMP_HIGH_ALARM_FIELD | TEMP_LOW_ALARM_FIELD
| TEMP_HIGH_WARNING_FIELD | TEMP_LOW_WARNING_FIELD
| VOLTAGE_HIGH_ALARM_FIELD | VOLTAGE_LOW_ALARM_FIELD
| VOLTAGE_HIGH_WARNING_FIELD | VOLTAGE_LOW_WARNING_FIELD
| RX_POWER_HIGH_ALARM_FIELD | RX_POWER_LOW_ALARM_FIELD
| RX_POWER_HIGH_WARNING_FIELD | RX_POWER_LOW_WARNING_FIELD
| TX_POWER_HIGH_ALARM_FIELD | TX_POWER_LOW_ALARM_FIELD
| TX_POWER_HIGH_WARNING_FIELD | TX_POWER_LOW_WARNING_FIELD
| TX_BIAS_HIGH_ALARM_FIELD | TX_BIAS_LOW_ALARM_FIELD
| TX_BIAS_HIGH_WARNING_FIELD | TX_BIAS_LOW_WARNING_FIELD
| TEMPERATURE_FIELD | VOLTAGE_FIELD
| TX_BIAS_SUPPORT_FIELD | TX_BIAS_FIELD
| MEDIA_TYPE_FIELD | HOST_ELECTRICAL_INTERFACE
| MODULE_MEDIA_INTERFACE_850NM | MODULE_MEDIA_INTERFACE_SM
| MODULE_MEDIA_INTERFACE_PASSIVE_COPPER | MODULE_MEDIA_INTERFACE_ACTIVE_CABLE
| MODULE_MEDIA_INTERFACE_BASE_T
| DP_PATH_INIT_DURATION
| HOST_LANE_COUNT | MEDIA_LANE_COUNT | MEDIA_INTERFACE_TECH
| HOST_LANE_ASSIGNMENT_OPTION | MEDIA_LANE_ASSIGNMENT_OPTION
| ACTIVE_APSEL_CODE | ACTIVE_APSEL_HOSTLANE
| AUX_MON_TYPE
| AUX2_MON | AUX2_HIGH_ALARM | AUX2_LOW_ALARM | AUX2_HIGH_WARN | AUX2_LOW_WARN
| AUX3_MON | AUX3_HIGH_ALARM | AUX3_LOW_ALARM | AUX3_HIGH_WARN | AUX3_LOW_WARN
| LOOPBACK_CAPABILITY
| MEDIA_INPUT_LOOPBACK | MEDIA_OUTPUT_LOOPBACK
| HOST_INPUT_LOOPBACK | HOST_OUTPUT_LOOPBACK
| VDM_SUPPORTED | DATAPATH_DEINIT_FIELD
| APPLS_ADVT_FIELD | APPLS_ADVT_FIELD_PAGE01.

Record Env := {
  (** [consts.NAME]: the table itself is outside this file of the
      repository, so its strings are a parameter. *)
  consts : cname -> string;
  (** [Sff8024.MODULE_MEDIA_TYPE[i]] *)
  MODULE_MEDIA_TYPE : Z -> string;
  (** [XcvrApi.mw_to_dbm], inherited from the base class *)
  mw_to_dbm : pyval -> res pyval;
  (** [str(x)] for a float *)
  str_float : Q -> string;
  (** [str(x)] for a list or a dictionary *)
  str_container : pyval -> string;
  (** [float(s)] for a string; [None] stands for [ValueError] *)
  float_of_str : string -> option Q;
  (** [2 ** x] for a float [x] *)
  pow2_float : Q -> Q;
  (** [d.update(l)] for a non-empty list [l] of key/value pairs: it depends
      on hashing and on the insertion order of dictionaries, which a [gmap]
      does not keep *)
  update_from_list : gmap pykey pyval -> list pyval -> res (gmap pykey pyval)
}.

(** ** Collaborators and the driver instance *)

(** The register-access collaborator.  [mem] holds what a read of each
    field currently decodes to, a missing entry being a failed read
    (Python [None]); [wlog] records every call of [write], latest first. *)
Record eeprom := {
  mem : gmap string pyval;
  writable : string -> bool;
  wlog : list (string * pyval)
}.

(** The VDM page reader, [CmisVdmApi]: its field-option constants and what
    [get_vdm_allpage] answers for each of them. *)
Record CmisVdmApi := {
  ALL_FIELD : Z;
  VDM_REAL_VALUE : Z;
  VDM_THRESHOLD : Z;
  VDM_FLAG : Z;
  get_vdm_allpage : Z -> pyval
}.

(** CDB commands issued by the firmware methods. *)
Inductive cdb_cmd :=
| get_fw_info
| start_fw_download (startLPLsize : Z) (startdata : list Z) (imagesize : Z)
| abort_fw_download
| block_write_lpl (address : Z) (data : list Z)
| block_write_epl (address : Z) (data : list Z) (autopaging_flag : bool) (writelength : Z)
| validate_fw_image
| run_fw_image (mode : Z)
| commit_fw_image
| module_enter_password (password : option Z).

(** A CDB answer: the status byte and, for queries, the reply triple
    [(rpllen, rpl_chkcode, rpl)]. *)
Record cdb_reply := {
  status : Z;
  rpllen : option Z;
  rpl_chkcode : option Z;
  rpl : list Z
}.

(** The CDB collaborator, [CmisCdbApi].  A deterministic module is fully
    described by its answer to a command given the commands it has already
    received ([cdb_log], latest first). *)
Record CmisCdbApi := {
  cdb_answer : list cdb_cmd -> cdb_cmd -> cdb_reply;
  cdb_chkcode : list Z -> Z;
  cdb_log : list cdb_cmd
}.

Record CmisApi := {
  xcvr_eeprom : eeprom;
  vdm : option CmisVdmApi;
  cdb : option CmisCdbApi;
  (** values retained by [read_only_cached_api_return], by method name *)
  cache : gmap string pyval
}.

Definition set_eeprom (e : eeprom) (s : CmisApi) : CmisApi :=
  {| xcvr_eeprom := e; vdm := vdm s; cdb := cdb s; cache := cache s |}.
Definition set_cdb (c : option CmisCdbApi) (s : CmisApi) : CmisApi :=
  {| xcvr_eeprom := xcvr_eeprom s; vdm := vdm s; cdb := c; cache := cache s |}.
Definition set_cache (m : gmap string pyval) (s : CmisApi) : CmisApi :=
  {| xcvr_eeprom := xcvr_eeprom s; vdm := vdm s; cdb := cdb s; cache := m |}.

(** ** The method monad: instance state and Python exceptions *)

Definition M (A : Type) : Type := CmisApi -> res A * CmisApi.

Definition ret {A} (a : A) : M A := fun s => (Ok a, s).
Definition raise {A} (e : exn) : M A := fun s => (Raise e, s).
Definition lift {A} (r : res A) : M A := fun s => (r, s).
Definition bind {A B} (m : M A) (k : A -> M B) : M B :=
  fun s => match m s with
           | (Ok a, s') => k a s'
           | (Raise e, s') => (Raise e, s')
           end.

Notation "'let*' x ':=' m 'in' k" := (bind m (fun x => k))
  (at level 10, x binder, m at level 100, k at level 200).
Notation "'run' m 'then' k" := (bind m (fun _ => k))
  (at level 10, m at level 100, k at level 200).

(** [try: m  except (e1, e2, ...): handler], the clause given as the test
    [catches]. *)
Definition try_except {A} (m : M A) (catches : exn -> bool) (handler : M A) : M A :=
  fun s => match m s with
           | (Raise e, s') => if catches e then handler s' else (Raise e, s')
           | r => r
           end.

Definition one_of (l : list exn) (e : exn) : bool := bool_decide (e ∈ l).

Fixpoint for_each {A} (l : list A) (body : A -> M unit) : M unit :=
  match l with
  | [] => ret tt
  | x :: l' => run body x then for_each l' body
  end.

(** [range(a, b)] *)
Definition range (a b : Z) : list Z :=
  (fun i => a + Z.of_nat i) <$> seq 0 (Z.to_nat (b - a)).

Definition NUM_CHANNELS : Z := 8.

(** [self.xcvr_eeprom.read(field)] *)
Definition read (field : string) : M pyval :=
  fun s => (Ok (default VNone (mem (xcvr_eeprom s) !! field)), s).

(** [self.xcvr_eeprom.write(field, value)] *)
Definition write (field : string) (value : pyval) : M bool :=
  fun s =>
    let e := xcvr_eeprom s in
    let ok := writable e field in
    (Ok ok,
     set_eeprom {| mem := if ok then <[field := value]> (mem e) else mem e;
                   writable := writable e;
                   wlog := (field, value) :: wlog e |} s).

(** Modelled from the spec: the decorator [read_only_cached_api_return] of
    [utils/cache.py], which is outside this file of the repository.  The
    spec describes it as a per-instance field "populated on first
    successful read, never invalidated except by reconstructing the
    driver": a retained value is returned without running the method, and
    the first result that is not [None] is retained.  The class-level
    switch [cache_enabled] keeps its default, [True]. *)
Definition read_only_cached_api_return (name : string) (func : M pyval) : M pyval :=
  fun s =>
    match cache s !! name with
    | Some v => (Ok v, s)
    | None =>
        match func s with
        | (Ok v, s') =>
            (Ok v, if is_none v then s' else set_cache (<[name := v]> (cache s')) s')
        | r => r
        end
    end.

(** ** The methods of [CmisApi] *)

Section Driver.

Variable E : Env.

Notation "'c.' X" := (consts E X) (at level 1, X at level 0, format "'c.' X").

(** [str(v)] *)
Definition str (v : pyval) : string :=
  match v with
  | VNone => "None"
  | VBool b => if b then "True" else "False"
  | VInt z => pretty z
  | VStr s => s
  | VFloat q => str_float E q
  | VList _ | VDict _ => str_container E v
  end.

(** [float(v)] *)
Definition float (v : pyval) : res Q :=
  match v with
  | VInt z => Ok (inject_Z z)
  | VBool b => Ok (if b then 1%Q else 0%Q)
  | VFloat q => Ok q
  | VStr s => match float_of_str E s with Some q => Ok q | None => Raise ValueError end
  | _ => Raise TypeError
  end.

(** ['.'.join([str(a), str(b)])] *)
Definition dotted (a b : pyval) : pyval := VStr (str a ++ "." ++ str b).

(** ["%s%d" % (prefix, n)] *)
Definition fmt_sd (prefix : string) (n : Z) : string := prefix ++ pretty n.

(** ["{}_{}".format(prefix, n)] *)
Definition fmt_us (prefix : string) (n : Z) : string := prefix ++ "_" ++ pretty n.

Definition NA : pyval := VStr "N/A".

(** [["N/A" for _ in range(self.NUM_CHANNELS)]] *)
Definition na_list : pyval := VList (replicate (Z.to_nat NUM_CHANNELS) NA).

Definition _strip_str (val : pyval) : pyval :=
  match val with VStr s => VStr (rstrip s) | _ => val end.

Definition is_flat_memory : M pyval :=
  read_only_cached_api_return "is_flat_memory"
    (let* v := read c.FLAT_MEM_FIELD in
     (* [v is not False] *)
     ret (VBool (negb match v with VBool false => true | _ => false end))).

(** [if self.is_flat_memory():] *)
Definition flat : M bool :=
  let* r := is_flat_memory in ret (truthy r).

(** [CmisApi(xcvr_eeprom)]; [new_vdm] and [new_cdb] are the objects
    [CmisVdmApi(xcvr_eeprom)] and [CmisCdbApi(xcvr_eeprom)] construct. *)
Definition __init__ (eeprom0 : eeprom) (new_vdm : CmisVdmApi) (new_cdb : CmisCdbApi)
  : res unit * CmisApi :=
  (let* f1 := flat in
   run (fun s => (Ok tt, {| xcvr_eeprom := xcvr_eeprom s;
                            vdm := if f1 then None else Some new_vdm;
                            cdb := cdb s; cache := cache s |})) then
   let* f2 := flat in
   fun s => (Ok tt, set_cdb (if f2 then None else Some new_cdb) s))
    {| xcvr_eeprom := eeprom0; vdm := None; cdb := None; cache := ∅ |}.

Definition get_vendor_rev : M pyval :=
  read_only_cached_api_return "get_vendor_rev"
    (let* v := read c.VENDOR_REV_FIELD in ret (_strip_str v)).

Definition get_module_hardware_revision : M pyval :=
  read_only_cached_api_return "get_module_hardware_revision"
    (let* fl := flat in
     if fl then ret (VStr "0.0") else
     let* hw_major_rev := read c.HW_MAJOR_REV in
     let* hw_minor_rev := read c.HW_MINOR_REV in
     ret (dotted hw_major_rev hw_minor_rev)).

Definition get_cmis_rev : M pyval :=
  read_only_cached_api_return "get_cmis_rev"
    (let* cmis_major := read c.CMIS_MAJOR_REVISION in
     let* cmis_minor := read c.CMIS_MINOR_REVISION in
     ret (dotted cmis_major cmis_minor)).

Definition get_module_inactive_firmware : M pyval :=
  let* fl := flat in
  if fl then ret NA else
  let* inactive_fw_major := read c.INACTIVE_FW_MAJOR_REV in
  let* inactive_fw_minor := read c.INACTIVE_FW_MINOR_REV in
  ret (dotted inactive_fw_major inactive_fw_minor).

Definition get_temperature_support : M bool :=
  let* fl := flat in ret (negb fl).

Definition get_voltage_support : M bool :=
  let* fl := flat in ret (negb fl).

Definition get_transceiver_thresholds_support : M bool :=
  let* fl := flat in ret (negb fl).

Definition get_module_temperature : M pyval :=
  let* sup := get_temperature_support in
  if negb sup then ret NA else
  let* temp := read c.TEMPERATURE_FIELD in
  if is_none temp then ret VNone else
  lift (format_3f temp).

Definition get_voltage : M pyval :=
  let* sup := get_voltage_support in
  if negb sup then ret NA else
  let* voltage := read c.VOLTAGE_FIELD in
  if is_none voltage then ret VNone else
  lift (format_3f voltage).

(** [not self.is_flat_memory() and self.xcvr_eeprom.read(...)]: [and]
    yields [False] when its left operand is false, else the right operand. *)
Definition get_tx_bias_support : M pyval :=
  let* fl := flat in
  if fl then ret (VBool false) else read c.TX_BIAS_SUPPORT_FIELD.

(** [2**scale_raw if scale_raw < 3 else 1], the expression shared by
    [get_tx_bias] and [get_transceiver_threshold_info].  A negative integer
    exponent yields a float. *)
Definition tx_bias_scale (scale_raw : pyval) : res pyval :=
  match scale_raw with
  | VInt s =>
      Ok (if s <? 3
          then (if 0 <=? s then VInt (2 ^ s) else VFloat (Qpower 2 s))
          else VInt 1)
  | VBool b => Ok (VInt (if b then 2 else 1))
  | VFloat q =>
      Ok (if Qle_bool 3 q then VInt 1 else VFloat (pow2_float E q))
  | _ => Raise TypeError
  end.

Definition is_ok {A} (r : res A) : bool :=
  match r with Ok _ => true | Raise _ => false end.

Definition res_default {A} (d : A) (r : res A) : A :=
  match r with Ok a => a | Raise _ => d end.

Fixpoint res_mapM {A B} (f : A -> res B) (l : list A) : res (list B) :=
  match l with
  | [] => Ok []
  | x :: l' => res_bind (f x) (fun y => res_bind (res_mapM f l') (fun ys => Ok (y :: ys)))
  end.

(** [for key, value in tx_bias.items(): tx_bias[key] *= scale].  Only a
    dictionary has [items]; every failure of [*=] is a [TypeError], so the
    iteration order does not show in the outcome. *)
Definition scale_items (tx_bias scale : pyval) : res pyval :=
  match tx_bias with
  | VDict d =>
      if forallb (fun kv => is_ok (mul kv.2 scale)) (map_to_list d)
      then Ok (VDict ((fun v => res_default VNone (mul v scale)) <$> d))
      else Raise TypeError
  | _ => Raise AttributeError
  end.

Definition get_tx_bias : M pyval :=
  let* tx_bias_support := get_tx_bias_support in
  if is_none tx_bias_support then ret VNone else
  if negb (truthy tx_bias_support) then ret na_list else
  let* scale_raw := read c.TX_BIAS_SCALE in
  if is_none scale_raw then ret na_list else
  let* scale := lift (tx_bias_scale scale_raw) in
  let* tx_bias := read c.TX_BIAS_FIELD in
  if is_none tx_bias then ret na_list else
  let* tx_bias := lift (scale_items tx_bias scale) in
  let* l := lift (res_mapM
                    (fun i => getitem tx_bias (KStr ("LaserBiasTx" ++ pretty i ++ "Field")))
                    (range 1 (NUM_CHANNELS + 1))) in
  ret (VList l).

Definition get_module_media_type : M pyval := read c.MEDIA_TYPE_FIELD.

Definition get_host_electrical_interface : M pyval :=
  let* fl := flat in
  if fl then ret NA else read c.HOST_ELECTRICAL_INTERFACE.

Definition get_module_media_interface : M pyval :=
  let* media_type := get_module_media_type in
  if str_eq media_type "nm_850_media_interface" then read c.MODULE_MEDIA_INTERFACE_850NM
  else if str_eq media_type "sm_media_interface" then read c.MODULE_MEDIA_INTERFACE_SM
  else if str_eq media_type "passive_copper_media_interface"
       then read c.MODULE_MEDIA_INTERFACE_PASSIVE_COPPER
  else if str_eq media_type "active_cable_media_interface"
       then read c.MODULE_MEDIA_INTERFACE_ACTIVE_CABLE
  else if str_eq media_type "base_t_media_interface" then read c.MODULE_MEDIA_INTERFACE_BASE_T
  else ret (VStr "Unknown media interface").

Definition DATAPATH_INIT_DURATION_MULTIPLIER : Q := 10.
Definition DATAPATH_INIT_DURATION_OVERRIDE_THRESHOLD : Q := 1000.

Definition get_datapath_init_duration : M pyval :=
  read_only_cached_api_return "get_datapath_init_duration"
    (let* fl := flat in
     if fl then ret (VInt 0) else
     let* duration := read c.DP_PATH_INIT_DURATION in
     if is_none duration then ret (VInt 0) else
     let* value := lift (float duration) in
     ret (VFloat (if Qle_bool value DATAPATH_INIT_DURATION_OVERRIDE_THRESHOLD
                  then (value * DATAPATH_INIT_DURATION_MULTIPLIER)%Q
                  else value))).

Definition get_host_lane_count : M pyval := read c.HOST_LANE_COUNT.

Definition get_media_interface_technology : M pyval := read c.MEDIA_INTERFACE_TECH.

Definition get_cable_length_type : pyval := VStr "Length Cable Assembly(m)".

(** [dic.update(other)].  Only a dictionary has the method; its argument
    must be a mapping or an iterable of pairs. *)
Definition dict_update (dic other : pyval) : res pyval :=
  match dic with
  | VDict d =>
      match other with
      | VDict d2 => Ok (VDict (d2 ∪ d))
      | VStr s => if String.eqb s "" then Ok dic else Raise ValueError
      | VList [] => Ok dic
      | VList l => res_bind (update_from_list E d l) (fun d' => Ok (VDict d'))
      | _ => Raise TypeError
      end
  | _ => Raise AttributeError
  end.

(** [map.get(media_type)] in [get_application_advertisement]: the literal
    maps [Sff8024.MODULE_MEDIA_TYPE[1..5]] to the five media-interface
    field names (a later duplicate key wins); an unhashable key raises. *)
Definition media_prefix (media_type : pyval) : res (option string) :=
  match media_type with
  | VList _ | VDict _ => Raise TypeError
  | _ =>
      Ok (if str_eq media_type (MODULE_MEDIA_TYPE E 5) then Some c.MODULE_MEDIA_INTERFACE_BASE_T
          else if str_eq media_type (MODULE_MEDIA_TYPE E 4)
               then Some c.MODULE_MEDIA_INTERFACE_ACTIVE_CABLE
          else if str_eq media_type (MODULE_MEDIA_TYPE E 3)
               then Some c.MODULE_MEDIA_INTERFACE_PASSIVE_COPPER
          else if str_eq media_type (MODULE_MEDIA_TYPE E 2) then Some c.MODULE_MEDIA_INTERFACE_SM
          else if str_eq media_type (MODULE_MEDIA_TYPE E 1) then Some c.MODULE_MEDIA_INTERFACE_850NM
          else None)
  end.

(** One turn of the loop [for app in range(1, 16)]: the entry [buf] to
    store under [app], or [None] where the body hits [continue]. *)
Definition advt_entry (dic : pyval) (prefix : option string) (app : Z)
  : res (option (gmap pykey pyval)) :=
  res_bind (dict_get dic (KStr (fmt_us c.HOST_ELECTRICAL_INTERFACE app)) VNone) (fun val =>
  if is_none val || str_eq val "Unknown" || str_eq val "Undefined" then Ok None else
  let buf : gmap pykey pyval := {[ KStr "host_electrical_interface_id" := val ]} in
  match prefix with
  | None => Ok None
  | Some prefix =>
  res_bind (dict_get dic (KStr (fmt_us prefix app)) VNone) (fun val =>
  if is_none val || str_eq val "Unknown" then Ok None else
  let buf := <[ KStr "module_media_interface_id" := val ]> buf in
  res_bind (dict_get dic (KStr (fmt_us c.MEDIA_LANE_COUNT app)) VNone) (fun val =>
  if is_none val then Ok None else
  let buf := <[ KStr "media_lane_count" := val ]> buf in
  res_bind (dict_get dic (KStr (fmt_us c.HOST_LANE_COUNT app)) VNone) (fun val =>
  if is_none val then Ok None else
  let buf := <[ KStr "host_lane_count" := val ]> buf in
  res_bind (dict_get dic (KStr (fmt_us c.HOST_LANE_ASSIGNMENT_OPTION app)) VNone) (fun val =>
  if is_none val then Ok None else
  let buf := <[ KStr "host_lane_assignment_options" := val ]> buf in
  res_bind (dict_get dic (KStr (fmt_us c.MEDIA_LANE_ASSIGNMENT_OPTION app)) VNone) (fun val =>
  let buf := if is_none val then buf
             else <[ KStr "media_lane_assignment_options" := val ]> buf in
  Ok (Some buf))))))
  end).

Fixpoint advt_loop (dic : pyval) (prefix : option string) (apps : list Z)
    (ret_ : gmap pykey pyval) : res (gmap pykey pyval) :=
  match apps with
  | [] => Ok ret_
  | app :: apps' =>
      res_bind (advt_entry dic prefix app) (fun buf =>
      advt_loop dic prefix apps'
        (match buf with Some b => <[ KInt app := VDict b ]> ret_ | None => ret_ end))
  end.

Definition get_application_advertisement : M pyval :=
  read_only_cached_api_return "get_application_advertisement"
    (let* dic := read c.APPLS_ADVT_FIELD in
     if negb (truthy dic) then ret (VDict ∅) else
     let* fl := flat in
     let* dic' :=
       if negb fl
       then try_except
              (match dic with
               | VDict _ =>
                   let* page01 := read c.APPLS_ADVT_FIELD_PAGE01 in
                   let* d := lift (dict_update dic page01) in ret (Some d)
               | _ => raise AttributeError
               end)
              (one_of [TypeError; AttributeError])
              (ret None)
       else ret (Some dic) in
     match dic' with
     | None => ret (VDict ∅)
     | Some dic =>
         let* media_type := read c.MEDIA_TYPE_FIELD in
         let* prefix := lift (media_prefix media_type) in
         let* ret_ := lift (advt_loop dic prefix (range 1 16) ∅) in
         ret (VDict ret_)
     end).

Definition get_media_lane_count (appl : Z) : M pyval :=
  let* fl := flat in
  if fl then ret (VInt 0) else
  if appl <=? 0 then ret (VInt 0) else
  let* appl_advt := get_application_advertisement in
  let* n := lift (len appl_advt) in
  if appl <=? n
  then let* a := lift (getitem appl_advt (KInt appl)) in
       lift (getitem a (KStr "media_lane_count"))
  else ret (VInt 0).

Definition get_host_lane_assignment_option (appl : Z) : M pyval :=
  if appl <=? 0 then ret (VInt 0) else
  let* appl_advt := get_application_advertisement in
  let* present := lift (int_in appl appl_advt) in
  if negb present then ret (VInt 0) else
  let* a := lift (getitem appl_advt (KInt appl)) in
  lift (dict_get a (KStr "host_lane_assignment_options") (VInt 0)).

Definition get_media_lane_assignment_option (appl : Z) : M pyval :=
  let* fl := flat in
  if fl then ret NA else
  if appl <=? 0 then ret (VInt 0) else
  let* appl_advt := get_application_advertisement in
  let* n := lift (len appl_advt) in
  if appl <=? n
  then let* a := lift (getitem appl_advt (KInt appl)) in
       lift (getitem a (KStr "media_lane_assignment_options"))
  else ret (VInt 0).

(** What [get_active_apsel_hostlane] returns: the empty
    [defaultdict(lambda: 'N/A')] or the decoded register group. *)
Inductive apsel_dict := DefaultNA | Decoded (v : pyval).

Definition apsel_getitem (d : apsel_dict) (k : pykey) : res pyval :=
  match d with DefaultNA => Ok NA | Decoded v => getitem v k end.

Definition get_active_apsel_hostlane : M apsel_dict :=
  let* fl := flat in
  if fl then ret DefaultNA else
  let* active_apsel_code := read c.ACTIVE_APSEL_CODE in
  ret (if negb (truthy active_apsel_code) then DefaultNA else Decoded active_apsel_code).

Definition get_aux_mon_type : M (option (Z * Z * Z)) :=
  let* fl := flat in
  let* result := if negb fl then read c.AUX_MON_TYPE else ret VNone in
  if is_none result then ret None else
  let* r := lift (as_int result) in
  ret (Some (Z.land r 1, Z.land (Z.shiftr r 1) 1, Z.land (Z.shiftr r 2) 1)).

Definition LASER_TEMP_SCALE : Q := 256.

Definition _get_laser_temp_threshold (field : string) : M pyval :=
  let* value := read field in
  if is_none value then ret NA else
  let* q := lift (as_num value) in
  ret (VFloat (q / LASER_TEMP_SCALE)%Q).

Definition laser_temp_dict_of (mon ha la hw lw : pyval) : pyval :=
  VDict (<[ KStr "monitor value" := mon ]>
         (<[ KStr "high alarm" := ha ]>
          (<[ KStr "low alarm" := la ]>
           (<[ KStr "high warn" := hw ]>
            (<[ KStr "low warn" := lw ]> ∅))))).

Definition get_laser_temperature : M pyval :=
  let laser_temp_dict := laser_temp_dict_of NA NA NA NA NA in
  let* fl := flat in
  if fl then ret laser_temp_dict else
  let* aux :=
    try_except
      (let* t := get_aux_mon_type in
       match t with Some x => ret (Some x) | None => raise TypeError end)
      (one_of [TypeError]) (ret None) in
  match aux with
  | None => ret laser_temp_dict
  | Some (aux1_mon_type, aux2_mon_type, aux3_mon_type) =>
      if aux2_mon_type =? 0 then
        let* laser_temp := _get_laser_temp_threshold c.AUX2_MON in
        let* laser_temp_high_alarm := _get_laser_temp_threshold c.AUX2_HIGH_ALARM in
        let* laser_temp_low_alarm := _get_laser_temp_threshold c.AUX2_LOW_ALARM in
        let* laser_temp_high_warn := _get_laser_temp_threshold c.AUX2_HIGH_WARN in
        let* laser_temp_low_warn := _get_laser_temp_threshold c.AUX2_LOW_WARN in
        ret (laser_temp_dict_of laser_temp laser_temp_high_alarm laser_temp_low_alarm
               laser_temp_high_warn laser_temp_low_warn)
      else if (aux2_mon_type =? 1) && (aux3_mon_type =? 0) then
        let* laser_temp := _get_laser_temp_threshold c.AUX3_MON in
        let* laser_temp_high_alarm := _get_laser_temp_threshold c.AUX3_HIGH_ALARM in
        let* laser_temp_low_alarm := _get_laser_temp_threshold c.AUX3_LOW_ALARM in
        let* laser_temp_high_warn := _get_laser_temp_threshold c.AUX3_HIGH_WARN in
        let* laser_temp_low_warn := _get_laser_temp_threshold c.AUX3_LOW_WARN in
        ret (laser_temp_dict_of laser_temp laser_temp_high_alarm laser_temp_low_alarm
               laser_temp_high_warn laser_temp_low_warn)
      else ret laser_temp_dict
  end.

Definition is_transceiver_vdm_supported : M pyval :=
  fun s => match vdm s with
           | None => (Ok (VBool false), s)
           | Some _ => read c.VDM_SUPPORTED s
           end.

(** *** Loopback *)

(** [bool((x >> n) & 0x1)] *)
Definition bit (x n : Z) : pyval := VBool (negb (Z.land (Z.shiftr x n) 1 =? 0)).

Definition get_loopback_capability : M pyval :=
  let* fl := flat in
  if fl then ret VNone else
  let* allowed_loopback_result := read c.LOOPBACK_CAPABILITY in
  if is_none allowed_loopback_result then ret VNone else
  let* x := lift (as_int allowed_loopback_result) in
  ret (VDict
         (<[ KStr "media_side_output_loopback_supported" := bit x 0 ]>
          (<[ KStr "media_side_input_loopback_supported" := bit x 1 ]>
           (<[ KStr "host_side_output_loopback_supported" := bit x 2 ]>
            (<[ KStr "host_side_input_loopback_supported" := bit x 3 ]>
             (<[ KStr "per_lane_host_loopback_supported" := bit x 4 ]>
              (<[ KStr "per_lane_media_loopback_supported" := bit x 5 ]>
               (<[ KStr "simultaneous_host_media_loopback_supported" := bit x 6 ]> ∅)))))))).

(** [v is False] *)
Definition is_False (v : pyval) : bool :=
  match v with VBool false => true | _ => false end.

(** The body the four loopback setters share.  [supported] and [per_lane]
    are the capability keys the setter tests, [other1] and [other2] the
    registers of the opposite side, [own] the register it rewrites. *)
Definition loopback_setter (supported per_lane : string) (other1 other2 own : string)
    (lane_mask : Z) (enable : bool) : M bool :=
  let* loopback_capability := get_loopback_capability in
  if is_none loopback_capability then ret false else
  let* sup := lift (getitem loopback_capability (KStr supported)) in
  if is_False sup then ret false else
  let* pl := lift (getitem loopback_capability (KStr per_lane)) in
  if is_False pl && negb (lane_mask =? 255) then ret false else
  let* sim := lift (getitem loopback_capability
                      (KStr "simultaneous_host_media_loopback_supported")) in
  let* blocked :=
    if is_False sim then
      let* val1 := read other1 in
      let* val2 := read other2 in
      if truthy val1 || truthy val2
      then run lift (format_x val1) then run lift (format_x val2) then ret true
      else ret false
    else ret false in
  if blocked then ret false else
  let* own_val := read own in
  let* x := lift (as_int own_val) in
  if enable
  then write own (VInt (Z.lor x lane_mask))
  else write own (VInt (Z.land x (Z.lnot lane_mask))).

Definition set_host_input_loopback : Z -> bool -> M bool :=
  loopback_setter "host_side_input_loopback_supported" "per_lane_host_loopback_supported"
    c.MEDIA_INPUT_LOOPBACK c.MEDIA_OUTPUT_LOOPBACK c.HOST_INPUT_LOOPBACK.

Definition set_host_output_loopback : Z -> bool -> M bool :=
  loopback_setter "host_side_output_loopback_supported" "per_lane_host_loopback_supported"
    c.MEDIA_INPUT_LOOPBACK c.MEDIA_OUTPUT_LOOPBACK c.HOST_OUTPUT_LOOPBACK.

Definition set_media_input_loopback : Z -> bool -> M bool :=
  loopback_setter "media_side_input_loopback_supported" "per_lane_media_loopback_supported"
    c.HOST_INPUT_LOOPBACK c.HOST_OUTPUT_LOOPBACK c.MEDIA_INPUT_LOOPBACK.

Definition set_media_output_loopback : Z -> bool -> M bool :=
  loopback_setter "media_side_output_loopback_supported" "per_lane_media_loopback_supported"
    c.HOST_INPUT_LOOPBACK c.HOST_OUTPUT_LOOPBACK c.MEDIA_OUTPUT_LOOPBACK.

(** *** Datapath init and deinit *)

(** [cmis_major >= 4] *)
Definition ge4 (cmis_major : pyval) : res bool :=
  res_bind (as_num cmis_major) (fun q => Ok (Qle_bool 4 q)).

(** The loop [for lane in range(self.NUM_CHANNELS)] of [set_datapath_init]
    ([init = true]) and of [set_datapath_deinit] ([init = false]). *)
Fixpoint datapath_loop (init : bool) (cmis_major : pyval) (channel : Z)
    (lanes : list Z) (data : pyval) : res pyval :=
  match lanes with
  | [] => Ok data
  | lane :: lanes' =>
      if Z.land (Z.shiftl 1 lane) channel =? 0
      then datapath_loop init cmis_major channel lanes' data
      else
        res_bind (ge4 cmis_major) (fun v4 =>
        res_bind (as_int data) (fun d =>
        datapath_loop init cmis_major channel lanes'
          (VInt (if Bool.eqb v4 init
                 then Z.land d (Z.lnot (Z.shiftl 1 lane))   (* data &= ~(1 << lane) *)
                 else Z.lor d (Z.shiftl 1 lane)))))          (* data |= (1 << lane) *)
  end.

Definition set_datapath_init (channel : Z) : M unit :=
  let* cmis_major := read c.CMIS_MAJOR_REVISION in
  let* data := read c.DATAPATH_DEINIT_FIELD in
  let* data := lift (datapath_loop true cmis_major channel (range 0 NUM_CHANNELS) data) in
  run write c.DATAPATH_DEINIT_FIELD data then ret tt.

Definition set_datapath_deinit (channel : Z) : M unit :=
  let* cmis_major := read c.CMIS_MAJOR_REVISION in
  let* data := read c.DATAPATH_DEINIT_FIELD in
  let* data := lift (datapath_loop false cmis_major channel (range 0 NUM_CHANNELS) data) in
  run write c.DATAPATH_DEINIT_FIELD data then ret tt.

(** *** VDM aggregation *)

Inductive VdmSubtypeIndex :=
| VDM_SUBTYPE_REAL_VALUE
| VDM_SUBTYPE_HALARM_THRESHOLD | VDM_SUBTYPE_LALARM_THRESHOLD
| VDM_SUBTYPE_HWARN_THRESHOLD | VDM_SUBTYPE_LWARN_THRESHOLD
| VDM_SUBTYPE_HALARM_FLAG | VDM_SUBTYPE_LALARM_FLAG
| VDM_SUBTYPE_HWARN_FLAG | VDM_SUBTYPE_LWARN_FLAG.

Definition value (i : VdmSubtypeIndex) : Z :=
  match i with
  | VDM_SUBTYPE_REAL_VALUE => 0
  | VDM_SUBTYPE_HALARM_THRESHOLD => 1 | VDM_SUBTYPE_LALARM_THRESHOLD => 2
  | VDM_SUBTYPE_HWARN_THRESHOLD => 3 | VDM_SUBTYPE_LWARN_THRESHOLD => 4
  | VDM_SUBTYPE_HALARM_FLAG => 5 | VDM_SUBTYPE_LALARM_FLAG => 6
  | VDM_SUBTYPE_HWARN_FLAG => 7 | VDM_SUBTYPE_LWARN_FLAG => 8
  end.

(** [VdmSubtypeIndex(n)] *)
Definition VdmSubtypeIndex_of (n : Z) : res VdmSubtypeIndex :=
  match n with
  | 0 => Ok VDM_SUBTYPE_REAL_VALUE
  | 1 => Ok VDM_SUBTYPE_HALARM_THRESHOLD | 2 => Ok VDM_SUBTYPE_LALARM_THRESHOLD
  | 3 => Ok VDM_SUBTYPE_HWARN_THRESHOLD | 4 => Ok VDM_SUBTYPE_LWARN_THRESHOLD
  | 5 => Ok VDM_SUBTYPE_HALARM_FLAG | 6 => Ok VDM_SUBTYPE_LALARM_FLAG
  | 7 => Ok VDM_SUBTYPE_HWARN_FLAG | 8 => Ok VDM_SUBTYPE_LWARN_FLAG
  | _ => Raise ValueError
  end.

(** [THRESHOLD_TYPE_STR_MAP.get(i)] *)
Definition THRESHOLD_TYPE_STR_MAP (i : VdmSubtypeIndex) : option string :=
  match i with
  | VDM_SUBTYPE_HALARM_THRESHOLD => Some "halarm"
  | VDM_SUBTYPE_LALARM_THRESHOLD => Some "lalarm"
  | VDM_SUBTYPE_HWARN_THRESHOLD => Some "hwarn"
  | VDM_SUBTYPE_LWARN_THRESHOLD => Some "lwarn"
  | _ => None
  end.

(** [FLAG_TYPE_STR_MAP.get(i)] *)
Definition FLAG_TYPE_STR_MAP (i : VdmSubtypeIndex) : option string :=
  match i with
  | VDM_SUBTYPE_HALARM_FLAG => Some "halarm"
  | VDM_SUBTYPE_LALARM_FLAG => Some "lalarm"
  | VDM_SUBTYPE_HWARN_FLAG => Some "hwarn"
  | VDM_SUBTYPE_LWARN_FLAG => Some "lwarn"
  | _ => None
  end.

Definition CMIS_VDM_KEY_TO_DB_PREFIX_KEY_MAP : list (string * string) :=
  [ ("Laser Temperature [C]", "laser_temperature_media");
    ("eSNR Media Input [dB]", "esnr_media_input");
    ("PAM4 Level Transition Parameter Media Input [dB]", "pam4_level_transition_media_input");
    ("Pre-FEC BER Minimum Media Input", "prefec_ber_min_media_input");
    ("Pre-FEC BER Maximum Media Input", "prefec_ber_max_media_input");
    ("Pre-FEC BER Average Media Input", "prefec_ber_avg_media_input");
    ("Pre-FEC BER Current Value Media Input", "prefec_ber_curr_media_input");
    ("Errored Frames Minimum Media Input", "errored_frames_min_media_input");
    ("Errored Frames Maximum Media Input", "errored_frames_max_media_input");
    ("Errored Frames Average Media Input", "errored_frames_avg_media_input");
    ("Errored Frames Current Value Media Input", "errored_frames_curr_media_input");
    ("eSNR Host Input [dB]", "esnr_host_input");
    ("PAM4 Level Transition Parameter Host Input [dB]", "pam4_level_transition_host_input");
    ("Pre-FEC BER Minimum Host Input", "prefec_ber_min_host_input");
    ("Pre-FEC BER Maximum Host Input", "prefec_ber_max_host_input");
    ("Pre-FEC BER Average Host Input", "prefec_ber_avg_host_input");
    ("Pre-FEC BER Current Value Host Input", "prefec_ber_curr_host_input");
    ("Errored Frames Minimum Host Input", "errored_frames_min_host_input");
    ("Errored Frames Maximum Host Input", "errored_frames_max_host_input");
    ("Errored Frames Average Host Input", "errored_frames_avg_host_input");
    ("Errored Frames Current Value Host Input", "errored_frames_curr_host_input") ].

Definition _get_vdm_key_to_db_prefix_map : list (string * string) :=
  CMIS_VDM_KEY_TO_DB_PREFIX_KEY_MAP.

(** [vdm_raw_dict[vdm_observable_type][lane][vdm_subtype_index.value]] *)
Definition vdm_lookup (vdm_raw_dict : pyval) (vdm_observable_type : string)
    (vdm_subtype_index : VdmSubtypeIndex) (lane : Z) : res pyval :=
  res_bind (getitem vdm_raw_dict (KStr vdm_observable_type)) (fun by_lane =>
  res_bind (getitem by_lane (KInt lane)) (fun subtypes =>
  getitem subtypes (KInt (value vdm_subtype_index)))).

(** The dictionary is updated in place in the source; here the updated
    dictionary is returned next to the boolean. *)
Definition _update_vdm_dict (dict_to_update : gmap pykey pyval) (new_key : string)
    (vdm_raw_dict : pyval) (vdm_observable_type : string)
    (vdm_subtype_index : VdmSubtypeIndex) (lane : Z)
  : res (gmap pykey pyval * bool) :=
  match vdm_lookup vdm_raw_dict vdm_observable_type vdm_subtype_index lane with
  | Ok v => Ok (<[ KStr new_key := v ]> dict_to_update, true)
  | Raise e =>
      if one_of [KeyError; TypeError] e
      then Ok (<[ KStr new_key := NA ]> dict_to_update, false)
      else Raise e
  end.

Fixpoint res_foldl {A B} (f : A -> B -> res A) (a : A) (l : list B) : res A :=
  match l with
  | [] => Ok a
  | x :: l' => res_bind (f a x) (fun a' => res_foldl f a' l')
  end.

(** [self.vdm.ATTR]: an [AttributeError] when [self.vdm] is [None]. *)
Definition vdm_attr (attr : CmisVdmApi -> Z) : M Z :=
  fun s => match vdm s with
           | Some v => (Ok (attr v), s)
           | None => (Raise AttributeError, s)
           end.

Definition get_vdm (field_option : option Z) : M pyval :=
  let* field_option :=
    match field_option with
    | None => vdm_attr ALL_FIELD
    | Some o => ret o
    end in
  fun s => match vdm s with
           | Some v => (Ok (get_vdm_allpage v field_option), s)
           | None => (Ok (VDict ∅), s)
           end.

(** Body of the loops of [get_transceiver_vdm_real_value]: [entry] is the
    item of the key map the outer loop is at. *)
Definition vdm_real_value_body (vdm_raw_dict : pyval) (d : gmap pykey pyval)
    (entry : string * string) (lane : Z) : res (gmap pykey pyval) :=
  let '(vdm_observable_type, db_key_name_prefix) := entry in
  let db_key_name := db_key_name_prefix +:+ pretty lane in
  res_bind (_update_vdm_dict d db_key_name vdm_raw_dict vdm_observable_type
              VDM_SUBTYPE_REAL_VALUE lane)
           (fun r => Ok r.1).

Definition get_transceiver_vdm_real_value : M pyval :=
  let* opt := vdm_attr VDM_REAL_VALUE in
  let* vdm_raw_dict := get_vdm (Some opt) in
  let* vdm_real_value_dict :=
    lift (res_foldl (fun d entry =>
            res_foldl (fun d lane => vdm_real_value_body vdm_raw_dict d entry lane)
              d (range 1 (NUM_CHANNELS + 1)))
            ∅ _get_vdm_key_to_db_prefix_map) in
  ret (VDict vdm_real_value_dict).

(** Body of the loops shared by [get_transceiver_vdm_thresholds] and
    [get_transceiver_vdm_flags]; the subtype is named by [TYPE_STR_MAP]. *)
Definition vdm_typed_body (TYPE_STR_MAP : VdmSubtypeIndex -> option string)
    (vdm_raw_dict : pyval) (d : gmap pykey pyval)
    (entry : string * string) (lane : Z) (vdm_type : Z) : res (gmap pykey pyval) :=
  let '(vdm_observable_type, db_key_name_prefix) := entry in
  res_bind (VdmSubtypeIndex_of vdm_type) (fun vdm_enum =>
  match TYPE_STR_MAP vdm_enum with
  | Some type_str =>
      if String.eqb type_str "" then Ok d else
      let db_key_name := db_key_name_prefix +:+ "_" +:+ type_str +:+ pretty lane in
      res_bind (_update_vdm_dict d db_key_name vdm_raw_dict vdm_observable_type
                  vdm_enum lane)
               (fun r => Ok r.1)
  | None => Ok d
  end).

(** The three nested loops of those two methods; the subtype runs over
    [range(first.value, last.value + 1)]. *)
Definition vdm_typed_dict (TYPE_STR_MAP : VdmSubtypeIndex -> option string)
    (first last : VdmSubtypeIndex) (vdm_raw_dict : pyval) : res (gmap pykey pyval) :=
  res_foldl (fun d entry =>
    res_foldl (fun d lane =>
      res_foldl (fun d vdm_type =>
        vdm_typed_body TYPE_STR_MAP vdm_raw_dict d entry lane vdm_type)
        d (range (value first) (value last + 1)))
      d (range 1 (NUM_CHANNELS + 1)))
    ∅ _get_vdm_key_to_db_prefix_map.

Definition get_transceiver_vdm_thresholds : M pyval :=
  let* opt := vdm_attr VDM_THRESHOLD in
  let* vdm_raw_dict := get_vdm (Some opt) in
  let* vdm_thresholds_dict :=
    lift (vdm_typed_dict THRESHOLD_TYPE_STR_MAP
            VDM_SUBTYPE_HALARM_THRESHOLD VDM_SUBTYPE_LWARN_THRESHOLD vdm_raw_dict) in
  ret (VDict vdm_thresholds_dict).

Definition get_transceiver_vdm_flags : M pyval :=
  let* opt := vdm_attr VDM_FLAG in
  let* vdm_raw_dict := get_vdm (Some opt) in
  let* vdm_flags_dict :=
    lift (vdm_typed_dict FLAG_TYPE_STR_MAP
            VDM_SUBTYPE_HALARM_FLAG VDM_SUBTYPE_LWARN_FLAG vdm_raw_dict) in
  ret (VDict vdm_flags_dict).

(** *** Threshold and identity aggregates *)

(** A dictionary display [{k1: e1, k2: e2, ...}] whose entries are
    evaluated in order; the first exception ends the evaluation. *)
Fixpoint dict_display (entries : list (string * M pyval)) (d : gmap pykey pyval)
  : M (gmap pykey pyval) :=
  match entries with
  | [] => ret d
  | (k, e) :: entries' =>
      let* v := e in dict_display entries' (<[ KStr k := v ]> d)
  end.

(** [float("{:.3f}".format(thresh[field]))] *)
Definition thresh_plain (thresh : pyval) (field : cname) : M pyval :=
  lift (res_bind (getitem thresh (KStr c.field)) format_3f).

(** [float("{:.3f}".format(self.mw_to_dbm(thresh[field])))] *)
Definition thresh_dbm (thresh : pyval) (field : cname) : M pyval :=
  lift (res_bind (getitem thresh (KStr c.field)) (fun v =>
        res_bind (mw_to_dbm E v) format_3f)).

(** [float("{:.3f}".format(thresh[field]*tx_bias_scale))
     if tx_bias_scale is not None else 'N/A'] *)
Definition thresh_bias (thresh : pyval) (tx_bias_scale : option pyval) (field : cname)
  : M pyval :=
  match tx_bias_scale with
  | None => ret NA
  | Some scale =>
      lift (res_bind (getitem thresh (KStr c.field)) (fun v =>
            res_bind (mul v scale) format_3f))
  end.

(** The assignments of a [try: ... except (KeyError, TypeError): pass]
    block that copies entries of [src]: those made before the first failing
    lookup stay. *)
Fixpoint assign_until_error (src : pyval) (pairs : list (string * string))
    (d : gmap pykey pyval) : res (gmap pykey pyval) :=
  match pairs with
  | [] => Ok d
  | (dst, k) :: pairs' =>
      match getitem src (KStr k) with
      | Ok v => assign_until_error src pairs' (<[ KStr dst := v ]> d)
      | Raise e => if one_of [KeyError; TypeError] e then Ok d else Raise e
      end
  end.

Definition threshold_info_keys : list string :=
  [ "temphighalarm"; "temphighwarning"; "templowalarm"; "templowwarning";
    "vcchighalarm"; "vcchighwarning"; "vcclowalarm"; "vcclowwarning";
    "rxpowerhighalarm"; "rxpowerhighwarning"; "rxpowerlowalarm"; "rxpowerlowwarning";
    "txpowerhighalarm"; "txpowerhighwarning"; "txpowerlowalarm"; "txpowerlowwarning";
    "txbiashighalarm"; "txbiashighwarning"; "txbiaslowalarm"; "txbiaslowwarning" ].

(** [dict.fromkeys(keys, v)] *)
Definition fromkeys (keys : list string) (v : pyval) : gmap pykey pyval :=
  list_to_map ((fun k => (KStr k, v)) <$> keys).

Definition get_transceiver_threshold_info : M pyval :=
  let threshold_info_dict := fromkeys threshold_info_keys NA in
  let* thresh_support := get_transceiver_thresholds_support in
  if negb thresh_support then ret (VDict threshold_info_dict) else
  let* thresh := read c.THRESHOLDS_FIELD in
  if is_none thresh then ret VNone else
  let* tx_bias_scale_raw := read c.TX_BIAS_SCALE in
  let* tx_bias_scale :=
    if negb (is_none tx_bias_scale_raw)
    then let* sc := lift (tx_bias_scale tx_bias_scale_raw) in ret (Some sc)
    else ret None in
  let* threshold_info_dict :=
    dict_display
      [ ("temphighalarm", thresh_plain thresh TEMP_HIGH_ALARM_FIELD);
        ("templowalarm", thresh_plain thresh TEMP_LOW_ALARM_FIELD);
        ("temphighwarning", thresh_plain thresh TEMP_HIGH_WARNING_FIELD);
        ("templowwarning", thresh_plain thresh TEMP_LOW_WARNING_FIELD);
        ("vcchighalarm", thresh_plain thresh VOLTAGE_HIGH_ALARM_FIELD);
        ("vcclowalarm", thresh_plain thresh VOLTAGE_LOW_ALARM_FIELD);
        ("vcchighwarning", thresh_plain thresh VOLTAGE_HIGH_WARNING_FIELD);
        ("vcclowwarning", thresh_plain thresh VOLTAGE_LOW_WARNING_FIELD);
        ("rxpowerhighalarm", thresh_dbm thresh RX_POWER_HIGH_ALARM_FIELD);
        ("rxpowerlowalarm", thresh_dbm thresh RX_POWER_LOW_ALARM_FIELD);
        ("rxpowerhighwarning", thresh_dbm thresh RX_POWER_HIGH_WARNING_FIELD);
        ("rxpowerlowwarning", thresh_dbm thresh RX_POWER_LOW_WARNING_FIELD);
        ("txpowerhighalarm", thresh_dbm thresh TX_POWER_HIGH_ALARM_FIELD);
        ("txpowerlowalarm", thresh_dbm thresh TX_POWER_LOW_ALARM_FIELD);
        ("txpowerhighwarning", thresh_dbm thresh TX_POWER_HIGH_WARNING_FIELD);
        ("txpowerlowwarning", thresh_dbm thresh TX_POWER_LOW_WARNING_FIELD);
        ("txbiashighalarm", thresh_bias thresh tx_bias_scale TX_BIAS_HIGH_ALARM_FIELD);
        ("txbiaslowalarm", thresh_bias thresh tx_bias_scale TX_BIAS_LOW_ALARM_FIELD);
        ("txbiashighwarning", thresh_bias thresh tx_bias_scale TX_BIAS_HIGH_WARNING_FIELD);
        ("txbiaslowwarning", thresh_bias thresh tx_bias_scale TX_BIAS_LOW_WARNING_FIELD) ]
      ∅ in
  let* laser_temp_dict := get_laser_temperature in
  let* threshold_info_dict :=
    lift (assign_until_error laser_temp_dict
            [ ("lasertemphighalarm", "high alarm");
              ("lasertemplowalarm", "low alarm");
              ("lasertemphighwarning", "high warn");
              ("lasertemplowwarning", "low warn") ]
            threshold_info_dict) in
  ret (VDict threshold_info_dict).

Definition CMIS_XCVR_INFO_DEFAULT_DICT : gmap pykey pyval :=
  fromkeys
    ([ "type"; "type_abbrv_name"; "hardware_rev"; "serial"; "manufacturer"; "model";
       "connector"; "encoding"; "ext_identifier"; "ext_rateselect_compliance";
       "cable_length"; "nominal_bit_rate"; "vendor_date"; "vendor_oui" ]
     ++ ((fun i => fmt_sd "active_apsel_hostlane" i) <$> range 1 9)
     ++ [ "application_advertisement"; "host_electrical_interface";
          "media_interface_code"; "host_lane_count"; "media_lane_count";
          "host_lane_assignment_option"; "media_lane_assignment_option"; "cable_type";
          "media_interface_technology"; "vendor_rev"; "cmis_rev";
          "specification_compliance"; "vdm_supported" ])
    NA.

Definition _get_xcvr_info_default_dict : gmap pykey pyval := CMIS_XCVR_INFO_DEFAULT_DICT.

(** [admin_info[field]] *)
Definition admin (admin_info : pyval) (field : cname) : M pyval :=
  lift (getitem admin_info (KStr c.field)).

(** [self._strip_str(admin_info[field])] *)
Definition admin_stripped (admin_info : pyval) (field : cname) : M pyval :=
  let* v := admin admin_info field in ret (_strip_str v).

(** [None in d.values()] *)
Definition none_in_values (d : gmap pykey pyval) : bool :=
  existsb (fun kv => is_none kv.2) (map_to_list d).

(** [str(self.get_application_advertisement())
     if len(self.get_application_advertisement()) > 0 else 'N/A'] *)
Definition application_advertisement_str : M pyval :=
  let* a := get_application_advertisement in
  let* n := lift (len a) in
  if 0 <? n
  then let* a' := get_application_advertisement in ret (VStr (str a'))
  else ret NA.

(** The entries of the display handed to [xcvr_info.update], in source
    order. *)
Definition xcvr_info_display (admin_info power_class max_power : pyval)
  : list (string * M pyval) :=
  [ ("type", admin admin_info ID_FIELD);
    ("type_abbrv_name", admin admin_info ID_ABBRV_FIELD);
    ("hardware_rev", get_module_hardware_revision);
    ("serial", admin_stripped admin_info VENDOR_SERIAL_NO_FIELD);
    ("manufacturer", admin_stripped admin_info VENDOR_NAME_FIELD);
    ("model", admin_stripped admin_info VENDOR_PART_NO_FIELD);
    ("connector", admin admin_info CONNECTOR_FIELD);
    ("ext_identifier",
      ret (VStr (str power_class ++ " (" ++ str max_power ++ "W Max)")));
    ("cable_length",
      let* v := admin admin_info LENGTH_ASSEMBLY_FIELD in
      let* q := lift (float v) in ret (VFloat q));
    ("vendor_date", admin_stripped admin_info VENDOR_DATE_FIELD);
    ("vendor_oui", admin admin_info VENDOR_OUI_FIELD);
    ("application_advertisement", application_advertisement_str);
    ("host_electrical_interface", get_host_electrical_interface);
    ("media_interface_code", get_module_media_interface);
    ("host_lane_count", get_host_lane_count);
    ("media_lane_count", get_media_lane_count 1);
    ("host_lane_assignment_option", get_host_lane_assignment_option 1);
    ("media_lane_assignment_option", get_media_lane_assignment_option 1);
    ("cable_type", ret get_cable_length_type);
    ("media_interface_technology", get_media_interface_technology);
    ("vendor_rev", let* v := get_vendor_rev in ret (_strip_str v));
    ("cmis_rev", get_cmis_rev);
    ("specification_compliance", get_module_media_type);
    ("vdm_supported", is_transceiver_vdm_supported) ].

(** One turn of the loop copying the active application-select codes. *)
Definition apsel_body (apsel_dict : apsel_dict) (xcvr_info : gmap pykey pyval) (lane : Z)
  : res (gmap pykey pyval) :=
  res_bind (apsel_getitem apsel_dict (KStr (fmt_sd c.ACTIVE_APSEL_HOSTLANE lane)))
           (fun v => Ok (<[ KStr (fmt_sd "active_apsel_hostlane" lane) := v ]> xcvr_info)).

Definition get_transceiver_info : M pyval :=
  let* admin_info := read c.ADMIN_INFO_FIELD in
  if is_none admin_info then ret VNone else
  let* ext_id := admin admin_info EXT_ID_FIELD in
  let* power_class := lift (getitem ext_id (KStr c.POWER_CLASS_FIELD)) in
  let* max_power := lift (getitem ext_id (KStr c.MAX_POWER_FIELD)) in
  let xcvr_info := _get_xcvr_info_default_dict in
  let* xcvr_info :=
    dict_display (xcvr_info_display admin_info power_class max_power) xcvr_info in
  let* apsel_dict := get_active_apsel_hostlane in
  let* xcvr_info :=
    lift (res_foldl (apsel_body apsel_dict) xcvr_info (range 1 (NUM_CHANNELS + 1))) in
  if none_in_values xcvr_info then ret VNone else ret (VDict xcvr_info).

(** *** Firmware management over CDB

    The methods return [(bool, txt)]; the diagnostic text [txt] embeds
    wall-clock timings and is left out, the boolean is kept. *)

(** [self.cdb is None] *)
Definition cdb_is_none : M bool := fun s => (Ok (bool_decide (cdb s = None)), s).

(** [self.cdb.command(...)]: the answer depends on the commands received
    so far, and the command joins them. *)
Definition cdb_call (cmd : cdb_cmd) : M cdb_reply :=
  fun s =>
    match cdb s with
    | Some o =>
        (Ok (cdb_answer o (cdb_log o) cmd),
         set_cdb (Some {| cdb_answer := cdb_answer o;
                          cdb_chkcode := cdb_chkcode o;
                          cdb_log := cmd :: cdb_log o |}) s)
    | None => (Raise AttributeError, s)
    end.

(** [self.cdb.cdb_chkcode(rpl) == rpl_chkcode] *)
Definition chkcode_matches (r : cdb_reply) : M bool :=
  fun s =>
    match cdb s with
    | Some o => (Ok (bool_decide (Some (cdb_chkcode o (rpl r)) = rpl_chkcode r)), s)
    | None => (Raise AttributeError, s)
    end.

(** The ['result'] entry of what [get_module_fw_info] returns: [None], [0]
    or the ten-tuple. *)
Inductive fw_result :=
| ResultNone
| ResultZero
| ResultTuple (ImageA : string) (ImageARunning ImageACommitted ImageAValid : Z)
              (ImageB : string) (ImageBRunning ImageBCommitted ImageBValid : Z)
              (ActiveFirmware InactiveFirmware : string).

(** The dictionary [get_module_fw_info] returns, without its ['info'] text. *)
Record fw_info := { fw_status : bool; result : fw_result }.

(** ['%d.%d.%d' % (rpl[i], rpl[i+1], (rpl[i+2] << 8) | rpl[i+3])] *)
Definition image_version (rpl : list Z) (i : Z) : res string :=
  res_bind (seq_index rpl i) (fun a =>
  res_bind (seq_index rpl (i + 1)) (fun b =>
  res_bind (seq_index rpl (i + 2)) (fun hi =>
  res_bind (seq_index rpl (i + 3)) (fun lo =>
  Ok (pretty a ++ "." ++ pretty b ++ "." ++ pretty (Z.lor (Z.shiftl hi 8) lo))))))%string.

(** [self.get_module_inactive_firmware() + ".0"] *)
Definition inactive_from_eeprom : M string :=
  let* v := get_module_inactive_firmware in
  match v with
  | VStr s => ret (s ++ ".0")%string
  | _ => raise TypeError
  end.

Definition get_module_fw_info : M fw_info :=
  let* no_cdb := cdb_is_none in
  if no_cdb then ret {| fw_status := false; result := ResultNone |} else
  let* result := cdb_call get_fw_info in
  (* Interface NACK or timeout *)
  if bool_decide (rpllen result = None) || bool_decide (rpl_chkcode result = None)
  then ret {| fw_status := false; result := ResultZero |} else
  (* password issue *)
  let* result :=
    if status result =? 70 (* 0x46 *)
    then run cdb_call (module_enter_password (Some 0)) then cdb_call get_fw_info
    else ret result in
  let* chk := if status result =? 1 then chkcode_matches result else ret false in
  if chk then
    let* fwStatus := lift (seq_index (rpl result) 0) in
    let ImageARunning := Z.land fwStatus 1 in
    let ImageACommitted := Z.land (Z.shiftr fwStatus 1) 1 in
    let ImageAValid := Z.land (Z.shiftr fwStatus 2) 1 in
    let ImageBRunning := Z.land (Z.shiftr fwStatus 4) 1 in
    let ImageBCommitted := Z.land (Z.shiftr fwStatus 5) 1 in
    let ImageBValid := Z.land (Z.shiftr fwStatus 6) 1 in
    let* ImageA := if ImageAValid =? 0 then lift (image_version (rpl result) 2)
                   else ret "N/A"%string in
    let* ImageB := if ImageBValid =? 0 then lift (image_version (rpl result) 38)
                   else ret "N/A"%string in
    run match rpllen result with
        | None => raise TypeError               (* [None > 77] *)
        | Some n => if 77 <? n
                    then run lift (image_version (rpl result) 74) then ret tt
                    else ret tt
        end then
    let* '(ActiveFirmware, InactiveFirmware) :=
      if ImageARunning =? 1 then
        let* inactive := if ImageBValid =? 0 then ret ImageB else inactive_from_eeprom in
        ret (ImageA, inactive)
      else if ImageBRunning =? 1 then
        let* inactive := if ImageAValid =? 0 then ret ImageA else inactive_from_eeprom in
        ret (ImageB, inactive)
      else ret ("N/A", "N/A")%string in
    ret {| fw_status := true;
           result := ResultTuple ImageA ImageARunning ImageACommitted ImageAValid
                                    ImageB ImageBRunning ImageBCommitted ImageBValid
                                    ActiveFirmware InactiveFirmware |}
  else ret {| fw_status := false; result := ResultNone |}.

Definition module_fw_run (mode : Z) : M bool :=
  let* no_cdb := cdb_is_none in
  if no_cdb then ret false else
  let* r := cdb_call (run_fw_image mode) in
  let fw_run_status := status r in
  if fw_run_status =? 1 then ret true
  (* password issue *)
  else if fw_run_status =? 70 then
    run cdb_call (module_enter_password None) then
    let* r := cdb_call (run_fw_image mode) in
    ret true
  else ret false.

Definition module_fw_commit : M bool :=
  let* no_cdb := cdb_is_none in
  if no_cdb then ret false else
  let* r := cdb_call commit_fw_image in
  let fw_commit_status := status r in
  if fw_commit_status =? 1 then ret true
  (* password issue *)
  else if fw_commit_status =? 70 then
    run cdb_call (module_enter_password None) then
    let* r := cdb_call commit_fw_image in
    ret true
  else ret false.

(** [f.read(n)] on the rest of the file: the bytes read and what is left;
    a negative [n] reads to the end. *)
Definition file_read (rest : list Z) (n : Z) : list Z * list Z :=
  if n <? 0 then (rest, []) else (take (Z.to_nat n) rest, drop (Z.to_nat n) rest).

(** The loop [while remaining > 0] of [module_fw_download].  [fuel] bounds
    the number of turns; [None] is returned when it runs out before the
    loop ends.  [Some true] is normal exit, [Some false] the
    [return False, txt] inside the loop. *)
Fixpoint download_loop (fuel : nat) (BLOCK_SIZE imagesize : Z) (lplonly_flag autopaging_flag : bool)
    (writelength : Z) (f : list Z) (address remaining : Z) : M (option bool) :=
  if remaining <=? 0 then ret (Some true) else
  match fuel with
  | O => ret None
  | S fuel' =>
      let count := if remaining <? BLOCK_SIZE then remaining else BLOCK_SIZE in
      let '(data, f) := file_read f count in
      let* r := if lplonly_flag
                then cdb_call (block_write_lpl address data)
                else cdb_call (block_write_epl address data autopaging_flag writelength) in
      let fw_download_status := status r in
      if negb (fw_download_status =? 1) then
        run cdb_call abort_fw_download then ret (Some false)
      else
        let address := address + count in
        let remaining := remaining - count in
        (* progress = (imagesize - remaining) * 100.0 / imagesize *)
        if imagesize =? 0 then raise ZeroDivisionError else
        download_loop fuel' BLOCK_SIZE imagesize lplonly_flag autopaging_flag writelength
          f address remaining
  end.

(** [image] is what [open(imagepath, 'rb')] yields: the bytes of the file,
    or [None] for [FileNotFoundError]. *)
Definition module_fw_download (fuel : nat) (startLPLsize maxblocksize : Z)
    (lplonly_flag autopaging_flag : bool) (writelength : Z) (image : option (list Z))
  : M (option bool) :=
  let* no_cdb := cdb_is_none in
  if no_cdb then ret (Some false) else
  match image with
  | None => ret (Some false)
  | Some bytes =>
      let imagesize := Z.of_nat (length bytes) in
      let '(startdata, f) := file_read bytes startLPLsize in
      let* r := cdb_call (start_fw_download startLPLsize startdata imagesize) in
      let fw_start_status := status r in
      let* started :=
        if fw_start_status =? 1 then ret true
        (* password error *)
        else if fw_start_status =? 70 then
          run cdb_call (module_enter_password None) then
          run cdb_call (start_fw_download startLPLsize startdata imagesize) then
          ret true
        else
          run cdb_call abort_fw_download then ret false in
      if negb started then ret (Some false) else
      let BLOCK_SIZE := if lplonly_flag then 116 else maxblocksize in
      let address := 0 in
      let remaining := imagesize - startLPLsize in
      let* looped := download_loop fuel BLOCK_SIZE imagesize lplonly_flag autopaging_flag
                       writelength f address remaining in
      match looped with
      | None => ret None
      | Some false => ret (Some false)
      | Some true =>
          (* complete FW download (CMD 0107h) *)
          let* r := cdb_call validate_fw_image in
          let fw_complete_status := status r in
          if fw_complete_status =? 1 then ret (Some true) else ret (Some false)
      end
  end.

(** A result that is not the ten-tuple fails to unpack ([TypeError], also
    for [0], which is not iterable). *)
Definition unpack10 (r : fw_result)
  : res (string * Z * Z * Z * string * Z * Z * Z) :=
  match r with
  | ResultTuple a ar ac av b br bc bv _ _ => Ok (a, ar, ac, av, b, br, bc, bv)
  | _ => Raise TypeError
  end.

Definition module_fw_switch : M bool :=
  let* info := get_module_fw_info in
  match unpack10 (result info) with
  | Raise _ => ret (fw_status info)       (* except (ValueError, TypeError) *)
  | Ok (ImageA_init, ImageARunning_init, ImageACommitted_init, ImageAValid_init,
        ImageB_init, ImageBRunning_init, ImageBCommitted_init, ImageBValid_init) =>
      if (ImageAValid_init =? 0) && (ImageBValid_init =? 0) then
        run module_fw_run 1 then
        (* time.sleep(60) *)
        run module_fw_commit then
        let* after := get_module_fw_info in
        let* '(ImageA, ImageARunning, ImageACommitted, ImageAValid,
               ImageB, ImageBRunning, ImageBCommitted, ImageBValid) :=
          lift (unpack10 (result after)) in
        (* detect if image switch happened *)
        if ((ImageARunning_init =? 1) && (ImageARunning =? 1))
           || ((ImageBRunning_init =? 1) && (ImageBRunning =? 1))
        then ret false
        else ret true
      else ret false
  end.

End Driver.


(** ** Further methods of [CmisApi]: lane controls, application
    selection and signal-integrity staging *)

(** Further identifiers of [fields/consts.py]. *)
Inductive cname_more :=
| TX_DISABLE_SUPPORT_FIELD | TX_DISABLE_FIELD
| RX_DISABLE_SUPPORT_FIELD | RX_DISABLE_FIELD
| TX_POWER_SUPPORT_FIELD | TX_POWER_FIELD
| RX_POWER_SUPPORT_FIELD | RX_POWER_FIELD
| STAGED_CTRL_APSEL_FIELD | STAGED_CTRL_APPLY_DPINIT_FIELD
| DATA_PATH_STATE | CONFIG_LANE_STATUS
| RX_OUTPUT_LEVEL_SUPPORT | RX_OUTPUT_EQ_PRE_CURSOR_MAX
| RX_OUTPUT_EQ_POST_CURSOR_MAX | TX_INPUT_EQ_MAX
| OUTPUT_EQ_PRE_CURSOR_TARGET_RX | OUTPUT_EQ_POST_CURSOR_TARGET_RX
| OUTPUT_AMPLITUDE_TARGET_RX | FIXED_INPUT_EQ_TARGET_TX
| ADAPTIVE_INPUT_EQ_RECALLED_TX | ADAPTIVE_INPUT_EQ_ENABLE_TX
| CDR_ENABLE_TX | CDR_ENABLE_RX.

Record Env_more := {
  (** [consts.NAME] for the further identifiers *)
  consts_more : cname_more -> string;
  (** [a > b] for two lists, which compares their elements in turn *)
  list_gt : list pyval -> list pyval -> res bool
}.

Section More.

Variable E : Env.
Variable X : Env_more.

Notation "'c.' N" := (consts E N) (at level 1, N at level 0, format "'c.' N").
Notation "'cm.' N" := (consts_more X N) (at level 1, N at level 0, format "'cm.' N").

(** [a > b]: numbers compare by value, strings by code points, lists
    element by element; [None], dictionaries and mixed operands raise
    [TypeError]. *)
Definition py_gt (a b : pyval) : res bool :=
  match a, b with
  | (VInt _ | VBool _ | VFloat _), (VInt _ | VBool _ | VFloat _) =>
      res_bind (as_num a) (fun x => res_bind (as_num b) (fun y =>
      Ok (negb (Qle_bool x y))))
  | VStr s, VStr t => Ok (String.ltb t s)
  | VList l, VList m => list_gt X l m
  | _, _ => Raise TypeError
  end.

(** [[bool(v & (1 << i)) for i in range(self.NUM_CHANNELS)]] *)
Definition lane_bits (v : pyval) : res pyval :=
  res_bind (as_int v) (fun x =>
  Ok (VList ((fun i => VBool (negb (Z.land x (Z.shiftl 1 i) =? 0)))
               <$> range 0 NUM_CHANNELS))).

(** *** TX and RX disable *)

Definition get_tx_disable_support : M pyval :=
  read_only_cached_api_return "get_tx_disable_support"
    (let* fl := flat E in
     if fl then ret (VBool false) else read cm.TX_DISABLE_SUPPORT_FIELD).

Definition get_tx_disable : M pyval :=
  let* tx_disable_support := get_tx_disable_support in
  if is_none tx_disable_support then ret VNone else
  if negb (truthy tx_disable_support) then ret na_list else
  let* tx_disable := read cm.TX_DISABLE_FIELD in
  if is_none tx_disable then ret VNone else
  lift (lane_bits tx_disable).

Definition tx_disable (tx_disable : bool) : M bool :=
  let val := if tx_disable then 255 else 0 in
  write cm.TX_DISABLE_FIELD (VInt val).

Definition get_tx_disable_channel : M pyval :=
  let* tx_disable_support := get_tx_disable_support in
  if is_none tx_disable_support then ret VNone else
  if negb (truthy tx_disable_support) then ret NA else
  read cm.TX_DISABLE_FIELD.

(** The loop [for i in range(self.NUM_CHANNELS)] of [tx_disable_channel]
    and [rx_disable_channel]. *)
Fixpoint disable_loop (disable : bool) (channel : Z) (lanes : list Z)
    (channel_state : pyval) : res pyval :=
  match lanes with
  | [] => Ok channel_state
  | i :: lanes' =>
      let mask := Z.shiftl 1 i in
      if Z.land channel mask =? 0
      then disable_loop disable channel lanes' channel_state
      else
        res_bind (as_int channel_state) (fun st =>
        disable_loop disable channel lanes'
          (VInt (if disable
                 then Z.lor st mask                  (* channel_state |= mask *)
                 else Z.land st (Z.lnot mask))))     (* channel_state &= ~mask *)
  end.

Definition tx_disable_channel (channel : Z) (disable : bool) : M bool :=
  let* channel_state := get_tx_disable_channel in
  if is_none channel_state || str_eq channel_state "N/A" then ret false else
  let* channel_state :=
    lift (disable_loop disable channel (range 0 NUM_CHANNELS) channel_state) in
  write cm.TX_DISABLE_FIELD channel_state.

Definition get_rx_disable_support : M pyval :=
  let* fl := flat E in
  if fl then ret (VBool false) else read cm.RX_DISABLE_SUPPORT_FIELD.

Definition get_rx_disable : M pyval :=
  let* rx_disable_support := get_rx_disable_support in
  if is_none rx_disable_support then ret VNone else
  if negb (truthy rx_disable_support) then ret na_list else
  let* rx_disable := read cm.RX_DISABLE_FIELD in
  if is_none rx_disable then ret VNone else
  lift (lane_bits rx_disable).

Definition rx_disable (rx_disable : bool) : M bool :=
  let val := if rx_disable then 255 else 0 in
  write cm.RX_DISABLE_FIELD (VInt val).

Definition get_rx_disable_channel : M pyval :=
  let* rx_disable_support := get_rx_disable_support in
  if is_none rx_disable_support then ret VNone else
  if negb (truthy rx_disable_support) then ret NA else
  read cm.RX_DISABLE_FIELD.

Definition rx_disable_channel (channel : Z) (disable : bool) : M bool :=
  let* channel_state := get_rx_disable_channel in
  if is_none channel_state || str_eq channel_state "N/A" then ret false else
  let* channel_state :=
    lift (disable_loop disable channel (range 0 NUM_CHANNELS) channel_state) in
  write cm.RX_DISABLE_FIELD channel_state.

(** *** TX and RX power *)

Definition get_tx_power_support : M pyval :=
  let* fl := flat E in
  if fl then ret (VBool false) else read cm.TX_POWER_SUPPORT_FIELD.

Definition get_rx_power_support : M pyval :=
  let* fl := flat E in
  if fl then ret (VBool false) else read cm.RX_POWER_SUPPORT_FIELD.

(** The body [get_tx_power] and [get_rx_power] share: [support] is the
    support getter, [field] the register group and [key] the prefix of
    its per-lane keys. *)
Definition get_power (support : M pyval) (field key : string) : M pyval :=
  let* power_support := support in
  if negb (truthy power_support) then ret na_list else
  let* power := read field in
  if is_none power then ret power else
  let* l := lift (res_mapM (fun i => getitem power (KStr (key +:+ pretty i +:+ "Field")))
                    (range 1 (NUM_CHANNELS + 1))) in
  ret (VList l).

Definition get_tx_power : M pyval :=
  get_power get_tx_power_support cm.TX_POWER_FIELD "OpticalPowerTx".

Definition get_rx_power : M pyval :=
  get_power get_rx_power_support cm.RX_POWER_FIELD "OpticalPowerRx".

(** *** Datapath state and application selection *)

Definition get_datapath_deinit : M pyval :=
  let* datapath_deinit := read c.DATAPATH_DEINIT_FIELD in
  if is_none datapath_deinit then ret VNone else
  lift (lane_bits datapath_deinit).

Definition get_datapath_state : M pyval := read cm.DATA_PATH_STATE.

Definition get_config_datapath_hostlane_status : M pyval := read cm.CONFIG_LANE_STATUS.

(** ["{}_{}_{}".format(consts.STAGED_CTRL_APSEL_FIELD, 0, lane + 1)] *)
Definition apsel_field (lane : Z) : string :=
  cm.STAGED_CTRL_APSEL_FIELD +:+ "_" +:+ pretty 0 +:+ "_" +:+ pretty (lane + 1).

Definition get_application (lane : Z) : M Z :=
  let* appl :=
    if bool_decide (lane ∈ range 0 NUM_CHANNELS) then
      let* fl := flat E in
      if negb fl then
        let* v := read (apsel_field lane) in
        let* x := lift (as_int v) in
        ret (Z.shiftr x 4)
      else ret 0
    else ret 0 in
  ret (Z.land appl 15).

(** The loop of [set_application]; [lane_first] is [-1] until the first
    selected lane is met.  The result of [write] is not looked at. *)
Fixpoint set_application_loop (channel appl_code ec : Z) (lanes : list Z) (lane_first : Z)
  : M unit :=
  match lanes with
  | [] => ret tt
  | lane :: lanes' =>
      if Z.land (Z.shiftl 1 lane) channel =? 0
      then set_application_loop channel appl_code ec lanes' lane_first
      else
        let lane_first := if lane_first <? 0 then lane else lane_first in
        let addr := apsel_field lane in
        let data := Z.lor (Z.shiftl appl_code 4) (Z.shiftl lane_first 1) in
        (* set EC bit *)
        let data := Z.lor data ec in
        run write addr (VInt data) then
        set_application_loop channel appl_code ec lanes' lane_first
  end.

Definition set_application (channel appl_code ec : Z) : M unit :=
  set_application_loop channel appl_code ec (range 0 NUM_CHANNELS) (-1).

Definition scs_apply_datapath_init (channel : Z) : M bool :=
  write (cm.STAGED_CTRL_APPLY_DPINIT_FIELD +:+ "_" +:+ pretty 0) (VInt channel).

(** The loop [for lane in range(self.NUM_CHANNELS)] that ends
    [decommission_all_datapaths]. *)
Fixpoint decommission_check (dp_state config_state : pyval) (lanes : list Z) : res bool :=
  match lanes with
  | [] => Ok true
  | lane :: lanes' =>
      res_bind (getitem dp_state (KStr ("DP" +:+ pretty (lane + 1) +:+ "State"))) (fun dp =>
      if negb (str_eq dp "DataPathDeactivated") then Ok false else
      res_bind (getitem config_state (KStr ("ConfigStatusLane" +:+ pretty (lane + 1))))
        (fun cfg =>
      if negb (str_eq cfg "ConfigSuccess") then Ok false else
      decommission_check dp_state config_state lanes'))
  end.

Definition decommission_all_datapaths : M bool :=
  (* De-init all datpaths *)
  run set_datapath_deinit E (Z.shiftl 1 NUM_CHANNELS - 1) then
  (* Decommision all lanes by apply AppSel=0 *)
  run set_application (Z.shiftl 1 NUM_CHANNELS - 1) 0 0 then
  (* Start with AppSel=0 i.e undo any default AppSel *)
  run scs_apply_datapath_init (Z.shiftl 1 NUM_CHANNELS - 1) then
  let* dp_state := get_datapath_state in
  let* config_state := get_config_datapath_hostlane_status in
  lift (decommission_check dp_state config_state (range 0 NUM_CHANNELS)).

(** *** Signal-integrity staging *)

Definition get_rx_output_amp_max_val : M pyval := read cm.RX_OUTPUT_LEVEL_SUPPORT.

Definition get_rx_output_eq_pre_max_val : M pyval := read cm.RX_OUTPUT_EQ_PRE_CURSOR_MAX.

Definition get_rx_output_eq_post_max_val : M pyval := read cm.RX_OUTPUT_EQ_POST_CURSOR_MAX.

Definition get_tx_input_eq_max_val : M pyval := read cm.TX_INPUT_EQ_MAX.

(** The per-lane loop that [scs_lane_write] and the four bounded staging
    methods each write out: [refuse] is the test that makes the method
    return [False] before writing the lane's value. *)
Fixpoint si_lane_loop (refuse : pyval -> res bool) (si_param : string)
    (host_lanes_mask : Z) (si_settings_dict : pyval) (lanes : list Z) : M bool :=
  match lanes with
  | [] => ret true
  | lane :: lanes' =>
      if Z.land (Z.shiftl 1 lane) host_lanes_mask =? 0
      then si_lane_loop refuse si_param host_lanes_mask si_settings_dict lanes'
      else
        let lane := lane + 1 in
        let si_param_lane := si_param +:+ pretty lane in
        let* si_param_lane_val := lift (getitem si_settings_dict (KStr si_param_lane)) in
        let* refused := lift (refuse si_param_lane_val) in
        if refused then ret false else
        let* written := write si_param_lane si_param_lane_val in
        if negb written then ret false else
        si_lane_loop refuse si_param host_lanes_mask si_settings_dict lanes'
  end.

(** [si_param_lane_val is None] *)
Definition refuse_none (v : pyval) : res bool := Ok (is_none v).

(** [si_param_lane_val is None or si_param_lane_val > max_val] *)
Definition refuse_above (max_val v : pyval) : res bool :=
  if is_none v then Ok true else py_gt v max_val.

Definition scs_lane_write (si_param : string) (host_lanes_mask : Z)
    (si_settings_dict : pyval) : M bool :=
  si_lane_loop refuse_none si_param host_lanes_mask si_settings_dict (range 0 NUM_CHANNELS).

(** The body the four bounded staging methods share: the getter of the
    advertised maximum and the parameter name. *)
Definition stage_bounded (max_val : M pyval) (si_param : string) (host_lanes_mask : Z)
    (si_settings_dict : pyval) : M bool :=
  let* max_val := max_val in
  if is_none max_val then ret false else
  si_lane_loop (refuse_above max_val) si_param host_lanes_mask si_settings_dict
    (range 0 NUM_CHANNELS).

Definition stage_output_eq_pre_cursor_target_rx : Z -> pyval -> M bool :=
  stage_bounded get_rx_output_eq_pre_max_val cm.OUTPUT_EQ_PRE_CURSOR_TARGET_RX.

Definition stage_output_eq_post_cursor_target_rx : Z -> pyval -> M bool :=
  stage_bounded get_rx_output_eq_post_max_val cm.OUTPUT_EQ_POST_CURSOR_TARGET_RX.

Definition stage_output_amp_target_rx : Z -> pyval -> M bool :=
  stage_bounded get_rx_output_amp_max_val cm.OUTPUT_AMPLITUDE_TARGET_RX.

Definition stage_fixed_input_target_tx : Z -> pyval -> M bool :=
  stage_bounded get_tx_input_eq_max_val cm.FIXED_INPUT_EQ_TARGET_TX.

(** The recall, enable and CDR staging methods: [si_settings_dict is None]
    is refused, everything else goes to [scs_lane_write]. *)
Definition stage_unbounded (si_param : string) (host_lanes_mask : Z)
    (si_settings_dict : pyval) : M bool :=
  if is_none si_settings_dict then ret false else
  scs_lane_write si_param host_lanes_mask si_settings_dict.

Definition stage_adaptive_input_eq_recall_tx : Z -> pyval -> M bool :=
  stage_unbounded cm.ADAPTIVE_INPUT_EQ_RECALLED_TX.

Definition stage_adaptive_input_eq_enable_tx : Z -> pyval -> M bool :=
  stage_unbounded cm.ADAPTIVE_INPUT_EQ_ENABLE_TX.

Definition stage_cdr_tx : Z -> pyval -> M bool := stage_unbounded cm.CDR_ENABLE_TX.

Definition stage_cdr_rx : Z -> pyval -> M bool := stage_unbounded cm.CDR_ENABLE_RX.

(** *** Loopback mode *)

Definition loopback_functions : gmap string (Z -> bool -> M bool) :=
  list_to_map
    [ ("host-side-input", set_host_input_loopback E);
      ("host-side-output", set_host_output_loopback E);
      ("media-side-input", set_media_input_loopback E);
      ("media-side-output", set_media_output_loopback E) ].

(** [all([...])]: the four calls are made to build the list, then [all]
    looks at their results. *)
Definition set_loopback_mode (loopback_mode : string) (lane_mask : Z) (enable : bool)
  : M bool :=
  if String.eqb loopback_mode "none" then
    let* r1 := set_host_input_loopback E 255 false in
    let* r2 := set_host_output_loopback E 255 false in
    let* r3 := set_media_input_loopback E 255 false in
    let* r4 := set_media_output_loopback E 255 false in
    ret (forallb id [r1; r2; r3; r4])
  else
    match loopback_functions !! loopback_mode with
    | Some func => func lane_mask enable
    | None => ret false
    end.

End More.
(** ** A concrete environment for the worked examples

    The strings of [fields/consts.py] are not part of this file of the
    repository; the examples spell each constant like its identifier.  The
    float builtins cover what the examples use: integral strings for
    [float], a fraction for [str]. *)

Definition example_consts (n : cname) : string :=
  match n with
  | FLAT_MEM_FIELD => "FLAT_MEM_FIELD"
  | VENDOR_REV_FIELD => "VENDOR_REV_FIELD"
  | HW_MAJOR_REV => "HW_MAJOR_REV"
  | HW_MINOR_REV => "HW_MINOR_REV"
  | CMIS_MAJOR_REVISION => "CMIS_MAJOR_REVISION"
  | CMIS_MINOR_REVISION => "CMIS_MINOR_REVISION"
  | INACTIVE_FW_MAJOR_REV => "INACTIVE_FW_MAJOR_REV"
  | INACTIVE_FW_MINOR_REV => "INACTIVE_FW_MINOR_REV"
  | ADMIN_INFO_FIELD => "ADMIN_INFO_FIELD"
  | EXT_ID_FIELD => "EXT_ID_FIELD"
  | POWER_CLASS_FIELD => "POWER_CLASS_FIELD"
  | MAX_POWER_FIELD => "MAX_POWER_FIELD"
  | ID_FIELD => "ID_FIELD"
  | ID_ABBRV_FIELD => "ID_ABBRV_FIELD"
  | VENDOR_SERIAL_NO_FIELD => "VENDOR_SERIAL_NO_FIELD"
  | VENDOR_NAME_FIELD => "VENDOR_NAME_FIELD"
  | VENDOR_PART_NO_FIELD => "VENDOR_PART_NO_FIELD"
  | CONNECTOR_FIELD => "CONNECTOR_FIELD"
  | LENGTH_ASSEMBLY_FIELD => "LENGTH_ASSEMBLY_FIELD"
  | VENDOR_DATE_FIELD => "VENDOR_DATE_FIELD"
  | VENDOR_OUI_FIELD => "VENDOR_OUI_FIELD"
  | THRESHOLDS_FIELD => "THRESHOLDS_FIELD"
  | TX_BIAS_SCALE => "TX_BIAS_SCALE"
  | TEMP_HIGH_ALARM_FIELD => "TEMP_HIGH_ALARM_FIELD"
  | TEMP_LOW_ALARM_FIELD => "TEMP_LOW_ALARM_FIELD"
  | TEMP_HIGH_WARNING_FIELD => "TEMP_HIGH_WARNING_FIELD"
  | TEMP_LOW_WARNING_FIELD => "TEMP_LOW_WARNING_FIELD"
  | VOLTAGE_HIGH_ALARM_FIELD => "VOLTAGE_HIGH_ALARM_FIELD"
  | VOLTAGE_LOW_ALARM_FIELD => "VOLTAGE_LOW_ALARM_FIELD"
  | VOLTAGE_HIGH_WARNING_FIELD => "VOLTAGE_HIGH_WARNING_FIELD"
  | VOLTAGE_LOW_WARNING_FIELD => "VOLTAGE_LOW_WARNING_FIELD"
  | RX_POWER_HIGH_ALARM_FIELD => "RX_POWER_HIGH_ALARM_FIELD"
  | RX_POWER_LOW_ALARM_FIELD => "RX_POWER_LOW_ALARM_FIELD"
  | RX_POWER_HIGH_WARNING_FIELD => "RX_POWER_HIGH_WARNING_FIELD"
  | RX_POWER_LOW_WARNING_FIELD => "RX_POWER_LOW_WARNING_FIELD"
  | TX_POWER_HIGH_ALARM_FIELD => "TX_POWER_HIGH_ALARM_FIELD"
  | TX_POWER_LOW_ALARM_FIELD => "TX_POWER_LOW_ALARM_FIELD"
  | TX_POWER_HIGH_WARNING_FIELD => "TX_POWER_HIGH_WARNING_FIELD"
  | TX_POWER_LOW_WARNING_FIELD => "TX_POWER_LOW_WARNING_FIELD"
  | TX_BIAS_HIGH_ALARM_FIELD => "TX_BIAS_HIGH_ALARM_FIELD"
  | TX_BIAS_LOW_ALARM_FIELD => "TX_BIAS_LOW_ALARM_FIELD"
  | TX_BIAS_HIGH_WARNING_FIELD => "TX_BIAS_HIGH_WARNING_FIELD"
  | TX_BIAS_LOW_WARNING_FIELD => "TX_BIAS_LOW_WARNING_FIELD"
  | TEMPERATURE_FIELD => "TEMPERATURE_FIELD"
  | VOLTAGE_FIELD => "VOLTAGE_FIELD"
  | TX_BIAS_SUPPORT_FIELD => "TX_BIAS_SUPPORT_FIELD"
  | TX_BIAS_FIELD => "TX_BIAS_FIELD"
  | MEDIA_TYPE_FIELD => "MEDIA_TYPE_FIELD"
  | HOST_ELECTRICAL_INTERFACE => "HOST_ELECTRICAL_INTERFACE"
  | MODULE_MEDIA_INTERFACE_850NM => "MODULE_MEDIA_INTERFACE_850NM"
  | MODULE_MEDIA_INTERFACE_SM => "MODULE_MEDIA_INTERFACE_SM"
  | MODULE_MEDIA_INTERFACE_PASSIVE_COPPER => "MODULE_MEDIA_INTERFACE_PASSIVE_COPPER"
  | MODULE_MEDIA_INTERFACE_ACTIVE_CABLE => "MODULE_MEDIA_INTERFACE_ACTIVE_CABLE"
  | MODULE_MEDIA_INTERFACE_BASE_T => "MODULE_MEDIA_INTERFACE_BASE_T"
  | DP_PATH_INIT_DURATION => "DP_PATH_INIT_DURATION"
  | HOST_LANE_COUNT => "HOST_LANE_COUNT"
  | MEDIA_LANE_COUNT => "MEDIA_LANE_COUNT"
  | MEDIA_INTERFACE_TECH => "MEDIA_INTERFACE_TECH"
  | HOST_LANE_ASSIGNMENT_OPTION => "HOST_LANE_ASSIGNMENT_OPTION"
  | MEDIA_LANE_ASSIGNMENT_OPTION => "MEDIA_LANE_ASSIGNMENT_OPTION"
  | ACTIVE_APSEL_CODE => "ACTIVE_APSEL_CODE"
  | ACTIVE_APSEL_HOSTLANE => "ACTIVE_APSEL_HOSTLANE"
  | AUX_MON_TYPE => "AUX_MON_TYPE"
  | AUX2_MON => "AUX2_MON"
  | AUX2_HIGH_ALARM => "AUX2_HIGH_ALARM"
  | AUX2_LOW_ALARM => "AUX2_LOW_ALARM"
  | AUX2_HIGH_WARN => "AUX2_HIGH_WARN"
  | AUX2_LOW_WARN => "AUX2_LOW_WARN"
  | AUX3_MON => "AUX3_MON"
  | AUX3_HIGH_ALARM => "AUX3_HIGH_ALARM"
  | AUX3_LOW_ALARM => "AUX3_LOW_ALARM"
  | AUX3_HIGH_WARN => "AUX3_HIGH_WARN"
  | AUX3_LOW_WARN => "AUX3_LOW_WARN"
  | LOOPBACK_CAPABILITY => "LOOPBACK_CAPABILITY"
  | MEDIA_INPUT_LOOPBACK => "MEDIA_INPUT_LOOPBACK"
  | MEDIA_OUTPUT_LOOPBACK => "MEDIA_OUTPUT_LOOPBACK"
  | HOST_INPUT_LOOPBACK => "HOST_INPUT_LOOPBACK"
  | HOST_OUTPUT_LOOPBACK => "HOST_OUTPUT_LOOPBACK"
  | VDM_SUPPORTED => "VDM_SUPPORTED"
  | DATAPATH_DEINIT_FIELD => "DATAPATH_DEINIT_FIELD"
  | APPLS_ADVT_FIELD => "APPLS_ADVT_FIELD"
  | APPLS_ADVT_FIELD_PAGE01 => "APPLS_ADVT_FIELD_PAGE01"
  end.

Definition digit_of (a : ascii) : option Z :=
  let n := Z.of_nat (nat_of_ascii a) in
  if (48 <=? n) && (n <=? 57) then Some (n - 48) else None.

Fixpoint digits_value (acc : Z) (s : string) : option Z :=
  match s with
  | EmptyString => Some acc
  | String a s' =>
      match digit_of a with
      | Some d => digits_value (10 * acc + d) s'
      | None => None
      end
  end.

Definition example_float_of_str (s : string) : option Q :=
  match s with
  | EmptyString => None
  | _ => inject_Z <$> digits_value 0 s
  end.

Definition example_env : Env :=
  {| consts := example_consts;
     MODULE_MEDIA_TYPE := fun i =>
       match i with
       | 1 => "nm_850_media_interface"
       | 2 => "sm_media_interface"
       | 3 => "passive_copper_media_interface"
       | 4 => "active_cable_media_interface"
       | 5 => "base_t_media_interface"
       | _ => "undefined"
       end;
     mw_to_dbm := fun v => res_bind (as_num v) (fun q => Ok (VFloat q));
     str_float := fun q => pretty (Qnum q) +:+ "/" +:+ pretty (Z.pos (Qden q));
     str_container := fun _ => "{...}";
     float_of_str := example_float_of_str;
     pow2_float := fun _ => 1%Q;
     update_from_list := fun _ _ => Raise TypeError |}.

(** An eeprom with the given decoded contents, every field writable, and
    no write made yet. *)
Definition eeprom_of (contents : list (string * pyval)) : eeprom :=
  {| mem := list_to_map contents; writable := fun _ => true; wlog := [] |}.

(** An instance around the given register contents, with no VDM or CDB
    collaborator and nothing memoised. *)
Definition api_of (contents : list (string * pyval)) : CmisApi :=
  {| xcvr_eeprom := eeprom_of contents; vdm := None; cdb := None; cache := ∅ |}.

(** Registers of a module whose CMIS major revision is [major] and whose
    datapath-deinit register holds [data]. *)
Definition datapath_example (major data : Z) : CmisApi :=
  api_of [ (example_consts CMIS_MAJOR_REVISION, VInt major);
           (example_consts DATAPATH_DEINIT_FIELD, VInt data) ].

(** A VDM collaborator answering every page request with [raw]. *)
Definition vdm_of (raw : pyval) : CmisVdmApi :=
  {| ALL_FIELD := 0; VDM_REAL_VALUE := 1; VDM_THRESHOLD := 2; VDM_FLAG := 3;
     get_vdm_allpage := fun _ => raw |}.

(** A CDB collaborator answering from a script: the [n]-th command it
    receives is answered by the [n]-th reply, [last] when the script is
    used up. *)
Definition cdb_of (script : list cdb_reply) (last : cdb_reply) : CmisCdbApi :=
  {| cdb_answer := fun log _ => default last (script !! length log);
     cdb_chkcode := fun payload => foldr Z.add 0 payload;
     cdb_log := [] |}.

Definition reply_status (st : Z) : cdb_reply :=
  {| status := st; rpllen := None; rpl_chkcode := None; rpl := [] |}.

(** Registers of a paged module that advertises [raw] as its
    datapath-init duration. *)
Definition duration_example (raw : pyval) : CmisApi :=
  api_of [ (example_consts FLAT_MEM_FIELD, VBool false);
           (example_consts DP_PATH_INIT_DURATION, raw) ].

(** Registers of a paged module whose loopback capability byte is [cap]
    and whose four loopback registers are clear. *)
Definition loopback_example (cap : Z) : CmisApi :=
  api_of [ (example_consts FLAT_MEM_FIELD, VBool false);
           (example_consts LOOPBACK_CAPABILITY, VInt cap);
           (example_consts HOST_INPUT_LOOPBACK, VInt 0);
           (example_consts HOST_OUTPUT_LOOPBACK, VInt 0);
           (example_consts MEDIA_INPUT_LOOPBACK, VInt 0);
           (example_consts MEDIA_OUTPUT_LOOPBACK, VInt 0) ].

(** [{k1: v1, ...}] with string keys *)
Definition dict (entries : list (string * pyval)) : pyval :=
  VDict (list_to_map ((fun kv => (KStr kv.1, kv.2)) <$> entries)).

(** Registers of a paged module that supports TX bias monitoring, with raw
    scale exponent [scale_raw], the same raw bias [bias] on every lane and
    the same raw value [thresh] for every threshold. *)
Definition bias_example (scale_raw : Z) (bias thresh : pyval) : CmisApi :=
  api_of [ (example_consts FLAT_MEM_FIELD, VBool false);
           (example_consts TX_BIAS_SUPPORT_FIELD, VBool true);
           (example_consts TX_BIAS_SCALE, VInt scale_raw);
           (example_consts TX_BIAS_FIELD,
             dict ((fun i => ("LaserBiasTx" +:+ pretty i +:+ "Field", bias)) <$> range 1 9));
           (example_consts THRESHOLDS_FIELD,
             dict ((fun f => (example_consts f, thresh)) <$>
                   [ TEMP_HIGH_ALARM_FIELD; TEMP_LOW_ALARM_FIELD;
                     TEMP_HIGH_WARNING_FIELD; TEMP_LOW_WARNING_FIELD;
                     VOLTAGE_HIGH_ALARM_FIELD; VOLTAGE_LOW_ALARM_FIELD;
                     VOLTAGE_HIGH_WARNING_FIELD; VOLTAGE_LOW_WARNING_FIELD;
                     RX_POWER_HIGH_ALARM_FIELD; RX_POWER_LOW_ALARM_FIELD;
                     RX_POWER_HIGH_WARNING_FIELD; RX_POWER_LOW_WARNING_FIELD;
                     TX_POWER_HIGH_ALARM_FIELD; TX_POWER_LOW_ALARM_FIELD;
                     TX_POWER_HIGH_WARNING_FIELD; TX_POWER_LOW_WARNING_FIELD;
                     TX_BIAS_HIGH_ALARM_FIELD; TX_BIAS_LOW_ALARM_FIELD;
                     TX_BIAS_HIGH_WARNING_FIELD; TX_BIAS_LOW_WARNING_FIELD ])) ].



(** An instance with the scripted CDB collaborator and no registers. *)
Definition cdb_example (script : list Z) : CmisApi :=
  {| xcvr_eeprom := eeprom_of [];
     vdm := None;
     cdb := Some (cdb_of (reply_status <$> script) (reply_status 1));
     cache := {[ "is_flat_memory" := VBool false ]} |}.

(** A paged instance whose VDM collaborator answers with [raw]. *)
Definition vdm_example (raw : pyval) : CmisApi :=
  {| xcvr_eeprom := eeprom_of [];
     vdm := Some (vdm_of raw);
     cdb := None;
     cache := {[ "is_flat_memory" := VBool false ]} |}.

(** The per-lane level of a raw VDM structure: the same [samples], one per
    subtype, for each of [lanes]. *)
Definition by_lane (lanes : list Z) (samples : list pyval) : pyval :=
  VDict (list_to_map ((fun lane => (KInt lane, VList samples)) <$> lanes)).

(** The laser temperature reported for every lane but lane 5. *)
Definition lane5_absent_raw : pyval :=
  dict [ ("Laser Temperature [C]",
          by_lane [1; 2; 3; 4; 6; 7; 8] (VInt <$> [40; 75; -5; 70; 0; 0; 0; 0; 0])) ].

(** The laser temperature of lane 1 reported with an empty sequence of
    subtype entries. *)
Definition short_sequence_raw : pyval :=
  dict [ ("Laser Temperature [C]", by_lane [1] []) ].

(** The lane level of the laser temperature given as a sequence, position
    [lane] holding the nine subtype entries of that lane. *)
Definition lane_sequence_raw : pyval :=
  dict [ ("Laser Temperature [C]",
          VList (replicate 9 (VList (VInt <$> [40; 75; -5; 70; 0; 0; 0; 0; 0])))) ].

(** The same with positions 0 to 7 only: lane 8 runs off its end. *)
Definition lane_sequence_short_raw : pyval :=
  dict [ ("Laser Temperature [C]",
          VList (replicate 8 (VList (VInt <$> [40; 75; -5; 70; 0; 0; 0; 0; 0])))) ].

(** The answer to [get_fw_info] of a module whose firmware status byte is
    [fwStatus]: a 42-byte payload with the check code [cdb_of] expects. *)
Definition fw_info_reply (fwStatus : Z) : cdb_reply :=
  let payload := fwStatus :: replicate 41 0 in
  {| status := 1; rpllen := Some 42;
     rpl_chkcode := Some (foldr Z.add 0 payload); rpl := payload |}.

(** A paged instance whose CDB collaborator answers from [script]. *)
Definition fw_example (script : list cdb_reply) : CmisApi :=
  {| xcvr_eeprom := eeprom_of [];
     vdm := None;
     cdb := Some (cdb_of script (reply_status 1));
     cache := {[ "is_flat_memory" := VBool false ]} |}.

(** Both banks valid, A running and committed; after run and commit the
    module reports B running and committed. *)
Definition switch_example : CmisApi :=
  fw_example [ fw_info_reply 3; reply_status 1; reply_status 1; fw_info_reply 48 ].

(** The same module, but it keeps reporting A as running. *)
Definition no_switch_example : CmisApi :=
  fw_example [ fw_info_reply 3; reply_status 1; reply_status 1; fw_info_reply 3 ].


(** Both banks valid and bank A running; the firmware information is not
    available after the commit. *)
Definition second_query_fails_example : CmisApi :=
  fw_example [ fw_info_reply 3; reply_status 1; reply_status 1; reply_status 64 ].

(** Bank A valid, running and committed, bank B invalid; the module would
    report B running after a run command. *)
Definition one_valid_running_example : CmisApi :=
  fw_example [ fw_info_reply 67; reply_status 1; reply_status 1; fw_info_reply 112 ].

(** The registers of a healthy paged module, as the identity aggregate
    reads them. *)
Definition info_contents : list (string * pyval) :=
  [ (example_consts FLAT_MEM_FIELD, VBool false);
    (example_consts ADMIN_INFO_FIELD,
      dict [ (example_consts EXT_ID_FIELD,
               dict [ (example_consts POWER_CLASS_FIELD, VStr "Power Class 8");
                      (example_consts MAX_POWER_FIELD, VInt 20) ]);
             (example_consts ID_FIELD, VStr "QSFP-DD Double Density 8X Pluggable Transceiver");
             (example_consts ID_ABBRV_FIELD, VStr "QSFP-DD");
             (example_consts VENDOR_SERIAL_NO_FIELD, VStr "SN0001  ");
             (example_consts VENDOR_NAME_FIELD, VStr "VENDOR  ");
             (example_consts VENDOR_PART_NO_FIELD, VStr "PART-1  ");
             (example_consts CONNECTOR_FIELD, VStr "LC");
             (example_consts LENGTH_ASSEMBLY_FIELD, VInt 0);
             (example_consts VENDOR_DATE_FIELD, VStr "2021-01-01 ");
             (example_consts VENDOR_OUI_FIELD, VStr "00-11-22") ]);
    (example_consts HW_MAJOR_REV, VInt 1);
    (example_consts HW_MINOR_REV, VInt 2);
    (example_consts CMIS_MAJOR_REVISION, VInt 5);
    (example_consts CMIS_MINOR_REVISION, VInt 0);
    (example_consts VENDOR_REV_FIELD, VStr "A1");
    (example_consts APPLS_ADVT_FIELD,
      dict [ (example_consts HOST_ELECTRICAL_INTERFACE +:+ "_1", VStr "400GAUI-8 C2M");
             (example_consts MODULE_MEDIA_INTERFACE_SM +:+ "_1", VStr "400GBASE-DR4");
             (example_consts MEDIA_LANE_COUNT +:+ "_1", VInt 4);
             (example_consts HOST_LANE_COUNT +:+ "_1", VInt 8);
             (example_consts HOST_LANE_ASSIGNMENT_OPTION +:+ "_1", VInt 1) ]);
    (example_consts APPLS_ADVT_FIELD_PAGE01,
      dict [ (example_consts MEDIA_LANE_ASSIGNMENT_OPTION +:+ "_1", VInt 1) ]);
    (example_consts MEDIA_TYPE_FIELD, VStr "sm_media_interface");
    (example_consts HOST_ELECTRICAL_INTERFACE, VStr "400GAUI-8 C2M");
    (example_consts MODULE_MEDIA_INTERFACE_SM, VStr "400GBASE-DR4");
    (example_consts HOST_LANE_COUNT, VInt 8);
    (example_consts MEDIA_INTERFACE_TECH, VStr "1550 nm DFB");
    (example_consts ACTIVE_APSEL_CODE,
      dict ((fun lane => (example_consts ACTIVE_APSEL_HOSTLANE +:+ pretty lane, VInt 1))
              <$> range 1 9)) ].

(** The same module with the reads of [missing] failing. *)
Definition info_example (missing : list cname) : CmisApi :=
  api_of (filter (fun kv => kv.1 ∉ example_consts <$> missing) info_contents).

(** ** Further example data *)

Definition example_consts_more (n : cname_more) : string :=
  match n with
  | TX_DISABLE_SUPPORT_FIELD => "TX_DISABLE_SUPPORT_FIELD"
  | TX_DISABLE_FIELD => "TX_DISABLE_FIELD"
  | RX_DISABLE_SUPPORT_FIELD => "RX_DISABLE_SUPPORT_FIELD"
  | RX_DISABLE_FIELD => "RX_DISABLE_FIELD"
  | TX_POWER_SUPPORT_FIELD => "TX_POWER_SUPPORT_FIELD"
  | TX_POWER_FIELD => "TX_POWER_FIELD"
  | RX_POWER_SUPPORT_FIELD => "RX_POWER_SUPPORT_FIELD"
  | RX_POWER_FIELD => "RX_POWER_FIELD"
  | STAGED_CTRL_APSEL_FIELD => "STAGED_CTRL_APSEL_FIELD"
  | STAGED_CTRL_APPLY_DPINIT_FIELD => "STAGED_CTRL_APPLY_DPINIT_FIELD"
  | DATA_PATH_STATE => "DATA_PATH_STATE"
  | CONFIG_LANE_STATUS => "CONFIG_LANE_STATUS"
  | RX_OUTPUT_LEVEL_SUPPORT => "RX_OUTPUT_LEVEL_SUPPORT"
  | RX_OUTPUT_EQ_PRE_CURSOR_MAX => "RX_OUTPUT_EQ_PRE_CURSOR_MAX"
  | RX_OUTPUT_EQ_POST_CURSOR_MAX => "RX_OUTPUT_EQ_POST_CURSOR_MAX"
  | TX_INPUT_EQ_MAX => "TX_INPUT_EQ_MAX"
  | OUTPUT_EQ_PRE_CURSOR_TARGET_RX => "OutputEqPreCursorTargetRx"
  | OUTPUT_EQ_POST_CURSOR_TARGET_RX => "OutputEqPostCursorTargetRx"
  | OUTPUT_AMPLITUDE_TARGET_RX => "OutputAmplitudeTargetRx"
  | FIXED_INPUT_EQ_TARGET_TX => "FixedInputEqTargetTx"
  | ADAPTIVE_INPUT_EQ_RECALLED_TX => "AdaptiveInputEqRecalledTx"
  | ADAPTIVE_INPUT_EQ_ENABLE_TX => "AdaptiveInputEqEnableTx"
  | CDR_ENABLE_TX => "CDREnableTx"
  | CDR_ENABLE_RX => "CDREnableRx"
  end.

Definition example_more : Env_more :=
  {| consts_more := example_consts_more;
     list_gt := fun _ _ => Raise TypeError |}.

(** A paged module that supports TX and RX disable, with the two disable
    registers holding [tx] and [rx]. *)
Definition disable_example (tx rx : Z) : CmisApi :=
  api_of [ (example_consts FLAT_MEM_FIELD, VBool false);
           (example_consts_more TX_DISABLE_SUPPORT_FIELD, VBool true);
           (example_consts_more RX_DISABLE_SUPPORT_FIELD, VBool true);
           (example_consts_more TX_DISABLE_FIELD, VInt tx);
           (example_consts_more RX_DISABLE_FIELD, VInt rx) ].

(** A constructed paged instance around the given register contents. *)
Definition paged_of (contents : list (string * pyval)) : CmisApi :=
  {| xcvr_eeprom := eeprom_of contents; vdm := None; cdb := None;
     cache := {[ "is_flat_memory" := VBool false ]} |}.

(** A revision-5 module with no lane in deinit, whose eight lanes report
    the datapath state [dp] and the configuration status [cfg]. *)
Definition decommission_example (dp cfg : string) : CmisApi :=
  api_of [ (example_consts CMIS_MAJOR_REVISION, VInt 5);
           (example_consts DATAPATH_DEINIT_FIELD, VInt 0);
           (example_consts_more DATA_PATH_STATE,
             dict ((fun lane : Z => ("DP" +:+ pretty lane +:+ "State", VStr dp))
                     <$> range 1 9));
           (example_consts_more CONFIG_LANE_STATUS,
             dict ((fun lane : Z => ("ConfigStatusLane" +:+ pretty lane, VStr cfg))
                     <$> range 1 9)) ].

(** A module advertising 3 as the largest RX pre-cursor setting. *)
Definition staging_example : CmisApi :=
  api_of [ (example_consts_more RX_OUTPUT_EQ_PRE_CURSOR_MAX, VInt 3) ].

(** The same module with the register [locked] rejecting writes. *)
Definition staging_locked_example (locked : string) : CmisApi :=
  {| xcvr_eeprom :=
       {| mem := {[ example_consts_more RX_OUTPUT_EQ_PRE_CURSOR_MAX := VInt 3 ]};
          writable := fun field => negb (String.eqb field locked);
          wlog := [] |};
     vdm := None; cdb := None; cache := ∅ |}.

(** Per-lane settings for [param]: the given values for lanes 1, 2, ... *)
Definition si_settings (param : string) (values : list pyval) : pyval :=
  dict (imap (fun i v => (param +:+ pretty (Z.of_nat i + 1), v)) values).

(** A paged module whose AUX monitor-type register holds [t], with the
    AUX2 monitor at 25 degrees and AUX3 at 50 (in 1/256ths); the
    thresholds are not readable. *)
Definition laser_example (t : Z) : CmisApi :=
  paged_of [ (example_consts AUX_MON_TYPE, VInt t);
             (example_consts AUX2_MON, VInt 6400);
             (example_consts AUX3_MON, VInt 12800) ].

(** A paged module advertising every loopback direction and per-lane
    control but not simultaneous host and media loopback (capability
    63), with the media input and host input loopback registers at
    [media_in] and [host_in]. *)
Definition loopback_active_example (media_in host_in : Z) : CmisApi :=
  api_of [ (example_consts FLAT_MEM_FIELD, VBool false);
           (example_consts LOOPBACK_CAPABILITY, VInt 63);
           (example_consts MEDIA_INPUT_LOOPBACK, VInt media_in);
           (example_consts MEDIA_OUTPUT_LOOPBACK, VInt 0);
           (example_consts HOST_INPUT_LOOPBACK, VInt host_in) ].

(** A ten-byte firmware image. *)
Definition image_example : list Z := [1; 2; 3; 4; 5; 6; 7; 8; 9; 10].

(** A constructed paged module with the loopback capability byte [x] and
    the four loopback registers at [host_in], [host_out], [media_in] and
    [media_out]. *)
Definition loopback_mode_example (x host_in host_out media_in media_out : Z) : CmisApi :=
  paged_of [ (example_consts LOOPBACK_CAPABILITY, VInt x);
             (example_consts HOST_INPUT_LOOPBACK, VInt host_in);
             (example_consts HOST_OUTPUT_LOOPBACK, VInt host_out);
             (example_consts MEDIA_INPUT_LOOPBACK, VInt media_in);
             (example_consts MEDIA_OUTPUT_LOOPBACK, VInt media_out) ].

(** A constructed paged module whose application 1 lacks its host
    interface while application 2 is described in full. *)
Definition gap_example : CmisApi :=
  paged_of
    [ (example_consts APPLS_ADVT_FIELD,
        dict [ (example_consts HOST_ELECTRICAL_INTERFACE +:+ "_2", VStr "400GAUI-8 C2M");
               (example_consts MODULE_MEDIA_INTERFACE_SM +:+ "_2", VStr "400GBASE-DR4");
               (example_consts MEDIA_LANE_COUNT +:+ "_2", VInt 4);
               (example_consts HOST_LANE_COUNT +:+ "_2", VInt 8);
               (example_consts HOST_LANE_ASSIGNMENT_OPTION +:+ "_2", VInt 1) ]);
      (example_consts APPLS_ADVT_FIELD_PAGE01, dict []);
      (example_consts MEDIA_TYPE_FIELD, VStr "sm_media_interface") ].

(** ** Vocabulary of the statements *)

(** What [read] returns for a field in a given state. *)
Definition read_value (s : CmisApi) (field : string) : pyval :=
  default VNone (mem (xcvr_eeprom s) !! field).

(** The calls of [xcvr_eeprom.write] made between two states. *)
Definition writes_between (s s' : CmisApi) (calls : list (string * pyval)) : Prop :=
  wlog (xcvr_eeprom s') = calls ++ wlog (xcvr_eeprom s).


(** A computation leaves the collaborators alone: only the memo table of
    the instance may change. *)
Definition stable {A} (m : M A) : Prop :=
  forall s, xcvr_eeprom (m s).2 = xcvr_eeprom s /\ vdm (m s).2 = vdm s /\ cdb (m s).2 = cdb s.

(** What [is_flat_memory] computes from a read of the advertisement:
    [read(...) is not False]. *)
Definition flat_of (v : pyval) : bool := negb (is_False v).

(** What a setter leaves behind: it returned, called [write] once on the
    datapath-deinit register, and in the value written the bits of the
    selected lanes are forced while all other bits are those read. *)
Definition datapath_outcome (E : Env) (init : bool) (channel m d : Z) (s : CmisApi)
    (r : res unit * CmisApi) (w : Z) : Prop :=
  r.1 = Ok tt /\
  writes_between s r.2 [(consts E DATAPATH_DEINIT_FIELD, VInt w)] /\
  forall i : Z, 0 <= i ->
    Z.testbit w i =
      if bool_decide (0 <= i < NUM_CHANNELS) && Z.testbit channel i
      then negb (Bool.eqb (4 <=? m) init)
      else Z.testbit d i.

(** An instance that has memoised "flat memory" and nothing else, with no
    VDM and no CDB handle, around any register contents: the state from
    construction on, whatever the registers decode to later. *)
Definition flat_instance (later : eeprom) : CmisApi :=
  {| xcvr_eeprom := later; vdm := None; cdb := None;
     cache := {[ "is_flat_memory" := VBool true ]} |}.


(** The four loopback setters, as [set_loopback_mode] tabulates them, with
    the capability bits each one tests. *)
Inductive loopback_direction := HostInput | HostOutput | MediaInput | MediaOutput.

Definition loopback_function (E : Env) (dir : loopback_direction) : Z -> bool -> M bool :=
  match dir with
  | HostInput => set_host_input_loopback E
  | HostOutput => set_host_output_loopback E
  | MediaInput => set_media_input_loopback E
  | MediaOutput => set_media_output_loopback E
  end.

(** Bit of [LOOPBACK_CAPABILITY] advertising the direction. *)
Definition direction_bit (dir : loopback_direction) : Z :=
  match dir with
  | HostInput => 3 | HostOutput => 2 | MediaInput => 1 | MediaOutput => 0
  end.

(** Bit of [LOOPBACK_CAPABILITY] advertising per-lane control of the
    direction's side. *)
Definition per_lane_bit (dir : loopback_direction) : Z :=
  match dir with
  | HostInput | HostOutput => 4
  | MediaInput | MediaOutput => 5
  end.

(** The dictionary [get_loopback_capability] builds from the capability
    byte [x]. *)
Definition loopback_capability_of (x : Z) : gmap pykey pyval :=
  <[ KStr "media_side_output_loopback_supported" := bit x 0 ]>
  (<[ KStr "media_side_input_loopback_supported" := bit x 1 ]>
   (<[ KStr "host_side_output_loopback_supported" := bit x 2 ]>
    (<[ KStr "host_side_input_loopback_supported" := bit x 3 ]>
     (<[ KStr "per_lane_host_loopback_supported" := bit x 4 ]>
      (<[ KStr "per_lane_media_loopback_supported" := bit x 5 ]>
       (<[ KStr "simultaneous_host_media_loopback_supported" := bit x 6 ]> ∅)))))).

(** Capability keys tested by the setter of a direction. *)
Definition supported_key (dir : loopback_direction) : string :=
  match dir with
  | HostInput => "host_side_input_loopback_supported"
  | HostOutput => "host_side_output_loopback_supported"
  | MediaInput => "media_side_input_loopback_supported"
  | MediaOutput => "media_side_output_loopback_supported"
  end.

Definition per_lane_key (dir : loopback_direction) : string :=
  match dir with
  | HostInput | HostOutput => "per_lane_host_loopback_supported"
  | MediaInput | MediaOutput => "per_lane_media_loopback_supported"
  end.







(** Entry [key] of the dictionary a getter returned. *)
Definition entry (r : res pyval * CmisApi) (key : string) : option pyval :=
  match r.1 with
  | Ok (VDict d) => d !! KStr key
  | _ => None
  end.

(** The CDB commands received so far, latest first. *)
Definition cdb_trace (s : CmisApi) : list cdb_cmd :=
  match cdb s with Some o => cdb_log o | None => [] end.

(** What the CDB collaborator of [s] would answer to [cmd] now. *)
Definition cdb_next (s : CmisApi) (cmd : cdb_cmd) : option cdb_reply :=
  match cdb s with Some o => Some (cdb_answer o (cdb_log o) cmd) | None => None end.









(** What an output key of the VDM aggregation resolves to: the value found
    at [raw[observable][lane][subtype]], or ['N/A']. *)
Definition vdm_value (raw : pyval) (observable : string) (subtype : VdmSubtypeIndex)
    (lane : Z) : pyval :=
  match vdm_lookup raw observable subtype lane with
  | Ok v => v
  | Raise _ => NA
  end.

(** No lookup into the raw structure runs off the end of a sequence. *)
Definition no_index_error (raw : pyval) : Prop :=
  forall observable subtype lane,
    vdm_lookup raw observable subtype lane <> Raise IndexError.

(** The subtypes each aggregation method looks up. *)
Definition real_subtypes : list VdmSubtypeIndex := [VDM_SUBTYPE_REAL_VALUE].

Definition threshold_subtypes : list VdmSubtypeIndex :=
  [VDM_SUBTYPE_HALARM_THRESHOLD; VDM_SUBTYPE_LALARM_THRESHOLD;
   VDM_SUBTYPE_HWARN_THRESHOLD; VDM_SUBTYPE_LWARN_THRESHOLD].

Definition flag_subtypes : list VdmSubtypeIndex :=
  [VDM_SUBTYPE_HALARM_FLAG; VDM_SUBTYPE_LALARM_FLAG;
   VDM_SUBTYPE_HWARN_FLAG; VDM_SUBTYPE_LWARN_FLAG].

(** A lookup an aggregation method over [subtypes] performs: an observable
    of the key map, a lane from 1 to 8, one of the subtypes. *)
Definition performed (subtypes : list VdmSubtypeIndex) (observable : string)
    (subtype : VdmSubtypeIndex) (lane : Z) : Prop :=
  (exists prefix, (observable, prefix) ∈ CMIS_VDM_KEY_TO_DB_PREFIX_KEY_MAP) /\
  (1 <= lane <= 8) /\ subtype ∈ subtypes.

(** None of the lookups performed runs off the end of a sequence; one of
    them does. *)
Definition lookups_in_range (raw : pyval) (subtypes : list VdmSubtypeIndex) : Prop :=
  forall observable subtype lane,
    performed subtypes observable subtype lane ->
    vdm_lookup raw observable subtype lane <> Raise IndexError.

Definition lookup_out_of_range (raw : pyval) (subtypes : list VdmSubtypeIndex) : Prop :=
  exists observable subtype lane,
    performed subtypes observable subtype lane /\
    vdm_lookup raw observable subtype lane = Raise IndexError.

(** The lookups performed, enumerated, and the check of the first property
    by running them. *)
Definition lookups (subtypes : list VdmSubtypeIndex) : list (string * VdmSubtypeIndex * Z) :=
  CMIS_VDM_KEY_TO_DB_PREFIX_KEY_MAP ≫= fun entry =>
    range 1 (NUM_CHANNELS + 1) ≫= fun lane =>
      (fun subtype => (entry.1, subtype, lane)) <$> subtypes.

Definition raises_index_error (r : res pyval) : bool :=
  match r with Raise IndexError => true | _ => false end.

Definition lookups_checked (raw : pyval) (subtypes : list VdmSubtypeIndex) : bool :=
  forallb (fun x => negb (raises_index_error (vdm_lookup raw x.1.1 x.1.2 x.2)))
    (lookups subtypes).

(** A shape of raw structure that guarantees it: wherever the lookup meets
    a sequence at the subtype level it has the nine subtype entries, and
    the lane level is not a sequence. *)
Definition nine_entries (v : pyval) : bool :=
  match v with
  | VList l => bool_decide (9 <= length l)%nat
  | VStr s => bool_decide (9 <= length (chars s))%nat
  | _ => true
  end.

Definition lanes_full (v : pyval) : bool :=
  match v with
  | VDict d => bool_decide (map_Forall (fun _ x => nine_entries x = true) d)
  | VList _ | VStr _ => false
  | _ => true
  end.

Definition sequences_full (raw : pyval) : bool :=
  match raw with
  | VDict d => bool_decide (map_Forall (fun _ x => lanes_full x = true) d)
  | _ => true
  end.

(** One turn of the aggregation loops: the item of the key map, the lane
    and (for thresholds and flags) the subtype number. *)
Definition vdm_real_items : list (string * string * Z) :=
  _get_vdm_key_to_db_prefix_map ≫= fun entry =>
    (fun lane => (entry, lane)) <$> range 1 (NUM_CHANNELS + 1).

Definition vdm_typed_items (first last : VdmSubtypeIndex) : list (string * string * Z * Z) :=
  vdm_real_items ≫= fun item =>
    (fun vdm_type => (item, vdm_type)) <$> range (value first) (value last + 1).

(** The subtype a number of the innermost loop stands for, and its name. *)
Definition subtype_of (vdm_type : Z) : VdmSubtypeIndex :=
  res_default VDM_SUBTYPE_REAL_VALUE (VdmSubtypeIndex_of vdm_type).

Definition type_str_of (TYPE_STR_MAP : VdmSubtypeIndex -> option string) (vdm_type : Z)
  : string :=
  default "" (TYPE_STR_MAP (subtype_of vdm_type)).

(** Output keys: [f"{prefix}{lane}"] and [f"{prefix}_{type_str}{lane}"]. *)
Definition real_key (item : string * string * Z) : pykey :=
  KStr (item.1.2 +:+ pretty item.2).

Definition typed_key (TYPE_STR_MAP : VdmSubtypeIndex -> option string)
    (item : string * string * Z * Z) : pykey :=
  KStr (item.1.1.2 +:+ "_" +:+ type_str_of TYPE_STR_MAP item.2 +:+ pretty item.1.2).

(** A computation leaves the memo of the method [name] alone. *)
Definition keeps_memo {A} (name : string) (m : M A) : Prop :=
  forall s, cache (m s).2 !! name = cache s !! name.

(** A computation moves every state to one related to it by [R]. *)
Definition respects {A} (R : CmisApi -> CmisApi -> Prop) (m : M A) : Prop :=
  forall s, R s (m s).2.

(** What the entries of the identity display before [vendor_rev] leave
    settled from one state to a later one: the registers, the memo of
    [get_vendor_rev] and the answer of the flat-memory test. *)
Definition settled (E : Env) (s s' : CmisApi) : Prop :=
  xcvr_eeprom s' = xcvr_eeprom s /\
  cache s' !! "get_vendor_rev" = cache s !! "get_vendor_rev" /\
  (flat E s').1 = (flat E s).1.

(** No memoised value is [None]: the decorator retains none. *)
Definition memo_clean (s : CmisApi) : Prop :=
  forall name, cache s !! name <> Some VNone.

(** An application advertisement as [get_application_advertisement]
    builds it: a dictionary of dictionaries none of whose values is
    [None]. *)
Definition advertisement_clean (v : pyval) : Prop :=
  exists ad : gmap pykey pyval, v = VDict ad /\
    forall k a, ad !! k = Some a ->
      exists buf : gmap pykey pyval, a = VDict buf /\ forall key, buf !! key <> Some VNone.

Definition advertisement_memo_clean (s : CmisApi) : Prop :=
  forall v, cache s !! "get_application_advertisement" = Some v -> advertisement_clean v.

(** What every entry of the identity display keeps from one state to a
    later one: the collaborators, the answer of the flat-memory test,
    what is memoised (the memo only grows) and the two properties above. *)
Definition kept (E : Env) (s s' : CmisApi) : Prop :=
  xcvr_eeprom s' = xcvr_eeprom s /\ vdm s' = vdm s /\
  (flat E s').1 = (flat E s).1 /\
  (forall name, is_Some (cache s !! name) -> is_Some (cache s' !! name)) /\
  (memo_clean s -> memo_clean s') /\
  (advertisement_memo_clean s -> advertisement_memo_clean s').

(** The media types [get_module_media_interface] knows and the register
    it reads for each. *)
Definition media_interface_registers : list (string * cname) :=
  [ ("nm_850_media_interface", MODULE_MEDIA_INTERFACE_850NM);
    ("sm_media_interface", MODULE_MEDIA_INTERFACE_SM);
    ("passive_copper_media_interface", MODULE_MEDIA_INTERFACE_PASSIVE_COPPER);
    ("active_cable_media_interface", MODULE_MEDIA_INTERFACE_ACTIVE_CABLE);
    ("base_t_media_interface", MODULE_MEDIA_INTERFACE_BASE_T) ].

(** The subfields of the admin group the identity aggregate copies, as
    they are or stripped. *)
Definition admin_subfields : list cname :=
  [ ID_FIELD; ID_ABBRV_FIELD; VENDOR_SERIAL_NO_FIELD; VENDOR_NAME_FIELD;
    VENDOR_PART_NO_FIELD; CONNECTOR_FIELD; VENDOR_DATE_FIELD; VENDOR_OUI_FIELD ].

(** Every register [get_transceiver_info] passes through is readable in
    state [s]: the admin group and the subfields copied from it, the host
    lane count, the media-interface technology, the media type, the host
    electrical interface (paged memory), the media-interface register of
    a known media type, the vendor revision (nothing memoised), the VDM
    advertisement (with a VDM handle) and the per-lane entries of the
    active application-select group (paged memory). *)
Definition reads_resolved (E : Env) (s : CmisApi) : Prop :=
  Forall (fun field => read_value s field <> VNone)
    [ consts E ADMIN_INFO_FIELD; consts E HOST_LANE_COUNT; consts E MEDIA_INTERFACE_TECH;
      consts E MEDIA_TYPE_FIELD ] /\
  Forall (fun field =>
            getitem (read_value s (consts E ADMIN_INFO_FIELD)) (KStr (consts E field))
            <> Ok VNone)
    admin_subfields /\
  ((flat E s).1 = Ok false -> read_value s (consts E HOST_ELECTRICAL_INTERFACE) <> VNone) /\
  (forall media_type register,
     (media_type, register) ∈ media_interface_registers ->
     read_value s (consts E MEDIA_TYPE_FIELD) = VStr media_type ->
     read_value s (consts E register) <> VNone) /\
  (cache s !! "get_vendor_rev" = None ->
   read_value s (consts E VENDOR_REV_FIELD) <> VNone) /\
  (vdm s <> None -> read_value s (consts E VDM_SUPPORTED) <> VNone) /\
  ((flat E s).1 = Ok false ->
   forall lane, 1 <= lane <= NUM_CHANNELS ->
     getitem (read_value s (consts E ACTIVE_APSEL_CODE))
       (KStr (fmt_sd (consts E ACTIVE_APSEL_HOSTLANE) lane)) <> Ok VNone).

(** [r] is a dictionary. *)
Definition is_dict (r : res pyval) : bool :=
  match r with Ok (VDict _) => true | _ => false end.

(** No string of the list is a proper prefix of another. *)
Definition prefix_free (ps : list string) : Prop :=
  Forall (fun p1 => Forall (fun p2 => String.prefix p1 p2 = true -> p1 = p2) ps) ps.

(** The suffixes of the output keys: the lane, or the subtype name and the
    lane. *)
Definition real_suffixes : list string :=
  (fun lane : Z => pretty lane) <$> range 1 (NUM_CHANNELS + 1).

Definition typed_suffixes (TYPE_STR_MAP : VdmSubtypeIndex -> option string)
    (first last : VdmSubtypeIndex) : list string :=
  range 1 (NUM_CHANNELS + 1) ≫= fun lane =>
    (fun vdm_type => "_" +:+ type_str_of TYPE_STR_MAP vdm_type +:+ pretty lane)
      <$> range (value first) (value last + 1).

(** ** Vocabulary of the further statements *)

(** The list a per-lane getter returns when lane [i] reports [f i]. *)
Definition lane_flags (f : Z -> bool) : pyval :=
  VList ((fun i => VBool (f i)) <$> range 0 NUM_CHANNELS).

(** The calls of [xcvr_eeprom.write] a computation makes from [s], latest
    first. *)
Definition writes_of {A} (m : M A) (s : CmisApi) (calls : list (string * pyval)) : Prop :=
  writes_between s (m s).2 calls.

(** An instance constructed on a paged module: [__init__] has memoised
    the classification. *)
Definition paged (s : CmisApi) : Prop :=
  cache s !! "is_flat_memory" = Some (VBool false).

(** The lanes among [lanes] that the mask selects. *)
Definition selected (channel : Z) (lanes : list Z) : list Z :=
  filter (fun lane => Z.testbit channel lane = true) lanes.

(** The lane [set_application] encodes as the first lane of the group:
    [lane_first] if it is already set, else the lowest selected lane. *)
Definition first_lane (channel : Z) (lanes : list Z) (lane_first : Z) : Z :=
  if lane_first <? 0 then default lane_first (head (selected channel lanes)) else lane_first.

(** [(appl_code << 4) | (lane_first << 1) | ec] *)
Definition apsel_data (appl_code lane_first ec : Z) : Z :=
  Z.lor (Z.lor (Z.shiftl appl_code 4) (Z.shiftl lane_first 1)) ec.

(** The call of [write] the staging loop makes for a lane: the register
    [f"{si_param}{lane + 1}"] and the entry of the settings dictionary
    under the same name. *)
Definition si_call (si_param : string) (si_settings_dict : pyval) (lane : Z)
  : string * pyval :=
  (si_param +:+ pretty (lane + 1),
   res_default VNone (getitem si_settings_dict (KStr (si_param +:+ pretty (lane + 1))))).

(** What the staging loop does at a selected lane, given the test [above]
    it applies to an entry that is not [None] and the registers [w] that
    accept a write: it stages the lane (writes the entry and goes on),
    refuses it (an entry that is [None] or above the maximum), has its
    write rejected, or raises (no entry under the lane's name, or a
    comparison that is not defined). *)
Inductive lane_outcome := Staged | Refused | WriteFailed | Raised (e : exn).

Definition lane_outcome_of (above : pyval -> res bool) (si_param : string)
    (si_settings_dict : pyval) (w : string -> bool) (lane : Z) : lane_outcome :=
  match getitem si_settings_dict (KStr (si_param +:+ pretty (lane + 1))) with
  | Raise e => Raised e
  | Ok v =>
      if is_none v then Refused else
      match above v with
      | Raise e => Raised e
      | Ok true => Refused
      | Ok false => if w (si_param +:+ pretty (lane + 1)) then Staged else WriteFailed
      end
  end.

(** What a staging loop leaves behind.  The selected lanes split into the
    lanes [done] the loop staged, each with its dictionary entry and in
    lane order, and the lanes [rest] it did not reach.  If [rest] is empty
    the loop answered [True].  Otherwise the first lane of [rest] decides:
    refused, the answer is [False] and nothing more was written; its write
    rejected, the answer is [False] after that one call of [write]; an
    exception, it is raised.  The calls of [write] made are exactly these,
    the latest first. *)
Definition staged (above : pyval -> res bool) (si_param : string) (host_lanes_mask : Z)
    (si_settings_dict : pyval) (s : CmisApi) (r : res bool * CmisApi) : Prop :=
  exists done rest : list Z,
    selected host_lanes_mask (range 0 NUM_CHANNELS) = done ++ rest /\
    Forall (fun lane =>
              lane_outcome_of above si_param si_settings_dict (writable (xcvr_eeprom s)) lane
              = Staged) done /\
    match rest with
    | [] =>
        r.1 = Ok true /\
        writes_between s r.2 (rev (si_call si_param si_settings_dict <$> done))
    | lane :: _ =>
        match lane_outcome_of above si_param si_settings_dict (writable (xcvr_eeprom s)) lane
        with
        | Staged => False
        | Refused =>
            r.1 = Ok false /\
            writes_between s r.2 (rev (si_call si_param si_settings_dict <$> done))
        | WriteFailed =>
            r.1 = Ok false /\
            writes_between s r.2
              (rev (si_call si_param si_settings_dict <$> (done ++ [lane])))
        | Raised e =>
            r.1 = Raise e /\
            writes_between s r.2 (rev (si_call si_param si_settings_dict <$> done))
        end
    end.

(** The same for a method that reads the advertised maximum first: with
    the maximum unreadable it answers [False] and writes nothing. *)
Definition staged_below (above : pyval -> pyval -> res bool) (max_val : pyval)
    (si_param : string) (host_lanes_mask : Z) (si_settings_dict : pyval) (s : CmisApi)
    (r : res bool * CmisApi) : Prop :=
  if is_none max_val
  then r.1 = Ok false /\ writes_between s r.2 []
  else staged (fun v => above v max_val) si_param host_lanes_mask si_settings_dict s r.


(** A register value [_get_laser_temp_threshold] can process: unreadable,
    or a number. *)
Definition numeric_or_none (v : pyval) : bool := is_none v || is_ok (as_num v).

(** What [_get_laser_temp_threshold] makes of such a value: ['N/A'], or
    the reading divided by 256. *)
Definition laser_value (v : pyval) : pyval :=
  if is_none v then NA else VFloat (res_default 0%Q (as_num v) / LASER_TEMP_SCALE)%Q.

(** The laser-temperature dictionary built from the monitor and the four
    threshold registers of one AUX group. *)
Definition laser_temp_from (s : CmisApi) (mon ha la hw lw : string) : pyval :=
  laser_temp_dict_of (laser_value (read_value s mon)) (laser_value (read_value s ha))
    (laser_value (read_value s la)) (laser_value (read_value s hw))
    (laser_value (read_value s lw)).

(** The register a loopback setter rewrites, and the two registers of the
    opposite side it consults when simultaneous host and media loopback
    is not advertised. *)
Definition own_register (E : Env) (dir : loopback_direction) : string :=
  match dir with
  | HostInput => consts E HOST_INPUT_LOOPBACK
  | HostOutput => consts E HOST_OUTPUT_LOOPBACK
  | MediaInput => consts E MEDIA_INPUT_LOOPBACK
  | MediaOutput => consts E MEDIA_OUTPUT_LOOPBACK
  end.

Definition opposite_registers (E : Env) (dir : loopback_direction) : string * string :=
  match dir with
  | HostInput | HostOutput => (consts E MEDIA_INPUT_LOOPBACK, consts E MEDIA_OUTPUT_LOOPBACK)
  | MediaInput | MediaOutput => (consts E HOST_INPUT_LOOPBACK, consts E HOST_OUTPUT_LOOPBACK)
  end.

(** The capability byte lets the setter of [dir] act on [lane_mask]: the
    direction is advertised, and so is per-lane control unless all lanes
    are addressed. *)
Definition loopback_allowed (x : Z) (dir : loopback_direction) (lane_mask : Z) : Prop :=
  Z.testbit x (direction_bit dir) = true /\
  (Z.testbit x (per_lane_bit dir) = true \/ lane_mask = 255).

(** An application descriptor that lacks none of the five mandatory
    entries. *)
Definition complete_entry (buf : gmap pykey pyval) : Prop :=
  Forall (fun key => exists v, buf !! KStr key = Some v /\ v <> VNone)
    [ "host_electrical_interface_id"; "module_media_interface_id"; "media_lane_count";
      "host_lane_count"; "host_lane_assignment_options" ].

(** An application advertisement: application codes 1 to 15, each with a
    complete descriptor. *)
Definition advertisement_ok (ret_ : gmap pykey pyval) : Prop :=
  forall k v, ret_ !! k = Some v ->
    exists app buf, k = KInt app /\ 1 <= app <= 15 /\ v = VDict buf /\ complete_entry buf.

(** The block-write command [module_fw_download] issues for the block
    [(address, data)]. *)
Definition block_write (lplonly_flag autopaging_flag : bool) (writelength : Z)
    (b : Z * list Z) : cdb_cmd :=
  if lplonly_flag then block_write_lpl b.1 b.2
  else block_write_epl b.1 b.2 autopaging_flag writelength.

(** Blocks laid end to end from [address]. *)
Fixpoint contiguous (address : Z) (blocks : list (Z * list Z)) : Prop :=
  match blocks with
  | [] => True
  | b :: rest => b.1 = address /\ contiguous (address + Z.of_nat (length b.2)) rest
  end.

(** A module that answers every CDB command with status 1, success. *)
Definition accepts_all (o : CmisCdbApi) : Prop :=
  forall log cmd, status (cdb_answer o log cmd) = 1.

(** The CDB collaborator after it received [cmds], latest first. *)
Definition cdb_after (o : CmisCdbApi) (cmds : list cdb_cmd) : CmisCdbApi :=
  {| cdb_answer := cdb_answer o; cdb_chkcode := cdb_chkcode o; cdb_log := cmds ++ cdb_log o |}.

(** The four loopback directions, in the order [set_loopback_mode] clears
    them. *)
Definition directions : list loopback_direction :=
  [HostInput; HostOutput; MediaInput; MediaOutput].

(** The two directions of the other side. *)
Definition opposite (dir : loopback_direction) : loopback_direction * loopback_direction :=
  match dir with
  | HostInput | HostOutput => (MediaInput, MediaOutput)
  | MediaInput | MediaOutput => (HostInput, HostOutput)
  end.

(** [v & ~0xff] *)
Definition cleared (v : Z) : Z := Z.land v (Z.lnot 255).

#[global] Instance loopback_direction_eq_dec : EqDecision loopback_direction.
Proof. solve_decision. Defined.

(** What the loopback setters rely on: the classification is memoised,
    the capability byte is [x] and the four loopback registers hold the
    integers [v]. *)
Definition loopback_state (E : Env) (s : CmisApi) (x : Z) (v : loopback_direction -> Z)
  : Prop :=
  paged s /\ read_value s (consts E LOOPBACK_CAPABILITY) = VInt x /\
  forall d, read_value s (own_register E d) = VInt (v d).

(** The setters of [dirs] called in turn to clear all lanes. *)
Fixpoint clear_each (E : Env) (dirs : list loopback_direction) : M (list bool) :=
  match dirs with
  | [] => ret []
  | d :: ds =>
      let* r := loopback_function E d 255 false in
      let* rs := clear_each E ds in
      ret (r :: rs)
  end.

(** The values of the four loopback registers, by direction. *)
Definition loopback_values (host_in host_out media_in media_out : Z)
    (d : loopback_direction) : Z :=
  match d with
  | HostInput => host_in
  | HostOutput => host_out
  | MediaInput => media_in
  | MediaOutput => media_out
  end.

(** The application codes of an advertisement run from 1 to its size
    without a gap. *)
Definition dense (D : gmap pykey pyval) : Prop :=
  forall app, is_Some (D !! KInt app) <-> 1 <= app <= Z.of_nat (size D).

(** * Properties *)

(** ** Bit-level facts used by the datapath and loopback methods *)

Lemma testbit_shiftl1 (lane n : Z) :
  0 <= lane -> Z.testbit (Z.shiftl 1 lane) n = (lane =? n).
Proof. intros. rewrite Z.shiftl_1_l. by apply Z.pow2_bits_eqb. Qed.

Lemma land_shiftl1_eqb (lane channel : Z) :
  0 <= lane ->
  (Z.land (Z.shiftl 1 lane) channel =? 0) = negb (Z.testbit channel lane).
Proof.
  intros Hl.
  destruct (Z.testbit channel lane) eqn:Hb; simpl.
  - apply Z.eqb_neq. intros H0.
    assert (Z.testbit (Z.land (Z.shiftl 1 lane) channel) lane = true) as Hc.
    { rewrite Z.land_spec, testbit_shiftl1, Z.eqb_refl by lia. by rewrite Hb. }
    rewrite H0, Z.bits_0 in Hc. done.
  - apply Z.eqb_eq. apply Z.bits_inj'. intros n Hn.
    rewrite Z.land_spec, Z.bits_0, testbit_shiftl1 by lia.
    destruct (Z.eqb_spec lane n) as [->|Hne]; [by rewrite Hb|done].
Qed.

Lemma bit_testbit (x n : Z) : 0 <= n -> bit x n = VBool (Z.testbit x n).
Proof.
  intros Hn. unfold bit. f_equal.
  rewrite Z.land_comm. change 1 with (Z.shiftl 1 0) at 1.
  rewrite (land_shiftl1_eqb 0) by lia.
  by rewrite negb_involutive, Z.shiftr_spec, Z.add_0_l by lia.
Qed.

Lemma ge4_int (m : Z) : ge4 (VInt m) = Ok (4 <=? m).
Proof.
  unfold ge4; cbn [as_num res_bind]. f_equal.
  unfold Qle_bool, inject_Z; cbn [Qnum Qden].
  destruct (Z.leb_spec 4 m), (Z.leb_spec (4 * 1) (m * 1)); lia.
Qed.

Lemma range_nonneg (a b : Z) : 0 <= a -> Forall (fun l => 0 <= l) (range a b).
Proof.
  intros Ha. unfold range. apply Forall_fmap, Forall_forall.
  intros i _. simpl. lia.
Qed.

Lemma elem_of_range (a b i : Z) : i ∈ range a b <-> a <= i < b.
Proof.
  unfold range. rewrite list_elem_of_fmap. split.
  - intros (n & -> & Hn). apply elem_of_seq in Hn. lia.
  - intros Hi. exists (Z.to_nat (i - a)). split; [lia|].
    apply elem_of_seq. lia.
Qed.

(** Bitwise description of what the lane loop leaves in [data]. *)
Lemma datapath_loop_bits (init : bool) (m channel : Z) (lanes : list Z) :
  forall d : Z,
  Forall (fun l => 0 <= l) lanes ->
  exists w : Z,
    datapath_loop init (VInt m) channel lanes (VInt d) = Ok (VInt w) /\
    forall i : Z, 0 <= i ->
      Z.testbit w i =
        if bool_decide (i ∈ lanes) && Z.testbit channel i
        then negb (Bool.eqb (4 <=? m) init)
        else Z.testbit d i.
Proof.
  induction lanes as [|lane lanes IH]; intros d Hpos.
  - exists d. split; [done|]. intros i _. done.
  - apply Forall_cons in Hpos as [Hl Hpos]. cbn [datapath_loop].
    rewrite land_shiftl1_eqb by done.
    destruct (Z.testbit channel lane) eqn:Hb; cbn [negb].
    + rewrite ge4_int. cbn [res_bind as_int].
      set (d' := if Bool.eqb (4 <=? m) init then _ else _).
      destruct (IH d' Hpos) as (w & Hw & Hbits).
      exists w. split; [done|]. intros i Hi. rewrite Hbits by done.
      destruct (decide (i = lane)) as [->|Hne].
      * rewrite Hb, andb_true_r.
        assert (bool_decide (lane ∈ lane :: lanes) = true) as ->
          by (apply bool_decide_eq_true; apply elem_of_cons; by left).
        case_bool_decide; [done|].
        subst d'. destruct (Bool.eqb (4 <=? m) init); cbn [negb].
        -- rewrite Z.land_spec, Z.lnot_spec, testbit_shiftl1, Z.eqb_refl by lia.
           apply andb_false_r.
        -- rewrite Z.lor_spec, testbit_shiftl1, Z.eqb_refl by lia.
           apply orb_true_r.
      * assert (bool_decide (i ∈ lane :: lanes) = bool_decide (i ∈ lanes)) as ->
          by (apply bool_decide_ext; rewrite elem_of_cons; intuition).
        destruct (bool_decide (i ∈ lanes) && Z.testbit channel i); [done|].
        subst d'. destruct (Bool.eqb (4 <=? m) init).
        -- rewrite Z.land_spec, Z.lnot_spec, testbit_shiftl1 by lia.
           rewrite (proj2 (Z.eqb_neq lane i)) by done. apply andb_true_r.
        -- rewrite Z.lor_spec, testbit_shiftl1 by lia.
           rewrite (proj2 (Z.eqb_neq lane i)) by done. apply orb_false_r.
    + destruct (IH d Hpos) as (w & Hw & Hbits).
      exists w. split; [done|]. intros i Hi. rewrite Hbits by done.
      destruct (decide (i = lane)) as [->|Hne].
      * rewrite Hb, !andb_false_r. done.
      * assert (bool_decide (i ∈ lane :: lanes) = bool_decide (i ∈ lanes)) as ->
          by (apply bool_decide_ext; rewrite elem_of_cons; intuition).
        done.
Qed.

Lemma is_none_false (v : pyval) : is_none v = false -> v <> VNone.
Proof. by destruct v. Qed.

(** ** The monad and the register collaborator *)

Section Monad_facts.

Lemma read_eq (field : string) (s : CmisApi) :
  read field s = (Ok (read_value s field), s).
Proof. done. Qed.

Lemma stable_ret {A} (a : A) : stable (ret a).
Proof. done. Qed.

Lemma stable_raise {A} (e : exn) : stable (@raise A e).
Proof. done. Qed.

Lemma stable_lift {A} (r : res A) : stable (lift r).
Proof. done. Qed.

Lemma stable_read (field : string) : stable (read field).
Proof. done. Qed.

Lemma stable_bind {A B} (m : M A) (k : A -> M B) :
  stable m -> (forall a, stable (k a)) -> stable (bind m k).
Proof.
  intros Hm Hk s. unfold bind. specialize (Hm s).
  destruct (m s) as [[a|e] s1]; simpl in *; [|done].
  destruct (Hk a s1) as (-> & -> & ->). done.
Qed.

Lemma stable_try_except {A} (m : M A) (catches : exn -> bool) (h : M A) :
  stable m -> stable h -> stable (try_except m catches h).
Proof.
  intros Hm Hh s. unfold try_except. specialize (Hm s).
  destruct (m s) as [[a|e] s1]; simpl in *; [done|].
  destruct (catches e); [|done].
  destruct (Hh s1) as (-> & -> & ->). done.
Qed.

Lemma stable_cached (name : string) (func : M pyval) :
  stable func -> stable (read_only_cached_api_return name func).
Proof.
  intros Hf s. unfold read_only_cached_api_return.
  destruct (cache s !! name); [done|]. specialize (Hf s).
  destruct (func s) as [[v|e] s1]; simpl in *; [|done].
  by destruct (is_none v).
Qed.

Lemma stable_if {A} (b : bool) (m1 m2 : M A) :
  stable m1 -> stable m2 -> stable (if b then m1 else m2).
Proof. by destruct b. Qed.

Lemma stable_read_value {A} (m : M A) (s : CmisApi) (field : string) :
  stable m -> read_value (m s).2 field = read_value s field.
Proof. intros Hm. unfold read_value. by destruct (Hm s) as (-> & _). Qed.

End Monad_facts.

Create HintDb stable.

#[global] Hint Resolve stable_ret stable_raise stable_lift stable_read stable_bind
  stable_try_except stable_cached stable_if : stable.

(** ** Flat-memory classification and its memo *)

Section Flat_facts.

Variable E : Env.

Lemma is_flat_memory_cached (s : CmisApi) (v : pyval) :
  cache s !! "is_flat_memory" = Some v -> is_flat_memory E s = (Ok v, s).
Proof.
  intros Hc. unfold is_flat_memory, read_only_cached_api_return. by rewrite Hc.
Qed.

Lemma is_flat_memory_fresh (s : CmisApi) :
  cache s !! "is_flat_memory" = None ->
  is_flat_memory E s =
    (Ok (VBool (flat_of (read_value s (consts E FLAT_MEM_FIELD)))),
     set_cache (<[ "is_flat_memory" :=
                   VBool (flat_of (read_value s (consts E FLAT_MEM_FIELD))) ]> (cache s)) s).
Proof.
  intros Hc. unfold is_flat_memory, read_only_cached_api_return. rewrite Hc.
  unfold bind. rewrite read_eq. reflexivity.
Qed.

Lemma flat_fresh (s : CmisApi) :
  cache s !! "is_flat_memory" = None ->
  flat E s =
    (Ok (flat_of (read_value s (consts E FLAT_MEM_FIELD))),
     set_cache (<[ "is_flat_memory" :=
                   VBool (flat_of (read_value s (consts E FLAT_MEM_FIELD))) ]> (cache s)) s).
Proof.
  intros Hc. unfold flat, bind. by rewrite (is_flat_memory_fresh s Hc).
Qed.

Lemma flat_cached (s : CmisApi) (v : pyval) :
  cache s !! "is_flat_memory" = Some v -> flat E s = (Ok (truthy v), s).
Proof. intros Hc. unfold flat, bind. by rewrite (is_flat_memory_cached s v Hc). Qed.

Lemma stable_is_flat_memory : stable (is_flat_memory E).
Proof. apply stable_cached, stable_bind; auto with stable. Qed.

Lemma stable_flat : stable (flat E).
Proof. apply stable_bind; [apply stable_is_flat_memory | auto with stable]. Qed.

(** [flat] never raises. *)
Lemma flat_total (s : CmisApi) : exists b, (flat E s).1 = Ok b.
Proof.
  destruct (cache s !! "is_flat_memory") as [v|] eqn:Hc.
  - rewrite (flat_cached s v Hc). by eexists.
  - unfold flat, bind. rewrite (is_flat_memory_fresh s Hc). by eexists.
Qed.

(** The state [flat] leaves when it answers [b]: the collaborators are the
    same and the answer is memoised. *)
Lemma flat_answer (s : CmisApi) (b : bool) :
  (flat E s).1 = Ok b ->
  exists s', flat E s = (Ok b, s') /\
             xcvr_eeprom s' = xcvr_eeprom s /\ vdm s' = vdm s /\ cdb s' = cdb s /\
             flat E s' = (Ok b, s').
Proof.
  intros Hb. destruct (cache s !! "is_flat_memory") as [v|] eqn:Hc.
  - rewrite (flat_cached s v Hc) in Hb |- *. cbn [fst] in Hb.
    injection Hb as <-. exists s.
    repeat split; try reflexivity. apply (flat_cached s v Hc).
  - unfold flat, bind in Hb |- *. rewrite (is_flat_memory_fresh s Hc) in Hb |- *.
    cbn [fst truthy] in Hb. injection Hb as <-.
    eexists. split; [reflexivity|]. repeat split.
    rewrite (is_flat_memory_cached _ (VBool (flat_of (read_value s (consts E FLAT_MEM_FIELD))))).
    + reflexivity.
    + apply lookup_insert_eq.
Qed.

End Flat_facts.

#[global] Hint Resolve stable_is_flat_memory stable_flat : stable.

(** ** Dictionary displays, folds of insertions and list traversals *)


Section Display.

(** Where a display ends normally, the collaborators are as before, every
    entry was evaluated in a state with the same collaborators and its
    value is stored under its key, and the other keys are untouched. *)
Lemma dict_display_lookup (entries : list (string * M pyval)) :
  Forall (fun ke => stable ke.2) entries ->
  NoDup entries.*1 ->
  forall (d : gmap pykey pyval) (s : CmisApi) (D : gmap pykey pyval) (s' : CmisApi),
    dict_display entries d s = (Ok D, s') ->
    (xcvr_eeprom s' = xcvr_eeprom s /\ vdm s' = vdm s /\ cdb s' = cdb s) /\
    (forall k e, (k, e) ∈ entries ->
       exists si v si',
         xcvr_eeprom si = xcvr_eeprom s /\ vdm si = vdm s /\ cdb si = cdb s /\
         e si = (Ok v, si') /\ D !! KStr k = Some v) /\
    (forall k, k ∉ entries.*1 -> D !! KStr k = d !! KStr k).
Proof.
  induction entries as [|[k0 e0] entries IH]; intros Hst Hnd d s D s' Hrun.
  - cbn in Hrun. injection Hrun as <- <-.
    split; [done|]. split; [|done]. intros k e Hin. by apply elem_of_nil in Hin.
  - apply Forall_cons in Hst as [Hst0 Hst]. cbn [snd] in Hst0.
    rewrite fmap_cons in Hnd. apply NoDup_cons in Hnd as [Hk0 Hnd].
    cbn [dict_display] in Hrun. unfold bind in Hrun.
    destruct (e0 s) as [[v0|x] s1] eqn:Hrun0; [|discriminate].
    pose proof (Hst0 s) as Hs0. rewrite Hrun0 in Hs0.
    destruct Hs0 as (He0 & Hv0 & Hc0). cbn [snd] in He0, Hv0, Hc0.
    destruct (IH Hst Hnd _ _ _ _ Hrun) as ((He & Hv & Hc) & Hin & Hout).
    split; [by rewrite He, Hv, Hc, He0, Hv0, Hc0|]. split.
    + intros k e Hke. apply elem_of_cons in Hke as [[= -> ->]|Hke].
      * exists s, v0, s1. repeat (split; [done|]).
        rewrite (Hout k0 Hk0). apply lookup_insert_eq.
      * destruct (Hin k e Hke) as (si & v & si' & H1 & H2 & H3 & H4 & H5).
        exists si, v, si'.
        split; [by rewrite H1, He0|]. split; [by rewrite H2, Hv0|].
        split; [by rewrite H3, Hc0|]. split; done.
    + intros k Hk. rewrite fmap_cons in Hk. apply not_elem_of_cons in Hk as [Hne Hk].
      cbn [fst] in Hne. rewrite (Hout k Hk). apply lookup_insert_ne. congruence.
Qed.


End Display.

Lemma res_foldl_app {A B} (f : A -> B -> res A) (a : A) (l1 l2 : list B) :
  res_foldl f a (l1 ++ l2) = res_bind (res_foldl f a l1) (fun a' => res_foldl f a' l2).
Proof.
  revert a. induction l1 as [|x l1 IH]; intros a; cbn [app res_foldl]; [reflexivity|].
  destruct (f a x) as [a'|e]; cbn [res_bind]; [apply IH|reflexivity].
Qed.

(** Two nested loops are one loop over the pairs, in the same order. *)
Lemma res_foldl_nested {A B C} (g : A -> B -> C -> res A) (inner : B -> list C)
    (l : list B) (a : A) :
  res_foldl (fun a b => res_foldl (fun a c => g a b c) a (inner b)) a l
  = res_foldl (fun a bc => g a bc.1 bc.2) a
      (l ≫= fun b => (fun c => (b, c)) <$> inner b).
Proof.
  revert a. induction l as [|b l IH]; intros a; [reflexivity|].
  cbn [res_foldl]. rewrite bind_cons, res_foldl_app.
  assert (forall cs a0, res_foldl (fun a c => g a b c) a0 cs
                        = res_foldl (fun a bc => g a bc.1 bc.2) a0 ((fun c => (b, c)) <$> cs))
    as Hinner.
  { induction cs as [|c cs IHc]; intros a0; [reflexivity|].
    cbn [res_foldl fmap list_fmap fst snd]. destruct (g a0 b c); cbn [res_bind]; [|reflexivity].
    apply IHc. }
  rewrite <- Hinner. destruct (res_foldl _ a (inner b)); cbn [res_bind]; [apply IH|reflexivity].
Qed.

Section Inserts.

Context {X : Type}.
Variables (key : X -> pykey) (val : X -> pyval).

(** A loop whose every turn stores one entry is a fold of insertions. *)
Lemma res_foldl_inserts (g : gmap pykey pyval -> X -> res (gmap pykey pyval))
    (items : list X) :
  (forall d x, x ∈ items -> g d x = Ok (<[ key x := val x ]> d)) ->
  forall d,
    res_foldl g d items = Ok (foldl (fun d x => <[ key x := val x ]> d) d items).
Proof.
  induction items as [|x items IH]; intros Hg d; [reflexivity|].
  cbn [res_foldl foldl]. rewrite Hg by (apply elem_of_cons; by left).
  cbn [res_bind]. apply IH. intros d' y Hy. apply Hg. apply elem_of_cons. by right.
Qed.

Lemma foldl_insert_notin (items : list X) (d : gmap pykey pyval) (k : pykey) :
  k ∉ key <$> items ->
  foldl (fun d x => <[ key x := val x ]> d) d items !! k = d !! k.
Proof.
  revert d. induction items as [|x items IH]; intros d Hk; [reflexivity|].
  rewrite fmap_cons in Hk. apply not_elem_of_cons in Hk as [Hne Hk].
  cbn [foldl]. rewrite (IH _ Hk). by apply lookup_insert_ne.
Qed.

(** With pairwise distinct keys every stored entry is found again. *)
Lemma foldl_insert_lookup (items : list X) (d : gmap pykey pyval) (x : X) :
  NoDup (key <$> items) -> x ∈ items ->
  foldl (fun d x => <[ key x := val x ]> d) d items !! key x = Some (val x).
Proof.
  revert d. induction items as [|y items IH]; intros d Hnd Hx.
  - by apply elem_of_nil in Hx.
  - rewrite fmap_cons in Hnd. apply NoDup_cons in Hnd as [Hy Hnd].
    cbn [foldl]. apply elem_of_cons in Hx as [->|Hx].
    + rewrite (foldl_insert_notin _ _ _ Hy). apply lookup_insert_eq.
    + by apply IH.
Qed.

End Inserts.

(** ** Keys built from a prefix and a suffix *)

Lemma app_eq_prefix (p1 p2 s1 s2 : string) :
  p1 +:+ s1 = p2 +:+ s2 -> String.prefix p1 p2 = true \/ String.prefix p2 p1 = true.
Proof.
  revert p2. induction p1 as [|a p1 IH]; intros p2 Heq; [left; by destruct p2|].
  destruct p2 as [|b p2]; [by right|].
  cbn in Heq. injection Heq as -> Heq. cbn.
  destruct (ascii_dec b b); [|done]. by apply IH.
Qed.

(** Prefixes none of which begins another, each followed by every one of
    a list of distinct suffixes, give distinct keys. *)
Lemma NoDup_prefixed (ps suffixes : list string) :
  NoDup ps -> prefix_free ps -> NoDup suffixes ->
  NoDup (ps ≫= fun p => (fun s => p +:+ s) <$> suffixes).
Proof.
  intros Hps Hfree Hss. apply NoDup_bind; [| |exact Hps].
  - intros p1 p2 y Hp1 Hp2 Hy1 Hy2.
    apply list_elem_of_fmap in Hy1 as (s1 & -> & _).
    apply list_elem_of_fmap in Hy2 as (s2 & Heq & _).
    unfold prefix_free in Hfree. rewrite Forall_forall in Hfree.
    pose proof (Hfree p1 Hp1) as H12. pose proof (Hfree p2 Hp2) as H21.
    rewrite Forall_forall in H12, H21.
    destruct (app_eq_prefix _ _ _ _ Heq) as [Hpre|Hpre].
    + by apply H12.
    + symmetry. by apply H21.
  - intros p _. apply NoDup_fmap_2; [|exact Hss].
    intros s1 s2 Heq. by apply (inj (String.app p)) in Heq.
Qed.

(** ** Datapath init and deinit (claims C2 and C10) *)

Section Datapath.

Variable E : Env.

Lemma datapath_loop_range (init : bool) (channel m d : Z) :
  exists w : Z,
    datapath_loop init (VInt m) channel (range 0 NUM_CHANNELS) (VInt d) = Ok (VInt w) /\
    forall i : Z, 0 <= i ->
      Z.testbit w i =
        if bool_decide (0 <= i < NUM_CHANNELS) && Z.testbit channel i
        then negb (Bool.eqb (4 <=? m) init)
        else Z.testbit d i.
Proof.
  destruct (datapath_loop_bits init m channel (range 0 NUM_CHANNELS) d
              (range_nonneg 0 NUM_CHANNELS (Z.le_refl 0))) as (w & Hw & Hbits).
  exists w. split; [exact Hw|]. intros i Hi. rewrite (Hbits i Hi).
  by rewrite (bool_decide_ext _ _ (elem_of_range 0 NUM_CHANNELS i)).
Qed.

Lemma set_datapath_init_run (channel m d : Z) (s : CmisApi) :
  read_value s (consts E CMIS_MAJOR_REVISION) = VInt m ->
  read_value s (consts E DATAPATH_DEINIT_FIELD) = VInt d ->
  exists w : Z, datapath_outcome E true channel m d s (set_datapath_init E channel s) w.
Proof.
  intros Hm Hd. destruct (datapath_loop_range true channel m d) as (w & Hw & Hbits).
  exists w. unfold datapath_outcome, set_datapath_init, bind.
  rewrite !read_eq, Hm, Hd. unfold lift. rewrite Hw.
  split; [reflexivity|]. split; [reflexivity|]. exact Hbits.
Qed.

Lemma set_datapath_deinit_run (channel m d : Z) (s : CmisApi) :
  read_value s (consts E CMIS_MAJOR_REVISION) = VInt m ->
  read_value s (consts E DATAPATH_DEINIT_FIELD) = VInt d ->
  exists w : Z, datapath_outcome E false channel m d s (set_datapath_deinit E channel s) w.
Proof.
  intros Hm Hd. destruct (datapath_loop_range false channel m d) as (w & Hw & Hbits).
  exists w. unfold datapath_outcome, set_datapath_deinit, bind.
  rewrite !read_eq, Hm, Hd. unfold lift. rewrite Hw.
  split; [reflexivity|]. split; [reflexivity|]. exact Hbits.
Qed.

(** C2.  Polarity of the per-lane control bit.  With the CMIS major
    revision [m] and the register value [d] read from the module, each
    setter calls [write] once on the datapath-deinit register; for every
    lane of the mask, revision >= 4 makes [set_datapath_init] clear the
    lane's bit and [set_datapath_deinit] set it, and revision 3 makes
    [set_datapath_init] set it and [set_datapath_deinit] clear it. *)
Theorem set_datapath_polarity (channel m d : Z) (s : CmisApi) :
  read_value s (consts E CMIS_MAJOR_REVISION) = VInt m ->
  read_value s (consts E DATAPATH_DEINIT_FIELD) = VInt d ->
  exists wi wd : Z,
    (set_datapath_init E channel s).1 = Ok tt /\
    writes_between s (set_datapath_init E channel s).2
      [(consts E DATAPATH_DEINIT_FIELD, VInt wi)] /\
    (set_datapath_deinit E channel s).1 = Ok tt /\
    writes_between s (set_datapath_deinit E channel s).2
      [(consts E DATAPATH_DEINIT_FIELD, VInt wd)] /\
    forall lane : Z, 0 <= lane < NUM_CHANNELS -> Z.testbit channel lane = true ->
      (4 <= m -> Z.testbit wi lane = false /\ Z.testbit wd lane = true) /\
      (m = 3 -> Z.testbit wi lane = true /\ Z.testbit wd lane = false).
Proof.
  intros Hm Hd.
  destruct (set_datapath_init_run channel m d s Hm Hd) as (wi & Hi1 & Hi2 & Hi3).
  destruct (set_datapath_deinit_run channel m d s Hm Hd) as (wd & Hd1 & Hd2 & Hd3).
  exists wi, wd.
  split; [exact Hi1|]. split; [exact Hi2|]. split; [exact Hd1|]. split; [exact Hd2|].
  intros lane Hlane Hbit.
  rewrite Hi3, Hd3 by lia. rewrite Hbit, andb_true_r.
  rewrite bool_decide_eq_true_2 by exact Hlane.
  split.
  - intros H4. rewrite (proj2 (Z.leb_le 4 m) H4). split; reflexivity.
  - intros ->. split; reflexivity.
Qed.

(** C10.  Frame of the read-modify-write.  Whatever the revision, the
    value either setter writes back agrees with the value read on every bit
    that is not the bit of a lane selected by the mask. *)
Theorem set_datapath_frame (channel m d : Z) (s : CmisApi) :
  read_value s (consts E CMIS_MAJOR_REVISION) = VInt m ->
  read_value s (consts E DATAPATH_DEINIT_FIELD) = VInt d ->
  exists wi wd : Z,
    writes_between s (set_datapath_init E channel s).2
      [(consts E DATAPATH_DEINIT_FIELD, VInt wi)] /\
    writes_between s (set_datapath_deinit E channel s).2
      [(consts E DATAPATH_DEINIT_FIELD, VInt wd)] /\
    forall i : Z, 0 <= i ->
      ~ (i < NUM_CHANNELS /\ Z.testbit channel i = true) ->
      Z.testbit wi i = Z.testbit d i /\ Z.testbit wd i = Z.testbit d i.
Proof.
  intros Hm Hd.
  destruct (set_datapath_init_run channel m d s Hm Hd) as (wi & Hi1 & Hi2 & Hi3).
  destruct (set_datapath_deinit_run channel m d s Hm Hd) as (wd & Hd1 & Hd2 & Hd3).
  exists wi, wd. split; [exact Hi2|]. split; [exact Hd2|].
  intros i Hi Hsel. rewrite (Hi3 i Hi), (Hd3 i Hi).
  destruct (Z.testbit channel i) eqn:Hb.
  - rewrite bool_decide_eq_false_2; [split; reflexivity|].
    intros [_ ?]. apply Hsel. split; [assumption|reflexivity].
  - rewrite andb_false_r. split; reflexivity.
Qed.

End Datapath.

(** The spec's example: mask [0b101] on a register with all eight bits
    set; revision 3 and revision 4. *)
Lemma set_datapath_polarity_witness :
  read_value (datapath_example 3 255) (consts example_env CMIS_MAJOR_REVISION) = VInt 3 /\
  read_value (datapath_example 3 255) (consts example_env DATAPATH_DEINIT_FIELD) = VInt 255 /\
  exists wi wd : Z,
    (set_datapath_init example_env 5 (datapath_example 3 255)).1 = Ok tt /\
    writes_between (datapath_example 3 255)
      (set_datapath_init example_env 5 (datapath_example 3 255)).2
      [(consts example_env DATAPATH_DEINIT_FIELD, VInt wi)] /\
    (set_datapath_deinit example_env 5 (datapath_example 3 255)).1 = Ok tt /\
    writes_between (datapath_example 3 255)
      (set_datapath_deinit example_env 5 (datapath_example 3 255)).2
      [(consts example_env DATAPATH_DEINIT_FIELD, VInt wd)] /\
    forall lane : Z, 0 <= lane < NUM_CHANNELS -> Z.testbit 5 lane = true ->
      (4 <= 3 -> Z.testbit wi lane = false /\ Z.testbit wd lane = true) /\
      (3 = 3 -> Z.testbit wi lane = true /\ Z.testbit wd lane = false).
Proof.
  split; [by vm_compute|]. split; [by vm_compute|].
  apply (set_datapath_polarity example_env 5 3 255 (datapath_example 3 255));
    by vm_compute.
Defined.

(** Worked values for the same example. *)
Example set_datapath_init_v3 :
  wlog (xcvr_eeprom (set_datapath_init example_env 5 (datapath_example 3 250)).2)
  = [("DATAPATH_DEINIT_FIELD", VInt 255)].
Proof. by vm_compute. Qed.

Example set_datapath_init_v4 :
  wlog (xcvr_eeprom (set_datapath_init example_env 5 (datapath_example 4 255)).2)
  = [("DATAPATH_DEINIT_FIELD", VInt 250)].
Proof. by vm_compute. Qed.

Lemma set_datapath_frame_witness :
  read_value (datapath_example 4 170) (consts example_env CMIS_MAJOR_REVISION) = VInt 4 /\
  read_value (datapath_example 4 170) (consts example_env DATAPATH_DEINIT_FIELD) = VInt 170 /\
  exists wi wd : Z,
    writes_between (datapath_example 4 170)
      (set_datapath_init example_env 3 (datapath_example 4 170)).2
      [(consts example_env DATAPATH_DEINIT_FIELD, VInt wi)] /\
    writes_between (datapath_example 4 170)
      (set_datapath_deinit example_env 3 (datapath_example 4 170)).2
      [(consts example_env DATAPATH_DEINIT_FIELD, VInt wd)] /\
    forall i : Z, 0 <= i ->
      ~ (i < NUM_CHANNELS /\ Z.testbit 3 i = true) ->
      Z.testbit wi i = Z.testbit 170 i /\ Z.testbit wd i = Z.testbit 170 i.
Proof.
  split; [by vm_compute|]. split; [by vm_compute|].
  apply (set_datapath_frame example_env 3 4 170 (datapath_example 4 170));
    by vm_compute.
Defined.

(** ** Flat memory, construction and the gated getters (claim C9) *)

Section Flat_memory.

Variable E : Env.

(** [is_flat_memory] answers [True] exactly when the read of the
    advertisement returned anything other than [False]. *)
Lemma is_flat_memory_iff (s : CmisApi) :
  cache s !! "is_flat_memory" = None ->
  ((is_flat_memory E s).1 = Ok (VBool true)
     <-> read_value s (consts E FLAT_MEM_FIELD) <> VBool false) /\
  ((is_flat_memory E s).1 = Ok (VBool false)
     <-> read_value s (consts E FLAT_MEM_FIELD) = VBool false).
Proof.
  intros Hc. rewrite (is_flat_memory_fresh E s Hc). cbn [fst].
  destruct (read_value s (consts E FLAT_MEM_FIELD)) as [| [] | | | | |];
    cbn; split; split; congruence.
Qed.

(** Construction when the advertisement reads as anything but [False]. *)
Lemma init_flat (eeprom0 : eeprom) (new_vdm : CmisVdmApi) (new_cdb : CmisCdbApi) :
  default VNone (mem eeprom0 !! consts E FLAT_MEM_FIELD) <> VBool false ->
  __init__ E eeprom0 new_vdm new_cdb =
    (Ok tt, {| xcvr_eeprom := eeprom0; vdm := None; cdb := None;
               cache := {[ "is_flat_memory" := VBool true ]} |}).
Proof.
  intros Hf. unfold __init__.
  set (s0 := {| xcvr_eeprom := eeprom0; vdm := None; cdb := None; cache := ∅ |}).
  assert (flat_of (read_value s0 (consts E FLAT_MEM_FIELD)) = true) as Hfl.
  { unfold read_value, flat_of; cbn [xcvr_eeprom s0].
    destruct (default VNone (mem eeprom0 !! consts E FLAT_MEM_FIELD))
      as [| [] | | | | |]; try reflexivity. congruence. }
  unfold bind at 1. rewrite (flat_fresh E s0 (lookup_empty _)), Hfl.
  unfold bind at 1. cbn beta iota. unfold bind at 1.
  cbn [xcvr_eeprom vdm cdb cache set_cache s0].
  erewrite flat_cached by apply lookup_insert_eq. reflexivity.
Qed.

(** Construction when the advertisement reads [False]. *)
Lemma init_paged (eeprom0 : eeprom) (new_vdm : CmisVdmApi) (new_cdb : CmisCdbApi) :
  default VNone (mem eeprom0 !! consts E FLAT_MEM_FIELD) = VBool false ->
  __init__ E eeprom0 new_vdm new_cdb =
    (Ok tt, {| xcvr_eeprom := eeprom0; vdm := Some new_vdm; cdb := Some new_cdb;
               cache := {[ "is_flat_memory" := VBool false ]} |}).
Proof.
  intros Hf. unfold __init__.
  set (s0 := {| xcvr_eeprom := eeprom0; vdm := None; cdb := None; cache := ∅ |}).
  assert (flat_of (read_value s0 (consts E FLAT_MEM_FIELD)) = false) as Hfl.
  { unfold read_value, flat_of; cbn [xcvr_eeprom s0]. by rewrite Hf. }
  unfold bind at 1. rewrite (flat_fresh E s0 (lookup_empty _)), Hfl.
  unfold bind at 1. cbn beta iota. unfold bind at 1.
  cbn [xcvr_eeprom vdm cdb cache set_cache s0].
  erewrite flat_cached by apply lookup_insert_eq. reflexivity.
Qed.

Lemma flat_instance_flat (later : eeprom) :
  flat E (flat_instance later) = (Ok true, flat_instance later).
Proof. apply (flat_cached E _ (VBool true)). apply lookup_insert_eq. Qed.

(** The getters that consult [is_flat_memory] answer with their sentinel
    on such an instance, without reading a register. *)
Lemma flat_gated_getters (later : eeprom) (appl : Z) :
  let s := flat_instance later in
  (get_module_hardware_revision E s).1 = Ok (VStr "0.0") /\
  (get_module_inactive_firmware E s).1 = Ok NA /\
  (get_module_temperature E s).1 = Ok NA /\
  (get_voltage E s).1 = Ok NA /\
  (get_tx_bias E s).1 = Ok na_list /\
  (get_host_electrical_interface E s).1 = Ok NA /\
  (get_datapath_init_duration E s).1 = Ok (VInt 0) /\
  (get_media_lane_count E appl s).1 = Ok (VInt 0) /\
  (get_media_lane_assignment_option E appl s).1 = Ok NA /\
  (get_active_apsel_hostlane E s).1 = Ok DefaultNA /\
  (get_aux_mon_type E s).1 = Ok None /\
  (get_laser_temperature E s).1 = Ok (laser_temp_dict_of NA NA NA NA NA) /\
  (get_loopback_capability E s).1 = Ok VNone /\
  (get_transceiver_threshold_info E s).1 = Ok (VDict (fromkeys threshold_info_keys NA)) /\
  (is_transceiver_vdm_supported E s).1 = Ok (VBool false) /\
  (get_module_fw_info E s).1 = Ok {| fw_status := false; result := ResultNone |} /\
  (module_fw_run 1 s).1 = Ok false /\
  (module_fw_commit s).1 = Ok false.
Proof.
  cbn zeta. repeat split.
Qed.

(** C9.  After a construction during which the read of the flat-memory
    advertisement did not return [False] (a failed read included), the
    module counts as flat memory and both collaborator handles are [None];
    the gated getters answer with their sentinels (lemma
    [flat_gated_getters]), but the VDM aggregation getters and [get_vdm()]
    do not: they dereference [self.vdm] before [get_vdm] tests it for
    [None] and raise [AttributeError]. *)
Theorem flat_memory_vdm_getters_raise
    (eeprom0 : eeprom) (new_vdm : CmisVdmApi) (new_cdb : CmisCdbApi) :
  default VNone (mem eeprom0 !! consts E FLAT_MEM_FIELD) <> VBool false ->
  let s := (__init__ E eeprom0 new_vdm new_cdb).2 in
  (__init__ E eeprom0 new_vdm new_cdb).1 = Ok tt /\
  vdm s = None /\ cdb s = None /\
  (is_flat_memory E s).1 = Ok (VBool true) /\
  (get_vdm (Some 0) s).1 = Ok (VDict ∅) /\
  (get_vdm None s).1 = Raise AttributeError /\
  (get_transceiver_vdm_real_value s).1 = Raise AttributeError /\
  (get_transceiver_vdm_thresholds s).1 = Raise AttributeError /\
  (get_transceiver_vdm_flags s).1 = Raise AttributeError.
Proof.
  intros Hf. rewrite (init_flat eeprom0 new_vdm new_cdb Hf). cbn zeta. cbn [fst snd].
  repeat split.
Qed.

End Flat_memory.

(** A module whose flat-memory advertisement cannot be read. *)
Lemma flat_memory_vdm_getters_raise_witness :
  default VNone (mem (eeprom_of []) !! consts example_env FLAT_MEM_FIELD) <> VBool false /\
  let s := (__init__ example_env (eeprom_of []) (vdm_of (VDict ∅))
              (cdb_of [] (reply_status 1))).2 in
  (__init__ example_env (eeprom_of []) (vdm_of (VDict ∅)) (cdb_of [] (reply_status 1))).1
    = Ok tt /\
  vdm s = None /\ cdb s = None /\
  (is_flat_memory example_env s).1 = Ok (VBool true) /\
  (get_vdm (Some 0) s).1 = Ok (VDict ∅) /\
  (get_vdm None s).1 = Raise AttributeError /\
  (get_transceiver_vdm_real_value s).1 = Raise AttributeError /\
  (get_transceiver_vdm_thresholds s).1 = Raise AttributeError /\
  (get_transceiver_vdm_flags s).1 = Raise AttributeError.
Proof.
  split; [by vm_compute|].
  apply (flat_memory_vdm_getters_raise example_env (eeprom_of []) (vdm_of (VDict ∅))
           (cdb_of [] (reply_status 1))).
  by vm_compute.
Defined.

(** ** Datapath-init duration (claim C8) *)

Section Duration.

Variable E : Env.

(** C8.  On a paged module whose advertised datapath-init duration reads
    as [v] with [float(v) = q], and with no memoised answer yet,
    [get_datapath_init_duration] returns [q * 10] when [q <= 1000] and [q]
    itself otherwise. *)
Theorem get_datapath_init_duration_override (s : CmisApi) (v : pyval) (q : Q) :
  cache s !! "get_datapath_init_duration" = None ->
  (flat E s).1 = Ok false ->
  read_value s (consts E DP_PATH_INIT_DURATION) = v ->
  v <> VNone ->
  float E v = Ok q ->
  (get_datapath_init_duration E s).1
  = Ok (VFloat (if Qle_bool q 1000 then (q * 10)%Q else q)).
Proof.
  intros Hc Hflat Hv Hnone Hq.
  destruct (flat_answer E s false Hflat) as (s' & Hfl & Hee & _).
  unfold get_datapath_init_duration, read_only_cached_api_return. rewrite Hc.
  unfold bind at 1. rewrite Hfl. cbn match.
  unfold bind at 1. rewrite read_eq.
  assert (read_value s' (consts E DP_PATH_INIT_DURATION) = v) as ->
    by (unfold read_value; rewrite Hee; exact Hv).
  assert (is_none v = false) as -> by (by destruct v).
  unfold bind, lift. rewrite Hq. reflexivity.
Qed.

End Duration.

Lemma get_datapath_init_duration_override_witness :
  cache (duration_example (VStr "100")) !! "get_datapath_init_duration" = None /\
  (flat example_env (duration_example (VStr "100"))).1 = Ok false /\
  read_value (duration_example (VStr "100")) (consts example_env DP_PATH_INIT_DURATION)
    = VStr "100" /\
  VStr "100" <> VNone /\
  float example_env (VStr "100") = Ok (inject_Z 100) /\
  (get_datapath_init_duration example_env (duration_example (VStr "100"))).1
  = Ok (VFloat (if Qle_bool (inject_Z 100) 1000 then (inject_Z 100 * 10)%Q else inject_Z 100)).
Proof.
  repeat (split; [by vm_compute|]).
  apply (get_datapath_init_duration_override example_env
           (duration_example (VStr "100")) (VStr "100") (inject_Z 100));
    by vm_compute.
Defined.

(** The threshold itself is still multiplied; the next value is not. *)
Example duration_at_threshold :
  (get_datapath_init_duration example_env (duration_example (VInt 1000))).1
  = Ok (VFloat (inject_Z 1000 * 10)).
Proof. by vm_compute. Qed.

Example duration_above_threshold :
  (get_datapath_init_duration example_env (duration_example (VInt 1001))).1
  = Ok (VFloat (inject_Z 1001)).
Proof. by vm_compute. Qed.

(** ** Loopback setters (claim C7) *)

Section Loopback.

Variable E : Env.

Lemma get_loopback_capability_paged (s : CmisApi) (x : Z) :
  (flat E s).1 = Ok false ->
  read_value s (consts E LOOPBACK_CAPABILITY) = VInt x ->
  exists s',
    get_loopback_capability E s = (Ok (VDict (loopback_capability_of x)), s') /\
    xcvr_eeprom s' = xcvr_eeprom s.
Proof.
  intros Hflat Hx. destruct (flat_answer E s false Hflat) as (s' & Hfl & Hee & _).
  exists s'. split; [|exact Hee].
  unfold get_loopback_capability. unfold bind at 1. rewrite Hfl. cbn match.
  unfold bind at 1. rewrite read_eq.
  assert (read_value s' (consts E LOOPBACK_CAPABILITY) = VInt x) as ->
    by (unfold read_value; rewrite Hee; exact Hx).
  reflexivity.
Qed.

Lemma capability_supported (x : Z) (dir : loopback_direction) :
  getitem (VDict (loopback_capability_of x)) (KStr (supported_key dir))
  = Ok (VBool (Z.testbit x (direction_bit dir))).
Proof.
  unfold getitem, loopback_capability_of.
  destruct dir; cbn [supported_key direction_bit];
    repeat (rewrite lookup_insert_ne by discriminate);
    rewrite lookup_insert_eq, bit_testbit by lia; reflexivity.
Qed.

Lemma capability_per_lane (x : Z) (dir : loopback_direction) :
  getitem (VDict (loopback_capability_of x)) (KStr (per_lane_key dir))
  = Ok (VBool (Z.testbit x (per_lane_bit dir))).
Proof.
  unfold getitem, loopback_capability_of.
  destruct dir; cbn [per_lane_key per_lane_bit];
    repeat (rewrite lookup_insert_ne by discriminate);
    rewrite lookup_insert_eq, bit_testbit by lia; reflexivity.
Qed.

(** The shared body stops at its second test when per-lane control is not
    advertised and the mask is not [0xff]. *)
Lemma loopback_setter_per_lane (dir : loopback_direction) (other1 other2 own : string)
    (s : CmisApi) (x lane_mask : Z) (enable : bool) :
  (flat E s).1 = Ok false ->
  read_value s (consts E LOOPBACK_CAPABILITY) = VInt x ->
  Z.testbit x (direction_bit dir) = true ->
  Z.testbit x (per_lane_bit dir) = false ->
  lane_mask <> 255 ->
  exists s',
    loopback_setter E (supported_key dir) (per_lane_key dir)
      other1 other2 own lane_mask enable s = (Ok false, s') /\
    xcvr_eeprom s' = xcvr_eeprom s.
Proof.
  intros Hflat Hx Hdir Hlane Hmask.
  destruct (get_loopback_capability_paged s x Hflat Hx) as (s' & Hcap & Hee).
  exists s'. split; [|exact Hee].
  unfold loopback_setter. unfold bind at 1. rewrite Hcap. cbn match.
  cbn [is_none]. cbv iota.
  unfold bind at 1, lift at 1. rewrite capability_supported, Hdir. cbn match.
  cbn [is_False]. cbv iota.
  unfold bind at 1, lift at 1. rewrite capability_per_lane, Hlane. cbn match.
  cbn [is_False andb].
  rewrite (proj2 (Z.eqb_neq lane_mask 255) Hmask). reflexivity.
Qed.

(** C7.  A loopback setter called with a lane mask other than [0xff] on a
    module that advertises the requested direction but not per-lane
    control of that side returns [False] and leaves the register-access
    collaborator as it was: no [write] call is made and no register
    changes. *)
Theorem loopback_per_lane_fails_closed (dir : loopback_direction) (s : CmisApi)
    (x lane_mask : Z) (enable : bool) :
  (flat E s).1 = Ok false ->
  read_value s (consts E LOOPBACK_CAPABILITY) = VInt x ->
  Z.testbit x (direction_bit dir) = true ->
  Z.testbit x (per_lane_bit dir) = false ->
  lane_mask <> 255 ->
  (loopback_function E dir lane_mask enable s).1 = Ok false /\
  xcvr_eeprom (loopback_function E dir lane_mask enable s).2 = xcvr_eeprom s.
Proof.
  intros Hflat Hx Hdir Hlane Hmask.
  assert (exists s', loopback_function E dir lane_mask enable s = (Ok false, s') /\
                     xcvr_eeprom s' = xcvr_eeprom s) as (s' & -> & Hee).
  { destruct dir;
      [ apply (loopback_setter_per_lane HostInput) with (x := x)
      | apply (loopback_setter_per_lane HostOutput) with (x := x)
      | apply (loopback_setter_per_lane MediaInput) with (x := x)
      | apply (loopback_setter_per_lane MediaOutput) with (x := x) ]; assumption. }
  split; [reflexivity|exact Hee].
Qed.

End Loopback.

(** The spec's example: [set_host_input_loopback(mask=0x3, enable=true)] on
    a module advertising all four directions (bits 0 to 3) and nothing
    else. *)
Lemma loopback_per_lane_fails_closed_witness :
  (flat example_env (loopback_example 15)).1 = Ok false /\
  read_value (loopback_example 15) (consts example_env LOOPBACK_CAPABILITY) = VInt 15 /\
  Z.testbit 15 (direction_bit HostInput) = true /\
  Z.testbit 15 (per_lane_bit HostInput) = false /\
  3 <> 255 /\
  (loopback_function example_env HostInput 3 true (loopback_example 15)).1 = Ok false /\
  xcvr_eeprom (loopback_function example_env HostInput 3 true (loopback_example 15)).2
  = xcvr_eeprom (loopback_example 15).
Proof.
  repeat (split; [by vm_compute|]).
  apply (loopback_per_lane_fails_closed example_env HostInput (loopback_example 15) 15 3 true);
    by vm_compute.
Defined.

(** With the full mask the same module takes the write. *)
Example loopback_all_lanes_writes :
  (set_host_input_loopback example_env 255 true (loopback_example 79)).1 = Ok true /\
  wlog (xcvr_eeprom (set_host_input_loopback example_env 255 true (loopback_example 79)).2)
  = [("HOST_INPUT_LOOPBACK", VInt 255)].
Proof. by vm_compute. Qed.

(** ** TX bias scale (claim C6) *)

Section Tx_bias.

Variable E : Env.














End Tx_bias.


(** The spec's boundary values: raw exponent 2 gives 4, raw exponent 3
    gives 1. *)
Example tx_bias_scale_2 : tx_bias_scale example_env (VInt 2) = Ok (VInt 4).
Proof. reflexivity. Qed.

Example tx_bias_scale_3 : tx_bias_scale example_env (VInt 3) = Ok (VInt 1).
Proof. reflexivity. Qed.

Example get_tx_bias_scale_2 :
  (get_tx_bias example_env (bias_example 2 (VInt 3) (VInt 5))).1
  = Ok (VList (replicate 8 (VInt 12))).
Proof. by vm_compute. Qed.

Example get_tx_bias_scale_3 :
  (get_tx_bias example_env (bias_example 3 (VInt 3) (VInt 5))).1
  = Ok (VList (replicate 8 (VInt 3))).
Proof. by vm_compute. Qed.

Example threshold_scale_2 :
  entry (get_transceiver_threshold_info example_env (bias_example 2 (VInt 3) (VInt 5)))
    "txbiashighalarm" = Some (VFloat 20).
Proof. by vm_compute. Qed.

Example threshold_scale_3 :
  entry (get_transceiver_threshold_info example_env (bias_example 3 (VInt 3) (VInt 5)))
    "txbiashighalarm" = Some (VFloat 5).
Proof. by vm_compute. Qed.

(** ** Password retry of the firmware commands (claim C4) *)

Section Fw_password.

Lemma cdb_call_eq (s : CmisApi) (o : CmisCdbApi) (cmd : cdb_cmd) :
  cdb s = Some o ->
  cdb_call cmd s =
    (Ok (cdb_answer o (cdb_log o) cmd),
     set_cdb (Some {| cdb_answer := cdb_answer o; cdb_chkcode := cdb_chkcode o;
                      cdb_log := cmd :: cdb_log o |}) s).
Proof. intros H. unfold cdb_call. by rewrite H. Qed.

Lemma cdb_is_none_eq (s : CmisApi) (o : CmisCdbApi) :
  cdb s = Some o -> cdb_is_none s = (Ok false, s).
Proof. intros H. unfold cdb_is_none. by rewrite H. Qed.

(** A command that is answered "password required" is followed by one
    password entry and one retry, and the method then returns [True]
    without looking at the status of the retry. *)
Lemma module_fw_run_password (s : CmisApi) (o : CmisCdbApi) (mode : Z) :
  cdb s = Some o ->
  status (cdb_answer o (cdb_log o) (run_fw_image mode)) = 70 ->
  (module_fw_run mode s).1 = Ok true /\
  cdb_trace (module_fw_run mode s).2
  = [run_fw_image mode; module_enter_password None; run_fw_image mode] ++ cdb_log o.
Proof.
  intros Hc Hst.
  assert (exists s', module_fw_run mode s = (Ok true, s') /\
                     cdb_trace s'
                     = [run_fw_image mode; module_enter_password None; run_fw_image mode] ++ cdb_log o)
    as (s' & -> & Htr); [|split; [reflexivity|exact Htr]].
  eexists. unfold module_fw_run.
  unfold bind at 1. rewrite (cdb_is_none_eq s o Hc). cbn match.
  unfold bind at 1. rewrite (cdb_call_eq s o _ Hc), Hst. cbn match.
  cbn [Z.eqb Pos.eqb]. cbv iota.
  unfold bind at 1. erewrite cdb_call_eq by reflexivity. cbn match.
  unfold bind at 1. erewrite cdb_call_eq by reflexivity. cbn match.
  split; reflexivity.
Qed.

Lemma module_fw_commit_password (s : CmisApi) (o : CmisCdbApi) :
  cdb s = Some o ->
  status (cdb_answer o (cdb_log o) commit_fw_image) = 70 ->
  (module_fw_commit s).1 = Ok true /\
  cdb_trace (module_fw_commit s).2
  = [commit_fw_image; module_enter_password None; commit_fw_image] ++ cdb_log o.
Proof.
  intros Hc Hst.
  assert (exists s', module_fw_commit s = (Ok true, s') /\
                     cdb_trace s'
                     = [commit_fw_image; module_enter_password None; commit_fw_image] ++ cdb_log o)
    as (s' & -> & Htr); [|split; [reflexivity|exact Htr]].
  eexists. unfold module_fw_commit.
  unfold bind at 1. rewrite (cdb_is_none_eq s o Hc). cbn match.
  unfold bind at 1. rewrite (cdb_call_eq s o _ Hc), Hst. cbn match.
  cbn [Z.eqb Pos.eqb]. cbv iota.
  unfold bind at 1. erewrite cdb_call_eq by reflexivity. cbn match.
  unfold bind at 1. erewrite cdb_call_eq by reflexivity. cbn match.
  split; reflexivity.
Qed.

(** C4.  What the code does on "password required" (status 70): the run
    and the commit step enter the password once and retry the command once,
    as the claim says, but then return [True] whatever the retry answers;
    the claim's "fails if that single retry also does not succeed" does not
    hold. *)
Theorem fw_password_retry_status_ignored (s : CmisApi) (o : CmisCdbApi) (mode : Z) :
  cdb s = Some o ->
  (status (cdb_answer o (cdb_log o) (run_fw_image mode)) = 70 ->
   (module_fw_run mode s).1 = Ok true /\
   cdb_trace (module_fw_run mode s).2
   = [run_fw_image mode; module_enter_password None; run_fw_image mode] ++ cdb_log o) /\
  (status (cdb_answer o (cdb_log o) commit_fw_image) = 70 ->
   (module_fw_commit s).1 = Ok true /\
   cdb_trace (module_fw_commit s).2
   = [commit_fw_image; module_enter_password None; commit_fw_image] ++ cdb_log o).
Proof.
  intros Hc. split; intros Hst.
  - by apply module_fw_run_password.
  - by apply module_fw_commit_password.
Qed.

End Fw_password.

(** A module that answers "password required" to the command and again to
    its retry: both steps report success. *)
Lemma fw_password_retry_status_ignored_witness :
  cdb (cdb_example [70; 1; 70]) = Some (cdb_of (reply_status <$> [70; 1; 70]) (reply_status 1)) /\
  (module_fw_run 1 (cdb_example [70; 1; 70])).1 = Ok true /\
  cdb_trace (module_fw_run 1 (cdb_example [70; 1; 70])).2
  = [run_fw_image 1; module_enter_password None; run_fw_image 1] /\
  (module_fw_commit (cdb_example [70; 1; 70])).1 = Ok true /\
  cdb_trace (module_fw_commit (cdb_example [70; 1; 70])).2
  = [commit_fw_image; module_enter_password None; commit_fw_image].
Proof.
  split; [reflexivity|].
  destruct (fw_password_retry_status_ignored (cdb_example [70; 1; 70])
              (cdb_of (reply_status <$> [70; 1; 70]) (reply_status 1)) 1 eq_refl)
    as [Hrun Hcommit].
  destruct (Hrun eq_refl) as [Hr1 Hr2]. destruct (Hcommit eq_refl) as [Hc1 Hc2].
  split; [exact Hr1|]. split; [exact Hr2|]. split; [exact Hc1|exact Hc2].
Defined.

(** The retry of the run command answered "failed" (status 0x40). *)
Example module_fw_run_retry_failed :
  (module_fw_run 1 (cdb_example [70; 1; 64])).1 = Ok true.
Proof. by vm_compute. Qed.

(** The start-download step: a ten-byte image, four start bytes,
    local-payload blocks.  The start command and its retry are both
    answered "password required"; the download goes on to the block write
    and the validation and reports success. *)
Example module_fw_download_retry_failed :
  let r := module_fw_download 10 4 2048 true false 2048 (Some [1; 2; 3; 4; 5; 6; 7; 8; 9; 10])
             (cdb_example [70; 1; 70; 1; 1]) in
  r.1 = Ok (Some true) /\
  cdb_trace r.2
  = [ validate_fw_image;
      block_write_lpl 0 [5; 6; 7; 8; 9; 10];
      start_fw_download 4 [1; 2; 3; 4] 10;
      module_enter_password None;
      start_fw_download 4 [1; 2; 3; 4] 10 ].
Proof. by vm_compute. Qed.

(** A first answer that is neither success nor "password required" does
    fail the step, after one command. *)
Example module_fw_run_failed :
  (module_fw_run 1 (cdb_example [64])).1 = Ok false /\
  cdb_trace (module_fw_run 1 (cdb_example [64])).2 = [run_fw_image 1].
Proof. by vm_compute. Qed.

(** ** Image-bank switch (claim C5) *)

Section Fw_switch.

Variable E : Env.





End Fw_switch.



Example module_fw_switch_switched :
  (module_fw_switch example_env switch_example).1 = Ok true /\
  cdb_trace (module_fw_switch example_env switch_example).2
  = [get_fw_info; commit_fw_image; run_fw_image 1; get_fw_info].
Proof. by vm_compute. Qed.

Example module_fw_switch_not_switched :
  (module_fw_switch example_env no_switch_example).1 = Ok false.
Proof. by vm_compute. Qed.

(** With one invalid bank nothing is attempted: the only CDB command is the
    first query, although the module would have switched. *)
Example module_fw_switch_one_invalid :
  (module_fw_switch example_env one_valid_running_example).1 = Ok false /\
  cdb_trace (module_fw_switch example_env one_valid_running_example).2 = [get_fw_info].
Proof. by vm_compute. Qed.

(** Both banks valid, but the query after the commit fails (status 0x40):
    the unpacking of its empty result raises. *)
Example module_fw_switch_second_query_fails :
  (module_fw_switch example_env second_query_fails_example).1 = Raise TypeError /\
  cdb_trace (module_fw_switch example_env second_query_fails_example).2
  = [get_fw_info; commit_fw_image; run_fw_image 1; get_fw_info].
Proof. by vm_compute. Qed.

(** ** VDM aggregation (claim C3) *)

Section Vdm.

Lemma seq_index_raises {A} (l : list A) (i : Z) (e : exn) :
  seq_index l i = Raise e -> e = IndexError.
Proof.
  unfold seq_index. destruct (_ && _); [|congruence].
  destruct (l !! _); congruence.
Qed.

(** A subscription raises nothing but [KeyError], [TypeError] and
    [IndexError]. *)
Lemma getitem_raises (v : pyval) (k : pykey) (e : exn) :
  getitem v k = Raise e -> e = KeyError \/ e = TypeError \/ e = IndexError.
Proof.
  destruct v as [| | | | s | l | d]; cbn [getitem]; try (intros [= <-]; tauto).
  - destruct k; [intros [= <-]; tauto|]. intros H%seq_index_raises. tauto.
  - destruct k; [intros [= <-]; tauto|]. intros H%seq_index_raises. tauto.
  - destruct (d !! k); [discriminate|]. intros [= <-]. tauto.
Qed.

Lemma vdm_lookup_raises (raw : pyval) (obs : string) (idx : VdmSubtypeIndex) (lane : Z)
    (e : exn) :
  vdm_lookup raw obs idx lane = Raise e ->
  e = KeyError \/ e = TypeError \/ e = IndexError.
Proof.
  unfold vdm_lookup.
  destruct (getitem raw (KStr obs)) as [a|x] eqn:H1; cbn [res_bind];
    [|intros [= <-]; by eapply getitem_raises].
  destruct (getitem a (KInt lane)) as [b|x] eqn:H2; cbn [res_bind];
    [|intros [= <-]; by eapply getitem_raises].
  apply getitem_raises.
Qed.

(** Where the lookup does not run off a sequence, [_update_vdm_dict]
    stores the value found or ['N/A'] and reports which. *)
Lemma update_vdm_dict_total (d : gmap pykey pyval) (new_key : string) (raw : pyval)
    (obs : string) (idx : VdmSubtypeIndex) (lane : Z) :
  vdm_lookup raw obs idx lane <> Raise IndexError ->
  _update_vdm_dict d new_key raw obs idx lane
  = Ok (<[ KStr new_key := vdm_value raw obs idx lane ]> d,
        is_ok (vdm_lookup raw obs idx lane)).
Proof.
  intros Hne. unfold _update_vdm_dict, vdm_value.
  destruct (vdm_lookup raw obs idx lane) as [v|e] eqn:Hl; [reflexivity|].
  destruct (vdm_lookup_raises _ _ _ _ _ Hl) as [->|[->| ->]];
    [reflexivity|reflexivity|congruence].
Qed.

Lemma seq_index_subtype {A} (l : list A) (idx : VdmSubtypeIndex) :
  (9 <= length l)%nat -> seq_index l (value idx) <> Raise IndexError.
Proof.
  intros Hlen. unfold seq_index.
  assert (0 <= value idx < 9) as Hidx by (destruct idx; cbn; lia).
  destruct (Z.ltb_spec (value idx) 0); [lia|].
  destruct (Z.leb_spec 0 (value idx)); [|lia].
  destruct (Z.ltb_spec (value idx) (Z.of_nat (length l))); [|lia].
  cbn [andb].
  destruct (l !! Z.to_nat (value idx)) eqn:Hl; [discriminate|].
  apply lookup_ge_None in Hl. lia.
Qed.

Lemma sequences_full_no_index_error (raw : pyval) :
  sequences_full raw = true -> no_index_error raw.
Proof.
  intros Hraw obs idx lane. unfold vdm_lookup.
  destruct raw as [| | | | s | l | d]; cbn [getitem res_bind]; try discriminate.
  cbn [sequences_full] in Hraw. apply bool_decide_eq_true in Hraw.
  destruct (d !! KStr obs) as [lanes|] eqn:Hobs; cbn [res_bind]; [|discriminate].
  apply Hraw in Hobs.
  destruct lanes as [| | | | s2 | l2 | d2]; cbn [getitem res_bind]; try discriminate.
  cbn [lanes_full] in Hobs. apply bool_decide_eq_true in Hobs.
  destruct (d2 !! KInt lane) as [subtypes|] eqn:Hlane; cbn [res_bind]; [|discriminate].
  apply Hobs in Hlane.
  destruct subtypes as [| | | | s3 | l3 | d3]; cbn [getitem]; try discriminate.
  - apply seq_index_subtype. cbn [nine_entries] in Hlane.
    by apply bool_decide_eq_true in Hlane.
  - apply seq_index_subtype. cbn [nine_entries] in Hlane.
    by apply bool_decide_eq_true in Hlane.
  - destruct (d3 !! _); discriminate.
Qed.

Lemma real_items_elem (obs prefix : string) (lane : Z) :
  (obs, prefix) ∈ CMIS_VDM_KEY_TO_DB_PREFIX_KEY_MAP -> 1 <= lane <= 8 ->
  (obs, prefix, lane) ∈ vdm_real_items.
Proof.
  intros Hin Hlane. unfold vdm_real_items. apply list_elem_of_bind.
  exists (obs, prefix). split; [|exact Hin].
  apply list_elem_of_fmap. exists lane. split; [reflexivity|].
  apply elem_of_range. unfold NUM_CHANNELS. lia.
Qed.

Lemma typed_items_elem (first last : VdmSubtypeIndex) (obs prefix : string) (lane t : Z) :
  (obs, prefix) ∈ CMIS_VDM_KEY_TO_DB_PREFIX_KEY_MAP -> 1 <= lane <= 8 ->
  value first <= t <= value last ->
  (obs, prefix, lane, t) ∈ vdm_typed_items first last.
Proof.
  intros Hin Hlane Ht. unfold vdm_typed_items. apply list_elem_of_bind.
  exists (obs, prefix, lane). split; [|by apply real_items_elem].
  apply list_elem_of_fmap. exists t. split; [reflexivity|].
  apply elem_of_range. lia.
Qed.

(** The output keys are the prefixes of the key map, each followed by
    every suffix. *)
Lemma real_keys_prefixed :
  real_key <$> vdm_real_items
  = KStr <$> (CMIS_VDM_KEY_TO_DB_PREFIX_KEY_MAP.*2 ≫= fun p =>
                (fun s => p +:+ s) <$> real_suffixes).
Proof.
  unfold vdm_real_items, _get_vdm_key_to_db_prefix_map, real_suffixes.
  induction CMIS_VDM_KEY_TO_DB_PREFIX_KEY_MAP as [|entry l IH]; [reflexivity|].
  rewrite fmap_cons, !bind_cons, !fmap_app, IH.
  f_equal; try (rewrite <- !list_fmap_compose; reflexivity).
Qed.

Lemma typed_keys_prefixed (TYPE_STR_MAP : VdmSubtypeIndex -> option string)
    (first last : VdmSubtypeIndex) :
  typed_key TYPE_STR_MAP <$> vdm_typed_items first last
  = KStr <$> (CMIS_VDM_KEY_TO_DB_PREFIX_KEY_MAP.*2 ≫= fun p =>
                (fun s => p +:+ s) <$> typed_suffixes TYPE_STR_MAP first last).
Proof.
  unfold vdm_typed_items, vdm_real_items, _get_vdm_key_to_db_prefix_map, typed_suffixes.
  induction CMIS_VDM_KEY_TO_DB_PREFIX_KEY_MAP as [|entry l IH]; [reflexivity|].
  rewrite fmap_cons, !bind_cons, bind_app, !fmap_app, IH. f_equal.
  generalize (range 1 (NUM_CHANNELS + 1)). intros lanes.
  induction lanes as [|lane lanes IHl]; [reflexivity|].
  rewrite fmap_cons, !bind_cons, !fmap_app, IHl.
  f_equal; try (rewrite <- !list_fmap_compose; reflexivity).
Qed.

#[local] Instance KStr_inj : Inj (=) (=) KStr.
Proof. by intros s1 s2 [= ->]. Qed.

Lemma vdm_prefixes_distinct : NoDup CMIS_VDM_KEY_TO_DB_PREFIX_KEY_MAP.*2.
Proof. apply (bool_decide_unpack _). by vm_compute. Qed.

Lemma vdm_prefixes_free : prefix_free CMIS_VDM_KEY_TO_DB_PREFIX_KEY_MAP.*2.
Proof. apply (bool_decide_unpack _). by vm_compute. Qed.

Lemma real_keys_distinct : NoDup (real_key <$> vdm_real_items).
Proof.
  rewrite real_keys_prefixed. apply (NoDup_fmap_2 KStr).
  apply NoDup_prefixed; [apply vdm_prefixes_distinct|apply vdm_prefixes_free|].
  apply (bool_decide_unpack _). by vm_compute.
Qed.

Lemma threshold_keys_distinct :
  NoDup (typed_key THRESHOLD_TYPE_STR_MAP
           <$> vdm_typed_items VDM_SUBTYPE_HALARM_THRESHOLD VDM_SUBTYPE_LWARN_THRESHOLD).
Proof.
  rewrite typed_keys_prefixed. apply (NoDup_fmap_2 KStr).
  apply NoDup_prefixed; [apply vdm_prefixes_distinct|apply vdm_prefixes_free|].
  apply (bool_decide_unpack _). by vm_compute.
Qed.

Lemma flag_keys_distinct :
  NoDup (typed_key FLAG_TYPE_STR_MAP
           <$> vdm_typed_items VDM_SUBTYPE_HALARM_FLAG VDM_SUBTYPE_LWARN_FLAG).
Proof.
  rewrite typed_keys_prefixed. apply (NoDup_fmap_2 KStr).
  apply NoDup_prefixed; [apply vdm_prefixes_distinct|apply vdm_prefixes_free|].
  apply (bool_decide_unpack _). by vm_compute.
Qed.

Lemma real_items_inv (obs prefix : string) (lane : Z) :
  (obs, prefix, lane) ∈ vdm_real_items ->
  (obs, prefix) ∈ CMIS_VDM_KEY_TO_DB_PREFIX_KEY_MAP /\ 1 <= lane <= 8.
Proof.
  unfold vdm_real_items. intros Hin.
  apply list_elem_of_bind in Hin as (entry & Hin & Hentry).
  apply list_elem_of_fmap in Hin as (lane' & [= <- <-] & Hin).
  apply elem_of_range in Hin. unfold NUM_CHANNELS in Hin.
  split; [exact Hentry|lia].
Qed.

Lemma typed_items_inv (first last : VdmSubtypeIndex) (obs prefix : string) (lane t : Z) :
  (obs, prefix, lane, t) ∈ vdm_typed_items first last ->
  (obs, prefix) ∈ CMIS_VDM_KEY_TO_DB_PREFIX_KEY_MAP /\ 1 <= lane <= 8 /\
  value first <= t <= value last.
Proof.
  unfold vdm_typed_items. intros Hin.
  apply list_elem_of_bind in Hin as (item & Hin & Hitem).
  apply list_elem_of_fmap in Hin as (t' & [= <- <-] & Hin).
  apply elem_of_range in Hin.
  destruct (real_items_inv _ _ _ Hitem) as [Hentry Hlane].
  repeat split; try assumption; lia.
Qed.

(** [_update_vdm_dict] lets an [IndexError] of the lookup through, and
    raises nothing else. *)
Lemma update_vdm_dict_index_error (d : gmap pykey pyval) (new_key : string) (raw : pyval)
    (obs : string) (idx : VdmSubtypeIndex) (lane : Z) :
  vdm_lookup raw obs idx lane = Raise IndexError ->
  _update_vdm_dict d new_key raw obs idx lane = Raise IndexError.
Proof. intros Hl. unfold _update_vdm_dict. by rewrite Hl. Qed.

Lemma update_vdm_dict_raises (d : gmap pykey pyval) (new_key : string) (raw : pyval)
    (obs : string) (idx : VdmSubtypeIndex) (lane : Z) (e : exn) :
  _update_vdm_dict d new_key raw obs idx lane = Raise e -> e = IndexError.
Proof.
  unfold _update_vdm_dict.
  destruct (vdm_lookup raw obs idx lane) as [x|e'] eqn:Hl; [discriminate|].
  destruct (one_of [KeyError; TypeError] e') eqn:Ho; [discriminate|].
  intros [= <-].
  destruct (vdm_lookup_raises _ _ _ _ _ Hl) as [->|[->| ->]];
    [vm_compute in Ho; discriminate|vm_compute in Ho; discriminate|reflexivity].
Qed.

(** A fold whose turns raise nothing but [e], and one of whose turns raises
    it whatever it is given, raises [e]. *)
Lemma res_foldl_raise {A B} (f : A -> B -> res A) (e : exn) (l : list B) (x : B) :
  x ∈ l ->
  (forall a, f a x = Raise e) ->
  (forall a y e', y ∈ l -> f a y = Raise e' -> e' = e) ->
  forall a, res_foldl f a l = Raise e.
Proof.
  intros Hx Hraise. induction l as [|y l IH]; intros Honly a.
  - by apply elem_of_nil in Hx.
  - cbn [res_foldl]. destruct (f a y) as [a'|e'] eqn:Hy; cbn [res_bind].
    + apply elem_of_cons in Hx as [->|Hx]; [rewrite Hraise in Hy; discriminate|].
      apply IH; [exact Hx|]. intros a0 z e0 Hz. apply Honly. apply elem_of_cons. by right.
    + f_equal. eapply Honly; [|exact Hy]. apply elem_of_cons. by left.
Qed.

(** The real-value loops as one fold of insertions. *)
Lemma real_value_dict (raw : pyval) :
  lookups_in_range raw real_subtypes ->
  res_foldl (fun d entry =>
    res_foldl (fun d lane => vdm_real_value_body raw d entry lane)
      d (range 1 (NUM_CHANNELS + 1)))
    ∅ _get_vdm_key_to_db_prefix_map
  = Ok (foldl (fun d x =>
                 <[ real_key x := vdm_value raw x.1.1 VDM_SUBTYPE_REAL_VALUE x.2 ]> d)
          ∅ vdm_real_items).
Proof.
  intros Hraw.
  rewrite (res_foldl_nested (vdm_real_value_body raw)
             (fun _ => range 1 (NUM_CHANNELS + 1))).
  apply (res_foldl_inserts real_key
           (fun x => vdm_value raw x.1.1 VDM_SUBTYPE_REAL_VALUE x.2)).
  intros d [[obs prefix] lane] Hin. cbn [fst snd]. unfold vdm_real_value_body.
  apply real_items_inv in Hin as [Hentry Hlane].
  rewrite update_vdm_dict_total; [reflexivity|].
  apply Hraw. split; [by exists prefix|]. split; [exact Hlane|].
  apply list_elem_of_singleton. reflexivity.
Qed.

(** The real-value loops raise [IndexError] when one of their lookups
    does. *)
Lemma real_value_raises (raw : pyval) :
  lookup_out_of_range raw real_subtypes ->
  res_foldl (fun d entry =>
    res_foldl (fun d lane => vdm_real_value_body raw d entry lane)
      d (range 1 (NUM_CHANNELS + 1)))
    ∅ _get_vdm_key_to_db_prefix_map
  = Raise IndexError.
Proof.
  intros (obs & idx & lane & ((prefix & Hentry) & Hlane & Hidx) & Hl).
  apply list_elem_of_singleton in Hidx as ->.
  rewrite (res_foldl_nested (vdm_real_value_body raw)
             (fun _ => range 1 (NUM_CHANNELS + 1))).
  apply (res_foldl_raise _ _ _ (obs, prefix, lane)).
  - by apply real_items_elem.
  - intros d. cbn [fst snd]. unfold vdm_real_value_body.
    by rewrite update_vdm_dict_index_error.
  - intros d [[obs' prefix'] lane'] e' _. cbn [fst snd]. unfold vdm_real_value_body.
    destruct (_update_vdm_dict _ _ _ _ _ _) eqn:Hu; cbn [res_bind]; [discriminate|].
    intros [= <-]. by eapply update_vdm_dict_raises.
Qed.

(** The threshold and flag loops as one fold of insertions, for a subtype
    range whose every number is a named subtype. *)
Lemma typed_dict (TYPE_STR_MAP : VdmSubtypeIndex -> option string)
    (first last : VdmSubtypeIndex) (subtypes : list VdmSubtypeIndex) (raw : pyval) :
  (forall t, value first <= t <= value last ->
     exists idx str, VdmSubtypeIndex_of t = Ok idx /\ TYPE_STR_MAP idx = Some str /\
                     String.eqb str "" = false /\ idx ∈ subtypes) ->
  lookups_in_range raw subtypes ->
  vdm_typed_dict TYPE_STR_MAP first last raw
  = Ok (foldl (fun d x =>
                 <[ typed_key TYPE_STR_MAP x
                    := vdm_value raw x.1.1.1 (subtype_of x.2) x.1.2 ]> d)
          ∅ (vdm_typed_items first last)).
Proof.
  intros Hnamed Hraw. unfold vdm_typed_dict.
  rewrite (res_foldl_nested
             (fun d entry lane =>
                res_foldl (fun d vdm_type => vdm_typed_body TYPE_STR_MAP raw d entry lane vdm_type)
                  d (range (value first) (value last + 1)))
             (fun _ => range 1 (NUM_CHANNELS + 1))).
  rewrite (res_foldl_nested
             (fun d (item : string * string * Z) vdm_type =>
                vdm_typed_body TYPE_STR_MAP raw d item.1 item.2 vdm_type)
             (fun _ => range (value first) (value last + 1))).
  apply (res_foldl_inserts (typed_key TYPE_STR_MAP)
           (fun x => vdm_value raw x.1.1.1 (subtype_of x.2) x.1.2)).
  intros d [[[obs prefix] lane] t] Hin. cbn [fst snd].
  apply typed_items_inv in Hin as (Hentry & Hlane & Ht).
  destruct (Hnamed t Ht) as (idx & str & Hidx & Hstr & Hne & Hsub).
  unfold vdm_typed_body, typed_key, type_str_of, subtype_of. cbn [fst snd].
  rewrite Hidx. cbn [res_bind res_default]. rewrite Hstr, Hne. cbn [default].
  rewrite update_vdm_dict_total; [reflexivity|].
  apply Hraw. split; [by exists prefix|]. by split.
Qed.

(** Those loops raise [IndexError] when one of their lookups does. *)
Lemma typed_raises (TYPE_STR_MAP : VdmSubtypeIndex -> option string)
    (first last : VdmSubtypeIndex) (subtypes : list VdmSubtypeIndex) (raw : pyval) :
  (forall t, value first <= t <= value last ->
     exists idx str, VdmSubtypeIndex_of t = Ok idx /\ TYPE_STR_MAP idx = Some str /\
                     String.eqb str "" = false /\ idx ∈ subtypes) ->
  (forall idx, idx ∈ subtypes -> value first <= value idx <= value last) ->
  lookup_out_of_range raw subtypes ->
  vdm_typed_dict TYPE_STR_MAP first last raw = Raise IndexError.
Proof.
  intros Hnamed Hrange (obs & idx & lane & ((prefix & Hentry) & Hlane & Hidx) & Hl).
  unfold vdm_typed_dict.
  rewrite (res_foldl_nested
             (fun d entry lane =>
                res_foldl (fun d vdm_type => vdm_typed_body TYPE_STR_MAP raw d entry lane vdm_type)
                  d (range (value first) (value last + 1)))
             (fun _ => range 1 (NUM_CHANNELS + 1))).
  rewrite (res_foldl_nested
             (fun d (item : string * string * Z) vdm_type =>
                vdm_typed_body TYPE_STR_MAP raw d item.1 item.2 vdm_type)
             (fun _ => range (value first) (value last + 1))).
  assert (forall d obs' prefix' lane' t, value first <= t <= value last ->
            exists idx' key,
              VdmSubtypeIndex_of t = Ok idx' /\
              vdm_typed_body TYPE_STR_MAP raw d (obs', prefix') lane' t
              = res_bind (_update_vdm_dict d key raw obs' idx' lane') (fun r => Ok r.1))
    as Hbody.
  { intros d obs' prefix' lane' t Ht.
    destruct (Hnamed t Ht) as (idx' & str & Hidx' & Hstr & Hne & _).
    exists idx', (prefix' +:+ "_" +:+ str +:+ pretty lane'). split; [exact Hidx'|].
    unfold vdm_typed_body. rewrite Hidx'. cbn [res_bind]. by rewrite Hstr, Hne. }
  apply (res_foldl_raise _ _ _ (obs, prefix, lane, value idx)).
  - apply typed_items_elem; [exact Hentry|exact Hlane|by apply Hrange].
  - intros d. cbn [fst snd].
    destruct (Hbody d obs prefix lane (value idx) (Hrange idx Hidx))
      as (idx' & key & Hidx' & ->).
    assert (idx' = idx) as -> by (destruct idx; cbn in Hidx'; congruence).
    by rewrite update_vdm_dict_index_error.
  - intros d [[[obs' prefix'] lane'] t] e' Hin. cbn [fst snd].
    apply typed_items_inv in Hin as (_ & _ & Ht).
    destruct (Hbody d obs' prefix' lane' t Ht) as (idx' & key & _ & ->).
    destruct (_update_vdm_dict _ _ _ _ _ _) eqn:Hu; cbn [res_bind]; [discriminate|].
    intros [= <-]. by eapply update_vdm_dict_raises.
Qed.

Lemma threshold_types_named (t : Z) :
  value VDM_SUBTYPE_HALARM_THRESHOLD <= t <= value VDM_SUBTYPE_LWARN_THRESHOLD ->
  exists idx str, VdmSubtypeIndex_of t = Ok idx /\ THRESHOLD_TYPE_STR_MAP idx = Some str /\
                  String.eqb str "" = false /\ idx ∈ threshold_subtypes.
Proof.
  cbn [value]. intros Ht. unfold threshold_subtypes.
  assert (t = 1 \/ t = 2 \/ t = 3 \/ t = 4) as [->|[->|[->| ->]]] by lia;
    eexists _, _; (repeat split; [reflexivity..|]);
    rewrite !elem_of_cons; tauto.
Qed.

Lemma threshold_subtypes_range (idx : VdmSubtypeIndex) :
  idx ∈ threshold_subtypes ->
  value VDM_SUBTYPE_HALARM_THRESHOLD <= value idx <= value VDM_SUBTYPE_LWARN_THRESHOLD.
Proof.
  unfold threshold_subtypes. rewrite !elem_of_cons, elem_of_nil.
  intros [->|[->|[->|[->|[]]]]]; cbn; lia.
Qed.

Lemma flag_types_named (t : Z) :
  value VDM_SUBTYPE_HALARM_FLAG <= t <= value VDM_SUBTYPE_LWARN_FLAG ->
  exists idx str, VdmSubtypeIndex_of t = Ok idx /\ FLAG_TYPE_STR_MAP idx = Some str /\
                  String.eqb str "" = false /\ idx ∈ flag_subtypes.
Proof.
  cbn [value]. intros Ht. unfold flag_subtypes.
  assert (t = 5 \/ t = 6 \/ t = 7 \/ t = 8) as [->|[->|[->| ->]]] by lia;
    eexists _, _; (repeat split; [reflexivity..|]);
    rewrite !elem_of_cons; tauto.
Qed.

Lemma flag_subtypes_range (idx : VdmSubtypeIndex) :
  idx ∈ flag_subtypes ->
  value VDM_SUBTYPE_HALARM_FLAG <= value idx <= value VDM_SUBTYPE_LWARN_FLAG.
Proof.
  unfold flag_subtypes. rewrite !elem_of_cons, elem_of_nil.
  intros [->|[->|[->|[->|[]]]]]; cbn; lia.
Qed.

(** Running the lookups decides whether they stay in range. *)
Lemma lookups_checked_in_range (raw : pyval) (subtypes : list VdmSubtypeIndex) :
  lookups_checked raw subtypes = true -> lookups_in_range raw subtypes.
Proof.
  unfold lookups_checked. rewrite forallb_forall.
  intros Hall obs idx lane ((prefix & Hentry) & Hlane & Hidx) Hl.
  assert (In (obs, idx, lane) (lookups subtypes)) as Hin.
  { apply list_elem_of_In. unfold lookups.
    apply list_elem_of_bind. exists (obs, prefix). split; [|exact Hentry].
    apply list_elem_of_bind. exists lane.
    split; [|apply elem_of_range; unfold NUM_CHANNELS; lia].
    apply list_elem_of_fmap. by exists idx. }
  apply Hall in Hin. cbn [fst snd] in Hin. rewrite Hl in Hin. discriminate.
Qed.

Lemma no_index_error_in_range (raw : pyval) (subtypes : list VdmSubtypeIndex) :
  no_index_error raw -> lookups_in_range raw subtypes.
Proof. intros Hraw obs idx lane _. apply Hraw. Qed.

Lemma vdm_attr_eq (attr : CmisVdmApi -> Z) (s : CmisApi) (v : CmisVdmApi) :
  vdm s = Some v -> vdm_attr attr s = (Ok (attr v), s).
Proof. intros H. unfold vdm_attr. by rewrite H. Qed.

Lemma get_vdm_eq (o : Z) (s : CmisApi) (v : CmisVdmApi) :
  vdm s = Some v -> get_vdm (Some o) s = (Ok (get_vdm_allpage v o), s).
Proof. intros H. unfold get_vdm, bind, ret. by rewrite H. Qed.

(** C3 (amended).  Each aggregation method looks up
    [raw[observable][lane][subtype]] once for every observable of the key
    map, every lane from 1 to 8 and every subtype of the method (the real
    value; the four thresholds; the four flags).  If none of these lookups
    raises [IndexError], the method returns a dictionary in which every
    output key holds the value found or, where the lookup raises [KeyError]
    or [TypeError] (absent observable, absent lane, [None] or a scalar in
    place of a mapping), ['N/A'].  If one of these lookups raises
    [IndexError] (a sequence too short for the lane or the subtype), the
    method raises [IndexError]. *)
Theorem vdm_aggregation_best_effort (s : CmisApi) (v : CmisVdmApi) :
  vdm s = Some v ->
  ((lookups_in_range (get_vdm_allpage v (VDM_REAL_VALUE v)) real_subtypes ->
    exists real : gmap pykey pyval,
      (get_transceiver_vdm_real_value s).1 = Ok (VDict real) /\
      forall obs prefix lane,
        (obs, prefix) ∈ CMIS_VDM_KEY_TO_DB_PREFIX_KEY_MAP -> 1 <= lane <= 8 ->
        real !! KStr (prefix +:+ pretty lane)
        = Some (vdm_value (get_vdm_allpage v (VDM_REAL_VALUE v)) obs
                  VDM_SUBTYPE_REAL_VALUE lane)) /\
   (lookup_out_of_range (get_vdm_allpage v (VDM_REAL_VALUE v)) real_subtypes ->
    (get_transceiver_vdm_real_value s).1 = Raise IndexError)) /\
  ((lookups_in_range (get_vdm_allpage v (VDM_THRESHOLD v)) threshold_subtypes ->
    exists thresholds : gmap pykey pyval,
      (get_transceiver_vdm_thresholds s).1 = Ok (VDict thresholds) /\
      forall obs prefix lane idx str,
        (obs, prefix) ∈ CMIS_VDM_KEY_TO_DB_PREFIX_KEY_MAP -> 1 <= lane <= 8 ->
        THRESHOLD_TYPE_STR_MAP idx = Some str ->
        thresholds !! KStr (prefix +:+ "_" +:+ str +:+ pretty lane)
        = Some (vdm_value (get_vdm_allpage v (VDM_THRESHOLD v)) obs idx lane)) /\
   (lookup_out_of_range (get_vdm_allpage v (VDM_THRESHOLD v)) threshold_subtypes ->
    (get_transceiver_vdm_thresholds s).1 = Raise IndexError)) /\
  ((lookups_in_range (get_vdm_allpage v (VDM_FLAG v)) flag_subtypes ->
    exists flags : gmap pykey pyval,
      (get_transceiver_vdm_flags s).1 = Ok (VDict flags) /\
      forall obs prefix lane idx str,
        (obs, prefix) ∈ CMIS_VDM_KEY_TO_DB_PREFIX_KEY_MAP -> 1 <= lane <= 8 ->
        FLAG_TYPE_STR_MAP idx = Some str ->
        flags !! KStr (prefix +:+ "_" +:+ str +:+ pretty lane)
        = Some (vdm_value (get_vdm_allpage v (VDM_FLAG v)) obs idx lane)) /\
   (lookup_out_of_range (get_vdm_allpage v (VDM_FLAG v)) flag_subtypes ->
    (get_transceiver_vdm_flags s).1 = Raise IndexError)).
Proof.
  intros Hv. split; [|split]; split.
  - intros Hraw. eexists. split.
    { unfold get_transceiver_vdm_real_value, bind, lift.
      rewrite (vdm_attr_eq _ s v Hv), (get_vdm_eq _ s v Hv).
      rewrite (real_value_dict _ Hraw). reflexivity. }
    intros obs prefix lane Hin Hlane.
    apply (foldl_insert_lookup real_key
             (fun x => vdm_value (get_vdm_allpage v (VDM_REAL_VALUE v)) x.1.1
                         VDM_SUBTYPE_REAL_VALUE x.2)
             vdm_real_items ∅ (obs, prefix, lane) real_keys_distinct).
    by apply real_items_elem.
  - intros Hraw.
    unfold get_transceiver_vdm_real_value, bind, lift.
    rewrite (vdm_attr_eq _ s v Hv), (get_vdm_eq _ s v Hv).
    rewrite (real_value_raises _ Hraw). reflexivity.
  - intros Hraw. eexists. split.
    { unfold get_transceiver_vdm_thresholds, bind, lift.
      rewrite (vdm_attr_eq _ s v Hv), (get_vdm_eq _ s v Hv).
      rewrite (typed_dict _ _ _ _ _ threshold_types_named Hraw). reflexivity. }
    intros obs prefix lane idx str Hin Hlane Hstr.
    assert (exists t, value VDM_SUBTYPE_HALARM_THRESHOLD <= t <= value VDM_SUBTYPE_LWARN_THRESHOLD
                      /\ subtype_of t = idx) as (t & Ht & Hidx)
      by (exists (value idx); destruct idx; try discriminate; (split; [|reflexivity]); cbn; lia).
    pose proof (foldl_insert_lookup (typed_key THRESHOLD_TYPE_STR_MAP)
                  (fun x => vdm_value (get_vdm_allpage v (VDM_THRESHOLD v)) x.1.1.1
                              (subtype_of x.2) x.1.2)
                  _ ∅ (obs, prefix, lane, t) threshold_keys_distinct
                  (typed_items_elem _ _ obs prefix lane t Hin Hlane Ht)) as Hl.
    unfold typed_key, type_str_of in Hl. cbn [fst snd] in Hl.
    rewrite Hidx, Hstr in Hl. exact Hl.
  - intros Hraw.
    unfold get_transceiver_vdm_thresholds, bind, lift.
    rewrite (vdm_attr_eq _ s v Hv), (get_vdm_eq _ s v Hv).
    rewrite (typed_raises _ _ _ _ _ threshold_types_named threshold_subtypes_range Hraw).
    reflexivity.
  - intros Hraw. eexists. split.
    { unfold get_transceiver_vdm_flags, bind, lift.
      rewrite (vdm_attr_eq _ s v Hv), (get_vdm_eq _ s v Hv).
      rewrite (typed_dict _ _ _ _ _ flag_types_named Hraw). reflexivity. }
    intros obs prefix lane idx str Hin Hlane Hstr.
    assert (exists t, value VDM_SUBTYPE_HALARM_FLAG <= t <= value VDM_SUBTYPE_LWARN_FLAG
                      /\ subtype_of t = idx) as (t & Ht & Hidx)
      by (exists (value idx); destruct idx; try discriminate; (split; [|reflexivity]); cbn; lia).
    pose proof (foldl_insert_lookup (typed_key FLAG_TYPE_STR_MAP)
                  (fun x => vdm_value (get_vdm_allpage v (VDM_FLAG v)) x.1.1.1
                              (subtype_of x.2) x.1.2)
                  _ ∅ (obs, prefix, lane, t) flag_keys_distinct
                  (typed_items_elem _ _ obs prefix lane t Hin Hlane Ht)) as Hl.
    unfold typed_key, type_str_of in Hl. cbn [fst snd] in Hl.
    rewrite Hidx, Hstr in Hl. exact Hl.
  - intros Hraw.
    unfold get_transceiver_vdm_flags, bind, lift.
    rewrite (vdm_attr_eq _ s v Hv), (get_vdm_eq _ s v Hv).
    rewrite (typed_raises _ _ _ _ _ flag_types_named flag_subtypes_range Hraw).
    reflexivity.
Qed.

End Vdm.

Lemma vdm_aggregation_best_effort_witness :
  (exists real : gmap pykey pyval,
     (get_transceiver_vdm_real_value (vdm_example lane5_absent_raw)).1 = Ok (VDict real) /\
     forall obs prefix lane,
       (obs, prefix) ∈ CMIS_VDM_KEY_TO_DB_PREFIX_KEY_MAP -> 1 <= lane <= 8 ->
       real !! KStr (prefix +:+ pretty lane)
       = Some (vdm_value lane5_absent_raw obs VDM_SUBTYPE_REAL_VALUE lane)) /\
  (exists thresholds : gmap pykey pyval,
     (get_transceiver_vdm_thresholds (vdm_example lane5_absent_raw)).1
       = Ok (VDict thresholds) /\
     forall obs prefix lane idx str,
       (obs, prefix) ∈ CMIS_VDM_KEY_TO_DB_PREFIX_KEY_MAP -> 1 <= lane <= 8 ->
       THRESHOLD_TYPE_STR_MAP idx = Some str ->
       thresholds !! KStr (prefix +:+ "_" +:+ str +:+ pretty lane)
       = Some (vdm_value lane5_absent_raw obs idx lane)) /\
  (exists flags : gmap pykey pyval,
     (get_transceiver_vdm_flags (vdm_example lane5_absent_raw)).1 = Ok (VDict flags) /\
     forall obs prefix lane idx str,
       (obs, prefix) ∈ CMIS_VDM_KEY_TO_DB_PREFIX_KEY_MAP -> 1 <= lane <= 8 ->
       FLAG_TYPE_STR_MAP idx = Some str ->
       flags !! KStr (prefix +:+ "_" +:+ str +:+ pretty lane)
       = Some (vdm_value lane5_absent_raw obs idx lane)) /\
  (get_transceiver_vdm_real_value (vdm_example lane_sequence_short_raw)).1
    = Raise IndexError.
Proof.
  assert (no_index_error lane5_absent_raw) as Hraw
    by (apply sequences_full_no_index_error; vm_compute; reflexivity).
  pose proof (vdm_aggregation_best_effort (vdm_example lane5_absent_raw)
                (vdm_of lane5_absent_raw) eq_refl) as (Hreal & Hthresholds & Hflags).
  pose proof (vdm_aggregation_best_effort (vdm_example lane_sequence_short_raw)
                (vdm_of lane_sequence_short_raw) eq_refl) as (Hshort & _).
  split; [apply Hreal; by apply no_index_error_in_range|].
  split; [apply Hthresholds; by apply no_index_error_in_range|].
  split; [apply Hflags; by apply no_index_error_in_range|].
  apply Hshort. exists "Laser Temperature [C]", VDM_SUBTYPE_REAL_VALUE, 8.
  split; [|vm_compute; reflexivity].
  split; [exists "laser_temperature_media"; apply (bool_decide_unpack _); vm_compute; reflexivity|].
  split; [lia|]. apply list_elem_of_singleton. reflexivity.
Defined.

(** C3, as claimed, fails on a subtype sequence that is too short: the
    [IndexError] of the lookup is not among the exceptions
    [_update_vdm_dict] catches, and all three methods raise it. *)
Lemma vdm_aggregation_counterexample :
  (get_transceiver_vdm_real_value (vdm_example short_sequence_raw)).1 = Raise IndexError /\
  (get_transceiver_vdm_thresholds (vdm_example short_sequence_raw)).1 = Raise IndexError /\
  (get_transceiver_vdm_flags (vdm_example short_sequence_raw)).1 = Raise IndexError.
Proof. by vm_compute. Qed.

(** The observable absent for lane 5: that key alone is ['N/A']. *)
Example vdm_lane5_absent :
  vdm_value lane5_absent_raw "Laser Temperature [C]" VDM_SUBTYPE_REAL_VALUE 5 = NA /\
  vdm_value lane5_absent_raw "Laser Temperature [C]" VDM_SUBTYPE_REAL_VALUE 4 = VInt 40 /\
  vdm_value lane5_absent_raw "Laser Temperature [C]" VDM_SUBTYPE_LWARN_THRESHOLD 6 = VInt 0 /\
  vdm_value lane5_absent_raw "eSNR Media Input [dB]" VDM_SUBTYPE_REAL_VALUE 1 = NA.
Proof. by vm_compute. Qed.

Example vdm_real_value_lane5_absent :
  entry (get_transceiver_vdm_real_value (vdm_example lane5_absent_raw))
    "laser_temperature_media4" = Some (VInt 40) /\
  entry (get_transceiver_vdm_real_value (vdm_example lane5_absent_raw))
    "laser_temperature_media5" = Some NA /\
  entry (get_transceiver_vdm_thresholds (vdm_example lane5_absent_raw))
    "laser_temperature_media_halarm5" = Some NA /\
  entry (get_transceiver_vdm_thresholds (vdm_example lane5_absent_raw))
    "laser_temperature_media_halarm6" = Some (VInt 75).
Proof. by vm_compute. Qed.

(** The lane level given as a sequence of nine positions: every lookup
    performed stays in range and the methods return dictionaries, although
    a lookup never performed (lane 9) would run off the sequence. *)
Example vdm_lane_sequence :
  lookups_checked lane_sequence_raw real_subtypes = true /\
  vdm_lookup lane_sequence_raw "Laser Temperature [C]" VDM_SUBTYPE_REAL_VALUE 9
    = Raise IndexError /\
  entry (get_transceiver_vdm_real_value (vdm_example lane_sequence_raw))
    "laser_temperature_media8" = Some (VInt 40) /\
  entry (get_transceiver_vdm_thresholds (vdm_example lane_sequence_raw))
    "laser_temperature_media_lalarm8" = Some (VInt (-5)) /\
  entry (get_transceiver_vdm_real_value (vdm_example lane_sequence_raw))
    "esnr_media_input1" = Some NA.
Proof. by vm_compute. Qed.

(** With positions 0 to 7 only, the lookup of lane 8 raises [IndexError]
    and so do the methods. *)
Example vdm_lane_sequence_short :
  lookups_checked lane_sequence_short_raw real_subtypes = false /\
  (get_transceiver_vdm_real_value (vdm_example lane_sequence_short_raw)).1
    = Raise IndexError /\
  (get_transceiver_vdm_flags (vdm_example lane_sequence_short_raw)).1
    = Raise IndexError.
Proof. by vm_compute. Qed.

(** ** The identity aggregate (claim C1) *)

Section Memo_facts.

Lemma keeps_memo_ret {A} (name : string) (a : A) : keeps_memo name (ret a).
Proof. done. Qed.

Lemma keeps_memo_lift {A} (name : string) (r : res A) : keeps_memo name (lift r).
Proof. done. Qed.

Lemma keeps_memo_read (name field : string) : keeps_memo name (read field).
Proof. done. Qed.

Lemma keeps_memo_bind {A B} (name : string) (m : M A) (k : A -> M B) :
  keeps_memo name m -> (forall a, keeps_memo name (k a)) -> keeps_memo name (bind m k).
Proof.
  intros Hm Hk s. unfold bind. specialize (Hm s).
  destruct (m s) as [[a|e] s1]; cbn [snd] in *; [|done].
  by rewrite (Hk a s1).
Qed.

Lemma keeps_memo_if {A} (name : string) (b : bool) (m1 m2 : M A) :
  keeps_memo name m1 -> keeps_memo name m2 -> keeps_memo name (if b then m1 else m2).
Proof. by destruct b. Qed.

Lemma keeps_memo_cached (name other : string) (func : M pyval) :
  other <> name -> keeps_memo name func ->
  keeps_memo name (read_only_cached_api_return other func).
Proof.
  intros Hne Hf s. unfold read_only_cached_api_return.
  destruct (cache s !! other); [done|]. specialize (Hf s).
  destruct (func s) as [[v|e] s1]; cbn [snd] in *; [|done].
  destruct (is_none v); [done|].
  cbn [cache set_cache]. by rewrite lookup_insert_ne.
Qed.

End Memo_facts.

Section Display_facts.

Lemma dict_display_app (l1 l2 : list (string * M pyval)) (d : gmap pykey pyval)
    (s : CmisApi) :
  dict_display (l1 ++ l2) d s
  = (let* d' := dict_display l1 d in dict_display l2 d') s.
Proof.
  revert d s. induction l1 as [|[k e] l1 IH]; intros d s; [reflexivity|].
  cbn [app dict_display]. unfold bind in IH |- *.
  destruct (e s) as [[v|x] s1]; [|reflexivity]. apply IH.
Qed.

(** What every entry of a display preserves, the display preserves. *)
Lemma dict_display_preserves (P : CmisApi -> Prop) (entries : list (string * M pyval)) :
  Forall (fun ke => forall s, P s -> P (ke.2 s).2) entries ->
  forall d s, P s -> P (dict_display entries d s).2.
Proof.
  induction entries as [|[k e] entries IH]; intros Hall d s Hs; [exact Hs|].
  apply Forall_cons in Hall as [He Hall]. cbn [snd] in He.
  cbn [dict_display]. unfold bind. specialize (He s Hs).
  destruct (e s) as [[v|x] s1]; cbn [snd] in *; [|exact He].
  by apply IH.
Qed.

(** A display leaves the keys it does not name alone. *)
Lemma dict_display_other (entries : list (string * M pyval)) (k : string) :
  k ∉ entries.*1 ->
  forall d s D s', dict_display entries d s = (Ok D, s') -> D !! KStr k = d !! KStr k.
Proof.
  induction entries as [|[k0 e0] entries IH]; intros Hk d s D s' Hrun.
  - cbn in Hrun. by injection Hrun as <- <-.
  - rewrite fmap_cons in Hk. apply not_elem_of_cons in Hk as [Hne Hk]. cbn [fst] in Hne.
    cbn [dict_display] in Hrun. unfold bind in Hrun.
    destruct (e0 s) as [[v0|x] s1]; [|discriminate].
    rewrite (IH Hk _ _ _ _ Hrun). apply lookup_insert_ne. congruence.
Qed.

Lemma none_in_values_false (d : gmap pykey pyval) (k : pykey) :
  none_in_values d = false -> d !! k <> Some VNone.
Proof.
  unfold none_in_values. intros Hnone Hk.
  assert (existsb (fun kv : pykey * pyval => is_none kv.2) (map_to_list d) = true) as Hex.
  { apply existsb_exists. exists (k, VNone). split; [|reflexivity].
    apply list_elem_of_In. by apply elem_of_map_to_list. }
  congruence.
Qed.

Lemma none_in_values_clean (d : gmap pykey pyval) :
  (forall k v, d !! k = Some v -> v <> VNone) -> none_in_values d = false.
Proof.
  intros Hd. unfold none_in_values.
  destruct (existsb _ _) eqn:Hex; [|reflexivity].
  apply existsb_exists in Hex as ([k v] & Hin & Hv). cbn [snd] in Hv.
  apply list_elem_of_In, elem_of_map_to_list in Hin.
  destruct v; try discriminate. by destruct (Hd k VNone Hin).
Qed.

(** Where every entry respects a preorder on states and, in a state
    related to the first, evaluates to a value in [Q], the display holds
    values in [Q] only. *)
Lemma dict_display_values (R : CmisApi -> CmisApi -> Prop) (Q : pyval -> Prop)
    (s : CmisApi) (entries : list (string * M pyval)) :
  (forall s0 s2 s3, R s0 s2 -> R s2 s3 -> R s0 s3) ->
  Forall (fun ke => respects R ke.2 /\
                    forall s0 v s0', R s s0 -> ke.2 s0 = (Ok v, s0') -> Q v) entries ->
  forall (d : gmap pykey pyval) (s0 : CmisApi) (D : gmap pykey pyval) (s1 : CmisApi),
    R s s0 -> (forall k v, d !! k = Some v -> Q v) ->
    dict_display entries d s0 = (Ok D, s1) ->
    (forall k v, D !! k = Some v -> Q v) /\ R s s1.
Proof.
  intros Htrans.
  induction entries as [|[k0 e0] entries IH]; intros Hall d s0 D s1 Hs0 Hd Hrun.
  - cbn in Hrun. injection Hrun as <- <-. by split.
  - apply Forall_cons in Hall as [[Hresp Hval] Hall]. cbn [snd] in Hresp, Hval.
    cbn [dict_display] in Hrun. unfold bind in Hrun.
    pose proof (Hresp s0) as Hstep.
    destruct (e0 s0) as [[v0|x] sa] eqn:He0; [|discriminate]. cbn [snd] in Hstep.
    apply (IH Hall _ _ _ _ (Htrans _ _ _ Hs0 Hstep)) in Hrun; [exact Hrun|].
    intros k v. destruct (decide (KStr k0 = k)) as [<-|Hne].
    + rewrite lookup_insert_eq. intros [= <-]. by apply (Hval s0 v0 sa).
    + rewrite lookup_insert_ne by done. apply Hd.
Qed.

(** Where the entries before position [i] respect a preorder on states,
    the entry at [i] is evaluated in a state related to the first, and its
    value is what the display holds under its key. *)
Lemma display_entry_at (R : CmisApi -> CmisApi -> Prop)
    (entries : list (string * M pyval)) (i : nat) (k : string) (e : M pyval)
    (d D : gmap pykey pyval) (s s1 : CmisApi) :
  entries !! i = Some (k, e) ->
  (forall s0, R s0 s0) ->
  (forall s0 s2 s3, R s0 s2 -> R s2 s3 -> R s0 s3) ->
  Forall (fun ke => forall s0, R s0 (ke.2 s0).2) (take i entries) ->
  k ∉ (drop (S i) entries).*1 ->
  dict_display entries d s = (Ok D, s1) ->
  exists si v si', R s si /\ e si = (Ok v, si') /\ D !! KStr k = Some v.
Proof.
  intros Hi Hrefl Htrans Hall Hk Hdisp.
  rewrite <- (take_drop_middle entries i (k, e) Hi) in Hdisp.
  rewrite dict_display_app in Hdisp. unfold bind at 1 in Hdisp.
  pose proof (dict_display_preserves (fun s' => R s s') (take i entries)) as Hkeep.
  specialize (Hkeep ltac:(
    eapply Forall_impl; [exact Hall|];
    intros [k0 e0] He0 s0 Hs0; cbn [snd] in *;
    exact (Htrans _ _ _ Hs0 (He0 s0))) d s (Hrefl s)).
  destruct (dict_display (take i entries) d s) as [[d1|x] sa]; [|discriminate].
  cbn [snd] in Hkeep.
  cbn [dict_display] in Hdisp. unfold bind at 1 in Hdisp.
  destruct (e sa) as [[v|x] sb] eqn:He; [|discriminate].
  exists sa, v, sb. split; [exact Hkeep|]. split; [exact He|].
  rewrite (dict_display_other _ _ Hk _ _ _ _ Hdisp).
  apply lookup_insert_eq.
Qed.

End Display_facts.

(** ** Computations that respect a preorder on states *)

Section Respects.

Variable R : CmisApi -> CmisApi -> Prop.
Variable ordinary : list string.

Hypothesis R_refl : forall s, R s s.
Hypothesis R_trans : forall s1 s2 s3, R s1 s2 -> R s2 s3 -> R s1 s3.
Hypothesis R_insert : forall name v s,
  name ∈ ordinary -> is_none v = false -> R s (set_cache (<[ name := v ]> (cache s)) s).

Lemma respects_ret {A} (a : A) : respects R (ret a).
Proof. intros s. apply R_refl. Qed.

Lemma respects_raise {A} (e : exn) : respects R (@raise A e).
Proof. intros s. apply R_refl. Qed.

Lemma respects_lift {A} (r : res A) : respects R (lift r).
Proof. intros s. apply R_refl. Qed.

Lemma respects_read (field : string) : respects R (read field).
Proof. intros s. apply R_refl. Qed.

Lemma respects_bind {A B} (m : M A) (k : A -> M B) :
  respects R m -> (forall a, respects R (k a)) -> respects R (bind m k).
Proof.
  intros Hm Hk s. unfold bind. specialize (Hm s).
  destruct (m s) as [[a|e] s1]; cbn [snd] in *; [|exact Hm].
  exact (R_trans _ _ _ Hm (Hk a s1)).
Qed.

Lemma respects_if {A} (b : bool) (m1 m2 : M A) :
  respects R m1 -> respects R m2 -> respects R (if b then m1 else m2).
Proof. by destruct b. Qed.

Lemma respects_try_except {A} (m : M A) (catches : exn -> bool) (h : M A) :
  respects R m -> respects R h -> respects R (try_except m catches h).
Proof.
  intros Hm Hh s. unfold try_except. specialize (Hm s).
  destruct (m s) as [[a|e] s1]; cbn [snd] in *; [exact Hm|].
  destruct (catches e); [|exact Hm].
  exact (R_trans _ _ _ Hm (Hh s1)).
Qed.

Lemma respects_cached (name : string) (func : M pyval) :
  name ∈ ordinary -> respects R func ->
  respects R (read_only_cached_api_return name func).
Proof.
  intros Hname Hf s. unfold read_only_cached_api_return.
  destruct (cache s !! name); [apply R_refl|]. specialize (Hf s).
  destruct (func s) as [[v|e] s1]; cbn [snd] in *; [|exact Hf].
  destruct (is_none v) eqn:Hv; [exact Hf|].
  exact (R_trans _ _ _ Hf (R_insert name v s1 Hname Hv)).
Qed.

End Respects.

(** The entries of the identity display before [vendor_rev] respect every
    preorder that the flat-memory test, the hardware revision and the
    application advertisement respect. *)
Section Respects_entries.

Variable E : Env.
Variable R : CmisApi -> CmisApi -> Prop.

Hypothesis R_refl : forall s, R s s.
Hypothesis R_trans : forall s1 s2 s3, R s1 s2 -> R s2 s3 -> R s1 s3.
Hypothesis R_flat : respects R (flat E).
Hypothesis R_hardware : respects R (get_module_hardware_revision E).
Hypothesis R_advertisement : respects R (get_application_advertisement E).

Local Ltac respects_step :=
  first [ apply (respects_ret R R_refl)
        | apply (respects_lift R R_refl)
        | apply (respects_read R R_refl)
        | apply (respects_raise R R_refl)
        | apply R_flat
        | apply R_hardware
        | apply R_advertisement
        | apply (respects_if R)
        | apply (respects_bind R R_trans); [|intros ?] ].

Lemma respects_application_advertisement_str :
  respects R (application_advertisement_str E).
Proof. unfold application_advertisement_str. repeat respects_step. Qed.

Lemma respects_get_host_electrical_interface :
  respects R (get_host_electrical_interface E).
Proof. unfold get_host_electrical_interface. repeat respects_step. Qed.

Lemma respects_get_module_media_interface : respects R (get_module_media_interface E).
Proof.
  unfold get_module_media_interface, get_module_media_type. repeat respects_step.
Qed.

Lemma respects_get_media_lane_count (appl : Z) : respects R (get_media_lane_count E appl).
Proof. unfold get_media_lane_count. repeat respects_step. Qed.

Lemma respects_get_host_lane_assignment_option (appl : Z) :
  respects R (get_host_lane_assignment_option E appl).
Proof. unfold get_host_lane_assignment_option. repeat respects_step. Qed.

Lemma respects_get_media_lane_assignment_option (appl : Z) :
  respects R (get_media_lane_assignment_option E appl).
Proof. unfold get_media_lane_assignment_option. repeat respects_step. Qed.

Lemma respects_display_prefix (admin_info power_class max_power : pyval) :
  Forall (fun ke => respects R ke.2)
    (take 20 (xcvr_info_display E admin_info power_class max_power)).
Proof.
  unfold xcvr_info_display. cbn [take].
  repeat (apply Forall_cons; split; [cbn [snd]|]); try apply Forall_nil_2;
    first [ apply respects_application_advertisement_str
          | apply respects_get_host_electrical_interface
          | apply respects_get_module_media_interface
          | apply respects_get_media_lane_count
          | apply respects_get_host_lane_assignment_option
          | apply respects_get_media_lane_assignment_option
          | unfold admin_stripped, admin, get_host_lane_count,
              get_media_interface_technology;
            by repeat respects_step ].
Qed.

End Respects_entries.

Section Settled_facts.

Variable E : Env.

Notation "'c.' X" := (consts E X) (at level 1, X at level 0, format "'c.' X").

(** The answer of the flat-memory test, from the memo or from the
    register. *)
Lemma flat_result (s : CmisApi) :
  (flat E s).1
  = Ok (match cache s !! "is_flat_memory" with
        | Some v => truthy v
        | None => flat_of (read_value s c.FLAT_MEM_FIELD)
        end).
Proof.
  destruct (cache s !! "is_flat_memory") as [v|] eqn:Hc.
  - by rewrite (flat_cached E s v Hc).
  - by rewrite (flat_fresh E s Hc).
Qed.

Lemma settled_refl (s : CmisApi) : settled E s s.
Proof. done. Qed.

Lemma settled_trans (s1 s2 s3 : CmisApi) :
  settled E s1 s2 -> settled E s2 s3 -> settled E s1 s3.
Proof.
  intros (He1 & Hc1 & Hf1) (He2 & Hc2 & Hf2).
  split; [congruence|]. split; congruence.
Qed.

(** Memoising under another name changes neither the memo of
    [get_vendor_rev] nor the flat-memory answer. *)
Lemma settled_insert (name : string) (v : pyval) (s : CmisApi) :
  name ∈ ["get_module_hardware_revision"; "get_application_advertisement"] ->
  is_none v = false ->
  settled E s (set_cache (<[ name := v ]> (cache s)) s).
Proof.
  intros Hname _.
  assert (name <> "get_vendor_rev" /\ name <> "is_flat_memory") as [Hn1 Hn2].
  { rewrite !elem_of_cons, elem_of_nil in Hname.
    destruct Hname as [->|[->|[]]]; by split. }
  split; [reflexivity|]. split.
  - cbn [cache set_cache]. by apply lookup_insert_ne.
  - rewrite !flat_result. cbn [cache set_cache].
    rewrite lookup_insert_ne by done. reflexivity.
Qed.

(** The flat-memory test memoises its own answer. *)
Lemma settled_flat : respects (settled E) (flat E).
Proof.
  intros s. destruct (cache s !! "is_flat_memory") as [v|] eqn:Hc.
  - rewrite (flat_cached E s v Hc). apply settled_refl.
  - rewrite (flat_fresh E s Hc). cbn [snd].
    split; [reflexivity|]. split.
    + cbn [cache set_cache]. by apply lookup_insert_ne.
    + rewrite !flat_result. cbn [cache set_cache].
      rewrite lookup_insert_eq, Hc. reflexivity.
Qed.

Lemma settled_get_module_hardware_revision :
  respects (settled E) (get_module_hardware_revision E).
Proof.
  apply (respects_cached _ _ settled_refl settled_trans settled_insert);
    [rewrite !elem_of_cons; tauto|].
  apply (respects_bind _ settled_trans); [apply settled_flat|]. intros fl.
  apply respects_if; [apply (respects_ret _ settled_refl)|].
  apply (respects_bind _ settled_trans); [apply (respects_read _ settled_refl)|]. intros a.
  apply (respects_bind _ settled_trans); [apply (respects_read _ settled_refl)|]. intros b.
  apply (respects_ret _ settled_refl).
Qed.

Lemma settled_get_application_advertisement :
  respects (settled E) (get_application_advertisement E).
Proof.
  apply (respects_cached _ _ settled_refl settled_trans settled_insert);
    [rewrite !elem_of_cons; tauto|].
  apply (respects_bind _ settled_trans); [apply (respects_read _ settled_refl)|]. intros dic.
  apply respects_if; [apply (respects_ret _ settled_refl)|].
  apply (respects_bind _ settled_trans); [apply settled_flat|]. intros fl.
  apply (respects_bind _ settled_trans).
  - apply respects_if; [|apply (respects_ret _ settled_refl)].
    apply (respects_try_except _ settled_trans); [|apply (respects_ret _ settled_refl)].
    destruct dic; try apply (respects_raise _ settled_refl).
    apply (respects_bind _ settled_trans); [apply (respects_read _ settled_refl)|].
    intros page01.
    apply (respects_bind _ settled_trans); [apply (respects_lift _ settled_refl)|].
    intros d'. apply (respects_ret _ settled_refl).
  - intros [dic'|]; [|apply (respects_ret _ settled_refl)].
    apply (respects_bind _ settled_trans); [apply (respects_read _ settled_refl)|].
    intros media_type.
    apply (respects_bind _ settled_trans); [apply (respects_lift _ settled_refl)|].
    intros prefix.
    apply (respects_bind _ settled_trans); [apply (respects_lift _ settled_refl)|].
    intros r. apply (respects_ret _ settled_refl).
Qed.

(** The entries evaluated before [vendor_rev] settle. *)
Lemma settles_display_prefix (admin_info power_class max_power : pyval) :
  Forall (fun ke => forall s0, settled E s0 (ke.2 s0).2)
    (take 20 (xcvr_info_display E admin_info power_class max_power)).
Proof.
  apply (respects_display_prefix E (settled E) settled_refl settled_trans settled_flat
           settled_get_module_hardware_revision settled_get_application_advertisement).
Qed.

End Settled_facts.

Section Kept_facts.

Variable E : Env.

Notation "'c.' X" := (consts E X) (at level 1, X at level 0, format "'c.' X").

Lemma kept_refl (s : CmisApi) : kept E s s.
Proof. by repeat split. Qed.

Lemma kept_trans (s1 s2 s3 : CmisApi) : kept E s1 s2 -> kept E s2 s3 -> kept E s1 s3.
Proof.
  intros (He1 & Hv1 & Hf1 & Hm1 & Hc1 & Ha1) (He2 & Hv2 & Hf2 & Hm2 & Hc2 & Ha2).
  split; [congruence|]. split; [congruence|]. split; [congruence|].
  split; [|split]; auto.
Qed.

(** Memoising a value that is not [None] under a name other than those of
    the flat-memory test and the application advertisement. *)
Lemma kept_insert_ne (name : string) (v : pyval) (s : CmisApi) :
  name <> "is_flat_memory" -> name <> "get_application_advertisement" ->
  is_none v = false ->
  kept E s (set_cache (<[ name := v ]> (cache s)) s).
Proof.
  intros Hn1 Hn2 Hv.
  split; [reflexivity|]. split; [reflexivity|]. split; [|split; [|split]].
  - rewrite !flat_result. cbn [cache set_cache].
    rewrite lookup_insert_ne by done. reflexivity.
  - intros n Hn. cbn [cache set_cache].
    destruct (decide (name = n)) as [->|Hne];
      [rewrite lookup_insert_eq; by eexists|by rewrite lookup_insert_ne].
  - intros Hclean n. cbn [cache set_cache].
    destruct (decide (name = n)) as [->|Hne];
      [rewrite lookup_insert_eq; intros [= ->]; discriminate
      |rewrite lookup_insert_ne by done; apply Hclean].
  - intros Hadv a. cbn [cache set_cache]. rewrite lookup_insert_ne by done. apply Hadv.
Qed.

Lemma kept_insert (name : string) (v : pyval) (s : CmisApi) :
  name ∈ ["get_module_hardware_revision"; "get_vendor_rev"; "get_cmis_rev"] ->
  is_none v = false ->
  kept E s (set_cache (<[ name := v ]> (cache s)) s).
Proof.
  intros Hname. rewrite !elem_of_cons, elem_of_nil in Hname.
  destruct Hname as [->|[->|[->|[]]]]; by apply kept_insert_ne.
Qed.

Lemma kept_flat : respects (kept E) (flat E).
Proof.
  intros s. destruct (cache s !! "is_flat_memory") as [v|] eqn:Hc.
  - rewrite (flat_cached E s v Hc). apply kept_refl.
  - rewrite (flat_fresh E s Hc). cbn [snd].
    split; [reflexivity|]. split; [reflexivity|]. split; [|split; [|split]].
    + rewrite !flat_result. cbn [cache set_cache].
      rewrite lookup_insert_eq, Hc. reflexivity.
    + intros n Hn. cbn [cache set_cache].
      destruct (decide ("is_flat_memory" = n)) as [<-|Hne];
        [rewrite lookup_insert_eq; by eexists|by rewrite lookup_insert_ne].
    + intros Hclean n. cbn [cache set_cache].
      destruct (decide ("is_flat_memory" = n)) as [<-|Hne];
        [rewrite lookup_insert_eq; discriminate
        |rewrite lookup_insert_ne by done; apply Hclean].
    + intros Hadv a. cbn [cache set_cache]. rewrite lookup_insert_ne by done. apply Hadv.
Qed.

Lemma kept_get_module_hardware_revision :
  respects (kept E) (get_module_hardware_revision E).
Proof.
  apply (respects_cached _ _ kept_refl kept_trans kept_insert);
    [rewrite !elem_of_cons; tauto|].
  apply (respects_bind _ kept_trans); [apply kept_flat|]. intros fl.
  apply respects_if; [apply (respects_ret _ kept_refl)|].
  apply (respects_bind _ kept_trans); [apply (respects_read _ kept_refl)|]. intros a.
  apply (respects_bind _ kept_trans); [apply (respects_read _ kept_refl)|]. intros b.
  apply (respects_ret _ kept_refl).
Qed.

Lemma kept_get_vendor_rev : respects (kept E) (get_vendor_rev E).
Proof.
  apply (respects_cached _ _ kept_refl kept_trans kept_insert);
    [rewrite !elem_of_cons; tauto|].
  apply (respects_bind _ kept_trans); [apply (respects_read _ kept_refl)|]. intros a.
  apply (respects_ret _ kept_refl).
Qed.

Lemma kept_get_cmis_rev : respects (kept E) (get_cmis_rev E).
Proof.
  apply (respects_cached _ _ kept_refl kept_trans kept_insert);
    [rewrite !elem_of_cons; tauto|].
  apply (respects_bind _ kept_trans); [apply (respects_read _ kept_refl)|]. intros a.
  apply (respects_bind _ kept_trans); [apply (respects_read _ kept_refl)|]. intros b.
  apply (respects_ret _ kept_refl).
Qed.

Lemma kept_is_transceiver_vdm_supported :
  respects (kept E) (is_transceiver_vdm_supported E).
Proof.
  intros s. unfold is_transceiver_vdm_supported.
  destruct (vdm s); [rewrite read_eq|]; apply kept_refl.
Qed.

(** Inserting a value that is not [None] into a map without [None]. *)
Lemma insert_no_none (m : gmap pykey pyval) (k : pykey) (v : pyval) :
  v <> VNone -> (forall key, m !! key <> Some VNone) ->
  forall key, <[ k := v ]> m !! key <> Some VNone.
Proof.
  intros Hv Hm key. destruct (decide (k = key)) as [->|Hne].
  - rewrite lookup_insert_eq. congruence.
  - rewrite lookup_insert_ne by done. apply Hm.
Qed.

(** The entry the advertisement loop stores for an application holds no
    [None]. *)
Lemma advt_entry_clean (dic : pyval) (prefix : option string) (app : Z)
    (buf : gmap pykey pyval) :
  advt_entry E dic prefix app = Ok (Some buf) ->
  forall key, buf !! key <> Some VNone.
Proof.
  unfold advt_entry. intros Hrun.
  repeat match type of Hrun with
         | res_bind ?r _ = _ =>
             let v := fresh "val" in
             destruct r as [v|?]; cbn [res_bind] in Hrun; [|discriminate]
         | (if ?b || _ || _ then _ else _) = _ =>
             let Hb := fresh "Hb" in
             destruct b eqn:Hb; cbn [orb] in Hrun; [discriminate|]
         | (if ?b || _ then _ else _) = _ =>
             let Hb := fresh "Hb" in
             destruct b eqn:Hb; cbn [orb] in Hrun; [discriminate|]
         | (if str_eq ?v ?t then _ else _) = _ =>
             destruct (str_eq v t); [discriminate|]
         | (if is_none ?v then Ok None else _) = _ =>
             let Hb := fresh "Hb" in
             destruct (is_none v) eqn:Hb; [discriminate|]
         | match ?p with Some _ => _ | None => _ end = _ =>
             destruct p; [|discriminate]
         | (let _ := _ in _) = _ => cbv zeta in Hrun
         end.
  injection Hrun as <-.
  assert (forall key : pykey,
            ({[ KStr "host_electrical_interface_id" := val ]} : gmap pykey pyval) !! key
            <> Some VNone) as H0.
  { intros key. destruct (decide (KStr "host_electrical_interface_id" = key)) as [<-|Hne].
    - rewrite lookup_singleton_eq. intros [= ->]. discriminate.
    - by rewrite lookup_singleton_ne. }
  destruct (is_none val4) eqn:Hlast;
    repeat (apply insert_no_none; [by apply is_none_false|]);
    first [exact H0 | intros key; by rewrite lookup_empty].
Qed.

Lemma advt_loop_clean (dic : pyval) (prefix : option string) (apps : list Z) :
  forall ret_ r : gmap pykey pyval,
    advt_loop E dic prefix apps ret_ = Ok r ->
    (forall k a, ret_ !! k = Some a ->
       exists buf : gmap pykey pyval, a = VDict buf /\ forall key, buf !! key <> Some VNone) ->
    forall k a, r !! k = Some a ->
      exists buf : gmap pykey pyval, a = VDict buf /\ forall key, buf !! key <> Some VNone.
Proof.
  induction apps as [|app apps IH]; intros ret_ r Hrun Hret.
  - cbn in Hrun. by injection Hrun as <-.
  - cbn [advt_loop] in Hrun.
    destruct (advt_entry E dic prefix app) as [[buf|]|x] eqn:Hentry; cbn [res_bind] in Hrun;
      [| |discriminate].
    + apply (IH _ _ Hrun). intros k a.
      destruct (decide (KInt app = k)) as [<-|Hne].
      * rewrite lookup_insert_eq. intros [= <-]. exists buf. split; [reflexivity|].
        by apply (advt_entry_clean dic prefix app).
      * rewrite lookup_insert_ne by done. apply Hret.
    + by apply (IH _ _ Hrun).
Qed.

(** What [get_application_advertisement] does to the state, and what it
    returns where the memo holds no other kind of advertisement. *)
Lemma get_application_advertisement_run (s : CmisApi) :
  kept E s (get_application_advertisement E s).2 /\
  forall v, (get_application_advertisement E s).1 = Ok v ->
            advertisement_memo_clean s -> advertisement_clean v.
Proof.
  assert (advertisement_clean (VDict ∅)) as Hempty.
  { exists ∅. split; [reflexivity|]. intros k a Hk. by rewrite lookup_empty in Hk. }
  unfold get_application_advertisement, read_only_cached_api_return.
  destruct (cache s !! "get_application_advertisement") as [memo|] eqn:Hc.
  { split; [apply kept_refl|]. cbn [fst]. intros v [= <-] Hadv. by apply Hadv. }
  match goal with
  | |- context [match ?body s with _ => _ end] =>
      assert (exists r s1, body s = (r, s1) /\ kept E s s1 /\
                           forall v, r = Ok v -> advertisement_clean v)
        as (r & s1 & -> & Hkept & Hclean)
  end.
  { unfold bind at 1. rewrite read_eq.
    destruct (negb (truthy (read_value s c.APPLS_ADVT_FIELD))).
    { eexists _, _. split; [reflexivity|]. split; [apply kept_refl|]. by intros v [= <-]. }
    unfold bind at 1. pose proof (kept_flat s) as Hflat.
    destruct (flat E s) as [[fl|x] s1]; cbn [snd] in Hflat.
    2:{ eexists _, _. split; [reflexivity|]. split; [exact Hflat|]. discriminate. }
    assert (forall (dic' : res (option pyval)),
              exists r,
                (let* dic' := (fun s0 => (dic', s0)) in
                 match dic' with
                 | None => ret (VDict ∅)
                 | Some dic =>
                     let* media_type := read c.MEDIA_TYPE_FIELD in
                     let* prefix := lift (media_prefix E media_type) in
                     let* ret_ := lift (advt_loop E dic prefix (range 1 16) ∅) in
                     ret (VDict ret_)
                 end) s1 = (r, s1) /\
                forall v, r = Ok v -> advertisement_clean v) as Htail.
    { intros [[dic|]|x]; unfold bind at 1.
      - unfold bind at 1. rewrite read_eq. unfold bind, lift, ret.
        destruct (media_prefix E _) as [prefix|x]; [|eexists; split; [reflexivity|discriminate]].
        destruct (advt_loop E dic prefix (range 1 16) ∅) as [ret_|x] eqn:Hloop;
          [|eexists; split; [reflexivity|discriminate]].
        eexists. split; [reflexivity|]. intros v [= <-].
        exists ret_. split; [reflexivity|].
        apply (advt_loop_clean _ _ _ _ _ Hloop). intros k a Hk. by rewrite lookup_empty in Hk.
      - eexists. split; [reflexivity|]. by intros v [= <-].
      - eexists. split; [reflexivity|]. discriminate. }
    assert (forall m : M (option pyval),
              (exists dic', m s1 = (dic', s1)) ->
              exists r s2,
                (let* dic' := m in
                 match dic' with
                 | None => ret (VDict ∅)
                 | Some dic =>
                     let* media_type := read c.MEDIA_TYPE_FIELD in
                     let* prefix := lift (media_prefix E media_type) in
                     let* ret_ := lift (advt_loop E dic prefix (range 1 16) ∅) in
                     ret (VDict ret_)
                 end) s1 = (r, s2) /\ kept E s s2 /\
                forall v, r = Ok v -> advertisement_clean v) as Hpure.
    { intros m (dic' & Hm). destruct (Htail dic') as (r & Hr & Hv).
      exists r, s1. split; [|by split].
      unfold bind at 1 in Hr. unfold bind at 1. rewrite Hm.
      destruct dic' as [dic'|x]; [exact Hr|]. by injection Hr as <-. }
    apply Hpure.
    destruct (negb fl); [|by eexists].
    unfold try_except.
    destruct (read_value s c.APPLS_ADVT_FIELD);
      try (unfold raise; cbn; by eexists).
    unfold bind at 1. rewrite read_eq. unfold bind, lift, ret.
    destruct (dict_update E _ _) as [d'|x]; [by eexists|].
    destruct (one_of _ x); by eexists. }
  destruct r as [v|x]; cbn [fst snd]; [|split; [exact Hkept|discriminate]].
  destruct (is_none v) eqn:Hv.
  { split; [exact Hkept|]. intros v' [= <-] _. by apply Hclean. }
  split; [|intros v' [= <-] _; by apply Hclean].
  apply (kept_trans _ _ _ Hkept).
  split; [reflexivity|]. split; [reflexivity|]. split; [|split; [|split]].
  - rewrite !flat_result. cbn [cache set_cache].
    rewrite lookup_insert_ne by done. reflexivity.
  - intros n Hn. cbn [cache set_cache].
    destruct (decide ("get_application_advertisement" = n)) as [<-|Hne];
      [rewrite lookup_insert_eq; by eexists|by rewrite lookup_insert_ne].
  - intros Hcl n. cbn [cache set_cache].
    destruct (decide ("get_application_advertisement" = n)) as [<-|Hne];
      [rewrite lookup_insert_eq; intros [= ->]; discriminate
      |rewrite lookup_insert_ne by done; apply Hcl].
  - intros _ a. cbn [cache set_cache]. rewrite lookup_insert_eq. intros [= <-].
    by apply Hclean.
Qed.

Lemma kept_get_application_advertisement :
  respects (kept E) (get_application_advertisement E).
Proof. intros s. apply get_application_advertisement_run. Qed.

(** Every entry of the identity display keeps. *)
Lemma kept_display (admin_info power_class max_power : pyval) :
  Forall (fun ke => respects (kept E) ke.2)
    (xcvr_info_display E admin_info power_class max_power).
Proof.
  rewrite <- (take_drop 20 (xcvr_info_display E admin_info power_class max_power)).
  apply Forall_app. split.
  - apply (respects_display_prefix E (kept E) kept_refl kept_trans kept_flat
             kept_get_module_hardware_revision kept_get_application_advertisement).
  - unfold xcvr_info_display. cbn [drop].
    repeat (apply Forall_cons; split; [cbn [snd]|]); try apply Forall_nil_2.
    + apply (respects_bind _ kept_trans); [apply kept_get_vendor_rev|].
      intros v. apply (respects_ret _ kept_refl).
    + apply kept_get_cmis_rev.
    + apply (respects_read _ kept_refl).
    + apply kept_is_transceiver_vdm_supported.
Qed.

End Kept_facts.

Section Info.

Variable E : Env.

Notation "'c.' X" := (consts E X) (at level 1, X at level 0, format "'c.' X").

Lemma stable_admin (admin_info : pyval) (field : cname) :
  stable (admin E admin_info field).
Proof. apply stable_lift. Qed.

Lemma stable_admin_stripped (admin_info : pyval) (field : cname) :
  stable (admin_stripped E admin_info field).
Proof. apply stable_bind; [apply stable_admin|auto with stable]. Qed.

Lemma stable_get_module_hardware_revision : stable (get_module_hardware_revision E).
Proof.
  apply stable_cached, stable_bind; [apply stable_flat|].
  intros fl. apply stable_if; auto 10 with stable.
Qed.

Lemma stable_get_cmis_rev : stable (get_cmis_rev E).
Proof. apply stable_cached. auto 10 with stable. Qed.

Lemma stable_get_vendor_rev : stable (get_vendor_rev E).
Proof. apply stable_cached. auto 10 with stable. Qed.

Lemma stable_get_application_advertisement : stable (get_application_advertisement E).
Proof.
  apply stable_cached, stable_bind; [auto with stable|].
  intros dic. apply stable_if; [auto with stable|].
  apply stable_bind; [apply stable_flat|]. intros fl.
  apply stable_bind.
  - apply stable_if; [|auto with stable].
    apply stable_try_except; [|auto with stable].
    destruct dic; auto 10 with stable.
  - intros [dic'|]; auto 10 with stable.
Qed.

Lemma stable_get_host_electrical_interface : stable (get_host_electrical_interface E).
Proof. apply stable_bind; [apply stable_flat|]. intros fl. auto with stable. Qed.

Lemma stable_get_module_media_interface : stable (get_module_media_interface E).
Proof.
  apply stable_bind; [apply stable_read|]. intros media_type.
  repeat (apply stable_if; [apply stable_read|]). apply stable_ret.
Qed.

Lemma stable_get_media_lane_count (appl : Z) : stable (get_media_lane_count E appl).
Proof.
  apply stable_bind; [apply stable_flat|]. intros fl.
  repeat (apply stable_if; [apply stable_ret|]).
  apply stable_bind; [apply stable_get_application_advertisement|]. intros a.
  auto 10 with stable.
Qed.

Lemma stable_get_host_lane_assignment_option (appl : Z) :
  stable (get_host_lane_assignment_option E appl).
Proof.
  apply stable_if; [apply stable_ret|].
  apply stable_bind; [apply stable_get_application_advertisement|]. intros a.
  auto 10 with stable.
Qed.

Lemma stable_get_media_lane_assignment_option (appl : Z) :
  stable (get_media_lane_assignment_option E appl).
Proof.
  apply stable_bind; [apply stable_flat|]. intros fl.
  repeat (apply stable_if; [apply stable_ret|]).
  apply stable_bind; [apply stable_get_application_advertisement|]. intros a.
  auto 10 with stable.
Qed.

Lemma stable_is_transceiver_vdm_supported : stable (is_transceiver_vdm_supported E).
Proof.
  intros s. unfold is_transceiver_vdm_supported.
  destruct (vdm s) eqn:Hv; [rewrite read_eq|]; cbn [snd]; by rewrite ?Hv.
Qed.

Lemma stable_xcvr_info_display (admin_info power_class max_power : pyval) :
  Forall (fun ke => stable ke.2) (xcvr_info_display E admin_info power_class max_power).
Proof.
  unfold xcvr_info_display.
  repeat (apply Forall_cons; split; [cbn [snd]|]); try apply Forall_nil_2;
    try apply stable_admin; try apply stable_admin_stripped; try apply stable_ret.
  - apply stable_get_module_hardware_revision.
  - apply stable_bind; [apply stable_admin|auto with stable].
  - apply stable_bind; [apply stable_get_application_advertisement|]. intros a.
    apply stable_bind; [apply stable_lift|]. intros n.
    apply stable_if; [|apply stable_ret].
    apply stable_bind; [apply stable_get_application_advertisement|auto with stable].
  - apply stable_get_host_electrical_interface.
  - apply stable_get_module_media_interface.
  - apply stable_read.
  - apply stable_get_media_lane_count.
  - apply stable_get_host_lane_assignment_option.
  - apply stable_get_media_lane_assignment_option.
  - apply stable_read.
  - apply stable_bind; [apply stable_get_vendor_rev|auto with stable].
  - apply stable_get_cmis_rev.
  - apply stable_read.
  - apply stable_is_transceiver_vdm_supported.
Qed.

Lemma xcvr_info_display_keys (admin_info power_class max_power : pyval) :
  (xcvr_info_display E admin_info power_class max_power).*1
  = [ "type"; "type_abbrv_name"; "hardware_rev"; "serial"; "manufacturer"; "model";
      "connector"; "ext_identifier"; "cable_length"; "vendor_date"; "vendor_oui";
      "application_advertisement"; "host_electrical_interface"; "media_interface_code";
      "host_lane_count"; "media_lane_count"; "host_lane_assignment_option";
      "media_lane_assignment_option"; "cable_type"; "media_interface_technology";
      "vendor_rev"; "cmis_rev"; "specification_compliance"; "vdm_supported" ].
Proof. reflexivity. Qed.

Lemma xcvr_info_display_NoDup (admin_info power_class max_power : pyval) :
  NoDup (xcvr_info_display E admin_info power_class max_power).*1.
Proof. rewrite xcvr_info_display_keys. apply (bool_decide_unpack _). by vm_compute. Qed.

(** How a call that returns went: the admin group was readable, the
    display and the copy loop ended normally, and the result is [None] or
    the assembled dictionary according to the final test. *)
Lemma get_transceiver_info_run (s : CmisApi) (r : pyval) :
  (get_transceiver_info E s).1 = Ok r ->
  r = VNone \/
  exists power_class max_power D s1 ap s2 D2,
    is_none (read_value s c.ADMIN_INFO_FIELD) = false /\
    dict_display (xcvr_info_display E (read_value s c.ADMIN_INFO_FIELD) power_class max_power)
      _get_xcvr_info_default_dict s = (Ok D, s1) /\
    get_active_apsel_hostlane E s1 = (Ok ap, s2) /\
    res_foldl (apsel_body E ap) D (range 1 (NUM_CHANNELS + 1)) = Ok D2 /\
    none_in_values D2 = false /\
    r = VDict D2.
Proof.
  intros Hr. unfold get_transceiver_info in Hr. unfold bind at 1 in Hr.
  rewrite read_eq in Hr.
  destruct (is_none (read_value s c.ADMIN_INFO_FIELD)) eqn:Hadmin.
  { left. unfold ret in Hr. cbn [fst] in Hr. congruence. }
  unfold bind, admin, lift in Hr.
  destruct (getitem (read_value s c.ADMIN_INFO_FIELD) (KStr c.EXT_ID_FIELD)) as [ext_id|x];
    [|cbn [fst] in Hr; discriminate].
  destruct (getitem ext_id (KStr c.POWER_CLASS_FIELD)) as [power_class|x];
    [|cbn [fst] in Hr; discriminate].
  destruct (getitem ext_id (KStr c.MAX_POWER_FIELD)) as [max_power|x];
    [|cbn [fst] in Hr; discriminate].
  destruct (dict_display _ _ s) as [[D|x] s1] eqn:Hdisp; [|cbn [fst] in Hr; discriminate].
  destruct (get_active_apsel_hostlane E s1) as [[ap|x] s2] eqn:Hap;
    [|cbn [fst] in Hr; discriminate].
  destruct (res_foldl (apsel_body E ap) D (range 1 (NUM_CHANNELS + 1))) as [D2|x] eqn:Hfold;
    [|cbn [fst] in Hr; discriminate].
  destruct (none_in_values D2) eqn:Hnone;
    unfold ret in Hr; cbn [fst] in Hr; injection Hr as <-; [by left|right].
  exists power_class, max_power, D, s1, ap, s2, D2. done.
Qed.

(** The copy loop touches the eight [active_apsel_hostlane] keys only. *)
Lemma apsel_fold_other (ap : apsel_dict) (k : string) (lanes : list Z) :
  k ∉ (fun lane => fmt_sd "active_apsel_hostlane" lane) <$> lanes ->
  forall D D2, res_foldl (apsel_body E ap) D lanes = Ok D2 -> D2 !! KStr k = D !! KStr k.
Proof.
  induction lanes as [|lane lanes IH]; intros Hk D D2 Hrun.
  - cbn in Hrun. by injection Hrun as <-.
  - rewrite fmap_cons in Hk. apply not_elem_of_cons in Hk as [Hne Hk].
    cbn [res_foldl] in Hrun. unfold apsel_body at 1 in Hrun.
    destruct (apsel_getitem ap _) as [v|x]; cbn [res_bind] in Hrun; [|discriminate].
    rewrite (IH Hk _ _ Hrun). apply lookup_insert_ne. congruence.
Qed.

(** With the default mapping every copied entry is ['N/A']. *)
Lemma apsel_fold_default (D D2 : gmap pykey pyval) (lane : Z) :
  res_foldl (apsel_body E DefaultNA) D (range 1 (NUM_CHANNELS + 1)) = Ok D2 ->
  1 <= lane <= NUM_CHANNELS ->
  D2 !! KStr (fmt_sd "active_apsel_hostlane" lane) = Some NA.
Proof.
  intros Hrun Hlane.
  rewrite (res_foldl_inserts (fun lane => KStr (fmt_sd "active_apsel_hostlane" lane))
             (fun _ => NA)) in Hrun by (intros; reflexivity).
  assert (D2 = foldl (fun d x => <[ KStr (fmt_sd "active_apsel_hostlane" x) := NA ]> d) D
                 (range 1 (NUM_CHANNELS + 1))) as -> by congruence.
  apply (foldl_insert_lookup (fun lane => KStr (fmt_sd "active_apsel_hostlane" lane))
           (fun _ => NA)).
  - apply (bool_decide_unpack _). by vm_compute.
  - apply elem_of_range. unfold NUM_CHANNELS in *. lia.
Qed.

(** An unreadable application-select group yields the default mapping,
    flat memory or not. *)
Lemma get_active_apsel_hostlane_unreadable (s s' : CmisApi) (ap : apsel_dict) :
  get_active_apsel_hostlane E s = (Ok ap, s') ->
  read_value s c.ACTIVE_APSEL_CODE = VNone ->
  ap = DefaultNA.
Proof.
  intros Hrun Hread. unfold get_active_apsel_hostlane, bind in Hrun.
  pose proof (stable_read_value (flat E) s c.ACTIVE_APSEL_CODE (stable_flat E)) as Hst.
  destruct (flat E s) as [[fl|x] s1]; [|discriminate]. cbn [snd] in Hst.
  destruct fl.
  - unfold ret in Hrun. congruence.
  - rewrite read_eq, Hst, Hread in Hrun. unfold ret in Hrun. cbn [truthy negb] in Hrun.
    congruence.
Qed.

(** With nothing memoised, an unreadable advertisement is the empty
    dictionary. *)
Lemma get_application_advertisement_unreadable (s : CmisApi) :
  cache s !! "get_application_advertisement" = None ->
  read_value s c.APPLS_ADVT_FIELD = VNone ->
  get_application_advertisement E s
  = (Ok (VDict ∅),
     set_cache (<[ "get_application_advertisement" := VDict ∅ ]> (cache s)) s).
Proof.
  intros Hc Hread. unfold get_application_advertisement, read_only_cached_api_return.
  rewrite Hc. unfold bind at 1. rewrite read_eq, Hread. reflexivity.
Qed.

Lemma application_advertisement_str_unreadable (s : CmisApi) :
  cache s !! "get_application_advertisement" = None ->
  read_value s c.APPLS_ADVT_FIELD = VNone ->
  (application_advertisement_str E s).1 = Ok NA.
Proof.
  intros Hc Hread. unfold application_advertisement_str, bind.
  rewrite (get_application_advertisement_unreadable s Hc Hread).
  unfold lift, len. rewrite map_size_empty. reflexivity.
Qed.

(** The entries evaluated before the advertisement leave its memo alone. *)
Lemma display_prefix_keeps_memo (admin_info power_class max_power : pyval) :
  Forall (fun ke => stable ke.2 /\ keeps_memo "get_application_advertisement" ke.2)
    (take 11 (xcvr_info_display E admin_info power_class max_power)).
Proof.
  unfold xcvr_info_display. cbn [take].
  repeat (apply Forall_cons; split; [cbn [snd]; split|]); try apply Forall_nil_2;
    try apply stable_admin; try apply stable_admin_stripped; try apply stable_ret;
    try apply keeps_memo_lift; try apply keeps_memo_ret;
    try (apply keeps_memo_bind; [apply keeps_memo_lift|intros; apply keeps_memo_ret]).
  - apply stable_get_module_hardware_revision.
  - apply keeps_memo_cached; [done|].
    apply keeps_memo_bind.
    + apply keeps_memo_bind; [|intros; apply keeps_memo_ret].
      apply keeps_memo_cached; [done|].
      apply keeps_memo_bind; [apply keeps_memo_read|intros; apply keeps_memo_ret].
    + intros fl. apply keeps_memo_if; [apply keeps_memo_ret|].
      apply keeps_memo_bind; [apply keeps_memo_read|]. intros a.
      apply keeps_memo_bind; [apply keeps_memo_read|intros; apply keeps_memo_ret].
  - apply stable_bind; [apply stable_admin|auto with stable].
  - apply keeps_memo_bind; [apply keeps_memo_lift|]. intros v.
    apply keeps_memo_bind; [apply keeps_memo_lift|intros; apply keeps_memo_ret].
Qed.

(** With nothing memoised, an unreadable advertisement leaves ['N/A']
    under [application_advertisement]. *)
Lemma display_advertisement_unreadable (admin_info power_class max_power : pyval)
    (d D : gmap pykey pyval) (s s1 : CmisApi) :
  dict_display (xcvr_info_display E admin_info power_class max_power) d s = (Ok D, s1) ->
  cache s !! "get_application_advertisement" = None ->
  read_value s c.APPLS_ADVT_FIELD = VNone ->
  D !! KStr "application_advertisement" = Some NA.
Proof.
  intros Hdisp Hc Hread.
  set (entries := xcvr_info_display E admin_info power_class max_power) in *.
  pose proof (take_drop_middle entries 11
                ("application_advertisement", application_advertisement_str E) eq_refl)
    as Hsplit.
  rewrite <- Hsplit in Hdisp. rewrite dict_display_app in Hdisp. unfold bind at 1 in Hdisp.
  pose proof (dict_display_preserves
                (fun s' => cache s' !! "get_application_advertisement" = None /\
                           read_value s' c.APPLS_ADVT_FIELD = VNone)
                (take 11 entries)) as Hkeep.
  specialize (Hkeep ltac:(
    eapply Forall_impl; [apply display_prefix_keeps_memo|];
    intros [k e] [Hst Hm] s' [Hc' Hr']; cbn [snd] in *;
    split; [by rewrite Hm | by rewrite (stable_read_value _ _ _ Hst)]) d s (conj Hc Hread)).
  destruct (dict_display (take 11 entries) d s) as [[d1|x] sa]; [|discriminate].
  cbn [snd] in Hkeep. destruct Hkeep as [Hca Hra].
  cbn [dict_display] in Hdisp. unfold bind at 1 in Hdisp.
  pose proof (application_advertisement_str_unreadable sa Hca Hra) as Hstr.
  destruct (application_advertisement_str E sa) as [[v|x] sb]; cbn [fst] in Hstr;
    [|discriminate].
  injection Hstr as ->.
  assert ("application_advertisement" ∉ (drop 12 entries).*1) as Hk.
  { subst entries. rewrite fmap_drop, xcvr_info_display_keys.
    apply (bool_decide_unpack _). by vm_compute. }
  rewrite (dict_display_other _ _ Hk _ _ _ _ Hdisp).
  apply lookup_insert_eq.
Qed.

(** An entry that passes a register read through holds what the read
    returns at the time of the call. *)
Lemma display_read_through (admin_info power_class max_power : pyval)
    (d D : gmap pykey pyval) (s s1 : CmisApi) (k field : string) :
  dict_display (xcvr_info_display E admin_info power_class max_power) d s = (Ok D, s1) ->
  (k, read field) ∈ xcvr_info_display E admin_info power_class max_power ->
  D !! KStr k = Some (read_value s field).
Proof.
  intros Hdisp Hin.
  destruct (dict_display_lookup _ (stable_xcvr_info_display _ _ _)
              (xcvr_info_display_NoDup _ _ _) _ _ _ _ Hdisp) as (_ & Hentries & _).
  destruct (Hentries _ _ Hin) as (si & v & si' & He & _ & _ & Hrun & Hv).
  rewrite read_eq in Hrun. injection Hrun as <- _.
  rewrite Hv. unfold read_value. by rewrite He.
Qed.

Lemma display_vdm_supported (admin_info power_class max_power : pyval)
    (d D : gmap pykey pyval) (s s1 : CmisApi) :
  dict_display (xcvr_info_display E admin_info power_class max_power) d s = (Ok D, s1) ->
  vdm s <> None ->
  D !! KStr "vdm_supported" = Some (read_value s c.VDM_SUPPORTED).
Proof.
  intros Hdisp Hvdm.
  destruct (dict_display_lookup _ (stable_xcvr_info_display _ _ _)
              (xcvr_info_display_NoDup _ _ _) _ _ _ _ Hdisp) as (_ & Hentries & _).
  destruct (Hentries "vdm_supported" (is_transceiver_vdm_supported E))
    as (si & v & si' & He & Hvi & _ & Hrun & Hv).
  { apply (list_elem_of_lookup_2 _ 23%nat). reflexivity. }
  unfold is_transceiver_vdm_supported in Hrun. rewrite Hvi in Hrun.
  destruct (vdm s); [|done].
  rewrite read_eq in Hrun. injection Hrun as <- _.
  rewrite Hv. unfold read_value. by rewrite He.
Qed.

(** How a call that returns went, the final test left open. *)
Lemma get_transceiver_info_steps (s : CmisApi) (r : pyval) :
  (get_transceiver_info E s).1 = Ok r ->
  is_none (read_value s c.ADMIN_INFO_FIELD) = false ->
  exists power_class max_power D s1 ap s2 D2,
    dict_display (xcvr_info_display E (read_value s c.ADMIN_INFO_FIELD) power_class max_power)
      _get_xcvr_info_default_dict s = (Ok D, s1) /\
    get_active_apsel_hostlane E s1 = (Ok ap, s2) /\
    res_foldl (apsel_body E ap) D (range 1 (NUM_CHANNELS + 1)) = Ok D2 /\
    r = if none_in_values D2 then VNone else VDict D2.
Proof.
  intros Hr Hadmin. unfold get_transceiver_info in Hr. unfold bind at 1 in Hr.
  rewrite read_eq, Hadmin in Hr.
  unfold bind, admin, lift in Hr.
  destruct (getitem (read_value s c.ADMIN_INFO_FIELD) (KStr c.EXT_ID_FIELD)) as [ext_id|x];
    [|cbn [fst] in Hr; discriminate].
  destruct (getitem ext_id (KStr c.POWER_CLASS_FIELD)) as [power_class|x];
    [|cbn [fst] in Hr; discriminate].
  destruct (getitem ext_id (KStr c.MAX_POWER_FIELD)) as [max_power|x];
    [|cbn [fst] in Hr; discriminate].
  destruct (dict_display _ _ s) as [[D|x] s1] eqn:Hdisp; [|cbn [fst] in Hr; discriminate].
  destruct (get_active_apsel_hostlane E s1) as [[ap|x] s2] eqn:Hap;
    [|cbn [fst] in Hr; discriminate].
  destruct (res_foldl (apsel_body E ap) D (range 1 (NUM_CHANNELS + 1))) as [D2|x] eqn:Hfold;
    [|cbn [fst] in Hr; discriminate].
  exists power_class, max_power, D, s1, ap, s2, D2.
  split; [exact Hdisp|]. split; [exact Hap|]. split; [exact Hfold|].
  destruct (none_in_values D2); unfold ret in Hr; cbn [fst] in Hr; congruence.
Qed.

(** The copy loop stores, for every lane, what the mapping holds under the
    lane's name. *)
Lemma apsel_fold_lookup (ap : apsel_dict) (lanes : list Z) :
  NoDup ((fun lane => fmt_sd "active_apsel_hostlane" lane) <$> lanes) ->
  forall D D2, res_foldl (apsel_body E ap) D lanes = Ok D2 ->
    forall lane, lane ∈ lanes ->
      exists v, apsel_getitem ap (KStr (fmt_sd c.ACTIVE_APSEL_HOSTLANE lane)) = Ok v /\
                D2 !! KStr (fmt_sd "active_apsel_hostlane" lane) = Some v.
Proof.
  induction lanes as [|l lanes IH]; intros Hnd D D2 Hrun lane Hin.
  - by apply elem_of_nil in Hin.
  - rewrite fmap_cons in Hnd. apply NoDup_cons in Hnd as [Hl Hnd].
    cbn [res_foldl] in Hrun. unfold apsel_body at 1 in Hrun.
    destruct (apsel_getitem ap (KStr (fmt_sd c.ACTIVE_APSEL_HOSTLANE l))) as [v|x] eqn:Hget;
      cbn [res_bind] in Hrun; [|discriminate].
    apply elem_of_cons in Hin as [->|Hin].
    + exists v. split; [exact Hget|].
      rewrite (apsel_fold_other ap _ lanes Hl _ _ Hrun). apply lookup_insert_eq.
    + by apply (IH Hnd _ _ Hrun).
Qed.

(** The values the copy loop stores are those the mapping holds. *)
Lemma apsel_fold_values (Q : pyval -> Prop) (ap : apsel_dict) (lanes : list Z) :
  (forall lane v, lane ∈ lanes ->
     apsel_getitem ap (KStr (fmt_sd c.ACTIVE_APSEL_HOSTLANE lane)) = Ok v -> Q v) ->
  forall D D2, res_foldl (apsel_body E ap) D lanes = Ok D2 ->
    (forall k v, D !! k = Some v -> Q v) ->
    forall k v, D2 !! k = Some v -> Q v.
Proof.
  induction lanes as [|l lanes IH]; intros Hap D D2 Hrun HD.
  - cbn in Hrun. by injection Hrun as <-.
  - cbn [res_foldl] in Hrun. unfold apsel_body at 1 in Hrun.
    destruct (apsel_getitem ap (KStr (fmt_sd c.ACTIVE_APSEL_HOSTLANE l))) as [v0|x] eqn:Hget;
      cbn [res_bind] in Hrun; [|discriminate].
    apply (IH (fun lane v Hin => Hap lane v ltac:(apply elem_of_cons; by right)) _ _ Hrun).
    intros k v. destruct (decide (KStr (fmt_sd "active_apsel_hostlane" l) = k)) as [<-|Hne].
    + rewrite lookup_insert_eq. intros [= <-].
      apply (Hap l v0); [apply elem_of_cons; by left|exact Hget].
    + rewrite lookup_insert_ne by done. apply HD.
Qed.

(** Only a dictionary that is not empty can be subscripted by a name. *)
Lemma getitem_name_truthy (v x : pyval) (k : string) :
  getitem v (KStr k) = Ok x -> truthy v = true.
Proof.
  destruct v as [| | | | t | l | d]; cbn [getitem]; try discriminate.
  destruct (d !! KStr k) eqn:Hk; [|discriminate]. intros _. cbn [truthy].
  apply negb_true_iff, bool_decide_eq_false. intros ->. by rewrite lookup_empty in Hk.
Qed.

(** What the mapping of the active application-select codes is, in a
    state that [kept] relates to [s]. *)
Lemma get_active_apsel_hostlane_kept (s s1 s2 : CmisApi) (ap : apsel_dict) :
  kept E s s1 ->
  get_active_apsel_hostlane E s1 = (Ok ap, s2) ->
  exists fl, (flat E s).1 = Ok fl /\
    ap = if fl then DefaultNA
         else if negb (truthy (read_value s c.ACTIVE_APSEL_CODE)) then DefaultNA
              else Decoded (read_value s c.ACTIVE_APSEL_CODE).
Proof.
  intros (He & _ & Hf & _) Hrun. unfold get_active_apsel_hostlane, bind in Hrun.
  pose proof (kept_flat E s1) as (He1 & _). rewrite <- Hf.
  destruct (flat E s1) as [[fl|x] sa]; [|discriminate]. cbn [snd fst] in *.
  exists fl. split; [reflexivity|]. destruct fl.
  - unfold ret in Hrun. congruence.
  - rewrite read_eq in Hrun. unfold ret in Hrun. injection Hrun as <- _.
    unfold read_value. by rewrite He1, He.
Qed.

Lemma strip_str_not_none (v : pyval) : v <> VNone -> _strip_str v <> VNone.
Proof. by destruct v. Qed.

Lemma str_eq_true (v : pyval) (t : string) : str_eq v t = true -> v = VStr t.
Proof.
  destruct v; cbn [str_eq]; try discriminate. intros H. by apply String.eqb_eq in H as ->.
Qed.

(** What a memoising method returns: the memoised value, or what the
    method computes with nothing memoised. *)
Lemma cached_value (name : string) (func : M pyval) (s0 s0' : CmisApi) (v : pyval) :
  read_only_cached_api_return name func s0 = (Ok v, s0') ->
  cache s0 !! name = Some v \/
  (cache s0 !! name = None /\ exists s1, func s0 = (Ok v, s1)).
Proof.
  unfold read_only_cached_api_return.
  destruct (cache s0 !! name) as [memo|]; [intros [= <- _]; by left|].
  destruct (func s0) as [[v0|x] s1]; [|discriminate].
  intros [= <- _]. right. split; [reflexivity|]. by exists s1.
Qed.

(** A field of an entry of a clean advertisement is not [None]. *)
Lemma advertisement_field (a x v : pyval) (k key : pykey) :
  advertisement_clean a -> getitem a k = Ok x -> getitem x key = Ok v -> v <> VNone.
Proof.
  intros (ad & -> & Had). cbn [getitem].
  destruct (ad !! k) as [x0|] eqn:Hk; [|discriminate]. intros [= <-].
  destruct (Had k x0 Hk) as (buf & -> & Hbuf). cbn [getitem].
  destruct (buf !! key) as [v0|] eqn:Hkey; [|discriminate]. intros [= <-] ->.
  by apply (Hbuf key).
Qed.

Lemma advertisement_field_get (a x v : pyval) (k key : pykey) :
  advertisement_clean a -> getitem a k = Ok x -> dict_get x key (VInt 0) = Ok v ->
  v <> VNone.
Proof.
  intros (ad & -> & Had). cbn [getitem].
  destruct (ad !! k) as [x0|] eqn:Hk; [|discriminate]. intros [= <-].
  destruct (Had k x0 Hk) as (buf & -> & Hbuf). cbn [dict_get].
  destruct (buf !! key) as [v0|] eqn:Hkey; cbn [default]; intros [= <-]; [|discriminate].
  intros ->. by apply (Hbuf key).
Qed.

(** *** A state in which every register passed through is readable *)

Section Resolved.

Variable s : CmisApi.

Hypothesis Hclean : memo_clean s.
Hypothesis Hadv : advertisement_memo_clean s.
Hypothesis Hres : reads_resolved E s.

Lemma kept_read_value (s0 : CmisApi) (field : string) :
  kept E s s0 -> read_value s0 field = read_value s field.
Proof. intros (He & _). unfold read_value. by rewrite He. Qed.

Lemma resolved_read (field : string) (s0 s0' : CmisApi) (v : pyval) :
  read_value s field <> VNone ->
  kept E s s0 -> read field s0 = (Ok v, s0') -> v <> VNone.
Proof.
  intros Hf Hk Hrun. rewrite read_eq in Hrun. injection Hrun as <- _.
  by rewrite (kept_read_value s0 field Hk).
Qed.

Lemma resolved_admin (field : cname) (s0 s0' : CmisApi) (v : pyval) :
  field ∈ admin_subfields ->
  admin E (read_value s c.ADMIN_INFO_FIELD) field s0 = (Ok v, s0') -> v <> VNone.
Proof.
  intros Hin Hrun. destruct Hres as (_ & Hsub & _).
  rewrite Forall_forall in Hsub. specialize (Hsub field Hin).
  unfold admin, lift in Hrun. injection Hrun as Hget _. intros ->. by apply Hsub.
Qed.

Lemma resolved_admin_stripped (field : cname) (s0 s0' : CmisApi) (v : pyval) :
  field ∈ admin_subfields ->
  admin_stripped E (read_value s c.ADMIN_INFO_FIELD) field s0 = (Ok v, s0') -> v <> VNone.
Proof.
  intros Hin Hrun. unfold admin_stripped, bind in Hrun.
  destruct (admin E _ field s0) as [[v0|x] s1] eqn:Hadmin; [|discriminate].
  injection Hrun as <- _. apply strip_str_not_none.
  by apply (resolved_admin field s0 s1).
Qed.

Lemma resolved_get_module_hardware_revision (s0 s0' : CmisApi) (v : pyval) :
  kept E s s0 -> get_module_hardware_revision E s0 = (Ok v, s0') -> v <> VNone.
Proof.
  intros (_ & _ & _ & _ & Hc & _) Hrun.
  apply cached_value in Hrun as [Hmemo|(_ & s1 & Hrun)].
  - intros ->. by apply (Hc Hclean "get_module_hardware_revision").
  - unfold bind in Hrun. destruct (flat E s0) as [[[|]|x] sa]; [| |discriminate].
    + by injection Hrun as <- _.
    + rewrite !read_eq in Hrun. by injection Hrun as <- _.
Qed.

Lemma resolved_get_cmis_rev (s0 s0' : CmisApi) (v : pyval) :
  kept E s s0 -> get_cmis_rev E s0 = (Ok v, s0') -> v <> VNone.
Proof.
  intros (_ & _ & _ & _ & Hc & _) Hrun.
  apply cached_value in Hrun as [Hmemo|(_ & s1 & Hrun)].
  - intros ->. by apply (Hc Hclean "get_cmis_rev").
  - unfold bind in Hrun. rewrite !read_eq in Hrun. by injection Hrun as <- _.
Qed.

Lemma resolved_vendor_rev (s0 s0' : CmisApi) (v : pyval) :
  kept E s s0 ->
  (let* v := get_vendor_rev E in ret (_strip_str v)) s0 = (Ok v, s0') -> v <> VNone.
Proof.
  intros Hk Hrun. unfold bind at 1 in Hrun.
  destruct (get_vendor_rev E s0) as [[v0|x] s1] eqn:Hv0; [|discriminate].
  injection Hrun as <- _. apply strip_str_not_none.
  pose proof Hk as (_ & _ & _ & Hgrow & Hc & _).
  apply cached_value in Hv0 as [Hmemo|(Hnone & s2 & Hrun)].
  - intros ->. by apply (Hc Hclean "get_vendor_rev").
  - unfold bind in Hrun. rewrite read_eq in Hrun. injection Hrun as <- _.
    apply strip_str_not_none. rewrite (kept_read_value s0 _ Hk).
    destruct Hres as (_ & _ & _ & _ & Hvendor & _). apply Hvendor.
    destruct (cache s !! "get_vendor_rev") eqn:Hs; [|reflexivity].
    destruct (Hgrow "get_vendor_rev" ltac:(by eexists)) as [x Hx]. congruence.
Qed.

Lemma resolved_application_advertisement_str (s0 s0' : CmisApi) (v : pyval) :
  application_advertisement_str E s0 = (Ok v, s0') -> v <> VNone.
Proof.
  unfold application_advertisement_str, bind, lift, ret.
  destruct (get_application_advertisement E s0) as [[a|x] s1]; [|discriminate].
  destruct (len a) as [n|x]; [|discriminate].
  destruct (0 <? n); [|by intros [= <- _]].
  destruct (get_application_advertisement E s1) as [[a'|x] s2]; [|discriminate].
  by intros [= <- _].
Qed.

Lemma resolved_get_host_electrical_interface (s0 s0' : CmisApi) (v : pyval) :
  kept E s s0 -> get_host_electrical_interface E s0 = (Ok v, s0') -> v <> VNone.
Proof.
  intros Hk Hrun. unfold get_host_electrical_interface, bind in Hrun.
  pose proof (kept_trans E _ _ _ Hk (kept_flat E s0)) as Hk1.
  pose proof Hk as (_ & _ & Hf & _).
  destruct (flat E s0) as [[[|]|x] s1]; cbn [fst snd] in *; [| |discriminate].
  - by injection Hrun as <- _.
  - destruct Hres as (_ & _ & Hhost & _).
    apply (resolved_read _ s1 s0' v (Hhost (eq_sym Hf)) Hk1 Hrun).
Qed.

Lemma resolved_get_module_media_interface (s0 s0' : CmisApi) (v : pyval) :
  kept E s s0 -> get_module_media_interface E s0 = (Ok v, s0') -> v <> VNone.
Proof.
  intros Hk Hrun. unfold get_module_media_interface, get_module_media_type, bind in Hrun.
  rewrite read_eq, (kept_read_value s0 _ Hk) in Hrun.
  destruct Hres as (_ & _ & _ & Hmedia & _).
  repeat match type of Hrun with
         | (if str_eq ?mt ?t then _ else _) _ = _ =>
             let Ht := fresh "Ht" in
             destruct (str_eq mt t) eqn:Ht;
               [apply str_eq_true in Ht;
                refine (resolved_read _ s0 s0' v (Hmedia t _ _ Ht) Hk Hrun);
                unfold media_interface_registers; rewrite !elem_of_cons; tauto|]
         end.
  by injection Hrun as <- _.
Qed.

(** The advertisement a later entry sees is clean. *)
Lemma resolved_advertisement (s0 s0' : CmisApi) (a : pyval) :
  kept E s s0 -> get_application_advertisement E s0 = (Ok a, s0') ->
  advertisement_clean a.
Proof.
  intros (_ & _ & _ & _ & _ & Ha) Hrun.
  destruct (get_application_advertisement_run E s0) as [_ Hv].
  apply Hv; [by rewrite Hrun|by apply Ha].
Qed.

Lemma resolved_get_media_lane_count (s0 s0' : CmisApi) (v : pyval) :
  kept E s s0 -> get_media_lane_count E 1 s0 = (Ok v, s0') -> v <> VNone.
Proof.
  intros Hk Hrun. unfold get_media_lane_count, bind at 1 in Hrun.
  pose proof (kept_trans E _ _ _ Hk (kept_flat E s0)) as Hk1.
  destruct (flat E s0) as [[[|]|x] s1]; cbn [snd] in Hk1; [| |discriminate].
  { by injection Hrun as <- _. }
  cbn [Z.leb Z.compare] in Hrun. unfold bind at 1 in Hrun.
  destruct (get_application_advertisement E s1) as [[a|x] s2] eqn:Ha; [|discriminate].
  pose proof (resolved_advertisement s1 s2 a Hk1 Ha) as Hclean_a.
  unfold bind, lift in Hrun.
  destruct (len a) as [n|x]; [|discriminate].
  destruct (1 <=? n); [|by injection Hrun as <- _].
  destruct (getitem a (KInt 1)) as [x|x] eqn:Hx; [|discriminate].
  injection Hrun as Hget _.
  by apply (advertisement_field a x v (KInt 1) (KStr "media_lane_count")).
Qed.

Lemma resolved_get_host_lane_assignment_option (s0 s0' : CmisApi) (v : pyval) :
  kept E s s0 -> get_host_lane_assignment_option E 1 s0 = (Ok v, s0') -> v <> VNone.
Proof.
  intros Hk Hrun. unfold get_host_lane_assignment_option in Hrun.
  cbn [Z.leb Z.compare] in Hrun. unfold bind at 1 in Hrun.
  destruct (get_application_advertisement E s0) as [[a|x] s2] eqn:Ha; [|discriminate].
  pose proof (resolved_advertisement s0 s2 a Hk Ha) as Hclean_a.
  unfold bind, lift in Hrun.
  destruct (int_in 1 a) as [present|x]; [|discriminate].
  destruct (negb present); [by injection Hrun as <- _|].
  destruct (getitem a (KInt 1)) as [x|x] eqn:Hx; [|discriminate].
  injection Hrun as Hget _.
  by apply (advertisement_field_get a x v (KInt 1) (KStr "host_lane_assignment_options")).
Qed.

Lemma resolved_get_media_lane_assignment_option (s0 s0' : CmisApi) (v : pyval) :
  kept E s s0 -> get_media_lane_assignment_option E 1 s0 = (Ok v, s0') -> v <> VNone.
Proof.
  intros Hk Hrun. unfold get_media_lane_assignment_option, bind at 1 in Hrun.
  pose proof (kept_trans E _ _ _ Hk (kept_flat E s0)) as Hk1.
  destruct (flat E s0) as [[[|]|x] s1]; cbn [snd] in Hk1; [| |discriminate].
  { by injection Hrun as <- _. }
  cbn [Z.leb Z.compare] in Hrun. unfold bind at 1 in Hrun.
  destruct (get_application_advertisement E s1) as [[a|x] s2] eqn:Ha; [|discriminate].
  pose proof (resolved_advertisement s1 s2 a Hk1 Ha) as Hclean_a.
  unfold bind, lift in Hrun.
  destruct (len a) as [n|x]; [|discriminate].
  destruct (1 <=? n); [|by injection Hrun as <- _].
  destruct (getitem a (KInt 1)) as [x|x] eqn:Hx; [|discriminate].
  injection Hrun as Hget _.
  by apply (advertisement_field a x v (KInt 1) (KStr "media_lane_assignment_options")).
Qed.

Lemma resolved_is_transceiver_vdm_supported (s0 s0' : CmisApi) (v : pyval) :
  kept E s s0 -> is_transceiver_vdm_supported E s0 = (Ok v, s0') -> v <> VNone.
Proof.
  intros Hk Hrun. unfold is_transceiver_vdm_supported in Hrun.
  pose proof Hk as (_ & Hv & _).
  destruct (vdm s0) eqn:Hv0; [|by injection Hrun as <- _].
  destruct Hres as (_ & _ & _ & _ & _ & Hvdm & _).
  refine (resolved_read _ s0 s0' v (Hvdm _) Hk Hrun). congruence.
Qed.

(** Every entry of the display resolves. *)
Lemma resolved_display (power_class max_power : pyval) :
  Forall (fun ke => respects (kept E) ke.2 /\
                    forall s0 v s0', kept E s s0 -> ke.2 s0 = (Ok v, s0') -> v <> VNone)
    (xcvr_info_display E (read_value s c.ADMIN_INFO_FIELD) power_class max_power).
Proof.
  apply Forall_and. split; [apply kept_display|].
  pose proof Hres as (Hreads & _).
  apply Forall_cons in Hreads as [_ Hreads].
  apply Forall_cons in Hreads as [Hlanes Hreads].
  apply Forall_cons in Hreads as [Htech Hreads].
  apply Forall_cons in Hreads as [Htype _].
  unfold xcvr_info_display.
  repeat (apply Forall_cons; split; [cbn [snd]; intros s0 v s0' Hk Hrun|]);
    try apply Forall_nil_2.
  - apply (resolved_admin ID_FIELD s0 s0' v); [|exact Hrun].
    unfold admin_subfields. rewrite !elem_of_cons. tauto.
  - apply (resolved_admin ID_ABBRV_FIELD s0 s0' v); [|exact Hrun].
    unfold admin_subfields. rewrite !elem_of_cons. tauto.
  - by apply (resolved_get_module_hardware_revision s0 s0').
  - apply (resolved_admin_stripped VENDOR_SERIAL_NO_FIELD s0 s0' v); [|exact Hrun].
    unfold admin_subfields. rewrite !elem_of_cons. tauto.
  - apply (resolved_admin_stripped VENDOR_NAME_FIELD s0 s0' v); [|exact Hrun].
    unfold admin_subfields. rewrite !elem_of_cons. tauto.
  - apply (resolved_admin_stripped VENDOR_PART_NO_FIELD s0 s0' v); [|exact Hrun].
    unfold admin_subfields. rewrite !elem_of_cons. tauto.
  - apply (resolved_admin CONNECTOR_FIELD s0 s0' v); [|exact Hrun].
    unfold admin_subfields. rewrite !elem_of_cons. tauto.
  - by injection Hrun as <- _.
  - unfold bind, admin, lift in Hrun.
    destruct (getitem _ _) as [x|x]; [|discriminate].
    destruct (float E x); [|discriminate]. by injection Hrun as <- _.
  - apply (resolved_admin_stripped VENDOR_DATE_FIELD s0 s0' v); [|exact Hrun].
    unfold admin_subfields. rewrite !elem_of_cons. tauto.
  - apply (resolved_admin VENDOR_OUI_FIELD s0 s0' v); [|exact Hrun].
    unfold admin_subfields. rewrite !elem_of_cons. tauto.
  - by apply (resolved_application_advertisement_str s0 s0').
  - by apply (resolved_get_host_electrical_interface s0 s0').
  - by apply (resolved_get_module_media_interface s0 s0').
  - by apply (resolved_read _ s0 s0' v Hlanes).
  - by apply (resolved_get_media_lane_count s0 s0').
  - by apply (resolved_get_host_lane_assignment_option s0 s0').
  - by apply (resolved_get_media_lane_assignment_option s0 s0').
  - by injection Hrun as <- _.
  - by apply (resolved_read _ s0 s0' v Htech).
  - by apply (resolved_vendor_rev s0 s0').
  - by apply (resolved_get_cmis_rev s0 s0').
  - by apply (resolved_read _ s0 s0' v Htype).
  - by apply (resolved_is_transceiver_vdm_supported s0 s0').
Qed.

(** In such a state a call that returns returns a dictionary. *)
Lemma resolved_dictionary (r : pyval) :
  (get_transceiver_info E s).1 = Ok r -> exists d, r = VDict d.
Proof.
  intros Hr.
  pose proof Hres as (Hreads & _).
  apply Forall_cons in Hreads as [Hadmin _].
  assert (is_none (read_value s c.ADMIN_INFO_FIELD) = false) as Hadmin'
    by (by destruct (read_value s c.ADMIN_INFO_FIELD)).
  destruct (get_transceiver_info_steps s r Hr Hadmin')
    as (power_class & max_power & D & s1 & ap & s2 & D2 & Hdisp & Hap & Hfold & ->).
  destruct (dict_display_values (kept E) (fun v => v <> VNone) s _ (kept_trans E)
              (resolved_display power_class max_power)
              _get_xcvr_info_default_dict s D s1 (kept_refl E s))
    as [HD Hk1]; [|exact Hdisp|].
  { intros k v Hk. unfold _get_xcvr_info_default_dict, CMIS_XCVR_INFO_DEFAULT_DICT, fromkeys in Hk.
    apply elem_of_list_to_map_2, list_elem_of_fmap in Hk as (key & [= _ ->] & _).
    discriminate. }
  destruct (get_active_apsel_hostlane_kept s s1 s2 ap Hk1 Hap) as (fl & Hfl & Hap').
  assert (forall k v, D2 !! k = Some v -> v <> VNone) as HD2.
  { refine (apsel_fold_values (fun v => v <> VNone) ap _ _ D D2 Hfold HD).
    intros lane v Hlane Hget. apply elem_of_range in Hlane.
    destruct fl; [subst ap; by injection Hget as <-|].
    destruct (negb (truthy (read_value s c.ACTIVE_APSEL_CODE)));
      [subst ap; by injection Hget as <-|].
    subst ap. cbn [apsel_getitem] in Hget.
    destruct Hres as (_ & _ & _ & _ & _ & _ & Hapsel).
    intros ->. apply (Hapsel Hfl lane); [unfold NUM_CHANNELS in *; lia|exact Hget]. }
  rewrite (none_in_values_clean D2 HD2). by exists D2.
Qed.

End Resolved.

(** C1 (amended).  Call a state resolved ([reads_resolved]) when every
    register [get_transceiver_info] passes through is readable: the admin
    group and each subfield it copies from it, the host lane count, the
    media-interface technology, the media type, the host electrical
    interface (paged memory), the media-interface register of a known
    media type, the vendor revision (nothing memoised), the VDM
    advertisement (with a VDM handle) and the per-lane entries of the
    active application-select group (paged memory).  The method answers
    [None] when the admin group is unreadable; whatever it returns is
    [None] or a dictionary that holds no [None]; it returns a dictionary
    only in a resolved state; and in a resolved state whose memo holds no
    [None] and, if it holds an application advertisement, one whose
    entries hold no [None], what it returns is a dictionary.  An
    unreadable application advertisement (nothing memoised) or active
    application-select group is not fatal: the entries built from them
    are ['N/A']. *)
Theorem get_transceiver_info_all_or_nothing (s : CmisApi) :
  (read_value s c.ADMIN_INFO_FIELD = VNone -> (get_transceiver_info E s).1 = Ok VNone) /\
  forall r, (get_transceiver_info E s).1 = Ok r ->
    (r = VNone \/
     exists d, r = VDict d /\
       (forall k, d !! k <> Some VNone) /\
       reads_resolved E s /\
       (cache s !! "get_application_advertisement" = None ->
        read_value s c.APPLS_ADVT_FIELD = VNone ->
        d !! KStr "application_advertisement" = Some NA) /\
       (read_value s c.ACTIVE_APSEL_CODE = VNone ->
        forall lane, 1 <= lane <= NUM_CHANNELS ->
          d !! KStr (fmt_sd "active_apsel_hostlane" lane) = Some NA)) /\
    (memo_clean s -> advertisement_memo_clean s -> reads_resolved E s ->
     exists d, r = VDict d).
Proof.
  split.
  { intros Hadmin. unfold get_transceiver_info. unfold bind at 1.
    rewrite read_eq, Hadmin. reflexivity. }
  intros r Hr.
  split; [|intros Hclean Hadv Hres; by apply (resolved_dictionary s Hclean Hadv Hres)].
  destruct (get_transceiver_info_run s r Hr)
    as [->|(power_class & max_power & D & s1 & ap & s2 & D2 &
            Hadmin & Hdisp & Hap & Hfold & Hnone & ->)]; [by left|right].
  exists D2. split; [reflexivity|].
  assert (forall k, D2 !! k <> Some VNone) as Hvalues
    by (intros k; by apply none_in_values_false).
  set (admin_info := read_value s c.ADMIN_INFO_FIELD) in *.
  set (entries := xcvr_info_display E admin_info power_class max_power) in *.
  assert (forall k v,
            k ∉ (fun lane => fmt_sd "active_apsel_hostlane" lane)
                  <$> range 1 (NUM_CHANNELS + 1) ->
            D !! KStr k = Some v -> v <> VNone) as Hsome.
  { intros k v Hk HD ->. apply (Hvalues (KStr k)).
    by rewrite (apsel_fold_other ap k _ Hk _ _ Hfold). }
  assert (forall k field,
            (k, read field) ∈ entries ->
            k ∉ (fun lane => fmt_sd "active_apsel_hostlane" lane)
                  <$> range 1 (NUM_CHANNELS + 1) ->
            read_value s field <> VNone) as Hthrough.
  { intros k field Hin Hk. apply (Hsome k _ Hk).
    apply (display_read_through _ _ _ _ _ _ _ k field Hdisp Hin). }
  pose proof (stable_xcvr_info_display admin_info power_class max_power) as Hst.
  destruct (dict_display_lookup _ Hst (xcvr_info_display_NoDup _ _ _) _ _ _ _ Hdisp)
    as ((He1 & _ & _) & Hentries & _).
  assert (forall k field (e : M pyval),
            (k, e) ∈ entries ->
            (forall si, e si = (Ok (res_default VNone
                                      (res_bind (getitem admin_info (KStr (consts E field)))
                                         (fun v => Ok (_strip_str v)))), si) \/
                        e si = (lift (getitem admin_info (KStr (consts E field)))) si) ->
            k ∉ (fun lane => fmt_sd "active_apsel_hostlane" lane)
                  <$> range 1 (NUM_CHANNELS + 1) ->
            getitem admin_info (KStr (consts E field)) <> Ok VNone) as Hsub.
  { intros k field e Hin He Hk Hget.
    destruct (Hentries k e Hin) as (si & v & si' & _ & _ & _ & Hrun & HD).
    apply (Hsome k v Hk HD).
    destruct (He si) as [Hsi|Hsi]; rewrite Hsi in Hrun; unfold lift in Hrun;
      rewrite Hget in Hrun; cbn in Hrun; congruence. }
  split; [exact Hvalues|]. split; [|split].
  { split; [|split; [|split; [|split; [|split; [|split]]]]].
    - repeat (apply Forall_cons; split); try apply Forall_nil_2.
      + fold admin_info. by destruct admin_info.
      + apply (Hthrough "host_lane_count").
        * apply (list_elem_of_lookup_2 _ 14%nat). reflexivity.
        * apply (bool_decide_unpack _). by vm_compute.
      + apply (Hthrough "media_interface_technology").
        * apply (list_elem_of_lookup_2 _ 19%nat). reflexivity.
        * apply (bool_decide_unpack _). by vm_compute.
      + apply (Hthrough "specification_compliance").
        * apply (list_elem_of_lookup_2 _ 22%nat). reflexivity.
        * apply (bool_decide_unpack _). by vm_compute.
    - assert (forall field si,
                admin_stripped E admin_info field si
                = (Ok (res_default VNone
                         (res_bind (getitem admin_info (KStr (consts E field)))
                            (fun v => Ok (_strip_str v)))), si) \/
                admin_stripped E admin_info field si
                = lift (getitem admin_info (KStr (consts E field))) si) as Hstripped.
      { intros field si. unfold admin_stripped, admin, bind, lift, ret.
        destruct (getitem admin_info (KStr (consts E field))); [by left|by right]. }
      unfold admin_subfields.
      repeat (apply Forall_cons; split); try apply Forall_nil_2.
      + apply (Hsub "type" ID_FIELD (admin E admin_info ID_FIELD));
          [apply (list_elem_of_lookup_2 _ 0%nat); reflexivity|intros si; by right|
           apply (bool_decide_unpack _); by vm_compute].
      + apply (Hsub "type_abbrv_name" ID_ABBRV_FIELD (admin E admin_info ID_ABBRV_FIELD));
          [apply (list_elem_of_lookup_2 _ 1%nat); reflexivity|intros si; by right|
           apply (bool_decide_unpack _); by vm_compute].
      + apply (Hsub "serial" VENDOR_SERIAL_NO_FIELD
                 (admin_stripped E admin_info VENDOR_SERIAL_NO_FIELD));
          [apply (list_elem_of_lookup_2 _ 3%nat); reflexivity|apply Hstripped|
           apply (bool_decide_unpack _); by vm_compute].
      + apply (Hsub "manufacturer" VENDOR_NAME_FIELD
                 (admin_stripped E admin_info VENDOR_NAME_FIELD));
          [apply (list_elem_of_lookup_2 _ 4%nat); reflexivity|apply Hstripped|
           apply (bool_decide_unpack _); by vm_compute].
      + apply (Hsub "model" VENDOR_PART_NO_FIELD
                 (admin_stripped E admin_info VENDOR_PART_NO_FIELD));
          [apply (list_elem_of_lookup_2 _ 5%nat); reflexivity|apply Hstripped|
           apply (bool_decide_unpack _); by vm_compute].
      + apply (Hsub "connector" CONNECTOR_FIELD (admin E admin_info CONNECTOR_FIELD));
          [apply (list_elem_of_lookup_2 _ 6%nat); reflexivity|intros si; by right|
           apply (bool_decide_unpack _); by vm_compute].
      + apply (Hsub "vendor_date" VENDOR_DATE_FIELD
                 (admin_stripped E admin_info VENDOR_DATE_FIELD));
          [apply (list_elem_of_lookup_2 _ 9%nat); reflexivity|apply Hstripped|
           apply (bool_decide_unpack _); by vm_compute].
      + apply (Hsub "vendor_oui" VENDOR_OUI_FIELD (admin E admin_info VENDOR_OUI_FIELD));
          [apply (list_elem_of_lookup_2 _ 10%nat); reflexivity|intros si; by right|
           apply (bool_decide_unpack _); by vm_compute].
    - intros Hflat Hread.
      destruct (display_entry_at (settled E) entries 12 "host_electrical_interface"
                  (get_host_electrical_interface E) _ _ _ _ eq_refl
                  (settled_refl E) (settled_trans E)
                  ltac:(change (take 12 entries) with (take (12 `min` 20) entries);
                        rewrite <- take_take;
                        apply Forall_take, settles_display_prefix)
                  ltac:(subst entries; rewrite fmap_drop, xcvr_info_display_keys;
                        apply (bool_decide_unpack _); by vm_compute)
                  Hdisp) as (si & v & si' & (Hei & _ & Hfi) & Hrun & HD).
      apply (Hsome "host_electrical_interface" v
               ltac:(apply (bool_decide_unpack _); by vm_compute) HD).
      rewrite Hflat in Hfi.
      destruct (flat_answer E si false Hfi) as (sj & Hflat' & Hej & _).
      unfold get_host_electrical_interface, bind in Hrun.
      rewrite Hflat', read_eq in Hrun. injection Hrun as <- _.
      unfold read_value in Hread |- *. by rewrite Hej, Hei.
    - intros media_type register Hin Htype Hread.
      destruct (Hentries "media_interface_code" (get_module_media_interface E))
        as (si & v & si' & Hei & _ & _ & Hrun & HD).
      { apply (list_elem_of_lookup_2 _ 13%nat). reflexivity. }
      apply (Hsome "media_interface_code" v
               ltac:(apply (bool_decide_unpack _); by vm_compute) HD).
      assert (forall field, read_value si field = read_value s field) as Hsame
        by (intros field; unfold read_value; by rewrite Hei).
      unfold get_module_media_interface, get_module_media_type, bind in Hrun.
      rewrite read_eq, Hsame, Htype in Hrun.
      unfold media_interface_registers in Hin.
      rewrite !elem_of_cons, elem_of_nil in Hin.
      destruct Hin as [Hin|[Hin|[Hin|[Hin|[Hin|[]]]]]]; injection Hin as -> ->;
        cbn [str_eq] in Hrun;
        repeat match type of Hrun with
               | context [String.eqb ?a ?b] =>
                   let r := eval vm_compute in (String.eqb a b) in
                   change (String.eqb a b) with r in Hrun
               end;
        cbv iota in Hrun;
        rewrite read_eq, Hsame, Hread in Hrun; by injection Hrun as <- _.
    - intros Hc Hread.
      destruct (display_entry_at (settled E) entries 20 "vendor_rev"
                  (let* v := get_vendor_rev E in ret (_strip_str v)) _ _ _ _ eq_refl
                  (settled_refl E) (settled_trans E)
                  (settles_display_prefix E _ _ _)
                  ltac:(subst entries; rewrite fmap_drop, xcvr_info_display_keys;
                        apply (bool_decide_unpack _); by vm_compute)
                  Hdisp) as (si & v & si' & (Hei & Hci & _) & Hrun & HD).
      apply (Hsome "vendor_rev" v
               ltac:(apply (bool_decide_unpack _); by vm_compute) HD).
      unfold get_vendor_rev, read_only_cached_api_return, bind in Hrun.
      rewrite Hci, Hc, read_eq in Hrun.
      assert (read_value si c.VENDOR_REV_FIELD = VNone) as Hsi
        by (unfold read_value in Hread |- *; by rewrite Hei).
      rewrite Hsi in Hrun. cbn in Hrun. by injection Hrun as <- _.
    - intros Hvdm Hread.
      apply (Hsome "vdm_supported" (read_value s c.VDM_SUPPORTED)
               ltac:(apply (bool_decide_unpack _); by vm_compute)); [|exact Hread].
      apply (display_vdm_supported _ _ _ _ _ _ _ Hdisp Hvdm).
    - intros Hflat lane Hlane Hget.
      pose proof (dict_display_preserves (fun s' => kept E s s') entries
                    ltac:(eapply Forall_impl; [apply kept_display|];
                          intros [k e] Hke s' Hs'; cbn [snd] in *;
                          exact (kept_trans E _ _ _ Hs' (Hke s')))
                    _get_xcvr_info_default_dict s (kept_refl E s)) as Hk1.
      rewrite Hdisp in Hk1. cbn [snd] in Hk1.
      destruct (get_active_apsel_hostlane_kept s s1 s2 ap Hk1 Hap) as (fl & Hfl & Hap').
      rewrite Hflat in Hfl. injection Hfl as <-.
      rewrite (getitem_name_truthy _ _ _ Hget) in Hap'. cbn [negb] in Hap'. subst ap.
      destruct (apsel_fold_lookup _ (range 1 (NUM_CHANNELS + 1))
                  ltac:(apply (bool_decide_unpack _); by vm_compute) D D2 Hfold lane
                  ltac:(apply elem_of_range; unfold NUM_CHANNELS in *; lia))
        as (v & Hv & HD2).
      cbn [apsel_getitem] in Hv. rewrite Hget in Hv. injection Hv as <-.
      by apply (Hvalues _ HD2). }
  - intros Hc Hread.
    rewrite (apsel_fold_other ap "application_advertisement" (range 1 (NUM_CHANNELS + 1))
               ltac:(apply (bool_decide_unpack _); by vm_compute) _ _ Hfold).
    apply (display_advertisement_unreadable _ _ _ _ _ _ _ Hdisp Hc Hread).
  - intros Hread lane Hlane.
    assert (ap = DefaultNA) as ->.
    { apply (get_active_apsel_hostlane_unreadable s1 s2 ap Hap).
      unfold read_value. by rewrite He1. }
    by apply (apsel_fold_default D D2 lane Hfold).
Qed.

End Info.

Lemma get_transceiver_info_all_or_nothing_witness :
  (exists d,
     (get_transceiver_info example_env (info_example [APPLS_ADVT_FIELD; ACTIVE_APSEL_CODE])).1
       = Ok (VDict d) /\
     (forall k, d !! k <> Some VNone) /\
     d !! KStr "application_advertisement" = Some NA /\
     d !! KStr (fmt_sd "active_apsel_hostlane" 5) = Some NA) /\
  (reads_resolved example_env (info_example []) /\
   exists d, (get_transceiver_info example_env (info_example [])).1 = Ok (VDict d)).
Proof.
  split.
  - destruct (get_transceiver_info_all_or_nothing example_env
                (info_example [APPLS_ADVT_FIELD; ACTIVE_APSEL_CODE])) as [_ H].
    assert (is_dict (get_transceiver_info example_env
                       (info_example [APPLS_ADVT_FIELD; ACTIVE_APSEL_CODE])).1 = true) as Hd
      by (by vm_compute).
    destruct (get_transceiver_info example_env
                (info_example [APPLS_ADVT_FIELD; ACTIVE_APSEL_CODE])).1 as [r|x];
      [|discriminate].
    destruct (H r eq_refl) as [[->|(d & -> & Hv & _ & Hadv & Hap)] _]; [discriminate|].
    exists d. split; [reflexivity|]. split; [exact Hv|]. split.
    + apply Hadv; by vm_compute.
    + apply Hap; [by vm_compute|]. unfold NUM_CHANNELS. lia.
  - assert (reads_resolved example_env (info_example [])) as Hres.
    { split; [|split; [|split; [|split; [|split; [|split]]]]].
      - repeat (apply Forall_cons_2;
                [intros H; apply (f_equal is_none) in H; vm_compute in H; discriminate H|]).
        apply Forall_nil_2.
      - unfold admin_subfields.
        repeat (apply Forall_cons_2; [vm_compute; discriminate|]). apply Forall_nil_2.
      - intros _ H. apply (f_equal is_none) in H. vm_compute in H. discriminate H.
      - intros media_type register Hin Htype.
        assert (str_eq (read_value (info_example []) (consts example_env MEDIA_TYPE_FIELD))
                  "sm_media_interface" = true) as Hsm by (vm_compute; reflexivity).
        rewrite Htype in Hsm. cbn [str_eq] in Hsm. apply String.eqb_eq in Hsm as ->.
        unfold media_interface_registers in Hin.
        apply elem_of_cons in Hin as [Hin|Hin]; [injection Hin as Hs _; discriminate Hs|].
        apply elem_of_cons in Hin as [Hin|Hin];
          [injection Hin as ->; intros H; apply (f_equal is_none) in H;
           vm_compute in H; discriminate H|].
        apply elem_of_cons in Hin as [Hin|Hin]; [injection Hin as Hs _; discriminate Hs|].
        apply elem_of_cons in Hin as [Hin|Hin]; [injection Hin as Hs _; discriminate Hs|].
        apply elem_of_cons in Hin as [Hin|Hin]; [injection Hin as Hs _; discriminate Hs|].
        destruct (proj1 (elem_of_nil _) Hin).
      - intros _ H. apply (f_equal is_none) in H. vm_compute in H. discriminate H.
      - intros Hvdm. by destruct Hvdm.
      - intros _ lane Hlane. unfold NUM_CHANNELS in Hlane.
        assert (lane = 1 \/ lane = 2 \/ lane = 3 \/ lane = 4 \/
                lane = 5 \/ lane = 6 \/ lane = 7 \/ lane = 8)
          as [->|[->|[->|[->|[->|[->|[->| ->]]]]]]] by lia;
          vm_compute; discriminate. }
    split; [exact Hres|].
    destruct (get_transceiver_info_all_or_nothing example_env (info_example [])) as [_ H].
    assert (is_ok (get_transceiver_info example_env (info_example [])).1 = true) as Hok
      by (by vm_compute).
    destruct (get_transceiver_info example_env (info_example [])).1 as [r|x];
      [|discriminate].
    destruct (H r eq_refl) as [_ Hdict].
    destruct Hdict as [d ->]; [| |exact Hres|by exists d].
    + intros name. cbn. by rewrite lookup_empty.
    + intros v Hv. cbn in Hv. by rewrite lookup_empty in Hv.
Defined.

(** C1, as claimed, fails where the application advertisement and the
    active application-select group are unreadable: two constituent reads
    fail, yet a dictionary is returned, with ['N/A'] and [0] in the
    entries built from them. *)
Lemma get_transceiver_info_counterexample :
  read_value (info_example [APPLS_ADVT_FIELD; ACTIVE_APSEL_CODE])
    (example_consts APPLS_ADVT_FIELD) = VNone /\
  read_value (info_example [APPLS_ADVT_FIELD; ACTIVE_APSEL_CODE])
    (example_consts ACTIVE_APSEL_CODE) = VNone /\
  is_dict (get_transceiver_info example_env
             (info_example [APPLS_ADVT_FIELD; ACTIVE_APSEL_CODE])).1 = true /\
  entry (get_transceiver_info example_env (info_example [APPLS_ADVT_FIELD; ACTIVE_APSEL_CODE]))
    "application_advertisement" = Some NA /\
  entry (get_transceiver_info example_env (info_example [APPLS_ADVT_FIELD; ACTIVE_APSEL_CODE]))
    "media_lane_count" = Some (VInt 0) /\
  entry (get_transceiver_info example_env (info_example [APPLS_ADVT_FIELD; ACTIVE_APSEL_CODE]))
    "active_apsel_hostlane1" = Some NA.
Proof. by vm_compute. Qed.

(** The healthy module: every entry resolved. *)
Example get_transceiver_info_healthy :
  is_dict (get_transceiver_info example_env (info_example [])).1 = true /\
  entry (get_transceiver_info example_env (info_example [])) "cmis_rev" = Some (VStr "5.0") /\
  entry (get_transceiver_info example_env (info_example [])) "hardware_rev"
    = Some (VStr "1.2") /\
  entry (get_transceiver_info example_env (info_example [])) "host_lane_count"
    = Some (VInt 8).
Proof. by vm_compute. Qed.

(** An unreadable pass-through register: no result. *)
Example get_transceiver_info_unreadable :
  (get_transceiver_info example_env (info_example [ADMIN_INFO_FIELD])).1 = Ok VNone /\
  (get_transceiver_info example_env (info_example [HOST_LANE_COUNT])).1 = Ok VNone /\
  (get_transceiver_info example_env (info_example [MEDIA_INTERFACE_TECH])).1 = Ok VNone /\
  (get_transceiver_info example_env (info_example [MEDIA_TYPE_FIELD])).1 = Ok VNone /\
  (get_transceiver_info example_env (info_example [HOST_ELECTRICAL_INTERFACE])).1
    = Ok VNone /\
  (get_transceiver_info example_env (info_example [MODULE_MEDIA_INTERFACE_SM])).1
    = Ok VNone /\
  (get_transceiver_info example_env (info_example [VENDOR_REV_FIELD])).1 = Ok VNone.
Proof. by vm_compute. Qed.

(** The revision strings are built with [str] from whatever the reads
    return: an unreadable revision register shows up as the text
    ["None"] inside the entry, which the final test for [None] does not
    see. *)
Example get_transceiver_info_revision_unreadable :
  entry (get_transceiver_info example_env (info_example [CMIS_MAJOR_REVISION])) "cmis_rev"
    = Some (VStr "None.0") /\
  entry (get_transceiver_info example_env (info_example [HW_MINOR_REV])) "hardware_rev"
    = Some (VStr "1.None").
Proof. by vm_compute. Qed.

(** * Further properties *)

(** ** Per-lane TX and RX disable *)

Section Cached_facts.

(** A memoised method that answered something other than [None] has
    retained its answer, and a retained answer is returned without running
    the body. *)
Lemma cached_retained (name : string) (func : M pyval) (s s1 : CmisApi) (v : pyval) :
  read_only_cached_api_return name func s = (Ok v, s1) ->
  is_none v = false ->
  cache s1 !! name = Some v.
Proof.
  unfold read_only_cached_api_return. intros Hrun Hv.
  destruct (cache s !! name) as [v0|] eqn:Hc.
  - injection Hrun as -> ->. exact Hc.
  - destruct (func s) as [[v1|x] s'] eqn:Hf; [|discriminate].
    injection Hrun as -> <-. rewrite Hv. cbn [cache set_cache].
    by rewrite lookup_insert_eq.
Qed.

Lemma cached_hit (name : string) (func : M pyval) (s : CmisApi) (v : pyval) :
  cache s !! name = Some v -> read_only_cached_api_return name func s = (Ok v, s).
Proof. intros Hc. unfold read_only_cached_api_return. by rewrite Hc. Qed.

End Cached_facts.

Section Lane_controls.

Variable E : Env.
Variable X : Env_more.

Notation "'cm.' N" := (consts_more X N) (at level 1, N at level 0, format "'cm.' N").

Lemma land_shiftl1_eqb_r (lane channel : Z) :
  0 <= lane ->
  (Z.land channel (Z.shiftl 1 lane) =? 0) = negb (Z.testbit channel lane).
Proof. intros Hl. rewrite Z.land_comm. by apply land_shiftl1_eqb. Qed.

Lemma lane_bits_int (x : Z) : lane_bits (VInt x) = Ok (lane_flags (Z.testbit x)).
Proof.
  unfold lane_bits, lane_flags. cbn [as_int res_bind]. do 2 f_equal.
  apply Forall_fmap_ext_1. eapply Forall_impl; [apply (range_nonneg 0 NUM_CHANNELS); lia|].
  intros i Hi. cbn beta. rewrite land_shiftl1_eqb_r by exact Hi.
  by rewrite negb_involutive.
Qed.

(** What the loop leaves in an integer register value: the bits of the
    selected lanes forced, every other bit kept. *)
Lemma disable_loop_bits (disable : bool) (channel : Z) (lanes : list Z) :
  forall d : Z,
    Forall (fun l => 0 <= l) lanes ->
    exists w : Z,
      disable_loop disable channel lanes (VInt d) = Ok (VInt w) /\
      forall i : Z, 0 <= i ->
        Z.testbit w i =
          if bool_decide (i ∈ lanes) && Z.testbit channel i then disable
          else Z.testbit d i.
Proof.
  induction lanes as [|lane lanes IH]; intros d Hpos.
  - exists d. split; [reflexivity|]. intros i _. reflexivity.
  - apply Forall_cons in Hpos as [Hl Hpos]. cbn [disable_loop].
    rewrite land_shiftl1_eqb_r by exact Hl.
    destruct (Z.testbit channel lane) eqn:Hb; cbn [negb as_int res_bind].
    + set (d' := if disable then _ else _).
      destruct (IH d' Hpos) as (w & Hw & Hbits).
      exists w. split; [exact Hw|]. intros i Hi. rewrite Hbits by exact Hi.
      destruct (decide (i = lane)) as [->|Hne].
      * rewrite Hb, andb_true_r.
        rewrite (bool_decide_eq_true_2 (lane ∈ lane :: lanes))
          by (apply elem_of_cons; by left).
        case_bool_decide; [reflexivity|].
        subst d'. destruct disable.
        -- rewrite Z.lor_spec, testbit_shiftl1, Z.eqb_refl by lia. apply orb_true_r.
        -- rewrite Z.land_spec, Z.lnot_spec, testbit_shiftl1, Z.eqb_refl by lia.
           apply andb_false_r.
      * assert (bool_decide (i ∈ lane :: lanes) = bool_decide (i ∈ lanes)) as ->
          by (apply bool_decide_ext; rewrite elem_of_cons; intuition).
        destruct (bool_decide (i ∈ lanes) && Z.testbit channel i); [reflexivity|].
        subst d'. destruct disable.
        -- rewrite Z.lor_spec, testbit_shiftl1 by lia.
           rewrite (proj2 (Z.eqb_neq lane i)) by (intros ->; by apply Hne).
           apply orb_false_r.
        -- rewrite Z.land_spec, Z.lnot_spec, testbit_shiftl1 by lia.
           rewrite (proj2 (Z.eqb_neq lane i)) by (intros ->; by apply Hne).
           apply andb_true_r.
    + destruct (IH d Hpos) as (w & Hw & Hbits).
      exists w. split; [exact Hw|]. intros i Hi. rewrite Hbits by exact Hi.
      destruct (decide (i = lane)) as [->|Hne].
      * by rewrite Hb, !andb_false_r.
      * assert (bool_decide (i ∈ lane :: lanes) = bool_decide (i ∈ lanes)) as ->
          by (apply bool_decide_ext; rewrite elem_of_cons; intuition).
        reflexivity.
Qed.

Lemma disable_loop_range (disable : bool) (channel d : Z) :
  exists w : Z,
    disable_loop disable channel (range 0 NUM_CHANNELS) (VInt d) = Ok (VInt w) /\
    forall i : Z, 0 <= i ->
      Z.testbit w i =
        if bool_decide (0 <= i < NUM_CHANNELS) && Z.testbit channel i then disable
        else Z.testbit d i.
Proof.
  destruct (disable_loop_bits disable channel (range 0 NUM_CHANNELS) d
              (range_nonneg 0 NUM_CHANNELS (Z.le_refl 0))) as (w & Hw & Hbits).
  exists w. split; [exact Hw|]. intros i Hi. rewrite (Hbits i Hi).
  by rewrite (bool_decide_ext _ _ (elem_of_range 0 NUM_CHANNELS i)).
Qed.

Lemma stable_get_tx_disable_support : stable (get_tx_disable_support E X).
Proof.
  apply stable_cached, stable_bind; [apply stable_flat|].
  intros fl. apply stable_if; auto with stable.
Qed.

Lemma stable_get_rx_disable_support : stable (get_rx_disable_support E X).
Proof.
  apply stable_bind; [apply stable_flat|].
  intros fl. apply stable_if; auto with stable.
Qed.

(** How [get_tx_disable_channel] goes on a module that reports support:
    it returns the register, and the support answer is memoised. *)
Lemma get_tx_disable_channel_supported (s : CmisApi) (sup : pyval) :
  (get_tx_disable_support E X s).1 = Ok sup -> truthy sup = true ->
  exists s1,
    get_tx_disable_channel E X s = (Ok (read_value s cm.TX_DISABLE_FIELD), s1) /\
    xcvr_eeprom s1 = xcvr_eeprom s /\
    cache s1 !! "get_tx_disable_support" = Some sup.
Proof.
  intros Hsup Htrue.
  assert (is_none sup = false) as Hnone by (by destruct sup).
  pose proof (stable_get_tx_disable_support s) as (He & _ & _).
  destruct (get_tx_disable_support E X s) as [[sup'|x] s1] eqn:Hrun;
    cbn [fst] in Hsup; [|discriminate].
  injection Hsup as ->. cbn [snd] in He. exists s1.
  split; [|split; [exact He|]].
  - unfold get_tx_disable_channel, bind. rewrite Hrun, Hnone, Htrue. cbn [negb].
    rewrite read_eq. unfold read_value. by rewrite He.
  - by apply (cached_retained _ _ s _ _ Hrun).
Qed.

Lemma get_rx_disable_channel_supported (s : CmisApi) (sup : pyval) :
  (get_rx_disable_support E X s).1 = Ok sup -> truthy sup = true ->
  exists s1,
    get_rx_disable_channel E X s = (Ok (read_value s cm.RX_DISABLE_FIELD), s1) /\
    xcvr_eeprom s1 = xcvr_eeprom s.
Proof.
  intros Hsup Htrue.
  assert (is_none sup = false) as Hnone by (by destruct sup).
  pose proof (stable_get_rx_disable_support s) as (He & _ & _).
  destruct (get_rx_disable_support E X s) as [[sup'|x] s1] eqn:Hrun;
    cbn [fst] in Hsup; [|discriminate].
  injection Hsup as ->. cbn [snd] in He. exists s1.
  split; [|exact He].
  unfold get_rx_disable_channel, bind. rewrite Hrun, Hnone, Htrue. cbn [negb].
  rewrite read_eq. unfold read_value. by rewrite He.
Qed.

(** X1.  On a module that reports TX (RX) disable support, with the disable
    register holding the integer [d], [tx_disable_channel]
    ([rx_disable_channel]) returns what the one [write] it issues returns,
    and the value written has the bit of every selected lane among the
    eight equal to [disable] and every other bit as in [d]. *)
Theorem disable_channel_sets_lanes (s : CmisApi) (channel : Z) (disable : bool) :
  (forall sup d,
     (get_tx_disable_support E X s).1 = Ok sup -> truthy sup = true ->
     read_value s cm.TX_DISABLE_FIELD = VInt d ->
     exists w : Z,
       (tx_disable_channel E X channel disable s).1
         = Ok (writable (xcvr_eeprom s) cm.TX_DISABLE_FIELD) /\
       writes_of (tx_disable_channel E X channel disable) s [(cm.TX_DISABLE_FIELD, VInt w)] /\
       forall i, 0 <= i ->
         Z.testbit w i = if bool_decide (0 <= i < NUM_CHANNELS) && Z.testbit channel i
                         then disable else Z.testbit d i) /\
  (forall sup d,
     (get_rx_disable_support E X s).1 = Ok sup -> truthy sup = true ->
     read_value s cm.RX_DISABLE_FIELD = VInt d ->
     exists w : Z,
       (rx_disable_channel E X channel disable s).1
         = Ok (writable (xcvr_eeprom s) cm.RX_DISABLE_FIELD) /\
       writes_of (rx_disable_channel E X channel disable) s [(cm.RX_DISABLE_FIELD, VInt w)] /\
       forall i, 0 <= i ->
         Z.testbit w i = if bool_decide (0 <= i < NUM_CHANNELS) && Z.testbit channel i
                         then disable else Z.testbit d i).
Proof.
  split; intros sup d Hsup Htrue Hd.
  - destruct (get_tx_disable_channel_supported s sup Hsup Htrue) as (s1 & Hch & He & _).
    destruct (disable_loop_range disable channel d) as (w & Hw & Hbits).
    exists w. unfold writes_of, writes_between, tx_disable_channel, bind.
    rewrite Hch, Hd. cbn [is_none str_eq orb]. unfold lift. rewrite Hw.
    unfold write. cbn [fst snd xcvr_eeprom set_eeprom wlog]. rewrite He.
    split; [reflexivity|]. split; [reflexivity|exact Hbits].
  - destruct (get_rx_disable_channel_supported s sup Hsup Htrue) as (s1 & Hch & He).
    destruct (disable_loop_range disable channel d) as (w & Hw & Hbits).
    exists w. unfold writes_of, writes_between, rx_disable_channel, bind.
    rewrite Hch, Hd. cbn [is_none str_eq orb]. unfold lift. rewrite Hw.
    unfold write. cbn [fst snd xcvr_eeprom set_eeprom wlog]. rewrite He.
    split; [reflexivity|]. split; [reflexivity|exact Hbits].
Qed.

(** X2.  Without support, or with the disable register unreadable,
    [tx_disable_channel] and [rx_disable_channel] return [False] and
    write nothing. *)
Theorem disable_channel_fails_closed (s : CmisApi) (channel : Z) (disable : bool) :
  (forall sup,
     (get_tx_disable_support E X s).1 = Ok sup ->
     truthy sup = false \/ read_value s cm.TX_DISABLE_FIELD = VNone ->
     (tx_disable_channel E X channel disable s).1 = Ok false /\
     xcvr_eeprom (tx_disable_channel E X channel disable s).2 = xcvr_eeprom s) /\
  (forall sup,
     (get_rx_disable_support E X s).1 = Ok sup ->
     truthy sup = false \/ read_value s cm.RX_DISABLE_FIELD = VNone ->
     (rx_disable_channel E X channel disable s).1 = Ok false /\
     xcvr_eeprom (rx_disable_channel E X channel disable s).2 = xcvr_eeprom s).
Proof.
  split; intros sup Hsup Hcase.
  - pose proof (stable_get_tx_disable_support s) as (He & _ & _).
    destruct (get_tx_disable_support E X s) as [[sup'|x] s1] eqn:Hrun;
      cbn [fst] in Hsup; [|discriminate].
    injection Hsup as ->. cbn [snd] in He.
    unfold tx_disable_channel, get_tx_disable_channel, bind. rewrite Hrun.
    destruct (is_none sup) eqn:Hnone; [done|].
    destruct (truthy sup) eqn:Htrue; cbn [negb]; [|done].
    destruct Hcase as [?|Hread]; [done|].
    rewrite read_eq. unfold read_value in *. rewrite He, Hread. done.
  - pose proof (stable_get_rx_disable_support s) as (He & _ & _).
    destruct (get_rx_disable_support E X s) as [[sup'|x] s1] eqn:Hrun;
      cbn [fst] in Hsup; [|discriminate].
    injection Hsup as ->. cbn [snd] in He.
    unfold rx_disable_channel, get_rx_disable_channel, bind. rewrite Hrun.
    destruct (is_none sup) eqn:Hnone; [done|].
    destruct (truthy sup) eqn:Htrue; cbn [negb]; [|done].
    destruct Hcase as [?|Hread]; [done|].
    rewrite read_eq. unfold read_value in *. rewrite He, Hread. done.
Qed.

Lemma lane_flags_ext (f g : Z -> bool) :
  (forall i, 0 <= i < NUM_CHANNELS -> f i = g i) -> lane_flags f = lane_flags g.
Proof.
  intros Hfg. unfold lane_flags. f_equal. apply Forall_fmap_ext_1, Forall_forall.
  intros i Hi. f_equal. apply Hfg. by apply elem_of_range.
Qed.

(** X3.  Read-back.  On a module that reports TX disable support, whose
    disable register holds the integer [d], accepts the write and reads
    back what was written, [get_tx_disable] after
    [tx_disable_channel channel disable] reports [disable] for every
    selected lane and the previous state for the others. *)
Theorem tx_disable_channel_read_back (s : CmisApi) (sup : pyval) (d channel : Z)
    (disable : bool) :
  (get_tx_disable_support E X s).1 = Ok sup -> truthy sup = true ->
  read_value s cm.TX_DISABLE_FIELD = VInt d ->
  writable (xcvr_eeprom s) cm.TX_DISABLE_FIELD = true ->
  (get_tx_disable E X (tx_disable_channel E X channel disable s).2).1
  = Ok (lane_flags (fun i => if Z.testbit channel i then disable else Z.testbit d i)).
Proof.
  intros Hsup Htrue Hd Hw.
  assert (is_none sup = false) as Hnone by (by destruct sup).
  destruct (get_tx_disable_channel_supported s sup Hsup Htrue) as (s1 & Hch & He & Hc).
  destruct (disable_loop_range disable channel d) as (w & Hloop & Hbits).
  unfold tx_disable_channel, bind. rewrite Hch, Hd. cbn [is_none str_eq orb].
  unfold lift. rewrite Hloop.
  unfold get_tx_disable, bind, get_tx_disable_support.
  rewrite (cached_hit _ _ _ sup) by exact Hc.
  rewrite Hnone, Htrue. cbn [negb].
  rewrite read_eq.
  assert (read_value (write cm.TX_DISABLE_FIELD (VInt w) s1).2 cm.TX_DISABLE_FIELD = VInt w)
    as ->.
  { unfold write, read_value. cbn [snd xcvr_eeprom set_eeprom mem].
    rewrite He, Hw. by rewrite lookup_insert_eq. }
  cbn [is_none]. unfold lift. rewrite lane_bits_int. cbn [fst]. f_equal.
  apply lane_flags_ext. intros i Hi. rewrite Hbits by lia.
  by rewrite bool_decide_eq_true_2.
Qed.

End Lane_controls.

(** Lanes 0 and 2 re-enabled on a module with lanes 0 to 3 disabled. *)
Lemma disable_channel_sets_lanes_witness :
  (exists w : Z,
     (tx_disable_channel example_env example_more 5 false (disable_example 15 0)).1
       = Ok (writable (xcvr_eeprom (disable_example 15 0))
               (consts_more example_more TX_DISABLE_FIELD)) /\
     writes_of (tx_disable_channel example_env example_more 5 false) (disable_example 15 0)
       [(consts_more example_more TX_DISABLE_FIELD, VInt w)] /\
     forall i, 0 <= i ->
       Z.testbit w i = if bool_decide (0 <= i < NUM_CHANNELS) && Z.testbit 5 i
                       then false else Z.testbit 15 i) /\
  (exists w : Z,
     (rx_disable_channel example_env example_more 5 false (disable_example 0 15)).1
       = Ok (writable (xcvr_eeprom (disable_example 0 15))
               (consts_more example_more RX_DISABLE_FIELD)) /\
     writes_of (rx_disable_channel example_env example_more 5 false) (disable_example 0 15)
       [(consts_more example_more RX_DISABLE_FIELD, VInt w)] /\
     forall i, 0 <= i ->
       Z.testbit w i = if bool_decide (0 <= i < NUM_CHANNELS) && Z.testbit 5 i
                       then false else Z.testbit 15 i).
Proof.
  split.
  - apply (proj1 (disable_channel_sets_lanes example_env example_more
                    (disable_example 15 0) 5 false) (VBool true) 15); reflexivity.
  - apply (proj2 (disable_channel_sets_lanes example_env example_more
                    (disable_example 0 15) 5 false) (VBool true) 15); reflexivity.
Defined.

Example tx_disable_channel_value :
  (tx_disable_channel example_env example_more 5 false (disable_example 15 0)).1 = Ok true /\
  wlog (xcvr_eeprom (tx_disable_channel example_env example_more 5 false
                       (disable_example 15 0)).2)
  = [("TX_DISABLE_FIELD", VInt 10)].
Proof. by vm_compute. Qed.

(** A flat-memory module: nothing is written. *)
Lemma disable_channel_fails_closed_witness :
  ((tx_disable_channel example_env example_more 5 true (api_of [])).1 = Ok false /\
   xcvr_eeprom (tx_disable_channel example_env example_more 5 true (api_of [])).2
   = xcvr_eeprom (api_of [])) /\
  ((rx_disable_channel example_env example_more 5 true (api_of [])).1 = Ok false /\
   xcvr_eeprom (rx_disable_channel example_env example_more 5 true (api_of [])).2
   = xcvr_eeprom (api_of [])).
Proof.
  split.
  - apply (proj1 (disable_channel_fails_closed example_env example_more (api_of []) 5 true)
             (VBool false)); [reflexivity|by left].
  - apply (proj2 (disable_channel_fails_closed example_env example_more (api_of []) 5 true)
             (VBool false)); [reflexivity|by left].
Defined.

Lemma tx_disable_channel_read_back_witness :
  (get_tx_disable example_env example_more
     (tx_disable_channel example_env example_more 5 false (disable_example 15 0)).2).1
  = Ok (lane_flags (fun i => if Z.testbit 5 i then false else Z.testbit 15 i)).
Proof.
  apply (tx_disable_channel_read_back example_env example_more (disable_example 15 0)
           (VBool true) 15 5 false); reflexivity.
Defined.

Example tx_disable_channel_read_back_value :
  (get_tx_disable example_env example_more
     (tx_disable_channel example_env example_more 5 false (disable_example 15 0)).2).1
  = Ok (VList (VBool <$> [false; true; false; true; false; false; false; false])).
Proof. by vm_compute. Qed.

(** ** Datapath deinit read-back and application selection *)

Section Application.

Variable E : Env.
Variable X : Env_more.

Notation "'c.' N" := (consts E N) (at level 1, N at level 0, format "'c.' N").
Notation "'cm.' N" := (consts_more X N) (at level 1, N at level 0, format "'cm.' N").

(** X4.  Read-back of the datapath-deinit register.  With the CMIS major
    revision [m] and the register value [d] read from the module, and a
    register that accepts the write and reads back what was written,
    [get_datapath_deinit] after
    [set_datapath_deinit channel] reports, for every selected lane,
    whether the revision is at least 4, after [set_datapath_init channel]
    the opposite, and for the other lanes the bit of [d]. *)
Theorem datapath_deinit_read_back (s : CmisApi) (channel m d : Z) :
  read_value s c.CMIS_MAJOR_REVISION = VInt m ->
  read_value s c.DATAPATH_DEINIT_FIELD = VInt d ->
  writable (xcvr_eeprom s) c.DATAPATH_DEINIT_FIELD = true ->
  (get_datapath_deinit E (set_datapath_deinit E channel s).2).1
  = Ok (lane_flags (fun i => if Z.testbit channel i then 4 <=? m else Z.testbit d i)) /\
  (get_datapath_deinit E (set_datapath_init E channel s).2).1
  = Ok (lane_flags (fun i => if Z.testbit channel i then negb (4 <=? m) else Z.testbit d i)).
Proof.
  intros Hm Hd Hw.
  assert (forall init,
            exists w, datapath_loop init (VInt m) channel (range 0 NUM_CHANNELS) (VInt d)
                      = Ok (VInt w) /\
                      lane_flags (Z.testbit w)
                      = lane_flags (fun i => if Z.testbit channel i
                                             then negb (Bool.eqb (4 <=? m) init)
                                             else Z.testbit d i)) as Hloop.
  { intros init. destruct (datapath_loop_range init channel m d) as (w & Hw' & Hbits).
    exists w. split; [exact Hw'|]. apply lane_flags_ext. intros i Hi.
    rewrite Hbits by lia. by rewrite bool_decide_eq_true_2. }
  assert (forall w, (get_datapath_deinit E (write c.DATAPATH_DEINIT_FIELD (VInt w) s).2).1
                    = Ok (lane_flags (Z.testbit w))) as Hget.
  { intros w. unfold get_datapath_deinit, bind. rewrite read_eq.
    assert (read_value (write c.DATAPATH_DEINIT_FIELD (VInt w) s).2 c.DATAPATH_DEINIT_FIELD
            = VInt w) as ->.
    { unfold write, read_value. cbn [snd xcvr_eeprom set_eeprom mem].
      rewrite Hw. by rewrite lookup_insert_eq. }
    cbn [is_none]. unfold lift. by rewrite lane_bits_int. }
  split.
  - destruct (Hloop false) as (w & Hw' & Hflags).
    unfold set_datapath_deinit, bind. rewrite !read_eq, Hm, Hd. unfold lift. rewrite Hw'.
    destruct (write c.DATAPATH_DEINIT_FIELD (VInt w) s) as [[b|x] s'] eqn:Hwr;
      [|discriminate].
    unfold ret. cbn [snd].
    replace s' with (write c.DATAPATH_DEINIT_FIELD (VInt w) s).2 by (by rewrite Hwr).
    rewrite Hget, Hflags. f_equal. apply lane_flags_ext. intros i _.
    by destruct (4 <=? m).
  - destruct (Hloop true) as (w & Hw' & Hflags).
    unfold set_datapath_init, bind. rewrite !read_eq, Hm, Hd. unfold lift. rewrite Hw'.
    destruct (write c.DATAPATH_DEINIT_FIELD (VInt w) s) as [[b|x] s'] eqn:Hwr;
      [|discriminate].
    unfold ret. cbn [snd].
    replace s' with (write c.DATAPATH_DEINIT_FIELD (VInt w) s).2 by (by rewrite Hwr).
    rewrite Hget, Hflags. f_equal. apply lane_flags_ext. intros i _.
    by destruct (4 <=? m).
Qed.

Lemma selected_cons (channel lane : Z) (lanes : list Z) :
  selected channel (lane :: lanes)
  = if Z.testbit channel lane then lane :: selected channel lanes
    else selected channel lanes.
Proof.
  unfold selected. rewrite filter_cons.
  destruct (Z.testbit channel lane); by case_decide.
Qed.

(** The loop of [set_application]: it returns, writes once per selected
    lane in lane order, every time the same value, and leaves every
    register either at that value or as it was. *)
Lemma set_application_loop_run (channel appl_code ec : Z) (lanes : list Z) :
  Forall (fun l => 0 <= l) lanes ->
  forall (lane_first : Z) (s : CmisApi),
    let data := apsel_data appl_code (first_lane channel lanes lane_first) ec in
    let r := set_application_loop X channel appl_code ec lanes lane_first s in
    r.1 = Ok tt /\
    writes_between s r.2
      (rev ((fun lane => (apsel_field X lane, VInt data)) <$> selected channel lanes)) /\
    cache r.2 = cache s /\
    writable (xcvr_eeprom r.2) = writable (xcvr_eeprom s) /\
    (forall f, read_value r.2 f = VInt data \/ read_value r.2 f = read_value s f) /\
    (forall lane, lane ∈ selected channel lanes ->
       writable (xcvr_eeprom s) (apsel_field X lane) = true ->
       read_value r.2 (apsel_field X lane) = VInt data).
Proof.
  induction lanes as [|lane lanes IH]; intros Hpos lane_first s.
  - cbn. repeat split; try reflexivity.
    + intros f. by right.
    + intros lane Hin. by apply elem_of_nil in Hin.
  - apply Forall_cons in Hpos as [Hl Hpos]. cbn zeta.
    cbn [set_application_loop]. rewrite land_shiftl1_eqb by exact Hl.
    rewrite selected_cons. unfold first_lane. rewrite selected_cons.
    destruct (Z.testbit channel lane) eqn:Hb; cbn [negb].
    + set (lf1 := if lane_first <? 0 then lane else lane_first).
      assert (0 <= lf1) as Hlf1 by (subst lf1; destruct (Z.ltb_spec lane_first 0); lia).
      assert ((if lane_first <? 0 then default lane_first (head (lane :: selected channel lanes))
               else lane_first) = lf1) as -> by reflexivity.
      unfold bind.
      set (s0 := (write (apsel_field X lane) (VInt (apsel_data appl_code lf1 ec)) s).2).
      assert (write (apsel_field X lane)
                (VInt (Z.lor (Z.lor (Z.shiftl appl_code 4) (Z.shiftl lf1 1)) ec)) s
              = (Ok (writable (xcvr_eeprom s) (apsel_field X lane)), s0)) as -> by reflexivity.
      destruct (IH Hpos lf1 s0) as (Hr & Hwr & Hc & Hwb & Hfr & Hsel).
      assert (first_lane channel lanes lf1 = lf1) as Hfl
        by (unfold first_lane; by rewrite (proj2 (Z.ltb_ge lf1 0) Hlf1)).
      rewrite Hfl in Hwr, Hfr, Hsel.
      split; [exact Hr|]. split; [|split; [exact Hc|split; [exact Hwb|split]]].
      * unfold writes_between in *. rewrite Hwr. rewrite fmap_cons. cbn [rev].
        rewrite <- app_assoc. reflexivity.
      * intros f. destruct (Hfr f) as [Hf|Hf]; [by left|]. rewrite Hf.
        subst s0. unfold write, read_value. cbn [snd xcvr_eeprom set_eeprom mem].
        destruct (writable (xcvr_eeprom s) (apsel_field X lane)); [|by right].
        destruct (decide (f = apsel_field X lane)) as [->|Hne].
        -- left. by rewrite lookup_insert_eq.
        -- right. by rewrite lookup_insert_ne.
      * intros lane' Hin Hw'. apply elem_of_cons in Hin as [->|Hin].
        -- destruct (Hfr (apsel_field X lane)) as [Hf|Hf]; [exact Hf|]. rewrite Hf.
           subst s0. unfold write, read_value. cbn [snd xcvr_eeprom set_eeprom mem].
           rewrite Hw'. by rewrite lookup_insert_eq.
        -- apply Hsel; [exact Hin|]. subst s0. unfold write.
           cbn [snd xcvr_eeprom set_eeprom writable]. exact Hw'.
    + exact (IH Hpos lane_first s).
Qed.

(** X5.  [set_application] returns after one [write] per selected lane, in lane
    order, of [(appl_code << 4) | (lane_first << 1) | ec] with
    [lane_first] the lowest selected lane; the unselected lanes are not
    written. *)
Theorem set_application_writes (s : CmisApi) (channel appl_code ec : Z) :
  (set_application X channel appl_code ec s).1 = Ok tt /\
  writes_of (set_application X channel appl_code ec) s
    (rev ((fun lane =>
             (apsel_field X lane,
              VInt (apsel_data appl_code (first_lane channel (range 0 NUM_CHANNELS) (-1)) ec)))
            <$> selected channel (range 0 NUM_CHANNELS))).
Proof.
  destruct (set_application_loop_run channel appl_code ec (range 0 NUM_CHANNELS)
              (range_nonneg 0 NUM_CHANNELS (Z.le_refl 0)) (-1) s) as (Hr & Hw & _).
  split; [exact Hr|exact Hw].
Qed.

Lemma apsel_data_code (appl_code lane_first ec : Z) :
  0 <= appl_code < 16 -> 0 <= lane_first < 8 -> 0 <= ec < 2 ->
  Z.land (Z.shiftr (apsel_data appl_code lane_first ec) 4) 15 = appl_code.
Proof.
  intros Ha Hl He. unfold apsel_data.
  rewrite !Z.shiftr_lor, Z.shiftr_shiftl_l by lia.
  rewrite Z.shiftr_shiftl_r by lia. cbn [Z.sub Z.add Z.opp Z.pos_sub Z.succ_double Z.pred_double].
  change (4 - 4) with 0. change (4 - 1) with 3.
  rewrite Z.shiftl_0_r, !Z.shiftr_div_pow2 by lia.
  rewrite (Z.div_small lane_first) by (change (2 ^ 3) with 8; lia).
  rewrite (Z.div_small ec) by (change (2 ^ 4) with 16; lia).
  rewrite !Z.lor_0_r. change 15 with (Z.ones 4).
  rewrite Z.land_ones by lia. apply Z.mod_small. change (2 ^ 4) with 16. lia.
Qed.

(** X6.  Round trip.  On a constructed paged instance, with an application
    code below 16 and [ec] 0 or 1, [get_application lane] after
    [set_application channel appl_code ec] returns [appl_code] for every
    selected lane whose staged-control register accepts the write and
    reads back what was written. *)
Theorem set_application_round_trip (s : CmisApi) (channel appl_code ec lane : Z) :
  paged s ->
  0 <= appl_code < 16 -> 0 <= ec < 2 ->
  0 <= lane < NUM_CHANNELS -> Z.testbit channel lane = true ->
  writable (xcvr_eeprom s) (apsel_field X lane) = true ->
  (get_application E X lane (set_application X channel appl_code ec s).2).1 = Ok appl_code.
Proof.
  intros Hpaged Ha He Hlane Hbit Hw.
  destruct (set_application_loop_run channel appl_code ec (range 0 NUM_CHANNELS)
              (range_nonneg 0 NUM_CHANNELS (Z.le_refl 0)) (-1) s)
    as (_ & _ & Hc & _ & _ & Hsel).
  assert (lane ∈ selected channel (range 0 NUM_CHANNELS)) as Hin.
  { apply list_elem_of_filter. split; [exact Hbit|]. apply elem_of_range. lia. }
  specialize (Hsel lane Hin Hw).
  assert (0 <= first_lane channel (range 0 NUM_CHANNELS) (-1) < 8) as Hfirst.
  { unfold first_lane. change (-1 <? 0) with true. cbn match.
    destruct (selected channel (range 0 NUM_CHANNELS)) as [|l0 ls] eqn:Hs;
      [by apply elem_of_nil in Hin|].
    simpl.
    assert (l0 ∈ selected channel (range 0 NUM_CHANNELS)) as Hl0
      by (rewrite Hs; apply elem_of_cons; by left).
    apply list_elem_of_filter in Hl0 as [_ Hl0]. apply elem_of_range in Hl0.
    unfold NUM_CHANNELS in Hl0. lia. }
  unfold set_application. unfold get_application, bind.
  rewrite bool_decide_eq_true_2 by (apply elem_of_range; lia).
  rewrite (flat_cached E _ (VBool false)) by (by rewrite Hc).
  cbn [truthy negb]. rewrite read_eq, Hsel. unfold lift, ret. cbn [as_int fst].
  f_equal. by apply apsel_data_code.
Qed.

End Application.

(** Revision 5, lanes 0 and 1 in deinit: lanes 1 and 2 are
    de-initialised, then initialised. *)
Lemma datapath_deinit_read_back_witness :
  (get_datapath_deinit example_env (set_datapath_deinit example_env 6 (datapath_example 5 3)).2).1
  = Ok (lane_flags (fun i => if Z.testbit 6 i then 4 <=? 5 else Z.testbit 3 i)) /\
  (get_datapath_deinit example_env (set_datapath_init example_env 6 (datapath_example 5 3)).2).1
  = Ok (lane_flags (fun i => if Z.testbit 6 i then negb (4 <=? 5) else Z.testbit 3 i)).
Proof.
  apply (datapath_deinit_read_back example_env (datapath_example 5 3) 6 5 3); reflexivity.
Defined.

Example datapath_deinit_read_back_value :
  (get_datapath_deinit example_env (set_datapath_deinit example_env 6 (datapath_example 5 3)).2).1
  = Ok (VList (VBool <$> [true; true; true; false; false; false; false; false])) /\
  (get_datapath_deinit example_env (set_datapath_init example_env 6 (datapath_example 5 3)).2).1
  = Ok (VList (VBool <$> [true; false; false; false; false; false; false; false])).
Proof. by vm_compute. Qed.

(** Application 2 on host lanes 1 and 2: both registers get
    [(2 << 4) | (1 << 1)]. *)
Example set_application_value :
  wlog (xcvr_eeprom (set_application example_more 6 2 0 (paged_of [])).2)
  = [ ("STAGED_CTRL_APSEL_FIELD_0_3", VInt 34); ("STAGED_CTRL_APSEL_FIELD_0_2", VInt 34) ].
Proof. by vm_compute. Qed.

Lemma set_application_round_trip_witness :
  (get_application example_env example_more 2
     (set_application example_more 6 2 0 (paged_of [])).2).1 = Ok 2.
Proof.
  apply (set_application_round_trip example_env example_more (paged_of []) 6 2 0 2);
    try reflexivity; unfold NUM_CHANNELS; lia.
Defined.

(** ** Signal-integrity staging *)

Section Staging.

Variable X : Env_more.

Notation "'cm.' N" := (consts_more X N) (at level 1, N at level 0, format "'cm.' N").

(** A lane staged ahead of the others is added to those the loop has
    written. *)
Lemma staged_lanes_cons (above : pyval -> res bool) (si_param : string)
    (si_settings_dict : pyval) (w : string -> bool) (lane : Z) (s s0 : CmisApi)
    (r : res bool * CmisApi) (done rest : list Z) :
  wlog (xcvr_eeprom s0) = si_call si_param si_settings_dict lane :: wlog (xcvr_eeprom s) ->
  match rest with
  | [] => r.1 = Ok true /\
          writes_between s0 r.2 (rev (si_call si_param si_settings_dict <$> done))
  | l :: _ =>
      match lane_outcome_of above si_param si_settings_dict w l with
      | Staged => False
      | Refused => r.1 = Ok false /\
                   writes_between s0 r.2 (rev (si_call si_param si_settings_dict <$> done))
      | WriteFailed =>
          r.1 = Ok false /\
          writes_between s0 r.2 (rev (si_call si_param si_settings_dict <$> (done ++ [l])))
      | Raised e => r.1 = Raise e /\
                    writes_between s0 r.2 (rev (si_call si_param si_settings_dict <$> done))
      end
  end ->
  match rest with
  | [] => r.1 = Ok true /\
          writes_between s r.2 (rev (si_call si_param si_settings_dict <$> (lane :: done)))
  | l :: _ =>
      match lane_outcome_of above si_param si_settings_dict w l with
      | Staged => False
      | Refused =>
          r.1 = Ok false /\
          writes_between s r.2 (rev (si_call si_param si_settings_dict <$> (lane :: done)))
      | WriteFailed =>
          r.1 = Ok false /\
          writes_between s r.2
            (rev (si_call si_param si_settings_dict <$> ((lane :: done) ++ [l])))
      | Raised e =>
          r.1 = Raise e /\
          writes_between s r.2 (rev (si_call si_param si_settings_dict <$> (lane :: done)))
      end
  end.
Proof.
  intros Hlog.
  assert (forall calls l0,
            writes_between s0 r.2 (rev (si_call si_param si_settings_dict <$> l0)) ->
            calls = lane :: l0 ->
            writes_between s r.2 (rev (si_call si_param si_settings_dict <$> calls)))
    as Hext.
  { intros calls l0 Hwr ->. unfold writes_between in *.
    rewrite Hwr, Hlog, fmap_cons. cbn [rev]. by rewrite <- app_assoc. }
  destruct rest as [|l rest].
  - intros [Hr Hwr]. split; [exact Hr|]. by eapply Hext.
  - destruct (lane_outcome_of above si_param si_settings_dict w l); [done|..];
      intros [Hr Hwr]; (split; [exact Hr|]); by eapply Hext.
Qed.

(** The staging loop stages the selected lanes in lane order up to the
    first it cannot stage, and that lane decides the outcome. *)
Lemma si_lane_loop_run (refuse above : pyval -> res bool) (si_param : string)
    (host_lanes_mask : Z) (si_settings_dict : pyval) (w : string -> bool)
    (lanes : list Z) :
  (forall v, refuse v = if is_none v then Ok true else above v) ->
  Forall (fun l => 0 <= l) lanes ->
  forall s : CmisApi,
    writable (xcvr_eeprom s) = w ->
    exists done rest : list Z,
      selected host_lanes_mask lanes = done ++ rest /\
      Forall (fun lane => lane_outcome_of above si_param si_settings_dict w lane = Staged)
        done /\
      match rest with
      | [] =>
          (si_lane_loop refuse si_param host_lanes_mask si_settings_dict lanes s).1 = Ok true /\
          writes_between s
            (si_lane_loop refuse si_param host_lanes_mask si_settings_dict lanes s).2
            (rev (si_call si_param si_settings_dict <$> done))
      | l :: _ =>
          match lane_outcome_of above si_param si_settings_dict w l with
          | Staged => False
          | Refused =>
              (si_lane_loop refuse si_param host_lanes_mask si_settings_dict lanes s).1
              = Ok false /\
              writes_between s
                (si_lane_loop refuse si_param host_lanes_mask si_settings_dict lanes s).2
                (rev (si_call si_param si_settings_dict <$> done))
          | WriteFailed =>
              (si_lane_loop refuse si_param host_lanes_mask si_settings_dict lanes s).1
              = Ok false /\
              writes_between s
                (si_lane_loop refuse si_param host_lanes_mask si_settings_dict lanes s).2
                (rev (si_call si_param si_settings_dict <$> (done ++ [l])))
          | Raised e =>
              (si_lane_loop refuse si_param host_lanes_mask si_settings_dict lanes s).1
              = Raise e /\
              writes_between s
                (si_lane_loop refuse si_param host_lanes_mask si_settings_dict lanes s).2
                (rev (si_call si_param si_settings_dict <$> done))
          end
      end.
Proof.
  intros Hrefuse.
  induction lanes as [|lane lanes IH]; intros Hpos s Hw.
  - exists [], []. split; [reflexivity|]. split; [constructor|]. by split.
  - apply Forall_cons in Hpos as [Hl Hpos].
    cbn [si_lane_loop]. rewrite land_shiftl1_eqb by exact Hl.
    rewrite selected_cons.
    destruct (Z.testbit host_lanes_mask lane) eqn:Hb; cbn [negb]; [|exact (IH Hpos s Hw)].
    unfold bind, lift.
    destruct (getitem si_settings_dict (KStr (si_param +:+ pretty (lane + 1))))
      as [v|x] eqn:Hget.
    2:{ exists [], (lane :: selected host_lanes_mask lanes).
        split; [reflexivity|]. split; [constructor|].
        unfold lane_outcome_of. rewrite Hget. by split. }
    rewrite Hrefuse.
    destruct (is_none v) eqn:Hv.
    { exists [], (lane :: selected host_lanes_mask lanes).
      split; [reflexivity|]. split; [constructor|].
      unfold lane_outcome_of. rewrite Hget, Hv. by split. }
    destruct (above v) as [[|]|x] eqn:Habove.
    1,3:(exists [], (lane :: selected host_lanes_mask lanes);
         (split; [reflexivity|]); (split; [constructor|]);
         unfold lane_outcome_of; rewrite Hget, Hv, Habove; by split).
    set (s0 := (write (si_param +:+ pretty (lane + 1)) v s).2).
    assert (write (si_param +:+ pretty (lane + 1)) v s
            = (Ok (writable (xcvr_eeprom s) (si_param +:+ pretty (lane + 1))), s0))
      as -> by reflexivity.
    assert (si_call si_param si_settings_dict lane = (si_param +:+ pretty (lane + 1), v))
      as Hcall by (unfold si_call; by rewrite Hget).
    assert (wlog (xcvr_eeprom s0)
            = si_call si_param si_settings_dict lane :: wlog (xcvr_eeprom s)) as Hlog
      by (by rewrite Hcall).
    rewrite Hw.
    destruct (w (si_param +:+ pretty (lane + 1))) eqn:Hwl; cbn [negb].
    + destruct (IH Hpos s0 Hw) as (done & rest & Hsel & Hdone & Hrest).
      exists (lane :: done), rest.
      split; [by rewrite Hsel|]. split.
      * apply Forall_cons. split; [|exact Hdone].
        unfold lane_outcome_of. by rewrite Hget, Hv, Habove, Hwl.
      * exact (staged_lanes_cons _ _ _ _ _ _ _ _ _ _ Hlog Hrest).
    + exists [], (lane :: selected host_lanes_mask lanes).
      split; [reflexivity|]. split; [constructor|].
      unfold lane_outcome_of. rewrite Hget, Hv, Habove, Hwl.
      split; [reflexivity|]. unfold writes_between. cbn. by rewrite Hcall.
Qed.

(** The loop answers [True] exactly when every selected lane is staged. *)
Lemma staged_true (above : pyval -> res bool) (si_param : string) (host_lanes_mask : Z)
    (si_settings_dict : pyval) (s : CmisApi) (r : res bool * CmisApi) :
  staged above si_param host_lanes_mask si_settings_dict s r ->
  (r.1 = Ok true <->
   Forall (fun lane =>
             lane_outcome_of above si_param si_settings_dict (writable (xcvr_eeprom s)) lane
             = Staged)
     (selected host_lanes_mask (range 0 NUM_CHANNELS))).
Proof.
  intros (done & rest & Hsel & Hdone & Hrest). rewrite Hsel. destruct rest as [|l rest].
  - rewrite app_nil_r. by destruct Hrest as [-> _].
  - split.
    + intros Hr.
      destruct (lane_outcome_of above si_param si_settings_dict _ l); [done|..];
        destruct Hrest as [Hr' _]; congruence.
    + intros Hall. apply Forall_app in Hall as [_ Hall].
      apply Forall_cons in Hall as [Hl _]. by rewrite Hl in Hrest.
Qed.

Lemma py_gt_int (v m : Z) : py_gt X (VInt v) (VInt m) = Ok (m <? v).
Proof.
  cbn [py_gt as_num res_bind]. f_equal.
  unfold Qle_bool, inject_Z; cbn [Qnum Qden].
  destruct (Z.leb_spec (v * 1) (m * 1)), (Z.ltb_spec m v); cbn [negb]; lia.
Qed.

Lemma stage_bounded_staged (max_field si_param : string) (host_lanes_mask : Z)
    (si_settings_dict : pyval) (s : CmisApi) :
  staged_below (py_gt X) (read_value s max_field)
    si_param host_lanes_mask si_settings_dict s
    (stage_bounded X (read max_field) si_param host_lanes_mask si_settings_dict s).
Proof.
  unfold staged_below, stage_bounded, bind. rewrite read_eq.
  destruct (is_none (read_value s max_field)) eqn:Hmax; [by split|].
  apply (si_lane_loop_run (refuse_above X (read_value s max_field))
           (fun v => py_gt X v (read_value s max_field)) si_param
           host_lanes_mask si_settings_dict (writable (xcvr_eeprom s))
           (range 0 NUM_CHANNELS)
           ltac:(reflexivity) (range_nonneg 0 NUM_CHANNELS (Z.le_refl 0)) s eq_refl).
Qed.

(** X7.  Each of the four bounded staging methods reads its advertised
    maximum first and, if that is unreadable, answers [False] and writes
    nothing.  Otherwise it takes the selected lanes in lane order and
    stages each, writing the lane's dictionary entry to the lane's
    register, as long as the entry is present, not [None], not greater
    than the maximum, and the register accepts the write.  After the last
    selected lane it answers [True].  At the first lane it cannot stage it
    stops, with nothing rolled back: it answers [False] for an entry that
    is [None] or greater than the maximum (no further write) and for a
    rejected write (that call being the last), and raises for a missing
    entry or an undefined comparison.  So no value written is [None] or
    greater than the maximum.  For integers "greater" is [<]. *)
Theorem stage_never_above_maximum (host_lanes_mask : Z) (si_settings_dict : pyval)
    (s : CmisApi) :
  staged_below (py_gt X) (read_value s cm.RX_OUTPUT_EQ_PRE_CURSOR_MAX)
    cm.OUTPUT_EQ_PRE_CURSOR_TARGET_RX host_lanes_mask si_settings_dict s
    (stage_output_eq_pre_cursor_target_rx X host_lanes_mask si_settings_dict s) /\
  staged_below (py_gt X) (read_value s cm.RX_OUTPUT_EQ_POST_CURSOR_MAX)
    cm.OUTPUT_EQ_POST_CURSOR_TARGET_RX host_lanes_mask si_settings_dict s
    (stage_output_eq_post_cursor_target_rx X host_lanes_mask si_settings_dict s) /\
  staged_below (py_gt X) (read_value s cm.RX_OUTPUT_LEVEL_SUPPORT)
    cm.OUTPUT_AMPLITUDE_TARGET_RX host_lanes_mask si_settings_dict s
    (stage_output_amp_target_rx X host_lanes_mask si_settings_dict s) /\
  staged_below (py_gt X) (read_value s cm.TX_INPUT_EQ_MAX)
    cm.FIXED_INPUT_EQ_TARGET_TX host_lanes_mask si_settings_dict s
    (stage_fixed_input_target_tx X host_lanes_mask si_settings_dict s) /\
  forall v m : Z, py_gt X (VInt v) (VInt m) = Ok (m <? v).
Proof.
  repeat split; try apply stage_bounded_staged. apply py_gt_int.
Qed.

(** X8.  [scs_lane_write] takes the selected lanes in lane order and writes
    each lane's dictionary entry to the lane's register as long as the
    entry is present and not [None] and the register accepts the write.
    After the last selected lane it answers [True].  At the first lane
    where this fails it stops, leaving the earlier lanes written: it
    answers [False] for an entry that is [None] (no further write) and for
    a rejected write (that call being the last), and raises for a missing
    entry.  So it answers [True] exactly when every selected lane has an
    entry that is not [None] and a register that accepts the write. *)
Theorem scs_lane_write_outcome (si_param : string) (host_lanes_mask : Z)
    (si_settings_dict : pyval) (s : CmisApi) :
  staged (fun _ => Ok false) si_param host_lanes_mask si_settings_dict s
    (scs_lane_write si_param host_lanes_mask si_settings_dict s) /\
  ((scs_lane_write si_param host_lanes_mask si_settings_dict s).1 = Ok true <->
   Forall (fun lane =>
             (exists v, getitem si_settings_dict (KStr (si_param +:+ pretty (lane + 1))) = Ok v /\
                        v <> VNone) /\
             writable (xcvr_eeprom s) (si_param +:+ pretty (lane + 1)) = true)
     (selected host_lanes_mask (range 0 NUM_CHANNELS))).
Proof.
  assert (staged (fun _ => Ok false) si_param host_lanes_mask si_settings_dict s
            (scs_lane_write si_param host_lanes_mask si_settings_dict s)) as Hstaged.
  { apply (si_lane_loop_run refuse_none (fun _ => Ok false) si_param
             host_lanes_mask si_settings_dict (writable (xcvr_eeprom s))
             (range 0 NUM_CHANNELS)
             ltac:(intros v; unfold refuse_none; by destruct (is_none v))
             (range_nonneg 0 NUM_CHANNELS (Z.le_refl 0)) s eq_refl). }
  split; [exact Hstaged|].
  rewrite (staged_true _ _ _ _ _ _ Hstaged).
  apply Forall_iff. intros lane. unfold lane_outcome_of.
  destruct (getitem si_settings_dict (KStr (si_param +:+ pretty (lane + 1)))) as [v|x].
  - destruct (is_none v) eqn:Hv.
    + split; [discriminate|]. intros [(v' & [= <-] & Hne) _]. by destruct v.
    + destruct (writable (xcvr_eeprom s) (si_param +:+ pretty (lane + 1))).
      * split; [|done]. intros _. split; [|reflexivity].
        exists v. split; [reflexivity|]. by intros ->.
      * split; [discriminate|]. by intros [_ ?].
  - split; [discriminate|]. by intros [(v' & ? & _) _].
Qed.

End Staging.

(** Lanes 1 to 3 with settings 2, 5 and 1 against a maximum of 3: lane 1
    is written, lane 2 is refused, lane 3 is never reached. *)
Example stage_stops_at_first_refusal :
  (stage_output_eq_pre_cursor_target_rx example_more 7
     (si_settings "OutputEqPreCursorTargetRx" [VInt 2; VInt 5; VInt 1]) staging_example).1
  = Ok false /\
  wlog (xcvr_eeprom
          (stage_output_eq_pre_cursor_target_rx example_more 7
             (si_settings "OutputEqPreCursorTargetRx" [VInt 2; VInt 5; VInt 1])
             staging_example).2)
  = [("OutputEqPreCursorTargetRx1", VInt 2)].
Proof. by vm_compute. Qed.

Example stage_all_within_maximum :
  (stage_output_eq_pre_cursor_target_rx example_more 7
     (si_settings "OutputEqPreCursorTargetRx" [VInt 2; VInt 3; VInt 1]) staging_example).1
  = Ok true /\
  wlog (xcvr_eeprom
          (stage_output_eq_pre_cursor_target_rx example_more 7
             (si_settings "OutputEqPreCursorTargetRx" [VInt 2; VInt 3; VInt 1])
             staging_example).2)
  = [("OutputEqPreCursorTargetRx3", VInt 1); ("OutputEqPreCursorTargetRx2", VInt 3);
     ("OutputEqPreCursorTargetRx1", VInt 2)].
Proof. by vm_compute. Qed.

(** The register of lane 2 rejects the write: lanes 1 and 2 are written
    to, lane 3 is never reached. *)
Example stage_stops_at_rejected_write :
  (stage_output_eq_pre_cursor_target_rx example_more 7
     (si_settings "OutputEqPreCursorTargetRx" [VInt 2; VInt 3; VInt 1])
     (staging_locked_example "OutputEqPreCursorTargetRx2")).1
  = Ok false /\
  wlog (xcvr_eeprom
          (stage_output_eq_pre_cursor_target_rx example_more 7
             (si_settings "OutputEqPreCursorTargetRx" [VInt 2; VInt 3; VInt 1])
             (staging_locked_example "OutputEqPreCursorTargetRx2")).2)
  = [("OutputEqPreCursorTargetRx2", VInt 3); ("OutputEqPreCursorTargetRx1", VInt 2)].
Proof. by vm_compute. Qed.

(** With the maximum unreadable nothing is written. *)
Example stage_maximum_unreadable :
  (stage_output_eq_pre_cursor_target_rx example_more 7
     (si_settings "OutputEqPreCursorTargetRx" [VInt 2; VInt 3; VInt 1]) (api_of [])).1
  = Ok false /\
  wlog (xcvr_eeprom
          (stage_output_eq_pre_cursor_target_rx example_more 7
             (si_settings "OutputEqPreCursorTargetRx" [VInt 2; VInt 3; VInt 1])
             (api_of [])).2)
  = [].
Proof. by vm_compute. Qed.

(** A selected lane without an entry raises [KeyError] after the earlier
    lanes have been written. *)
Example scs_lane_write_missing_entry :
  (scs_lane_write "CDREnableTx" 3 (si_settings "CDREnableTx" [VInt 1]) staging_example).1
  = Raise KeyError /\
  wlog (xcvr_eeprom
          (scs_lane_write "CDREnableTx" 3 (si_settings "CDREnableTx" [VInt 1])
             staging_example).2)
  = [("CDREnableTx1", VInt 1)].
Proof. by vm_compute. Qed.

(** ** Decommissioning all datapaths *)

Section Decommission.

Variable E : Env.
Variable X : Env_more.

Notation "'c.' N" := (consts E N) (at level 1, N at level 0, format "'c.' N").
Notation "'cm.' N" := (consts_more X N) (at level 1, N at level 0, format "'cm.' N").

(** The final test answers [True] exactly when every one of the eight
    lanes reports ['DataPathDeactivated'] and ['ConfigSuccess']. *)
Lemma decommission_check_true (dp_state config_state : pyval) (lanes : list Z) :
  decommission_check dp_state config_state lanes = Ok true <->
  Forall (fun lane =>
            getitem dp_state (KStr ("DP" +:+ pretty (lane + 1) +:+ "State"))
              = Ok (VStr "DataPathDeactivated") /\
            getitem config_state (KStr ("ConfigStatusLane" +:+ pretty (lane + 1)))
              = Ok (VStr "ConfigSuccess")) lanes.
Proof.
  induction lanes as [|lane lanes IH]; cbn [decommission_check].
  - split; [constructor|reflexivity].
  - rewrite Forall_cons, <- IH.
    destruct (getitem dp_state _) as [dp|x]; cbn [res_bind]; [|split; [discriminate|]].
    2:{ intros [[? _] _]. discriminate. }
    destruct (str_eq dp "DataPathDeactivated") eqn:Hdp; cbn [negb].
    2:{ split; [discriminate|]. intros [[[= ->] _] _]. discriminate. }
    destruct (getitem config_state _) as [cfg|x]; cbn [res_bind].
    2:{ split; [discriminate|]. intros [[_ ?] _]. discriminate. }
    destruct (str_eq cfg "ConfigSuccess") eqn:Hcfg; cbn [negb].
    2:{ split; [discriminate|]. intros [[_ [= ->]] _]. discriminate. }
    destruct dp as [| | | | sdp | |]; try discriminate.
    destruct cfg as [| | | | scfg | |]; try discriminate.
    cbn [str_eq] in Hdp, Hcfg.
    apply String.eqb_eq in Hdp as ->. apply String.eqb_eq in Hcfg as ->. tauto.
Qed.

(** X9.  With the CMIS major revision [m] and the datapath-deinit value [d]
    read from the module, [decommission_all_datapaths] writes, in this
    order: the datapath-deinit register, with the bits of all eight lanes
    at the deinit polarity of the revision and the higher bits of [d]
    kept; application code 0 to the staged-control register of each of
    the eight lanes; and the all-lanes mask to the apply register.  It
    then answers [True] exactly when the datapath state read afterwards
    reports ['DataPathDeactivated'] and the configuration status
    ['ConfigSuccess'] on all eight lanes. *)
Theorem decommission_all_datapaths_sequence (s : CmisApi) (m d : Z) :
  read_value s c.CMIS_MAJOR_REVISION = VInt m ->
  read_value s c.DATAPATH_DEINIT_FIELD = VInt d ->
  let r := decommission_all_datapaths E X s in
  exists w : Z,
    writes_between s r.2
      ([(cm.STAGED_CTRL_APPLY_DPINIT_FIELD +:+ "_" +:+ pretty 0, VInt 255)]
       ++ rev ((fun lane => (apsel_field X lane, VInt 0)) <$> range 0 NUM_CHANNELS)
       ++ [(c.DATAPATH_DEINIT_FIELD, VInt w)]) /\
    (forall i, 0 <= i ->
       Z.testbit w i = if bool_decide (i < NUM_CHANNELS) then 4 <=? m else Z.testbit d i) /\
    r.1 = decommission_check (read_value r.2 cm.DATA_PATH_STATE)
            (read_value r.2 cm.CONFIG_LANE_STATUS) (range 0 NUM_CHANNELS) /\
    (r.1 = Ok true <->
     Forall (fun lane =>
               getitem (read_value r.2 cm.DATA_PATH_STATE)
                 (KStr ("DP" +:+ pretty (lane + 1) +:+ "State"))
                 = Ok (VStr "DataPathDeactivated") /\
               getitem (read_value r.2 cm.CONFIG_LANE_STATUS)
                 (KStr ("ConfigStatusLane" +:+ pretty (lane + 1)))
                 = Ok (VStr "ConfigSuccess")) (range 0 NUM_CHANNELS)).
Proof.
  intros Hm Hd r.
  destruct (set_datapath_deinit_run E 255 m d s Hm Hd) as (w & Hr1 & Hw1 & Hbits).
  set (s1 := (set_datapath_deinit E 255 s).2) in *.
  destruct (set_application_loop_run X 255 0 0 (range 0 NUM_CHANNELS)
              (range_nonneg 0 NUM_CHANNELS (Z.le_refl 0)) (-1) s1) as (Hr2 & Hw2 & _).
  set (s2 := (set_application_loop X 255 0 0 (range 0 NUM_CHANNELS) (-1) s1).2) in *.
  assert (set_datapath_deinit E 255 s = (Ok tt, s1)) as H1
    by (subst s1; destruct (set_datapath_deinit E 255 s); cbn [fst] in Hr1; by subst).
  assert (set_application X 255 0 0 s1 = (Ok tt, s2)) as H2
    by (subst s2; unfold set_application;
        destruct (set_application_loop X 255 0 0 (range 0 NUM_CHANNELS) (-1) s1);
        cbn [fst] in Hr2; by subst).
  assert (r.1 = decommission_check (read_value r.2 cm.DATA_PATH_STATE)
                  (read_value r.2 cm.CONFIG_LANE_STATUS) (range 0 NUM_CHANNELS) /\
          wlog (xcvr_eeprom r.2)
          = (cm.STAGED_CTRL_APPLY_DPINIT_FIELD +:+ "_" +:+ pretty 0, VInt 255)
              :: wlog (xcvr_eeprom s2)) as [Hres Hlog].
  { subst r. unfold decommission_all_datapaths, bind.
    change (Z.shiftl 1 NUM_CHANNELS - 1) with 255. rewrite H1, H2.
    unfold scs_apply_datapath_init, get_datapath_state, get_config_datapath_hostlane_status.
    unfold write at 1. rewrite !read_eq. unfold lift. cbn [fst snd].
    split; reflexivity. }
  exists w. split; [|split; [|split; [exact Hres|]]].
  - unfold writes_between in *. rewrite Hlog, Hw2, Hw1.
    cbn [app]. f_equal.
  - intros i Hi. rewrite (Hbits i Hi). unfold NUM_CHANNELS.
    destruct (decide (i < 8)).
    + rewrite !bool_decide_eq_true_2 by lia.
      assert (Z.testbit 255 i = true) as ->.
      { assert (i = 0 \/ i = 1 \/ i = 2 \/ i = 3 \/ i = 4 \/ i = 5 \/ i = 6 \/ i = 7)
          as [->|[->|[->|[->|[->|[->|[->| ->]]]]]]] by lia; reflexivity. }
      cbn [andb]. by destruct (4 <=? m).
    + by rewrite !bool_decide_eq_false_2 by lia.
  - rewrite Hres. apply decommission_check_true.
Qed.

End Decommission.

Lemma decommission_all_datapaths_sequence_witness :
  let r := decommission_all_datapaths example_env example_more
             (decommission_example "DataPathDeactivated" "ConfigSuccess") in
  exists w : Z,
    writes_between (decommission_example "DataPathDeactivated" "ConfigSuccess") r.2
      ([(consts_more example_more STAGED_CTRL_APPLY_DPINIT_FIELD +:+ "_" +:+ pretty 0,
         VInt 255)]
       ++ rev ((fun lane => (apsel_field example_more lane, VInt 0)) <$> range 0 NUM_CHANNELS)
       ++ [(consts example_env DATAPATH_DEINIT_FIELD, VInt w)]) /\
    (forall i, 0 <= i ->
       Z.testbit w i = if bool_decide (i < NUM_CHANNELS) then 4 <=? 5 else Z.testbit 0 i) /\
    r.1 = decommission_check (read_value r.2 (consts_more example_more DATA_PATH_STATE))
            (read_value r.2 (consts_more example_more CONFIG_LANE_STATUS))
            (range 0 NUM_CHANNELS) /\
    (r.1 = Ok true <->
     Forall (fun lane =>
               getitem (read_value r.2 (consts_more example_more DATA_PATH_STATE))
                 (KStr ("DP" +:+ pretty (lane + 1) +:+ "State"))
                 = Ok (VStr "DataPathDeactivated") /\
               getitem (read_value r.2 (consts_more example_more CONFIG_LANE_STATUS))
                 (KStr ("ConfigStatusLane" +:+ pretty (lane + 1)))
                 = Ok (VStr "ConfigSuccess")) (range 0 NUM_CHANNELS)).
Proof.
  apply (decommission_all_datapaths_sequence example_env example_more
           (decommission_example "DataPathDeactivated" "ConfigSuccess") 5 0); reflexivity.
Defined.

Example decommission_all_datapaths_value :
  (decommission_all_datapaths example_env example_more
     (decommission_example "DataPathDeactivated" "ConfigSuccess")).1 = Ok true /\
  (decommission_all_datapaths example_env example_more
     (decommission_example "DataPathInitialized" "ConfigSuccess")).1 = Ok false /\
  wlog (xcvr_eeprom (decommission_all_datapaths example_env example_more
                       (decommission_example "DataPathDeactivated" "ConfigSuccess")).2)
  = ("STAGED_CTRL_APPLY_DPINIT_FIELD_0", VInt 255)
      :: rev ((fun lane : Z => ("STAGED_CTRL_APSEL_FIELD_0_" +:+ pretty lane, VInt 0))
                <$> range 1 9)
      ++ [("DATAPATH_DEINIT_FIELD", VInt 255)].
Proof. by vm_compute. Qed.

(** ** Module monitors *)

Section Monitors.

Variable E : Env.

Notation "'c.' N" := (consts E N) (at level 1, N at level 0, format "'c.' N").





Lemma land1_eqb0 (x n : Z) :
  0 <= n -> (Z.land (Z.shiftr x n) 1 =? 0) = negb (Z.testbit x n).
Proof.
  intros Hn. pose proof (bit_testbit x n Hn) as H. unfold bit in H.
  injection H as H. by rewrite <- H, negb_involutive.
Qed.

Lemma land1_eqb1 (x n : Z) :
  0 <= n -> (Z.land (Z.shiftr x n) 1 =? 1) = Z.testbit x n.
Proof.
  intros Hn. pose proof (land1_eqb0 x n Hn) as H0.
  assert (Z.land (Z.shiftr x n) 1 = 0 \/ Z.land (Z.shiftr x n) 1 = 1) as [H|H].
  { assert (Z.land (Z.shiftr x n) 1 = Z.shiftr x n mod 2) as ->
      by (apply (Z.land_ones (Z.shiftr x n) 1); lia).
    pose proof (Z.mod_pos_bound (Z.shiftr x n) 2 ltac:(lia)). lia. }
  - rewrite H in H0 |- *. cbn in H0 |- *. by destruct (Z.testbit x n).
  - rewrite H in H0 |- *. cbn in H0 |- *. by destruct (Z.testbit x n).
Qed.

Lemma get_laser_temp_threshold_run (field : string) (s : CmisApi) :
  numeric_or_none (read_value s field) = true ->
  _get_laser_temp_threshold field s = (Ok (laser_value (read_value s field)), s).
Proof.
  unfold numeric_or_none, _get_laser_temp_threshold, laser_value, bind. rewrite read_eq.
  destruct (is_none (read_value s field)); [reflexivity|]. cbn [orb]. unfold lift.
  destruct (as_num (read_value s field)); [reflexivity|discriminate].
Qed.

(** X11.  Which AUX monitor supplies the laser temperature.  On a paged module
    whose AUX monitor-type register holds the integer [t] and whose AUX2
    and AUX3 registers are numbers or unreadable, the monitor value and
    the four thresholds come from AUX2 when bit 1 of [t] is clear, from
    AUX3 when bit 1 is set and bit 2 clear, each divided by 256 (['N/A']
    for an unreadable register); otherwise all five entries are ['N/A'].
    Flat memory and an unreadable type register give all ['N/A'] too. *)
Theorem get_laser_temperature_source (s : CmisApi) :
  ((flat E s).1 = Ok true \/
   ((flat E s).1 = Ok false /\ read_value s c.AUX_MON_TYPE = VNone) ->
   (get_laser_temperature E s).1 = Ok (laser_temp_dict_of NA NA NA NA NA)) /\
  (forall t,
     (flat E s).1 = Ok false -> read_value s c.AUX_MON_TYPE = VInt t ->
     Forall (fun f => numeric_or_none (read_value s f) = true)
       [ c.AUX2_MON; c.AUX2_HIGH_ALARM; c.AUX2_LOW_ALARM; c.AUX2_HIGH_WARN; c.AUX2_LOW_WARN;
         c.AUX3_MON; c.AUX3_HIGH_ALARM; c.AUX3_LOW_ALARM; c.AUX3_HIGH_WARN; c.AUX3_LOW_WARN ] ->
     (get_laser_temperature E s).1
     = Ok (if negb (Z.testbit t 1)
           then laser_temp_from s c.AUX2_MON c.AUX2_HIGH_ALARM c.AUX2_LOW_ALARM
                  c.AUX2_HIGH_WARN c.AUX2_LOW_WARN
           else if negb (Z.testbit t 2)
           then laser_temp_from s c.AUX3_MON c.AUX3_HIGH_ALARM c.AUX3_LOW_ALARM
                  c.AUX3_HIGH_WARN c.AUX3_LOW_WARN
           else laser_temp_dict_of NA NA NA NA NA)).
Proof.
  split.
  - intros [Hfl|[Hfl Hread]].
    + destruct (flat_answer E s true Hfl) as (s1 & Hrun & _).
      unfold get_laser_temperature, bind. by rewrite Hrun.
    + destruct (flat_answer E s false Hfl) as (s1 & Hrun & He & _ & _ & Hagain).
      unfold get_laser_temperature, bind. rewrite Hrun.
      unfold try_except, get_aux_mon_type, bind. rewrite Hagain. cbn [negb].
      rewrite read_eq. unfold read_value in *. rewrite He, Hread. reflexivity.
  - intros t Hfl Hread Hnum.
    destruct (flat_answer E s false Hfl) as (s1 & Hrun & He & _ & _ & Hagain).
    assert (forall f, read_value s1 f = read_value s f) as Hsame
      by (intros f; unfold read_value; by rewrite He).
    unfold get_laser_temperature, bind. rewrite Hrun.
    unfold try_except, get_aux_mon_type, bind. rewrite Hagain. cbn [negb].
    rewrite read_eq, Hsame, Hread. cbn [is_none as_int lift]. unfold lift, ret at 1.
    unfold ret at 1. cbn match.
    rewrite land1_eqb0, land1_eqb1, land1_eqb0 by lia.
    repeat (apply Forall_cons in Hnum as [? Hnum]).
    unfold laser_temp_from.
    destruct (Z.testbit t 1); cbn [negb andb].
    + destruct (Z.testbit t 2); cbn [negb]; [reflexivity|].
      rewrite !get_laser_temp_threshold_run by (by rewrite Hsame).
      by rewrite !Hsame.
    + rewrite !get_laser_temp_threshold_run by (by rewrite Hsame).
      by rewrite !Hsame.
Qed.

End Monitors.


(** 36.6256 reads back as the double next to 36.626; 0.0625, a tie, as
    the double next to 0.062, which is a little below it. *)
Example get_module_temperature_value :
  (get_module_temperature example_env
     (paged_of [ (example_consts TEMPERATURE_FIELD, VFloat (366256 # 10000)) ])).1
  = Ok (VFloat (5154651248502243 # 140737488355328)) /\
  (get_module_temperature example_env
     (paged_of [ (example_consts TEMPERATURE_FIELD, VFloat (625 # 10000)) ])).1
  = Ok (VFloat (1116892707587883 # 18014398509481984)) /\
  (get_module_temperature example_env
     (paged_of [ (example_consts TEMPERATURE_FIELD, VFloat (5 # 10000)) ])).1
  = Ok (VFloat 0) /\
  (get_module_temperature example_env (paged_of [])).1 = Ok VNone /\
  (get_module_temperature example_env (api_of [])).1 = Ok NA.
Proof. by vm_compute. Qed.

(** Type register 2: AUX2 is not a laser temperature, AUX3 is. *)
Lemma get_laser_temperature_source_witness :
  (get_laser_temperature example_env (laser_example 2)).1
  = Ok (if negb (Z.testbit 2 1)
        then laser_temp_from (laser_example 2) "AUX2_MON" "AUX2_HIGH_ALARM" "AUX2_LOW_ALARM"
               "AUX2_HIGH_WARN" "AUX2_LOW_WARN"
        else if negb (Z.testbit 2 2)
        then laser_temp_from (laser_example 2) "AUX3_MON" "AUX3_HIGH_ALARM" "AUX3_LOW_ALARM"
               "AUX3_HIGH_WARN" "AUX3_LOW_WARN"
        else laser_temp_dict_of NA NA NA NA NA).
Proof.
  apply (proj2 (get_laser_temperature_source example_env (laser_example 2)) 2);
    [reflexivity|reflexivity|]. repeat constructor.
Defined.

Example get_laser_temperature_value :
  entry (get_laser_temperature example_env (laser_example 2)) "monitor value"
    = Some (VFloat (12800 / 256)) /\
  entry (get_laser_temperature example_env (laser_example 2)) "high alarm" = Some NA /\
  entry (get_laser_temperature example_env (laser_example 0)) "monitor value"
    = Some (VFloat (6400 / 256)) /\
  entry (get_laser_temperature example_env (laser_example 6)) "monitor value" = Some NA.
Proof. by vm_compute. Qed.

(** ** Loopback setters: exclusion and effect *)

Section Loopback_more.

Variable E : Env.

Lemma capability_simultaneous (x : Z) :
  getitem (VDict (loopback_capability_of x))
    (KStr "simultaneous_host_media_loopback_supported")
  = Ok (VBool (Z.testbit x 6)).
Proof.
  unfold getitem, loopback_capability_of.
  repeat (rewrite lookup_insert_ne by discriminate).
  rewrite lookup_insert_eq, bit_testbit by lia. reflexivity.
Qed.

(** The shared body up to the test for a loopback on the opposite side. *)
Lemma loopback_setter_allowed (dir : loopback_direction) (other1 other2 own : string)
    (s : CmisApi) (x lane_mask : Z) (enable : bool) :
  (flat E s).1 = Ok false ->
  read_value s (consts E LOOPBACK_CAPABILITY) = VInt x ->
  loopback_allowed x dir lane_mask ->
  exists s',
    xcvr_eeprom s' = xcvr_eeprom s /\
    loopback_setter E (supported_key dir) (per_lane_key dir)
      other1 other2 own lane_mask enable s
    = (let* blocked :=
         if negb (Z.testbit x 6) then
           let* val1 := read other1 in
           let* val2 := read other2 in
           if truthy val1 || truthy val2
           then run lift (format_x val1) then run lift (format_x val2) then ret true
           else ret false
         else ret false in
       if blocked then ret false else
       let* own_val := read own in
       let* v := lift (as_int own_val) in
       if enable
       then write own (VInt (Z.lor v lane_mask))
       else write own (VInt (Z.land v (Z.lnot lane_mask)))) s'.
Proof.
  intros Hflat Hx [Hdir Hlane].
  destruct (get_loopback_capability_paged E s x Hflat Hx) as (s' & Hcap & Hee).
  exists s'. split; [exact Hee|].
  unfold loopback_setter. unfold bind at 1. rewrite Hcap. cbn match.
  cbn [is_none]. cbv iota.
  unfold bind at 1, lift at 1. rewrite capability_supported, Hdir. cbn match.
  cbn [is_False]. cbv iota.
  unfold bind at 1, lift at 1. rewrite capability_per_lane. cbn match.
  assert (is_False (VBool (Z.testbit x (per_lane_bit dir))) && negb (lane_mask =? 255)
          = false) as ->.
  { destruct Hlane as [->| ->]; [reflexivity|]. apply andb_false_r. }
  unfold bind at 1, lift at 1. rewrite capability_simultaneous. cbn match.
  assert (is_False (VBool (Z.testbit x 6)) = negb (Z.testbit x 6)) as ->
    by (by destruct (Z.testbit x 6)).
  reflexivity.
Qed.

Lemma loopback_function_eq (dir : loopback_direction) :
  loopback_function E dir
  = loopback_setter E (supported_key dir) (per_lane_key dir)
      (opposite_registers E dir).1 (opposite_registers E dir).2 (own_register E dir).
Proof. by destruct dir. Qed.

(** X12.  Exclusion.  On a paged module that advertises the direction (and
    per-lane control, unless all lanes are addressed) but not
    simultaneous host and media loopback, a setter called while a
    loopback register of the opposite side holds a non-zero value
    returns [False] and writes nothing. *)
Theorem loopback_exclusive (dir : loopback_direction) (s : CmisApi)
    (x lane_mask a b : Z) (enable : bool) :
  (flat E s).1 = Ok false ->
  read_value s (consts E LOOPBACK_CAPABILITY) = VInt x ->
  loopback_allowed x dir lane_mask ->
  Z.testbit x 6 = false ->
  read_value s (opposite_registers E dir).1 = VInt a ->
  read_value s (opposite_registers E dir).2 = VInt b ->
  a <> 0 \/ b <> 0 ->
  (loopback_function E dir lane_mask enable s).1 = Ok false /\
  xcvr_eeprom (loopback_function E dir lane_mask enable s).2 = xcvr_eeprom s.
Proof.
  intros Hflat Hx Hallowed Hsim Ha Hb Hab.
  rewrite loopback_function_eq.
  destruct (loopback_setter_allowed dir (opposite_registers E dir).1
              (opposite_registers E dir).2 (own_register E dir) s x lane_mask enable
              Hflat Hx Hallowed) as (s' & Hee & ->).
  rewrite Hsim. cbn [negb]. unfold bind. rewrite !read_eq.
  unfold read_value in *. rewrite Hee, Ha, Hb. cbn [truthy].
  assert (negb (a =? 0) || negb (b =? 0) = true) as ->.
  { destruct Hab as [H|H]; apply Z.eqb_neq in H; rewrite H; [reflexivity|apply orb_true_r]. }
  cbn [format_x lift]. unfold lift, ret. cbn [fst snd]. by split.
Qed.

(** X13.  Effect.  Where the capability byte lets the setter act and no
    loopback of the opposite side stands in the way, the setter returns
    what its one [write] returns, and in the value written to its own
    register every bit of [lane_mask] equals [enable] while every other
    bit is as read. *)
Theorem loopback_effect (dir : loopback_direction) (s : CmisApi)
    (x lane_mask v : Z) (enable : bool) :
  (flat E s).1 = Ok false ->
  read_value s (consts E LOOPBACK_CAPABILITY) = VInt x ->
  loopback_allowed x dir lane_mask ->
  Z.testbit x 6 = true \/
    (truthy (read_value s (opposite_registers E dir).1) = false /\
     truthy (read_value s (opposite_registers E dir).2) = false) ->
  read_value s (own_register E dir) = VInt v ->
  exists w : Z,
    (loopback_function E dir lane_mask enable s).1
      = Ok (writable (xcvr_eeprom s) (own_register E dir)) /\
    writes_of (loopback_function E dir lane_mask enable) s [(own_register E dir, VInt w)] /\
    forall i, 0 <= i ->
      Z.testbit w i = if Z.testbit lane_mask i then enable else Z.testbit v i.
Proof.
  intros Hflat Hx Hallowed Hfree Hv.
  rewrite loopback_function_eq.
  destruct (loopback_setter_allowed dir (opposite_registers E dir).1
              (opposite_registers E dir).2 (own_register E dir) s x lane_mask enable
              Hflat Hx Hallowed) as (s' & Hee & Hrun).
  exists (if enable then Z.lor v lane_mask else Z.land v (Z.lnot lane_mask)).
  assert ((if negb (Z.testbit x 6) then
             let* val1 := read (opposite_registers E dir).1 in
             let* val2 := read (opposite_registers E dir).2 in
             if truthy val1 || truthy val2
             then run lift (format_x val1) then run lift (format_x val2) then ret true
             else ret false
           else ret false) s' = (Ok false, s')) as Hblocked.
  { destruct Hfree as [->|[H1 H2]]; [reflexivity|].
    destruct (negb (Z.testbit x 6)); [|reflexivity].
    unfold bind. rewrite !read_eq. unfold read_value in *. rewrite Hee, H1, H2. reflexivity. }
  assert (loopback_setter E (supported_key dir) (per_lane_key dir)
            (opposite_registers E dir).1 (opposite_registers E dir).2
            (own_register E dir) lane_mask enable s
          = write (own_register E dir)
              (VInt (if enable then Z.lor v lane_mask else Z.land v (Z.lnot lane_mask))) s')
    as Hfull.
  { rewrite Hrun. unfold bind at 1. rewrite Hblocked.
    unfold bind. rewrite read_eq. unfold read_value in *. rewrite Hee, Hv.
    cbn [lift as_int]. unfold lift. by destruct enable. }
  unfold writes_of, writes_between. rewrite Hfull. unfold write.
  cbn [fst snd xcvr_eeprom set_eeprom wlog]. rewrite Hee.
  split; [reflexivity|]. split; [reflexivity|].
  - intros i Hi. destruct enable.
    + rewrite Z.lor_spec. destruct (Z.testbit lane_mask i); [apply orb_true_r|apply orb_false_r].
    + rewrite Z.land_spec, Z.lnot_spec by exact Hi.
      destruct (Z.testbit lane_mask i); [apply andb_false_r|apply andb_true_r].
Qed.

End Loopback_more.

(** Host input loopback requested while the media input loopback is
    active. *)
Lemma loopback_exclusive_witness :
  (loopback_function example_env HostInput 3 true (loopback_active_example 1 0)).1 = Ok false /\
  xcvr_eeprom (loopback_function example_env HostInput 3 true (loopback_active_example 1 0)).2
  = xcvr_eeprom (loopback_active_example 1 0).
Proof.
  apply (loopback_exclusive example_env HostInput (loopback_active_example 1 0) 63 3 1 0 true);
    try reflexivity; [by split; [|left]|by left].
Defined.

(** The same request with no media loopback active: lanes 0 and 1 are
    added to the lane already looped back. *)
Lemma loopback_effect_witness :
  exists w : Z,
    (loopback_function example_env HostInput 3 true (loopback_active_example 0 4)).1
      = Ok (writable (xcvr_eeprom (loopback_active_example 0 4))
              (own_register example_env HostInput)) /\
    writes_of (loopback_function example_env HostInput 3 true) (loopback_active_example 0 4)
      [(own_register example_env HostInput, VInt w)] /\
    forall i, 0 <= i -> Z.testbit w i = if Z.testbit 3 i then true else Z.testbit 4 i.
Proof.
  apply (loopback_effect example_env HostInput (loopback_active_example 0 4) 63 3 4 true);
    try reflexivity; [by split; [|left]|by right].
Defined.

Example loopback_effect_value :
  (set_host_input_loopback example_env 3 true (loopback_active_example 0 4)).1 = Ok true /\
  wlog (xcvr_eeprom (set_host_input_loopback example_env 3 true
                       (loopback_active_example 0 4)).2)
  = [("HOST_INPUT_LOOPBACK", VInt 7)].
Proof. by vm_compute. Qed.

(** ** The application advertisement *)

Section Advertisement.

Variable E : Env.

Notation "'c.' N" := (consts E N) (at level 1, N at level 0, format "'c.' N").

(** A descriptor that is stored has passed every [continue]. *)
Lemma advt_entry_complete (dic : pyval) (prefix : option string) (app : Z)
    (buf : gmap pykey pyval) :
  advt_entry E dic prefix app = Ok (Some buf) -> complete_entry buf.
Proof.
  unfold advt_entry. intros H.
  destruct (dict_get dic (KStr (fmt_us c.HOST_ELECTRICAL_INTERFACE app)) VNone) as [v1|] eqn:H1; cbn [res_bind] in H; [|discriminate].
  destruct (is_none v1) eqn:Hv1; [discriminate|]. cbn [orb] in H.
  destruct (str_eq v1 "Unknown" || str_eq v1 "Undefined"); [discriminate|].
  destruct prefix as [prefix|]; [|discriminate].
  destruct (dict_get dic (KStr (fmt_us prefix app)) VNone) as [v2|] eqn:H2; cbn [res_bind] in H; [|discriminate].
  destruct (is_none v2) eqn:Hv2; [discriminate|]. cbn [orb] in H.
  destruct (str_eq v2 "Unknown"); [discriminate|].
  destruct (dict_get dic (KStr (fmt_us c.MEDIA_LANE_COUNT app)) VNone) as [v3|] eqn:H3; cbn [res_bind] in H; [|discriminate].
  destruct (is_none v3) eqn:Hv3; [discriminate|].
  destruct (dict_get dic (KStr (fmt_us c.HOST_LANE_COUNT app)) VNone) as [v4|] eqn:H4; cbn [res_bind] in H; [|discriminate].
  destruct (is_none v4) eqn:Hv4; [discriminate|].
  destruct (dict_get dic (KStr (fmt_us c.HOST_LANE_ASSIGNMENT_OPTION app)) VNone) as [v5|] eqn:H5; cbn [res_bind] in H; [|discriminate].
  destruct (is_none v5) eqn:Hv5; [discriminate|].
  destruct (dict_get dic (KStr (fmt_us c.MEDIA_LANE_ASSIGNMENT_OPTION app)) VNone) as [v6|] eqn:H6; cbn [res_bind] in H; [|discriminate].
  injection H as <-.
  apply is_none_false in Hv1, Hv2, Hv3, Hv4, Hv5.
  unfold complete_entry.
  repeat (apply Forall_cons; split); try apply Forall_nil_2;
    eexists;
    (split;
     [ destruct (is_none v6);
       repeat (rewrite lookup_insert_ne by discriminate);
       first [ apply lookup_insert_eq | apply lookup_singleton_eq ]
     | assumption ]).
Qed.

Lemma advt_loop_ok (dic : pyval) (prefix : option string) (apps : list Z) :
  Forall (fun app => 1 <= app <= 15) apps ->
  forall ret_ D, advertisement_ok ret_ ->
    advt_loop E dic prefix apps ret_ = Ok D -> advertisement_ok D.
Proof.
  induction apps as [|app apps IH]; intros Happs ret_ D Hok Hrun.
  - cbn in Hrun. by injection Hrun as <-.
  - apply Forall_cons in Happs as [Happ Happs]. cbn [advt_loop] in Hrun.
    destruct (advt_entry E dic prefix app) as [[buf|]|x] eqn:Hentry;
      cbn [res_bind] in Hrun; [| |discriminate].
    + apply (IH Happs _ _) in Hrun; [exact Hrun|].
      intros k v Hk. destruct (decide (k = KInt app)) as [->|Hne].
      * rewrite lookup_insert_eq in Hk. injection Hk as <-.
        exists app, buf. repeat split; try lia. by apply (advt_entry_complete dic prefix app).
      * rewrite lookup_insert_ne in Hk by done. by apply Hok.
    + by apply (IH Happs _ _ Hok).
Qed.

Lemma advertisement_computed (s : CmisApi) (r : pyval) :
  cache s !! "get_application_advertisement" = None ->
  (get_application_advertisement E s).1 = Ok r ->
  exists ret_, r = VDict ret_ /\ advertisement_ok ret_.
Proof.
  intros Hc Hr.
  assert (advertisement_ok ∅) as Hempty by (intros k v Hk; by rewrite lookup_empty in Hk).
  unfold get_application_advertisement, read_only_cached_api_return in Hr. rewrite Hc in Hr.
  match type of Hr with (match ?body s with _ => _ end).1 = _ =>
    assert (forall v s', body s = (Ok v, s') -> exists ret_, v = VDict ret_ /\ advertisement_ok ret_)
      as Hbody; [|destruct (body s) as [[v|x] s'] eqn:Hrun; cbn [fst] in Hr;
                   [injection Hr as <-; by apply (Hbody v s')|discriminate]] end.
  intros v s' Hrun. unfold bind at 1 in Hrun. rewrite read_eq in Hrun.
  destruct (negb (truthy (read_value s c.APPLS_ADVT_FIELD))).
  { injection Hrun as <- _. by exists ∅. }
  unfold bind at 1 in Hrun. destruct (flat E s) as [[fl|x] s1]; [|discriminate].
  unfold bind at 1 in Hrun.
  match type of Hrun with (let (_, _) := ?m s1 in _) = _ =>
    destruct (m s1) as [[[dic'|]|x] s2] end; [| |discriminate].
  2:{ injection Hrun as <- _. by exists ∅. }
  unfold bind in Hrun. rewrite read_eq in Hrun. unfold lift in Hrun.
  destruct (media_prefix E (read_value s2 c.MEDIA_TYPE_FIELD)) as [prefix|x]; [|discriminate].
  destruct (advt_loop E dic' prefix (range 1 16) ∅) as [D|x] eqn:Hloop; [|discriminate].
  injection Hrun as <- _. exists D. split; [reflexivity|].
  apply (advt_loop_ok dic' prefix (range 1 16)) with (ret_ := ∅); [|exact Hempty|exact Hloop].
  apply Forall_forall. intros app Happ. apply elem_of_range in Happ. lia.
Qed.

(** X14.  Computed from the registers (nothing memoised), the application
    advertisement is a dictionary keyed by application codes from 1 to
    15, and every descriptor in it has the host interface, the media
    interface, both lane counts and the host lane assignment, none of
    them [None]: an application with a missing entry is left out
    entirely. *)
Theorem get_application_advertisement_complete (s : CmisApi) (r : pyval) :
  cache s !! "get_application_advertisement" = None ->
  (get_application_advertisement E s).1 = Ok r ->
  exists ret_, r = VDict ret_ /\ advertisement_ok ret_.
Proof. apply advertisement_computed. Qed.

End Advertisement.

Lemma get_application_advertisement_complete_witness :
  exists ret_,
    (get_application_advertisement example_env (info_example [])).1 = Ok (VDict ret_) /\
    advertisement_ok ret_.
Proof.
  assert (is_dict (get_application_advertisement example_env (info_example [])).1 = true)
    as Hd by (by vm_compute).
  destruct (get_application_advertisement_complete example_env (info_example [])
              (match (get_application_advertisement example_env (info_example [])).1 with
               | Ok r => r | Raise _ => VNone end)) as (ret_ & Hr & Hok).
  - reflexivity.
  - by destruct (get_application_advertisement example_env (info_example [])).1.
  - exists ret_. split; [|exact Hok].
    destruct (get_application_advertisement example_env (info_example [])).1; [|discriminate].
    by rewrite Hr.
Defined.

(** The healthy module advertises application 1 with four media lanes;
    without the media lane count of application 1 the advertisement is
    empty. *)
Example get_application_advertisement_value :
  res_bind (res_bind (get_application_advertisement example_env (info_example [])).1
              (fun d => getitem d (KInt 1)))
    (fun e => getitem e (KStr "media_lane_count")) = Ok (VInt 4) /\
  res_bind
    (get_application_advertisement example_env
       (api_of [ (example_consts FLAT_MEM_FIELD, VBool false);
                 (example_consts APPLS_ADVT_FIELD,
                   dict [ (example_consts HOST_ELECTRICAL_INTERFACE +:+ "_1", VStr "400GAUI-8 C2M");
                          (example_consts MODULE_MEDIA_INTERFACE_SM +:+ "_1", VStr "400GBASE-DR4");
                          (example_consts HOST_LANE_COUNT +:+ "_1", VInt 8);
                          (example_consts HOST_LANE_ASSIGNMENT_OPTION +:+ "_1", VInt 1) ]);
                 (example_consts APPLS_ADVT_FIELD_PAGE01, dict []);
                 (example_consts MEDIA_TYPE_FIELD, VStr "sm_media_interface") ])).1
    len = Ok 0.
Proof. split; by vm_compute. Qed.
(** ** Firmware download *)

Section Fw_download.

Variables (lplonly_flag autopaging_flag : bool) (writelength BLOCK_SIZE imagesize : Z).

Lemma cdb_call_after (s : CmisApi) (o : CmisCdbApi) (cmd : cdb_cmd) :
  cdb s = Some o ->
  cdb_call cmd s = (Ok (cdb_answer o (cdb_log o) cmd), set_cdb (Some (cdb_after o [cmd])) s).
Proof. intros H. unfold cdb_call. by rewrite H. Qed.

Lemma cdb_after_after (o : CmisCdbApi) (l1 l2 : list cdb_cmd) :
  cdb_after (cdb_after o l1) l2 = cdb_after o (l2 ++ l1).
Proof. unfold cdb_after. cbn. by rewrite app_assoc. Qed.

Lemma block_call (address : Z) (data : list Z) (s : CmisApi) (o : CmisCdbApi) :
  cdb s = Some o ->
  (if lplonly_flag
   then cdb_call (block_write_lpl address data)
   else cdb_call (block_write_epl address data autopaging_flag writelength)) s
  = (Ok (cdb_answer o (cdb_log o)
           (block_write lplonly_flag autopaging_flag writelength (address, data))),
     set_cdb (Some (cdb_after o
                      [block_write lplonly_flag autopaging_flag writelength (address, data)])) s).
Proof.
  intros H. unfold block_write. destruct lplonly_flag; by apply cdb_call_after.
Qed.

(** On a module that accepts every block, the loop sends what is left of
    the file, in order and in blocks of at most [BLOCK_SIZE] bytes. *)
Lemma download_loop_sends (fuel : nat) :
  0 < BLOCK_SIZE ->
  forall (f : list Z) (address : Z) (s : CmisApi) (o : CmisCdbApi),
    (f <> [] -> 0 < imagesize) ->
    cdb s = Some o -> accepts_all o -> (length f <= fuel)%nat ->
    exists blocks,
      download_loop fuel BLOCK_SIZE imagesize lplonly_flag autopaging_flag writelength
        f address (Z.of_nat (length f)) s
      = (Ok (Some true),
         set_cdb (Some (cdb_after o
                          (rev (block_write lplonly_flag autopaging_flag writelength <$> blocks))))
           s) /\
      concat (snd <$> blocks) = f /\
      contiguous address blocks /\
      Forall (fun b => 0 < Z.of_nat (length b.2) <= BLOCK_SIZE) blocks.
Proof.
  intros Hbs. induction fuel as [|fuel IH]; intros f address s o Hsz' Hc Hacc Hlen.
  - destruct f; [|cbn in Hlen; lia]. exists []. cbn.
    unfold ret, cdb_after, set_cdb. cbn. repeat split; try constructor.
    destruct s as [e v c ch]. cbn in *. subst c. by destruct o.
  - destruct f as [|x f'].
    { exists []. cbn. unfold ret, cdb_after, set_cdb. cbn. repeat split; try constructor.
      destruct s as [e v c ch]. cbn in *. subst c. by destruct o. }
    assert (0 < imagesize) as Hsz by (by apply Hsz').
    set (f := x :: f') in *.
    set (remaining := Z.of_nat (length f)).
    assert (0 < remaining) as Hrem by (subst remaining f; cbn [length]; lia).
    set (count := if remaining <? BLOCK_SIZE then remaining else BLOCK_SIZE).
    assert (0 < count <= remaining /\ count <= BLOCK_SIZE) as Hcount
      by (subst count; destruct (Z.ltb_spec remaining BLOCK_SIZE); lia).
    set (data := take (Z.to_nat count) f). set (rest := drop (Z.to_nat count) f).
    assert (Z.of_nat (length data) = count) as Hdata
      by (subst data; rewrite length_take; subst remaining; lia).
    assert (Z.of_nat (length rest) = remaining - count) as Hrest
      by (subst rest; rewrite length_drop; subst remaining; lia).
    destruct (IH rest (address + count)
                (set_cdb (Some (cdb_after o
                   [block_write lplonly_flag autopaging_flag writelength (address, data)])) s)
                (cdb_after o [block_write lplonly_flag autopaging_flag writelength (address, data)]))
      as (blocks & Hrun & Hcat & Hcont & Hall).
    { by intros _. }
    { reflexivity. }
    { intros log cmd. apply Hacc. }
    { apply Nat2Z.inj_le. rewrite Hrest. subst remaining. lia. }
    exists ((address, data) :: blocks).
    split; [|split; [|split]].
    + cbn [download_loop]. fold f. fold remaining.
      destruct (Z.leb_spec remaining 0) as [?|_]; [lia|].
      fold count. unfold file_read.
      destruct (Z.ltb_spec count 0) as [?|_]; [lia|].
      fold data. fold rest.
      unfold bind at 1. rewrite (block_call address data s o Hc). cbn match.
      rewrite Hacc. cbn [Z.eqb Pos.eqb negb]. cbv iota.
      destruct (Z.eqb_spec imagesize 0) as [?|_]; [lia|].
      rewrite <- Hrest, Hrun. f_equal.
      unfold set_cdb. cbn. by rewrite cdb_after_after.
    + cbn. rewrite Hcat. apply take_drop.
    + cbn. split; [reflexivity|]. by rewrite Hdata.
    + constructor; [|exact Hall]. cbn. lia.
Qed.

(** One turn of the loop. *)
Lemma download_loop_step (fuel : nat) (f : list Z) (address remaining : Z) (s : CmisApi)
    (o : CmisCdbApi) :
  cdb s = Some o ->
  download_loop (S fuel) BLOCK_SIZE imagesize lplonly_flag autopaging_flag writelength
    f address remaining s
  = if remaining <=? 0 then (Ok (Some true), s) else
    let count := if remaining <? BLOCK_SIZE then remaining else BLOCK_SIZE in
    let b := block_write lplonly_flag autopaging_flag writelength
               (address, (file_read f count).1) in
    if negb (status (cdb_answer o (cdb_log o) b) =? 1)
    then (Ok (Some false), set_cdb (Some (cdb_after o [abort_fw_download; b])) s)
    else if imagesize =? 0
    then (Raise ZeroDivisionError, set_cdb (Some (cdb_after o [b])) s)
    else download_loop fuel BLOCK_SIZE imagesize lplonly_flag autopaging_flag writelength
           (file_read f count).2 (address + count) (remaining - count)
           (set_cdb (Some (cdb_after o [b])) s).
Proof.
  intros Hc. cbn [download_loop]. destruct (remaining <=? 0); [reflexivity|].
  cbv zeta. destruct (file_read f _) as [data rest]. cbn [fst snd].
  unfold bind at 1. rewrite (block_call address data s o Hc). cbn match.
  destruct (negb (status (cdb_answer o (cdb_log o) _) =? 1)).
  - unfold bind at 1. by erewrite cdb_call_after by reflexivity.
  - by destruct (imagesize =? 0).
Qed.

(** Whatever the module answers, the loop ends normally with the CDB
    collaborator still there, or refuses after an abort command. *)
Lemma download_loop_outcome (fuel : nat) :
  forall (f : list Z) (address remaining : Z) (s : CmisApi) (o : CmisCdbApi),
    cdb s = Some o ->
    let r := download_loop fuel BLOCK_SIZE imagesize lplonly_flag autopaging_flag writelength
               f address remaining s in
    (r.1 = Ok (Some true) -> exists cmds, cdb r.2 = Some (cdb_after o cmds)) /\
    (r.1 = Ok (Some false) -> exists cmds, cdb r.2 = Some (cdb_after o (abort_fw_download :: cmds))).
Proof.
  induction fuel as [|fuel IH]; intros f address remaining s o Hc.
  - cbn. destruct (remaining <=? 0); cbn; split; intros H; try discriminate.
    exists []. rewrite Hc. unfold cdb_after. cbn. by destruct o.
  - rewrite (download_loop_step fuel f address remaining s o Hc).
    destruct (remaining <=? 0).
    { cbn. split; intros H; try discriminate.
      exists []. rewrite Hc. unfold cdb_after. cbn. by destruct o. }
    cbv zeta.
    set (count := if remaining <? BLOCK_SIZE then remaining else BLOCK_SIZE).
    set (b := block_write _ _ _ _).
    destruct (negb (status (cdb_answer o (cdb_log o) b) =? 1)).
    + cbn. split; intros H; try discriminate. by exists [b].
    + destruct (imagesize =? 0); [cbn; split; discriminate|].
      destruct (IH (file_read f count).2 (address + count) (remaining - count)
                  (set_cdb (Some (cdb_after o [b])) s) (cdb_after o [b]) eq_refl)
        as [Ht Hf].
      split; intros H.
      * destruct (Ht H) as (cmds & ->). exists (cmds ++ [b]). by rewrite cdb_after_after.
      * destruct (Hf H) as (cmds & ->). exists (cmds ++ [b]). by rewrite cdb_after_after.
Qed.

End Fw_download.

(** X15.  On a module that accepts every command, [module_fw_download] answers
    [True] after sending the whole image once and in order: the first
    [startLPLsize] bytes with the start command, the rest in block writes
    of at most [BLOCK_SIZE] bytes each (116 for local-payload writes,
    [maxblocksize] otherwise) whose addresses run on from 0 without gap
    or overlap, and then the validation command.  As many turns of the
    loop as the image has bytes are enough. *)
Theorem module_fw_download_sends_image (fuel : nat) (s : CmisApi) (o : CmisCdbApi)
    (bytes : list Z) (startLPLsize maxblocksize writelength : Z)
    (lplonly_flag autopaging_flag : bool) :
  cdb s = Some o -> accepts_all o ->
  0 <= startLPLsize <= Z.of_nat (length bytes) ->
  0 < (if lplonly_flag then 116 else maxblocksize) ->
  (length bytes <= fuel)%nat ->
  let r := module_fw_download fuel startLPLsize maxblocksize lplonly_flag autopaging_flag
             writelength (Some bytes) s in
  exists blocks,
    r.1 = Ok (Some true) /\
    cdb_trace r.2
    = validate_fw_image
      :: rev (block_write lplonly_flag autopaging_flag writelength <$> blocks)
      ++ start_fw_download startLPLsize (take (Z.to_nat startLPLsize) bytes)
           (Z.of_nat (length bytes))
      :: cdb_log o /\
    take (Z.to_nat startLPLsize) bytes ++ concat (snd <$> blocks) = bytes /\
    contiguous 0 blocks /\
    Forall (fun b => 0 < Z.of_nat (length b.2)
                     <= if lplonly_flag then 116 else maxblocksize) blocks.
Proof.
  intros Hc Hacc Hstart Hbs Hfuel r.
  set (start := start_fw_download startLPLsize (take (Z.to_nat startLPLsize) bytes)
                  (Z.of_nat (length bytes))).
  set (rest := drop (Z.to_nat startLPLsize) bytes).
  assert (Z.of_nat (length rest) = Z.of_nat (length bytes) - startLPLsize) as Hrest
    by (subst rest; rewrite length_drop; lia).
  destruct (download_loop_sends lplonly_flag autopaging_flag writelength
              (if lplonly_flag then 116 else maxblocksize) (Z.of_nat (length bytes))
              fuel Hbs rest 0 (set_cdb (Some (cdb_after o [start])) s) (cdb_after o [start]))
    as (blocks & Hrun & Hcat & Hcont & Hall).
  { intros Hne. destruct rest; [done|]. cbn [length] in Hrest. lia. }
  { reflexivity. }
  { intros log cmd. apply Hacc. }
  { subst rest. rewrite length_drop. lia. }
  exists blocks.
  assert (r = (Ok (Some true),
               set_cdb (Some (cdb_after o
                  (validate_fw_image
                   :: rev (block_write lplonly_flag autopaging_flag writelength <$> blocks)
                   ++ [start]))) s)) as ->.
  { subst r. unfold module_fw_download.
    unfold bind at 1. rewrite (cdb_is_none_eq s o Hc). cbn match.
    unfold file_read. destruct (Z.ltb_spec startLPLsize 0) as [?|_]; [lia|].
    fold rest. fold start.
    unfold bind at 1. rewrite (cdb_call_after s o start Hc). cbn match. cbv beta zeta.
    rewrite Hacc. cbn [Z.eqb Pos.eqb]. cbv iota.
    unfold bind at 1. unfold ret at 1. cbn [negb]. cbv iota.
    unfold bind at 1. rewrite <- Hrest, Hrun.
    unfold bind at 1. erewrite cdb_call_after by reflexivity. cbn match. cbv beta zeta.
    rewrite !cdb_after_after. unfold cdb_after at 1. cbn [cdb_answer].
    rewrite Hacc. cbn [Z.eqb Pos.eqb]. cbv iota.
    unfold ret, set_cdb. cbn. reflexivity. }
  split; [reflexivity|]. split; [|split; [|split]].
  - unfold cdb_trace. cbn. by rewrite <- app_assoc.
  - rewrite Hcat. apply take_drop.
  - exact Hcont.
  - exact Hall.
Qed.

(** X16.  Whatever the module answers, [module_fw_download] answers [True] only
    when the validation command, the last one it sent, was answered with
    status 1.  When it answers [False] after opening the image, the last
    command it sent is the abort command, unless it is the validation
    command that failed: then no abort is sent. *)
Theorem module_fw_download_outcome (fuel : nat) (s : CmisApi) (o : CmisCdbApi)
    (bytes : list Z) (startLPLsize maxblocksize writelength : Z)
    (lplonly_flag autopaging_flag : bool) :
  cdb s = Some o ->
  let r := module_fw_download fuel startLPLsize maxblocksize lplonly_flag autopaging_flag
             writelength (Some bytes) s in
  (r.1 = Ok (Some true) ->
   exists cmds,
     cdb_trace r.2 = validate_fw_image :: cmds ++ cdb_log o /\
     status (cdb_answer o (cmds ++ cdb_log o) validate_fw_image) = 1) /\
  (r.1 = Ok (Some false) ->
   exists cmds,
     cdb_trace r.2 = abort_fw_download :: cmds ++ cdb_log o \/
     (cdb_trace r.2 = validate_fw_image :: cmds ++ cdb_log o /\
      status (cdb_answer o (cmds ++ cdb_log o) validate_fw_image) <> 1)).
Proof.
  intros Hc r.
  set (imagesize := Z.of_nat (length bytes)).
  set (startdata := (file_read bytes startLPLsize).1).
  set (f := (file_read bytes startLPLsize).2).
  set (start := start_fw_download startLPLsize startdata imagesize).
  set (BLOCK_SIZE := if lplonly_flag then 116 else maxblocksize).
  (* what follows a successful start, from the collaborator [o'] *)
  set (after_start := fun (o' : CmisCdbApi) =>
         let* looped := download_loop fuel BLOCK_SIZE imagesize lplonly_flag autopaging_flag
                          writelength f 0 (imagesize - startLPLsize) in
         match looped with
         | None => ret None
         | Some false => ret (Some false)
         | Some true =>
             let* r := cdb_call validate_fw_image in
             if status r =? 1 then ret (Some true) else ret (Some false)
         end).
  assert (forall cmds0 s0,
            cdb s0 = Some (cdb_after o cmds0) ->
            let r0 := after_start o s0 in
            (r0.1 = Ok (Some true) ->
             exists cmds,
               cdb_trace r0.2 = validate_fw_image :: cmds ++ cdb_log o /\
               status (cdb_answer o (cmds ++ cdb_log o) validate_fw_image) = 1) /\
            (r0.1 = Ok (Some false) ->
             exists cmds,
               cdb_trace r0.2 = abort_fw_download :: cmds ++ cdb_log o \/
               (cdb_trace r0.2 = validate_fw_image :: cmds ++ cdb_log o /\
                status (cdb_answer o (cmds ++ cdb_log o) validate_fw_image) <> 1))) as Hafter.
  { intros cmds0 s0 Hc0 r0.
    destruct (download_loop_outcome lplonly_flag autopaging_flag writelength BLOCK_SIZE
                imagesize fuel f 0 (imagesize - startLPLsize) s0 (cdb_after o cmds0) Hc0)
      as [Ht Hf].
    assert (r0 = match download_loop fuel BLOCK_SIZE imagesize lplonly_flag autopaging_flag
                         writelength f 0 (imagesize - startLPLsize) s0 with
                 | (Ok (Some true), s1) =>
                     (let* r := cdb_call validate_fw_image in
                      if status r =? 1 then ret (Some true) else ret (Some false)) s1
                 | (Ok looped, s1) => (Ok looped, s1)
                 | (Raise e, s1) => (Raise e, s1)
                 end) as Hr0.
    { subst r0 after_start. cbv beta. unfold bind at 1.
      by destruct (download_loop fuel BLOCK_SIZE imagesize lplonly_flag autopaging_flag
                     writelength f 0 (imagesize - startLPLsize) s0) as [[[[|]|]|x] s1]. }
    clearbody r0. subst r0.
    destruct (download_loop fuel BLOCK_SIZE imagesize lplonly_flag autopaging_flag
                writelength f 0 (imagesize - startLPLsize) s0) as [[[[|]|]|x] s1];
      cbn [fst snd] in *.
    - destruct (Ht eq_refl) as (cmds1 & Hc1). rewrite cdb_after_after in Hc1.
      unfold bind. rewrite (cdb_call_after s1 _ validate_fw_image Hc1). cbn [cdb_after cdb_log cdb_answer].
      destruct (Z.eqb_spec
                  (status (cdb_answer o ((cmds1 ++ cmds0) ++ cdb_log o) validate_fw_image)) 1)
        as [Hst|Hst]; cbn; (split; intros H; [|]; try discriminate).
      + by exists (cmds1 ++ cmds0).
      + exists (cmds1 ++ cmds0). by right.
    - destruct (Hf eq_refl) as (cmds1 & Hc1). rewrite cdb_after_after in Hc1.
      cbn. split; intros H; try discriminate.
      exists (cmds1 ++ cmds0). left. unfold cdb_trace. by rewrite Hc1.
    - cbn. split; discriminate.
    - cbn. split; discriminate. }
  assert (r = let st := status (cdb_answer o (cdb_log o) start) in
              if st =? 1 then after_start o (set_cdb (Some (cdb_after o [start])) s)
              else if st =? 70
              then after_start o
                     (set_cdb (Some (cdb_after o [start; module_enter_password None; start])) s)
              else (Ok (Some false), set_cdb (Some (cdb_after o [abort_fw_download; start])) s))
    as ->.
  { subst r. unfold module_fw_download.
    unfold bind at 1. rewrite (cdb_is_none_eq s o Hc). cbn match.
    fold imagesize. destruct (file_read bytes startLPLsize) as [sd f0] eqn:Hfr.
    subst startdata f. cbn [fst snd] in *. fold start.
    unfold bind at 1. rewrite (cdb_call_after s o start Hc). cbn match. cbv zeta.
    destruct (status (cdb_answer o (cdb_log o) start) =? 1).
    { unfold bind at 1. unfold ret at 1. cbn [negb]. cbv iota. reflexivity. }
    destruct (status (cdb_answer o (cdb_log o) start) =? 70).
    { unfold bind at 1. unfold bind at 1.
      erewrite cdb_call_after by reflexivity. cbn match.
      unfold bind at 1. erewrite cdb_call_after by reflexivity. cbn match.
      unfold ret at 1. cbn [negb]. cbv iota. reflexivity. }
    unfold bind at 1. unfold bind at 1.
    erewrite cdb_call_after by reflexivity. cbn match. reflexivity. }
  cbv zeta.
  destruct (status (cdb_answer o (cdb_log o) start) =? 1).
  { apply (Hafter [start]). reflexivity. }
  destruct (status (cdb_answer o (cdb_log o) start) =? 70).
  { apply (Hafter [start; module_enter_password None; start]). reflexivity. }
  cbn. split; intros H; try discriminate. exists [start]. by left.
Qed.

(** A ten-byte image, four start bytes and blocks of at most four bytes
    in the extended payload, on a module that accepts everything. *)
Lemma module_fw_download_sends_image_witness :
  let r := module_fw_download 10 4 4 false false 2048 (Some image_example) (cdb_example []) in
  exists blocks,
    r.1 = Ok (Some true) /\
    cdb_trace r.2
    = validate_fw_image
      :: rev (block_write false false 2048 <$> blocks)
      ++ start_fw_download 4 (take (Z.to_nat 4) image_example) 10 :: [] /\
    take (Z.to_nat 4) image_example ++ concat (snd <$> blocks) = image_example /\
    contiguous 0 blocks /\
    Forall (fun b => 0 < Z.of_nat (length b.2) <= 4) blocks.
Proof.
  apply (module_fw_download_sends_image 10 (cdb_example []) (cdb_of [] (reply_status 1))
           image_example 4 4 2048 false false).
  - reflexivity.
  - intros log cmd. reflexivity.
  - cbn. lia.
  - lia.
  - cbn. lia.
Defined.

Example module_fw_download_blocks :
  cdb_trace (module_fw_download 10 4 4 false false 2048 (Some image_example)
               (cdb_example [])).2
  = [ validate_fw_image;
      block_write_epl 4 [9; 10] false 2048;
      block_write_epl 0 [5; 6; 7; 8] false 2048;
      start_fw_download 4 [1; 2; 3; 4] 10 ].
Proof. by vm_compute. Qed.

(** The second block is refused (status 0x40): the download is aborted. *)
Lemma module_fw_download_outcome_witness :
  let r := module_fw_download 10 4 4 false false 2048 (Some image_example)
             (cdb_example [1; 1; 64]) in
  r.1 = Ok (Some false) /\
  exists cmds,
    cdb_trace r.2 = abort_fw_download :: cmds ++ [] \/
    (cdb_trace r.2 = validate_fw_image :: cmds ++ [] /\
     status (cdb_answer (cdb_of (reply_status <$> [1; 1; 64]) (reply_status 1)) (cmds ++ [])
               validate_fw_image) <> 1).
Proof.
  split; [by vm_compute|].
  apply (module_fw_download_outcome 10 (cdb_example [1; 1; 64])
           (cdb_of (reply_status <$> [1; 1; 64]) (reply_status 1))
           image_example 4 4 2048 false false eq_refl).
  by vm_compute.
Defined.

(** A refused block is followed by the abort command and nothing else; a
    refused validation is followed by nothing. *)
Example module_fw_download_refused :
  cdb_trace (module_fw_download 10 4 4 false false 2048 (Some image_example)
               (cdb_example [1; 1; 64])).2
  = [ abort_fw_download;
      block_write_epl 4 [9; 10] false 2048;
      block_write_epl 0 [5; 6; 7; 8] false 2048;
      start_fw_download 4 [1; 2; 3; 4] 10 ] /\
  (module_fw_download 10 4 4 false false 2048 (Some image_example)
     (cdb_example [1; 1; 1; 64])).1 = Ok (Some false) /\
  cdb_trace (module_fw_download 10 4 4 false false 2048 (Some image_example)
               (cdb_example [1; 1; 1; 64])).2
  = [ validate_fw_image;
      block_write_epl 4 [9; 10] false 2048;
      block_write_epl 0 [5; 6; 7; 8] false 2048;
      start_fw_download 4 [1; 2; 3; 4] 10 ].
Proof. by vm_compute. Qed.
(** ** Loopback mode *)

Section Loopback_mode.

Variable E : Env.

Notation "'c.' N" := (consts E N) (at level 1, N at level 0, format "'c.' N").

Lemma read_value_write_ne (s : CmisApi) (f g : string) (val : pyval) :
  g <> f -> read_value (write f val s).2 g = read_value s g.
Proof.
  intros Hne. unfold read_value, write. cbn.
  destruct (writable (xcvr_eeprom s) f); [|reflexivity].
  by rewrite lookup_insert_ne.
Qed.

Lemma read_value_write_eq (s : CmisApi) (f : string) (val : pyval) :
  writable (xcvr_eeprom s) f = true -> read_value (write f val s).2 f = val.
Proof.
  intros Hw. unfold read_value, write. cbn. rewrite Hw. by rewrite lookup_insert_eq.
Qed.

Lemma get_loopback_capability_constructed (s : CmisApi) (x : Z) :
  paged s -> read_value s c.LOOPBACK_CAPABILITY = VInt x ->
  get_loopback_capability E s = (Ok (VDict (loopback_capability_of x)), s).
Proof.
  intros Hp Hx. unfold get_loopback_capability.
  unfold bind at 1. rewrite (flat_cached E s _ Hp). cbn [truthy]. cbn match.
  unfold bind at 1. rewrite read_eq, Hx. reflexivity.
Qed.

(** A setter asked to clear all lanes on a constructed paged module that
    advertises its direction: refused while a loopback of the other side
    stands in the way, else one write. *)
Lemma clear_run (dir : loopback_direction) (s : CmisApi) (x : Z)
    (v : loopback_direction -> Z) :
  paged s -> read_value s c.LOOPBACK_CAPABILITY = VInt x ->
  Z.testbit x (direction_bit dir) = true ->
  (forall d, read_value s (own_register E d) = VInt (v d)) ->
  loopback_function E dir 255 false s
  = if negb (Z.testbit x 6)
       && negb ((v (opposite dir).1 =? 0) && (v (opposite dir).2 =? 0))
    then (Ok false, s)
    else write (own_register E dir) (VInt (cleared (v dir))) s.
Proof.
  intros Hp Hx Hdir Hv.
  assert (opposite_registers E dir
          = (own_register E (opposite dir).1, own_register E (opposite dir).2)) as Hopp
    by (by destruct dir).
  rewrite loopback_function_eq, Hopp. cbn [fst snd].
  unfold loopback_setter. unfold bind at 1.
  rewrite (get_loopback_capability_constructed s x Hp Hx). cbn match.
  cbn [is_none]. cbv iota.
  unfold bind at 1, lift at 1. rewrite capability_supported, Hdir. cbn match.
  cbn [is_False]. cbv iota.
  unfold bind at 1, lift at 1. rewrite capability_per_lane. cbn match.
  rewrite andb_false_r.
  unfold bind at 1, lift at 1. rewrite capability_simultaneous. cbn match.
  destruct (Z.testbit x 6); cbn [is_False negb andb].
  - unfold bind at 1, ret at 1. unfold bind. rewrite read_eq, Hv. reflexivity.
  - unfold bind. rewrite !read_eq, !Hv. cbn [truthy].
    destruct (v (opposite dir).1 =? 0), (v (opposite dir).2 =? 0);
      cbn [negb orb andb]; cbv iota; unfold lift, ret; cbn [format_x];
      rewrite ?read_eq, ?Hv; reflexivity.
Qed.

Lemma registers_distinct :
  NoDup (c.LOOPBACK_CAPABILITY :: (own_register E <$> directions)) ->
  (forall d, own_register E d <> c.LOOPBACK_CAPABILITY) /\
  (forall d1 d2, own_register E d1 = own_register E d2 -> d1 = d2).
Proof.
  intros Hnd. cbn in Hnd.
  repeat match goal with
         | H : NoDup (_ :: _) |- _ => apply NoDup_cons in H as [? H]
         end.
  repeat match goal with
         | H : _ ∉ _ :: _ |- _ => apply not_elem_of_cons in H as [? H]
         end.
  split.
  - intros d. destruct d; cbn; congruence.
  - intros d1 d2. destruct d1, d2; cbn; congruence.
Qed.

(** One accepted or refused write to a loopback register. *)
Lemma loopback_state_write (s : CmisApi) (x w : Z) (v : loopback_direction -> Z)
    (dir : loopback_direction) :
  NoDup (c.LOOPBACK_CAPABILITY :: (own_register E <$> directions)) ->
  loopback_state E s x v ->
  loopback_state E (write (own_register E dir) (VInt w) s).2 x
    (fun d => if bool_decide (d = dir) && writable (xcvr_eeprom s) (own_register E dir)
              then w else v d).
Proof.
  intros Hnd (Hp & Hx & Hv). destruct (registers_distinct Hnd) as [Hcap Hinj].
  split; [exact Hp|]. split.
  - rewrite read_value_write_ne; [exact Hx|]. intros H. by apply (Hcap dir).
  - intros d. destruct (bool_decide_reflect (d = dir)) as [->|Hne]; cbn [andb].
    + destruct (writable (xcvr_eeprom s) (own_register E dir)) eqn:Hw.
      * by apply read_value_write_eq.
      * unfold read_value, write. cbn. rewrite Hw. apply Hv.
    + rewrite read_value_write_ne; [apply Hv|]. intros H. by apply Hne, Hinj.
Qed.

Lemma set_loopback_mode_none_eq (lane_mask : Z) (enable : bool) (s : CmisApi) :
  set_loopback_mode E "none" lane_mask enable s
  = (let* rs := clear_each E directions in ret (forallb id rs)) s.
Proof.
  unfold set_loopback_mode. cbn [String.eqb Ascii.eqb Bool.eqb]. cbv iota.
  cbn [clear_each directions loopback_function]. unfold bind.
  destruct (set_host_input_loopback E 255 false s) as [[r1|e] s1]; [|reflexivity].
  destruct (set_host_output_loopback E 255 false s1) as [[r2|e] s2]; [|reflexivity].
  destruct (set_media_input_loopback E 255 false s2) as [[r3|e] s3]; [|reflexivity].
  by destruct (set_media_output_loopback E 255 false s3) as [[r4|e] s4].
Qed.

(** With simultaneous host and media loopback advertised, nothing stands
    in the way of clearing. *)
Lemma clear_each_run (x : Z) (dirs : list loopback_direction) :
  NoDup (c.LOOPBACK_CAPABILITY :: (own_register E <$> directions)) ->
  Z.testbit x 6 = true ->
  (forall d, Z.testbit x (direction_bit d) = true) ->
  NoDup dirs ->
  forall (s : CmisApi) (v : loopback_direction -> Z),
    loopback_state E s x v ->
    exists s',
      clear_each E dirs s
      = (Ok ((fun d => writable (xcvr_eeprom s) (own_register E d)) <$> dirs), s') /\
      writes_between s s'
        (rev ((fun d => (own_register E d, VInt (cleared (v d)))) <$> dirs)) /\
      writable (xcvr_eeprom s') = writable (xcvr_eeprom s) /\
      loopback_state E s' x
        (fun d => if bool_decide (d ∈ dirs) && writable (xcvr_eeprom s) (own_register E d)
                  then cleared (v d) else v d).
Proof.
  intros Hnd Hsim Hadv. induction dirs as [|dir dirs IH]; intros Hdirs s v Hst.
  - exists s. cbn. repeat split; try apply Hst.
  - apply NoDup_cons in Hdirs as [Hnotin Hdirs].
    pose proof (loopback_state_write s x (cleared (v dir)) v dir Hnd Hst) as Hst1.
    destruct (IH Hdirs _ _ Hst1) as (s' & Hrun & Hwr & Hwb & Hst').
    exists s'. cbn [clear_each]. unfold bind at 1.
    destruct Hst as (Hp & Hx & Hv).
    rewrite (clear_run dir s x v Hp Hx (Hadv dir) Hv), Hsim. cbn [negb andb].
    assert (write (own_register E dir) (VInt (cleared (v dir))) s
            = (Ok (writable (xcvr_eeprom s) (own_register E dir)),
               (write (own_register E dir) (VInt (cleared (v dir))) s).2)) as -> by done.
    unfold bind at 1. rewrite Hrun. unfold ret.
    split; [reflexivity|]. split; [|split].
    + unfold writes_between in *. rewrite Hwr. cbn [fmap list_fmap rev].
      destruct (bool_decide_reflect (dir = dir)) as [_|?]; [|done]. cbn [andb].
      rewrite <- app_assoc.
      assert (forall d, d ∈ dirs ->
                (if bool_decide (d = dir) && writable (xcvr_eeprom s) (own_register E dir)
                 then cleared (v dir) else v d) = v d) as Hsame.
      { intros d Hd. destruct (bool_decide_reflect (d = dir)) as [->|_]; [done|reflexivity]. }
      f_equal. f_equal. apply list_fmap_ext. intros i d Hd. f_equal. f_equal. f_equal.
      apply Hsame. by apply list_elem_of_lookup_2 in Hd.
    + exact Hwb.
    + destruct Hst' as (Hp' & Hx' & Hv'). split; [exact Hp'|]. split; [exact Hx'|].
      intros d. rewrite Hv'. f_equal.
      change (writable (xcvr_eeprom (write (own_register E dir) (VInt (cleared (v dir))) s).2))
        with (writable (xcvr_eeprom s)).
      destruct (bool_decide_reflect (d = dir)) as [->|Hne]; cbn [andb].
      * rewrite (bool_decide_eq_false_2 _ Hnotin). cbn [andb].
        rewrite (bool_decide_eq_true_2 (dir ∈ dir :: dirs)) by apply list_elem_of_here.
        cbn [andb]. reflexivity.
      * rewrite (bool_decide_ext (d ∈ dir :: dirs) (d ∈ dirs)); [reflexivity|].
        rewrite elem_of_cons. split; [intros [?|?]; [done|assumption]|by right].
Qed.

(** X17.  Mode ["none"] on a constructed paged module that advertises the four
    loopback directions and simultaneous host and media loopback, with
    the four loopback registers holding integers: the low eight bits of
    each register are written back cleared, host input first, then host
    output, media input and media output; the four writes are made
    whatever the earlier ones answer, and the result is [True] exactly
    when every register accepts its write.  [lane_mask] and [enable] play
    no part. *)
Theorem set_loopback_mode_none_clears (s : CmisApi) (x lane_mask : Z) (enable : bool)
    (v : loopback_direction -> Z) :
  NoDup (c.LOOPBACK_CAPABILITY :: (own_register E <$> directions)) ->
  loopback_state E s x v ->
  (forall d, Z.testbit x (direction_bit d) = true) ->
  Z.testbit x 6 = true ->
  let r := set_loopback_mode E "none" lane_mask enable s in
  r.1 = Ok (forallb (fun d => writable (xcvr_eeprom s) (own_register E d)) directions) /\
  writes_between s r.2
    (rev ((fun d => (own_register E d, VInt (cleared (v d)))) <$> directions)) /\
  forall d, writable (xcvr_eeprom s) (own_register E d) = true ->
    read_value r.2 (own_register E d) = VInt (cleared (v d)).
Proof.
  intros Hnd Hst Hadv Hsim r. subst r. rewrite set_loopback_mode_none_eq.
  assert (NoDup directions) as Hdirs.
  { unfold directions.
    repeat (apply NoDup_cons; split;
            [rewrite ?elem_of_cons, ?elem_of_nil; intuition discriminate|]).
    apply NoDup_nil_2. }
  destruct (clear_each_run x directions Hnd Hsim Hadv Hdirs s v Hst)
    as (s' & Hrun & Hwr & _ & _ & _ & Hv').
  unfold bind. rewrite Hrun. unfold ret. cbn [fst snd].
  split; [reflexivity|]. split; [exact Hwr|].
  intros d Hw. rewrite Hv', Hw.
  rewrite (bool_decide_eq_true_2 (d ∈ directions)); [reflexivity|].
  destruct d; unfold directions; rewrite ?elem_of_cons; auto.
Qed.

(** X18.  Mode ["none"] on a module that does not advertise simultaneous host
    and media loopback, called while a media-side loopback is active:
    the two host-side setters are refused, so the result is [False];
    when no host-side loopback is active the two media-side registers
    are cleared all the same, otherwise nothing is written. *)
Theorem set_loopback_mode_none_refused (s : CmisApi) (x lane_mask : Z) (enable : bool)
    (v : loopback_direction -> Z) :
  NoDup (c.LOOPBACK_CAPABILITY :: (own_register E <$> directions)) ->
  loopback_state E s x v ->
  (forall d, Z.testbit x (direction_bit d) = true) ->
  Z.testbit x 6 = false ->
  v MediaInput <> 0 \/ v MediaOutput <> 0 ->
  let r := set_loopback_mode E "none" lane_mask enable s in
  r.1 = Ok false /\
  writes_between s r.2
    (if (v HostInput =? 0) && (v HostOutput =? 0)
     then [ (own_register E MediaOutput, VInt (cleared (v MediaOutput)));
            (own_register E MediaInput, VInt (cleared (v MediaInput))) ]
     else []).
Proof.
  intros Hnd Hst Hadv Hsim Hmedia r. subst r. rewrite set_loopback_mode_none_eq.
  pose proof Hst as (Hp & Hx & Hv).
  assert ((v MediaInput =? 0) && (v MediaOutput =? 0) = false) as Hm.
  { destruct Hmedia as [H|H]; apply Z.eqb_neq in H; rewrite H;
      [reflexivity|apply andb_false_r]. }
  assert (exists s',
            (let* rs := clear_each E directions in ret (forallb id rs)) s = (Ok false, s') /\
            writes_between s s'
              (if (v HostInput =? 0) && (v HostOutput =? 0)
               then [ (own_register E MediaOutput, VInt (cleared (v MediaOutput)));
                      (own_register E MediaInput, VInt (cleared (v MediaInput))) ]
               else [])) as (s' & -> & Hwr); [|by split].
  cbn [clear_each directions]. unfold bind at 1. unfold bind at 1.
  rewrite (clear_run HostInput s x v Hp Hx (Hadv _) Hv), Hsim. cbn [opposite fst snd].
  rewrite Hm. cbn [negb andb]. cbv iota.
  unfold bind at 1. unfold bind at 1.
  rewrite (clear_run HostOutput s x v Hp Hx (Hadv _) Hv), Hsim. cbn [opposite fst snd].
  rewrite Hm. cbn [negb andb]. cbv iota.
  unfold bind at 1. unfold bind at 1.
  rewrite (clear_run MediaInput s x v Hp Hx (Hadv _) Hv), Hsim. cbn [opposite fst snd].
  destruct ((v HostInput =? 0) && (v HostOutput =? 0)) eqn:Hh; cbn [negb andb]; cbv iota.
  - pose proof (loopback_state_write s x (cleared (v MediaInput)) v MediaInput Hnd Hst)
      as (Hp1 & Hx1 & Hv1).
    assert (write (own_register E MediaInput) (VInt (cleared (v MediaInput))) s
            = (Ok (writable (xcvr_eeprom s) (own_register E MediaInput)),
               (write (own_register E MediaInput) (VInt (cleared (v MediaInput))) s).2))
      as -> by done.
    unfold bind at 1. unfold bind at 1.
    rewrite (clear_run MediaOutput _ x _ Hp1 Hx1 (Hadv _) Hv1), Hsim.
    cbn [opposite fst snd]. rewrite !bool_decide_eq_false_2 by discriminate.
    cbn [andb]. rewrite Hh. cbn [negb andb]. cbv iota.
    eexists. split; [reflexivity|]. unfold writes_between. reflexivity.
  - unfold bind at 1. unfold bind at 1.
    rewrite (clear_run MediaOutput s x v Hp Hx (Hadv _) Hv), Hsim. cbn [opposite fst snd].
    rewrite Hh. cbn [negb andb]. cbv iota.
    eexists. split; [reflexivity|]. unfold writes_between. reflexivity.
Qed.

End Loopback_mode.

Lemma example_registers_distinct :
  NoDup (example_consts LOOPBACK_CAPABILITY :: (own_register example_env <$> directions)).
Proof.
  cbn.
  repeat (apply NoDup_cons; split;
          [rewrite ?elem_of_cons, ?elem_of_nil; intuition discriminate|]).
  apply NoDup_nil_2.
Qed.

Lemma example_loopback_state (x host_in host_out media_in media_out : Z) :
  loopback_state example_env (loopback_mode_example x host_in host_out media_in media_out) x
    (loopback_values host_in host_out media_in media_out).
Proof. split; [reflexivity|]. split; [reflexivity|]. by intros []. Qed.

(** Capability 127 advertises everything; host input loopback is active
    on lanes 0 and 2, media input loopback on lanes 0 and 1. *)
Lemma set_loopback_mode_none_clears_witness :
  let r := set_loopback_mode example_env "none" 255 false
             (loopback_mode_example 127 5 0 3 0) in
  r.1 = Ok (forallb (fun d => writable (xcvr_eeprom (loopback_mode_example 127 5 0 3 0))
                                (own_register example_env d)) directions) /\
  writes_between (loopback_mode_example 127 5 0 3 0) r.2
    (rev ((fun d => (own_register example_env d,
                     VInt (cleared (loopback_values 5 0 3 0 d)))) <$> directions)) /\
  forall d, writable (xcvr_eeprom (loopback_mode_example 127 5 0 3 0))
              (own_register example_env d) = true ->
    read_value r.2 (own_register example_env d) = VInt (cleared (loopback_values 5 0 3 0 d)).
Proof.
  apply (set_loopback_mode_none_clears example_env (loopback_mode_example 127 5 0 3 0)
           127 255 false (loopback_values 5 0 3 0)
           example_registers_distinct (example_loopback_state 127 5 0 3 0)).
  - by intros [].
  - reflexivity.
Defined.

Example set_loopback_mode_none_value :
  let r := set_loopback_mode example_env "none" 255 false
             (loopback_mode_example 127 5 0 3 0) in
  r.1 = Ok true /\
  wlog (xcvr_eeprom r.2)
  = [ ("MEDIA_OUTPUT_LOOPBACK", VInt 0); ("MEDIA_INPUT_LOOPBACK", VInt 0);
      ("HOST_OUTPUT_LOOPBACK", VInt 0); ("HOST_INPUT_LOOPBACK", VInt 0) ].
Proof. by vm_compute. Qed.

(** Capability 63 does not advertise simultaneous host and media
    loopback; media input loopback is active on lanes 0 and 1. *)
Lemma set_loopback_mode_none_refused_witness :
  let r := set_loopback_mode example_env "none" 255 false
             (loopback_mode_example 63 0 0 3 0) in
  r.1 = Ok false /\
  writes_between (loopback_mode_example 63 0 0 3 0) r.2
    (if (loopback_values 0 0 3 0 HostInput =? 0) && (loopback_values 0 0 3 0 HostOutput =? 0)
     then [ (own_register example_env MediaOutput,
             VInt (cleared (loopback_values 0 0 3 0 MediaOutput)));
            (own_register example_env MediaInput,
             VInt (cleared (loopback_values 0 0 3 0 MediaInput))) ]
     else []).
Proof.
  apply (set_loopback_mode_none_refused example_env (loopback_mode_example 63 0 0 3 0)
           63 255 false (loopback_values 0 0 3 0)
           example_registers_distinct (example_loopback_state 63 0 0 3 0)).
  - by intros [].
  - reflexivity.
  - left. discriminate.
Defined.

(** The media-side loopback is cleared and the answer is [False]; with a
    host-side loopback active as well, nothing is written.  An unknown
    mode writes nothing either. *)
Example set_loopback_mode_none_refused_value :
  (set_loopback_mode example_env "none" 255 false (loopback_mode_example 63 0 0 3 0)).1
  = Ok false /\
  wlog (xcvr_eeprom
          (set_loopback_mode example_env "none" 255 false
             (loopback_mode_example 63 0 0 3 0)).2)
  = [ ("MEDIA_OUTPUT_LOOPBACK", VInt 0); ("MEDIA_INPUT_LOOPBACK", VInt 0) ] /\
  wlog (xcvr_eeprom
          (set_loopback_mode example_env "none" 255 false
             (loopback_mode_example 63 1 0 3 0)).2) = [] /\
  (set_loopback_mode example_env "host" 255 true (loopback_mode_example 127 0 0 0 0)).1
  = Ok false /\
  wlog (xcvr_eeprom
          (set_loopback_mode example_env "host" 255 true
             (loopback_mode_example 127 0 0 0 0)).2) = [].
Proof. by vm_compute. Qed.
(** ** Lane counts looked up in the application advertisement *)

Section Lane_count.

Variable E : Env.

(** X19.  [get_media_lane_count] decides by the size of the advertisement
    whether to look the application up.  An advertised application whose
    code exceeds the number of advertised applications is answered 0, and
    a code that is not advertised but does not exceed that number raises
    [KeyError].  Where the advertised codes run from 1 without a gap, the
    answer is the media lane count of an advertised application and 0
    for one that is not advertised. *)
Theorem get_media_lane_count_by_size (s s' : CmisApi) (D : gmap pykey pyval) (appl : Z) :
  paged s -> 1 <= appl ->
  get_application_advertisement E s = (Ok (VDict D), s') ->
  advertisement_ok D ->
  (is_Some (D !! KInt appl) -> Z.of_nat (size D) < appl ->
   (get_media_lane_count E appl s).1 = Ok (VInt 0)) /\
  (D !! KInt appl = None -> appl <= Z.of_nat (size D) ->
   (get_media_lane_count E appl s).1 = Raise KeyError) /\
  (dense D ->
   match D !! KInt appl with
   | Some a =>
       exists v, getitem a (KStr "media_lane_count") = Ok v /\ v <> VNone /\
                 (get_media_lane_count E appl s).1 = Ok v
   | None => (get_media_lane_count E appl s).1 = Ok (VInt 0)
   end).
Proof.
  intros Hp Happl Hadvt Hok.
  assert (get_media_lane_count E appl s
          = if appl <=? Z.of_nat (size D)
            then (res_bind (getitem (VDict D) (KInt appl))
                    (fun a => getitem a (KStr "media_lane_count")), s')
            else (Ok (VInt 0), s')) as ->.
  { unfold get_media_lane_count. unfold bind at 1. rewrite (flat_cached E s _ Hp).
    cbn [truthy]. cbn match.
    destruct (Z.leb_spec appl 0) as [?|_]; [lia|].
    unfold bind at 1. rewrite Hadvt. unfold bind at 1. cbn [lift len].
    destruct (appl <=? Z.of_nat (size D)); [|reflexivity].
    unfold bind, lift. cbn [getitem].
    by destruct (D !! KInt appl) as [a|]; cbn; [destruct (getitem a _)|]. }
  split; [|split].
  - intros _ Hsize. by destruct (Z.leb_spec appl (Z.of_nat (size D))) as [?|_]; [lia|].
  - intros Hnone Hsize.
    destruct (Z.leb_spec appl (Z.of_nat (size D))) as [_|?]; [|lia].
    cbn [getitem fst]. by rewrite Hnone.
  - intros Hdense. destruct (D !! KInt appl) as [a|] eqn:Ha.
    + assert (appl <= Z.of_nat (size D)) as Hsize
        by (by apply Hdense; rewrite Ha).
      destruct (Z.leb_spec appl (Z.of_nat (size D))) as [_|?]; [|lia].
      destruct (Hok _ _ Ha) as (app & buf & _ & _ & -> & Hbuf).
      unfold complete_entry in Hbuf.
      apply Forall_cons in Hbuf as [_ Hbuf]. apply Forall_cons in Hbuf as [_ Hbuf].
      apply Forall_cons in Hbuf as [(v & Hv & Hnn) _].
      exists v. cbn [getitem fst res_bind]. rewrite Ha. cbn [res_bind getitem].
      by rewrite Hv.
    + assert (~ appl <= Z.of_nat (size D)) as Hsize.
      { intros H. assert (is_Some (D !! KInt appl)) as [? Hs] by (apply Hdense; lia).
        congruence. }
      by destruct (Z.leb_spec appl (Z.of_nat (size D))) as [?|_]; [lia|].
Qed.

End Lane_count.

(** Application 1 is left out of the advertisement, application 2 is in
    it: asking for the media lanes of application 1 raises [KeyError]. *)
Lemma get_media_lane_count_by_size_witness :
  (get_media_lane_count example_env 1 gap_example).1 = Raise KeyError.
Proof.
  set (g := get_application_advertisement example_env gap_example).
  assert (is_dict g.1 = true) as Hd by (vm_compute; reflexivity).
  assert ((match g.1 with Ok (VDict D) => D | _ => ∅ end) !! KInt 1 = None) as Hnone
    by (vm_compute; reflexivity).
  assert (Z.of_nat (size (match g.1 with Ok (VDict D) => D | _ => ∅ end)) = 1) as Hsize
    by (vm_compute; reflexivity).
  assert (get_application_advertisement example_env gap_example = g) as Hg by reflexivity.
  clearbody g. destruct g as [[r|x] s']; [|discriminate Hd].
  destruct r as [| | | | | |D]; try discriminate Hd. cbn [fst] in Hnone, Hsize.
  assert (advertisement_ok D) as Hok.
  { destruct (advertisement_computed example_env gap_example (VDict D) eq_refl
                (f_equal fst Hg)) as (ret_ & Hret & Hok).
    injection Hret as Hret. rewrite Hret. exact Hok. }
  destruct (get_media_lane_count_by_size example_env gap_example s' D 1 eq_refl
              ltac:(lia) Hg Hok) as (_ & Hkey & _).
  apply Hkey; [exact Hnone|]. rewrite Hsize. lia.
Defined.

(** On the same module the advertised application 2 is answered 0 media
    lanes, while its host lane assignment is found. *)
Example get_media_lane_count_gap :
  (get_media_lane_count example_env 2 gap_example).1 = Ok (VInt 0) /\
  (get_host_lane_assignment_option example_env 2 gap_example).1 = Ok (VInt 1) /\
  res_bind (get_application_advertisement example_env gap_example).1 len = Ok 1.
Proof. by vm_compute. Qed.
